(* ===== verification/_CoqProject ===== *)
-Q . S2P
Prelude.v
ArraySort.v
Scorer.v
BulkParser.v
Countdown.v
Submission.v
PracticeSession.v
Results.v
SessionResults.v
Url.v
QuizConfig.v
PracticeView.v
Dashboard.v
Backup.v
Auth.v
Widgets.v
Admin.v
Students.v
ManageStudents.v
Questions.v
Analytics.v
Upload.v
SoundWave.v
