(* ===== verification/Prelude.v ===== *)
(** * A verification library for the MCQ practice client

    The repository is a multiple-choice practice platform.  Its source
    under src/ is the React client (src/client/src, TypeScript): students
    configure and take timed or untimed quizzes and read their results;
    administrators manage questions, topics, students and backups.  The
    REST server and the shared schema are not under src/; where the client
    depends on them they are modelled from the spec and marked so.

    ** How the program is modelled

    Pure code becomes Rocq functions.  A page becomes a record of its
    [useState] variables, one definition per handler or effect, and a step
    function or relation whose events are the controls the JSX renders,
    enabled as the JSX enables them (disabled buttons, rows that exist only
    once data is loaded).  An [async] handler is split at its [await]: the
    first part runs on the event, the continuation (with the values the
    handler's render captured) runs when its response arrives, in any
    order.  What a page displays is a view record computed from its state.
    JavaScript numbers are exact rationals ([Q]) plus the special values
    NaN and Infinity ([JsNum]): rounding of IEEE doubles is not modelled, so
    a theorem about a quotient is about its exact value.  Text is ASCII
    [string].  Maps the code builds as objects are stdpp [gmap]s.

    ** Files, in dependency order

    - [Prelude] (this file): the JavaScript built-ins the code calls
      ([trim], [split], [startsWith], [includes], [parseInt], [toFixed],
      [Math.round], truthiness, [||], division with NaN/Infinity, array
      stores past the end) and their shared lemmas, hint databases [js] and
      [js_rw], tactic [js_bools]; the generic [run_steps] of a partial step
      function over a list of events, with [run_steps_inv] (an invariant
      every step preserves holds after every run), which each page's
      [run] instantiates; [guard_view], which matches a dialog button
      shown while the dialog is open and disabled while its mutation is
      pending against a step guarded by the same two flags.
    - [ArraySort]: [Array.prototype.sort] with a comparator as a stable
      insertion sort [sort_by], the abstract specification [StableSortOf]
      of a stable sort by key, the refinement [sort_desc_refines] and the
      uniqueness [stable_sort_unique] (so the model returns what any
      ES2019 engine returns for a consistent comparator).
    - [Scorer]: the scoring inside the submit mutation of
      pages/student/practice-session.tsx (the [reduce] counting correct
      answers, the score, the per-question rows).
    - [BulkParser]: [parseBulkQuestions], [parseQuestionBlocks] and
      [handleBulkUpload] of pages/admin/upload-questions.tsx.
    - [Countdown]: components/ui/countdown-timer.tsx (state, interval,
      [onTimeUp], rendered view).
    - [Submission]: the two-phase write of the submit mutation, against a
      server store modelled from the spec (section 6).
    - [PracticeSession]: pages/student/practice-session.tsx as a step
      relation [step] with an executable [step_fn], the invariant
      [page_inv] and reachability [reachable].
    - [Results]: pages/results/[id].tsx (queries, animation timer, error
      toasts as [results_step]; [results_view]) and
      pages/student/session-results.tsx; the two GET endpoints over the
      [Submission] store.
    - [SessionResults]: session-results.tsx as a whole (its three
      queries and buttons as a step function, the subtitle, the screens
      of [Results] it composes).  App.tsx has no route for this page; it
      is modelled as written.
    - [Url]: the browser's parse of a path-absolute location (trimming,
      tab and newline removal, fragment, percent-encoding, dot segments),
      [URLSearchParams] parsing and serialising (library behaviour); the
      round trips through it hold for the inputs it keeps unchanged
      ([url_plain] characters, [seg_ok] path segments), which every
      decimal id is.
    - [QuizConfig]: components/student/timed-quiz-config.tsx and
      practice-config.tsx (the dialogs' controls as a step function over
      the offered options, what each dialog shows), and what the practice
      page reads back.
    - [PracticeView]: what pages/student/practice-session.tsx renders
      ([formatTime], the progress bar, the question dots, the counter,
      the question card) and the request URL it builds from the dialog's
      parameters; it reads the [PracticeSession] state.
    - [Dashboard]: pages/student/dashboard.tsx ([StudentDashboard.step],
      statistics, topic cards, recent sessions); the shared [Topic] and
      [User] rows.
    - [Backup]: pages/admin/backup-management.tsx with its continuations.
    - [Auth]: hooks/use-auth.tsx and pages/auth-page.tsx (auth page and
      forms, forgot and reset password).
    - [Widgets]: hooks/use-loading-progress.tsx, components/ui/
      loading-animation.tsx and toggle-active-button.tsx, the student
      header, the admin layout and sidebar, and the route table of App.tsx.
    - [Admin]: pages/admin/user-approvals.tsx, dashboard.tsx and
      manage-topics.tsx (state, handlers, mutation callbacks, views).
    - [Students]: pages/admin/student-details.tsx ([StudentDetails]:
      queries, enhancement, sort, statistics, the four tabs).
    - [ManageStudents]: pages/admin/manage-students.tsx
      ([ManageStudents]: per-dialog state, schemas, search and sort,
      selection, four mutations, [step], the rendered table and its
      Details links into [StudentDetails], the four dialogs).
    - [Questions]: pages/admin/manage-questions.tsx ([ManageQuestions]:
      query keyed by the topic filter, rows, edit dialog, [step], what the
      two dialogs show).
    - [Analytics]: pages/admin/session-details.tsx ([SessionDetails]: the
      query with its parallel fetches, summary, question cards) and
      analytics.tsx ([Analytics]: controls and what every chart shows).
    - [Upload]: the rest of pages/admin/upload-questions.tsx
      ([UploadQuestions]: both tabs, the single-question form and its
      validation, the image upload and the FileReader as continuations,
      the create-topic dialog, the mutation callbacks, [step] composed
      with [BulkParser.handleBulkUpload]; what each tab and the dialog
      show, and the format guide's example text).
    - [SoundWave]: pages/admin/import-sound-wave.tsx ([ImportSoundWave]:
      the import, its continuation with [catch] and [finally], the
      loading-progress hook it drives, the three cards).  App.tsx has no
      route for this page; it is modelled as written.

    ** What the theorems show

    - Scoring: bounds of the score, NaN for an empty quiz, equivalence of
      the [reduce] with a reference count, the TypeError past the end, and
      agreement of the rows with the session record.
    - Bulk parsing: every accepted question is complete, the counts, the
      upload outcomes, and an indented QUESTION: line that loses a
      question.
    - Countdown: fires exactly once after n ticks, bounds of the time left,
      never fires for 0 or NaN seconds.
    - Practice session: every event preserves the invariant, which holds
      in every reachable state together with the consistency of every
      submission in flight, one submission in flight
      when untimed, and a double submission when a timed quiz expires
      during a manual one.
    - Configuration: the dialogs' settings reach the practice page through
      the URL (round trips); every setting the timed dialog can reach is
      within its bounds (5 to 9999 questions, 15 to 180 seconds each); the
      allotted time is rounded up to whole minutes, so the total the dialog
      shows is not the time the countdown gets.
    - Practice view: a timed quiz requests the configured count and topic;
      a loaded quiz shows a card, a counter and one dot per question and a
      progress bar in [0, 100), which never reaches 100; the session clock
      [formatTime] reads back to its seconds.
    - Results: the screens shown in each query state; results only after
      the animation; grade monotone in the score; after the complete write
      of the submission a reachable practice page has in flight, both
      pages agree with the session record, after a partial write they do
      not; on the session
      results page a session without a topic is titled "All Topics" on
      every run, its topic query never answering.
    - Dashboard: a topic's Timed Quiz button carries the topic to the
      posted session; the accuracy is a percentage in [0, 100] or "NaN";
      the attempted and sessions bars stay within their track and are
      full from 100 questions and from 20 sessions.
    - Backup: Create Backup can stay disabled for ever (stale captured
      [loading]); the restore confirmation text confirms a deletion.
    - Auth: the outcome of a registration on every branch; the reset link,
      parsed as the browser parses it, carries a URL-plain token to the
      reset page.
    - Widgets: the progress interval terminates within 2 * (max - start)
      firings and stays within its bounds; sidebar links and dashboard
      links route to the intended pages; the admin header's title names
      the highlighted sidebar link except on three pages, titled "Admin
      Panel".
    - Admin pages: a pending user's card enables Approve and Reject
      exactly when [step] accepts them; editing a topic accepts an empty
      name; approve and reject can both be sent; a 0% average shows
      "N/A"; statistics without topic data make the admin dashboard's
      render throw before its "no data" note.
    - Students: [formatTime] round-trips through [parseInt]; the session
      history refines the abstract stable sort (and is the only array that
      does); the four tabs show their empty cards together, the progress
      summary's first and latest lines describe the oldest and newest
      sessions, and "Last k sessions" counts the points drawn; the row
      checkboxes refine a set of ids, while the header checkbox compares
      counts: whenever a selected student is hidden by the search and the
      counts match, it reads all selected over an unselected row and
      clears the hidden selection; the reset
      dialog's error paths, and a cancelled dialog that resends the
      previous password; a row's Details link routes to the student's
      details page with that student's id; each dialog's button is
      enabled exactly when [step] accepts it, and a successful deletion
      closes an alert reopened on another student and forgets that
      student.
    - Questions: every question the edit dialog sends keeps a correct
      option among A-D (a type invariant over runs); Save and Delete are
      enabled exactly when [step] accepts them; a successful save closes
      the dialog over the unsent edits of a question opened meanwhile.
    - Analytics: a failed student or topic fetch fails the session
      report; the analytics page ignores its two filters and throws on a
      topic without an average.
    - Upload: the form's correct option stays among A-D or empty on every
      run, so a submit either lists the missing fields or posts the form;
      a file read and processed posts what the parser accepts from it;
      the image upload and the file reader race with the buttons (an
      image that lands in the reset form, answers out of order, a file
      processed before it is read); the Process File, Upload Questions and
      Add Question buttons are enabled exactly when [step] accepts their
      events; the format guide's own example uploads one complete
      question.
    - Sound Wave import: at most one import in flight, exactly while the
      loading card shows a progress between 5 and 90; every answer ends
      the loading.

    ** Fuel and bounds

    [z_digits] is given the number of bits of its argument as fuel, which
    [digits_fuel_enough] shows is more than its number of decimal digits.
    [Countdown.run], [LoadingProgress.ticks] and the [run]/[run_events]
    functions of the pages take the number of interval firings or the list
    of events explicitly; the theorems say how many firings suffice.
    Nothing else uses fuel.

    ** Not modelled

    The server, its database and the shared schema (the endpoints the
    client calls are modelled from the spec as a store; the zod schemas of
    the forms are parameters; the store keeps the session record the
    client builds, so a NaN score, which [JSON.stringify] posts as
    [null], is kept as NaN and no theorem reads it back); the client's
    lib/ directory (apiRequest,
    ProtectedRoute, query client), which is not in src/; JSX markup and CSS beyond
    the values and controls a page shows; dates ([toLocaleString], [Intl]);
    IEEE rounding; non-ASCII text beyond its UTF-8 bytes; React's StrictMode double effects and
    react-query caching; the recharts drawings (their data is modelled).
    [localeCompare], [new Date(s).getTime()] and email validation are
    section parameters.  The server-side file upload of
    upload-questions.tsx ([bulkFileUploadMutation]) is never called and is
    not modelled. *)

From Stdlib Require Import Ascii ZArith QArith Qminmax Qround Lia DecimalString.
From stdpp Require Import base list strings.

Declare Scope js_scope.
Delimit Scope js_scope with js.


Create HintDb js.
Create Rewrite HintDb js_rw.

(** ** Strings *)

(** ASCII characters that JavaScript's [trim] and the regular-expression
    class [\s] treat as white space. *)
Definition is_ws (c : ascii) : bool :=
  match nat_of_ascii c with
  | 9 | 10 | 11 | 12 | 13 | 32 => true
  | _ => false
  end.

Definition nl : ascii := "010"%char.

Fixpoint trim_start (s : string) : string :=
  match s with
  | EmptyString => EmptyString
  | String c s' => if is_ws c then trim_start s' else s
  end.

Fixpoint trim_end (s : string) : string :=
  match s with
  | EmptyString => EmptyString
  | String c s' =>
      let r := trim_end s' in
      match r with
      | EmptyString => if is_ws c then EmptyString else String c EmptyString
      | _ => String c r
      end
  end.

(** [s.trim()] *)
Definition trim (s : string) : string := trim_end (trim_start s).

(** [s.startsWith(p)] *)
Definition starts_with (p s : string) : bool := String.prefix p s.

Fixpoint str_drop (n : nat) (s : string) : string :=
  match n, s with
  | O, _ => s
  | S n', String _ s' => str_drop n' s'
  | S _, EmptyString => EmptyString
  end.

(** [s.replace(pat, rep)] with a string pattern: only the first occurrence
    is replaced. *)
Fixpoint replace_first (pat rep s : string) : string :=
  if String.prefix pat s then String.append rep (str_drop (String.length pat) s)
  else match s with
       | EmptyString => EmptyString
       | String c s' => String c (replace_first pat rep s')
       end.

Definition cons_head (c : ascii) (l : list string) : list string :=
  match l with
  | [] => [String c EmptyString]
  | h :: t => String c h :: t
  end.

(** [s.split(c)] with a one-character separator: [n] separators give
    [n + 1] pieces, and [""] gives [[""]]. *)
Fixpoint split_on (sep : ascii) (s : string) : list string :=
  match s with
  | EmptyString => [EmptyString]
  | String c s' =>
      if ascii_dec c sep then EmptyString :: split_on sep s'
      else cons_head c (split_on sep s')
  end.

(** [s.includes(pat)] *)
Fixpoint str_includes (pat s : string) : bool :=
  String.prefix pat s ||
  match s with
  | EmptyString => false
  | String _ s' => str_includes pat s'
  end.

(** [s.toUpperCase()] on ASCII. *)
Definition upper (c : ascii) : ascii :=
  let n := nat_of_ascii c in if (97 <=? n) && (n <=? 122) then ascii_of_nat (n - 32) else c.

Fixpoint to_upper (s : string) : string :=
  match s with EmptyString => EmptyString | String c s' => String (upper c) (to_upper s') end.

(** [s.toLowerCase()] on ASCII. *)
Definition lower (c : ascii) : ascii :=
  let n := nat_of_ascii c in if (65 <=? n) && (n <=? 90) then ascii_of_nat (n + 32) else c.

Fixpoint to_lower (s : string) : string :=
  match s with EmptyString => EmptyString | String c s' => String (lower c) (to_lower s') end.

(** [l.join(sep)] *)
Definition join (sep : string) (l : list string) : string := String.concat sep l.

(** Truthiness of a property that may be absent ([undefined]) or hold a
    string: only a present, non-empty string is truthy. *)
Definition truthy (o : option string) : bool :=
  match o with
  | Some (String _ _) => true
  | _ => false
  end.

(** [x != null] *)
Definition present {A} (o : option A) : bool :=
  match o with Some _ => true | None => false end.

(** [a || b] on strings. *)
Definition or_str (a b : string) : string :=
  match a with EmptyString => b | _ => a end.

(** A nullable string as JSX renders it: [null] renders nothing. *)
Definition render_opt (o : option string) : string :=
  match o with Some s => s | None => "" end.

(** Strict equality [a === b] between a string-or-null and a string. *)
Definition opt_str_eqb (a : option string) (b : string) : bool :=
  match a with
  | Some s => bool_decide (s = b)
  | None => false
  end.

(** ** [parseInt(s, 10)]: leading white space, an optional sign, then the
    longest run of decimal digits; no digit gives [NaN], here [None]. *)

Definition digit_val (c : ascii) : option Z :=
  let n := nat_of_ascii c in
  if (48 <=? n) && (n <=? 57) then Some (Z.of_nat n - 48)%Z else None.

Fixpoint digits_from (s : string) (acc : Z) : Z :=
  match s with
  | String c s' =>
      match digit_val c with
      | Some d => digits_from s' (acc * 10 + d)%Z
      | None => acc
      end
  | EmptyString => acc
  end.

Definition parse_digits (s : string) : option Z :=
  match s with
  | String c s' =>
      match digit_val c with
      | Some d => Some (digits_from s' d)
      | None => None
      end
  | EmptyString => None
  end.

Definition parseInt (s : string) : option Z :=
  match trim_start s with
  | String "-"%char s' => option_map Z.opp (parse_digits s')
  | String "+"%char s' => parse_digits s'
  | s' => parse_digits s'
  end.

(** ** Arrays *)

(** [a[i] = x] on a JavaScript array: inside the array it replaces the
    element, past the end it grows the array, filling the gap with holes
    (read back as [undefined], here the [fill] value). *)
Definition js_store {A} (fill : A) (l : list A) (i : nat) (x : A) : list A :=
  if decide (i < length l) then <[i := x]> l
  else l ++ replicate (i - length l) fill ++ [x].

(** ** Numbers *)

(** A JavaScript number produced by division: a finite value or one of the
    special values.  Finite values are kept exact (see the header of the
    root file on rounding). *)
Inductive JsNum :=
  | JNum (q : Q)
  | JNaN
  | JInf (positive_sign : bool).

Definition js_div (a b : Q) : JsNum :=
  if Qeq_bool b 0 then
    (if Qeq_bool a 0 then JNaN else JInf (Qle_bool 0 a))
  else JNum (a / b).

Definition js_mul (x : JsNum) (k : Q) : JsNum :=
  match x with
  | JNum q => JNum (q * k)
  | JNaN => JNaN
  | JInf s => if Qeq_bool k 0 then JNaN else JInf (if Qle_bool 0 k then s else negb s)
  end.

Definition Q_of_nat (n : nat) : Q := inject_Z (Z.of_nat n).

(** An integer-valued JavaScript number that may be [NaN] ([None]), as
    produced by [parseInt]. *)
Abbreviation JsInt := (option Z).

(** [x <= k]: false when [x] is [NaN]. *)
Definition js_le (x : JsInt) (k : Z) : bool :=
  match x with Some v => (v <=? k)%Z | None => false end.

Definition js_of_int (x : JsInt) : JsNum :=
  match x with Some v => JNum (inject_Z v) | None => JNaN end.

(** [a / b] on two integer-valued numbers. *)
Definition js_div_int (a b : JsInt) : JsNum :=
  match a, b with
  | Some a, Some b => js_div (inject_Z a) (inject_Z b)
  | _, _ => JNaN
  end.

(** [Math.max(0, x)] *)
Definition js_max0 (x : JsNum) : JsNum :=
  match x with
  | JNum q => JNum (Qmax 0 q)
  | JNaN => JNaN
  | JInf true => JInf true
  | JInf false => JNum 0
  end.

(** [x > k] and [x <= k] against a finite constant: false on [NaN]. *)
Definition js_gt (x : JsNum) (k : Q) : bool :=
  match x with JNum q => negb (Qle_bool q k) | JInf s => s | JNaN => false end.

Definition js_leq (x : JsNum) (k : Q) : bool :=
  match x with JNum q => Qle_bool q k | JInf s => negb s | JNaN => false end.

(** [x >= k] against a finite constant: false on [NaN]. *)
Definition js_ge (x : JsNum) (k : Q) : bool :=
  match x with JNum q => Qle_bool k q | JInf s => s | JNaN => false end.

(** [x < k] against a finite constant: false on [NaN]. *)
Definition js_lt (x : JsNum) (k : Q) : bool :=
  match x with JNum q => negb (Qle_bool k q) | JInf s => negb s | JNaN => false end.

(** Truthiness of a number: [0] and [NaN] are falsy. *)
Definition js_truthy (x : JsNum) : bool :=
  match x with JNum q => negb (Qeq_bool q 0) | JNaN => false | JInf _ => true end.

(** [x || 0]: [NaN] and [0] are falsy. *)
Definition js_or0 (x : JsNum) : JsNum :=
  match x with
  | JNum q => if Qeq_bool q 0 then JNum 0 else JNum q
  | JNaN => JNum 0
  | JInf s => JInf s
  end.

(** [Math.round(q)] on a finite number: halves round up. *)
Definition round_Q (q : Q) : Z := Qfloor (q + (1 # 2)).

Definition js_round (x : JsNum) : JsNum :=
  match x with JNum q => JNum (inject_Z (round_Q q)) | _ => x end.

(** [Math.floor] *)
Definition js_floor (x : JsNum) : JsNum :=
  match x with JNum q => JNum (inject_Z (Qfloor q)) | _ => x end.

(** Decimal rendering of an integer, as template literals and
    [toString()] print it.  [fuel] bounds the number of digits; the number
    of bits of [n] is always enough (see [z_digits_enough]). *)
Definition digit_char (d : Z) : ascii := ascii_of_nat (48 + Z.to_nat d).

Fixpoint z_digits (fuel : nat) (n : Z) : string :=
  match fuel with
  | O => EmptyString
  | S f =>
      if (n <? 10)%Z then String (digit_char n) EmptyString
      else String.append (z_digits f (n / 10)) (String (digit_char (n mod 10)) EmptyString)
  end.

Definition digits_fuel (n : Z) : nat := S (Z.to_nat (Z.log2 n)).

Definition string_of_Z (z : Z) : string :=
  if (z <? 0)%Z then String "-"%char (z_digits (digits_fuel (- z)) (- z))
  else z_digits (digits_fuel z) z.

(** String conversion of an integer-valued number ([`${x}`]), as produced
    by [Math.floor] or [Math.round]. *)
Definition show_int (x : JsNum) : string :=
  match x with
  | JNum q => string_of_Z (Qfloor q)
  | JNaN => "NaN"
  | JInf true => "Infinity"
  | JInf false => "-Infinity"
  end.

(** [x.toFixed(0)]: the sign, then the magnitude rounded half up. *)
Definition toFixed0 (x : JsNum) : string :=
  match x with
  | JNum q =>
      if Qle_bool 0 q then string_of_Z (round_Q q)
      else String "-"%char (string_of_Z (round_Q (- q)))
  | _ => show_int x
  end.

(** [x.toFixed(1)]: the sign, then the magnitude in tenths rounded half up. *)
Definition toFixed1 (q : Q) : string :=
  let digits n := string_of_Z (n / 10) +:+ "." +:+ string_of_Z (n mod 10) in
  if Qle_bool 0 q then digits (round_Q (q * 10))
  else String "-"%char (digits (round_Q (- q * 10))).

(** [s.padStart(2, '0')] *)
Definition pad2 (s : string) : string :=
  match s with
  | String _ EmptyString => String "0"%char s
  | EmptyString => "00"
  | _ => s
  end.

(** Every character of [s] satisfies [p]. *)
Fixpoint str_forall (p : ascii -> bool) (s : string) : bool :=
  match s with
  | EmptyString => true
  | String c s' => p c && str_forall p s'
  end.

(** [c] does not occur in [s]. *)
Definition str_lacks (c : ascii) (s : string) : bool :=
  str_forall (λ x, negb (bool_decide (x = c))) s.

(** Every character is a decimal digit. *)
Fixpoint all_digits (s : string) : bool :=
  match s with
  | EmptyString => true
  | String c s' => bool_decide (is_Some (digit_val c)) && all_digits s'
  end.

(** ** Tactics *)

(** ** Runs of a page

    A page is a partial step function on its state, [None] where the
    event's control is not rendered or is disabled.  A run applies events
    in order; an invariant of the step is an invariant of every run. *)
Section Runs.
Context {S E : Type} (step : S -> E -> option S).

Fixpoint run_steps (s : S) (es : list E) : option S :=
  match es with [] => Some s | e :: es' => step s e ≫= λ s', run_steps s' es' end.

Lemma run_steps_app s es1 es2 :
  run_steps s (es1 ++ es2) = run_steps s es1 ≫= λ s', run_steps s' es2.
Proof.
  revert s. induction es1 as [|e es1 IH]; intros s; [done|]. cbn.
  destruct (step s e); [apply IH|done].
Qed.

Lemma run_steps_inv (P : S -> Prop) :
  (∀ s e s', P s -> step s e = Some s' -> P s') ->
  ∀ es s s', P s -> run_steps s es = Some s' -> P s'.
Proof.
  intros Hstep es. induction es as [|e es IH]; intros s s' Hs Hr; cbn in Hr; [by simplify_eq|].
  destruct (step s e) as [s1|] eqn:Hs1; [|discriminate]. eapply IH; [|exact Hr]. by eapply Hstep.
Qed.

End Runs.

(** A button rendered by an open dialog and disabled while its mutation
    is pending, against a step guarded by the same two flags. *)
Lemma guard_view {A V} (open pending : bool) (x : A) (w : V) (disabled : V -> bool) :
  disabled w = pending ->
  is_Some (if open && negb pending then Some x else None) <->
  ∃ v, (if open then Some w else None) = Some v /\ disabled v = false.
Proof.
  intros <-. split.
  - intros [y Hy]. destruct open, (disabled w) eqn:Hd; cbn in *; simplify_eq. eauto.
  - intros (v & Hv & Hv'). destruct open; cbn in *; simplify_eq. rewrite Hv'. by eexists.
Qed.

(** Break boolean guards of the code ([&&], [negb], [bool_decide]) in the
    hypotheses into the propositions they decide. *)
Ltac js_bools :=
  repeat match goal with
  | H : _ && _ = true |- _ => apply andb_true_iff in H as [? ?]
  | H : negb _ = true |- _ => apply negb_true_iff in H
  | H : bool_decide _ = true |- _ => apply bool_decide_eq_true_1 in H
  end.

(** ** Shared lemmas *)

Lemma js_store_lt {A} (fill : A) (l : list A) i x :
  i < length l -> js_store fill l i x = <[i := x]> l.
Proof. intros H. unfold js_store. by rewrite decide_True. Qed.

Lemma length_js_store_lt {A} (fill : A) (l : list A) i x :
  i < length l -> length (js_store fill l i x) = length l.
Proof. intros H. rewrite js_store_lt by done. apply length_insert. Qed.

Lemma prefix_append p s : String.prefix p (String.append p s) = true.
Proof.
  induction p as [|c p IH]; [by destruct s|].
  simpl. destruct (ascii_dec c c); [done|congruence].
Qed.

Lemma starts_with_append p s : starts_with p (String.append p s) = true.
Proof. apply prefix_append. Qed.

Lemma str_drop_append p s : str_drop (String.length p) (String.append p s) = s.
Proof. induction p as [|c p IH]; simpl; [by destruct s|done]. Qed.

Lemma replace_first_eq pat rep s :
  replace_first pat rep s =
  if String.prefix pat s then String.append rep (str_drop (String.length pat) s)
  else match s with
       | EmptyString => EmptyString
       | String c s' => String c (replace_first pat rep s')
       end.
Proof. by destruct s. Qed.

Lemma replace_first_prefix p s :
  replace_first p EmptyString (String.append p s) = s.
Proof. rewrite replace_first_eq, prefix_append. apply str_drop_append. Qed.

Lemma js_div_nonzero a b : ~ (b == 0)%Q -> js_div a b = JNum (a / b).
Proof.
  intros H. unfold js_div. destruct (Qeq_bool b 0) eqn:E; [|done].
  apply Qeq_bool_eq in E. contradiction.
Qed.

(** [c / n * 100] with [c <= n] and [n > 0] is a finite number in [0, 100]. *)
Lemma js_percent_bounds (c n : nat) : (c <= n)%nat -> (0 < n)%nat ->
  exists q, js_mul (js_div (Q_of_nat c) (Q_of_nat n)) 100 = JNum q /\ (0 <= q <= 100)%Q.
Proof.
  intros Hc Hn. rewrite js_div_nonzero.
  2:{ unfold Q_of_nat, Qeq. simpl. lia. }
  eexists; split; [reflexivity|].
  destruct n as [|n']; [lia|].
  unfold Qle, Qdiv, Qmult, Qinv, Q_of_nat. simpl.
  rewrite !Pos.mul_1_r, Pos.mul_1_l, Zpos_P_of_succ_nat. lia.
Qed.

(** Below the count, the percentage is strictly below 100. *)
Lemma js_percent_lt (c n : nat) : (c < n)%nat ->
  exists q, js_mul (js_div (Q_of_nat c) (Q_of_nat n)) 100 = JNum q /\ (0 <= q < 100)%Q.
Proof.
  intros Hc. rewrite js_div_nonzero.
  2:{ unfold Q_of_nat, Qeq. simpl. lia. }
  eexists; split; [reflexivity|].
  destruct n as [|n']; [lia|].
  unfold Qle, Qlt, Qdiv, Qmult, Qinv, Q_of_nat. simpl.
  rewrite !Pos.mul_1_r, Pos.mul_1_l, Zpos_P_of_succ_nat. lia.
Qed.

Lemma length_filter_fmap_bool {A} (f : A -> bool) (l : list A) :
  length (filter (λ x, f x = true) l) = length (filter (λ b : bool, b = true) (f <$> l)).
Proof.
  induction l as [|x l IH]; [done|]. rewrite fmap_cons.
  destruct (f x) eqn:E.
  - rewrite !filter_cons_True by done. simpl. by rewrite IH.
  - rewrite !filter_cons_False by (rewrite ?E; done). done.
Qed.

#[export] Hint Rewrite prefix_append starts_with_append str_drop_append replace_first_prefix : js_rw.
#[export] Hint Resolve js_store_lt length_js_store_lt : js.

Lemma digit_val_digit_char d : (0 <= d < 10)%Z -> digit_val (digit_char d) = Some d.
Proof.
  intros Hd. unfold digit_val, digit_char.
  rewrite nat_ascii_embedding by lia.
  destruct (Nat.leb_spec 48 (48 + Z.to_nat d)); [|lia].
  destruct (Nat.leb_spec (48 + Z.to_nat d) 57); [|lia]. simpl. f_equal. lia.
Qed.

Lemma digits_from_snoc s c d acc :
  all_digits s = true -> digit_val c = Some d ->
  digits_from (String.append s (String c EmptyString)) acc = (digits_from s acc * 10 + d)%Z.
Proof.
  revert acc. induction s as [|c' s IH]; intros acc Hs Hc; simpl in *.
  - by rewrite Hc.
  - apply andb_true_iff in Hs as [H1 H2]. apply bool_decide_eq_true_1 in H1 as [d' Hd'].
    rewrite Hd'. by apply IH.
Qed.

Lemma parse_digits_snoc s c d :
  s <> EmptyString -> all_digits s = true -> digit_val c = Some d ->
  parse_digits (String.append s (String c EmptyString)) = option_map (λ v, v * 10 + d)%Z (parse_digits s).
Proof.
  destruct s as [|c0 s]; [done|]. intros _ Hs Hc. simpl in *.
  apply andb_true_iff in Hs as [H1 H2]. apply bool_decide_eq_true_1 in H1 as [d0 Hd0].
  rewrite Hd0. simpl. f_equal. by apply digits_from_snoc.
Qed.

Lemma all_digits_app s t : all_digits (String.append s t) = all_digits s && all_digits t.
Proof. induction s as [|c s IH]; [done|]. change (String.append (String c s) t) with (String c (String.append s t)). cbn [all_digits]. by rewrite IH, andb_assoc. Qed.

Lemma all_digits_single c d : digit_val c = Some d -> all_digits (String c EmptyString) = true.
Proof. intros H. cbn [all_digits]. rewrite H. reflexivity. Qed.

Lemma z_digits_spec fuel n :
  (0 <= n)%Z -> (n < 2 ^ Z.of_nat fuel)%Z -> 1 <= fuel ->
  z_digits fuel n <> EmptyString /\ all_digits (z_digits fuel n) = true /\
  parse_digits (z_digits fuel n) = Some n.
Proof.
  revert n. induction fuel as [|f IH]; intros n Hn Hlt Hf; [lia|]. cbn [z_digits].
  destruct (Z.ltb_spec n 10).
  - assert (Hd : digit_val (digit_char n) = Some n) by (apply digit_val_digit_char; lia).
    split; [discriminate|]. split; [by eapply all_digits_single|].
    unfold parse_digits. rewrite Hd. reflexivity.
  - rewrite Nat2Z.inj_succ, Z.pow_succ_r in Hlt by lia.
    assert (1 <= f) by (destruct f; [cbn in Hlt; lia|lia]).
    assert (Hq : (n / 10 < 2 ^ Z.of_nat f)%Z) by (apply Z.div_lt_upper_bound; lia).
    destruct (IH (n / 10)%Z) as (Hne & Hall & Hp); [apply Z.div_pos; lia|done|done|].
    assert (Hm : digit_val (digit_char (n mod 10)) = Some (n mod 10)%Z).
    { apply digit_val_digit_char. pose proof (Z.mod_pos_bound n 10). lia. }
    split; [|split].
    + destruct (z_digits f (n / 10)); [done|discriminate].
    + rewrite all_digits_app, Hall. by eapply all_digits_single.
    + rewrite (parse_digits_snoc _ _ (n mod 10)%Z) by done. rewrite Hp. cbn [option_map].
      f_equal. pose proof (Z.div_mod n 10). lia.
Qed.

Lemma digits_fuel_enough n : (0 <= n)%Z -> (n < 2 ^ Z.of_nat (digits_fuel n))%Z.
Proof.
  intros Hn. unfold digits_fuel. rewrite Nat2Z.inj_succ, Z2Nat.id by apply Z.log2_nonneg.
  destruct (Z.eq_dec n 0%Z) as [->|Hne]; [reflexivity|].
  apply Z.log2_spec. lia.
Qed.


Lemma parseInt_first_digit c s d :
  digit_val c = Some d -> parseInt (String c s) = parse_digits (String c s).
Proof.
  intros H. destruct c as [[] [] [] [] [] [] [] []];
    first [vm_compute in H; discriminate | reflexivity].
Qed.

Lemma parseInt_string_of_Z z : parseInt (string_of_Z z) = Some z.
Proof.
  unfold string_of_Z. destruct (Z.ltb_spec z 0).
  - destruct (z_digits_spec (digits_fuel (- z)) (- z)) as (Hne & Hall & Hp);
      [lia|apply digits_fuel_enough; lia|unfold digits_fuel; lia|].
    change (parseInt (String "-"%char (z_digits (digits_fuel (- z)) (- z))))
      with (option_map Z.opp (parse_digits (z_digits (digits_fuel (- z)) (- z)))).
    rewrite Hp. cbn [option_map]. f_equal. lia.
  - destruct (z_digits_spec (digits_fuel z) z) as (Hne & Hall & Hp);
      [lia|apply digits_fuel_enough; lia|unfold digits_fuel; lia|].
    destruct (z_digits (digits_fuel z) z) as [|c s] eqn:E; [done|].
    cbn [all_digits] in Hall. apply andb_true_iff in Hall as [H1 _].
    apply bool_decide_eq_true_1 in H1 as [d Hd].
    rewrite (parseInt_first_digit c s d Hd). done.
Qed.

Lemma split_on_lacks c s : str_lacks c s = true -> split_on c s = [s].
Proof.
  unfold str_lacks. induction s as [|x s IH]; [done|]. cbn [str_forall split_on].
  intros [Hx Hs]%andb_true_iff. rewrite IH by done.
  destruct (ascii_dec x c); [subst; by rewrite bool_decide_eq_true_2 in Hx|done].
Qed.

Lemma split_on_app_sep c s t :
  str_lacks c s = true -> split_on c (String.append s (String c t)) = s :: split_on c t.
Proof.
  unfold str_lacks. induction s as [|x s IH]; intros Hs.
  - simpl. destruct (ascii_dec c c) as [_|]; [reflexivity|congruence].
  - change (String.append (String x s) (String c t)) with (String x (String.append s (String c t))).
    cbn [str_forall split_on] in *. apply andb_true_iff in Hs as [Hx Hs].
    rewrite IH by done. destruct (ascii_dec x c); [subst; by rewrite bool_decide_eq_true_2 in Hx|done].
Qed.

Lemma str_forall_impl (p q : ascii -> bool) s :
  (∀ c, p c = true -> q c = true) -> str_forall p s = true -> str_forall q s = true.
Proof.
  intros Hpq. induction s as [|c s IH]; [done|]. cbn [str_forall].
  intros [Hc Hs]%andb_true_iff. by rewrite (Hpq c Hc), IH.
Qed.

Lemma str_forall_app p s t : str_forall p (String.append s t) = str_forall p s && str_forall p t.
Proof.
  induction s as [|c s IH]; [done|].
  change (String.append (String c s) t) with (String c (String.append s t)).
  cbn [str_forall]. by rewrite IH, andb_assoc.
Qed.

Lemma digits_lack c s : digit_val c = None -> all_digits s = true -> str_lacks c s = true.
Proof.
  intros Hc. unfold str_lacks. induction s as [|x s IH]; [done|]. cbn [all_digits str_forall].
  intros [Hx Hs]%andb_true_iff. rewrite IH by done. rewrite andb_true_r.
  apply negb_true_iff, bool_decide_eq_false_2. intros ->.
  apply bool_decide_eq_true_1 in Hx. rewrite Hc in Hx. by destruct Hx.
Qed.

Lemma all_digits_string_of_nonneg z :
  (0 <= z)%Z -> all_digits (string_of_Z z) = true /\ string_of_Z z <> EmptyString.
Proof.
  intros Hz. unfold string_of_Z. destruct (Z.ltb_spec z 0); [lia|].
  destruct (z_digits_spec (digits_fuel z) z) as (Hne & Hall & _);
    [lia|apply digits_fuel_enough; lia|unfold digits_fuel; lia|]. done.
Qed.

Lemma str_app_cons x (a b : string) :
  String.append (String x a) b = String x (String.append a b).
Proof. reflexivity. Qed.

Lemma str_app_nil_r (s : string) : String.append s EmptyString = s.
Proof. induction s as [|c s IH]; [done|]. by rewrite str_app_cons, IH. Qed.

Lemma str_app_assoc (a b c : string) :
  String.append (String.append a b) c = String.append a (String.append b c).
Proof. induction a as [|x a IH]; [done|]. by rewrite !str_app_cons, IH. Qed.

Lemma str_app_nonempty (a b : string) : a <> EmptyString -> String.append a b <> EmptyString.
Proof. destruct a; [done|]. discriminate. Qed.

Lemma string_of_Z_shape z :
  string_of_Z z <> EmptyString /\
  forall c, digit_val c = None -> c <> "-"%char -> str_lacks c (string_of_Z z) = true.
Proof.
  unfold string_of_Z. destruct (Z.ltb_spec z 0).
  - destruct (z_digits_spec (digits_fuel (- z)) (- z)) as (_ & Hall & _);
      [lia|apply digits_fuel_enough; lia|unfold digits_fuel; lia|].
    split; [discriminate|]. intros c Hc Hm. unfold str_lacks. cbn [str_forall].
    apply andb_true_iff. split; [|by apply digits_lack].
    apply negb_true_iff, bool_decide_eq_false_2. congruence.
  - destruct (z_digits_spec (digits_fuel z) z) as (Hne & Hall & _);
      [lia|apply digits_fuel_enough; lia|unfold digits_fuel; lia|].
    split; [done|]. intros c Hc _. by apply digits_lack.
Qed.

Lemma digits_from_app s t acc :
  all_digits s = true -> digits_from (String.append s t) acc = digits_from t (digits_from s acc).
Proof.
  revert acc. induction s as [|c s IH]; intros acc Hs; [done|]. cbn [all_digits] in Hs.
  apply andb_true_iff in Hs as [H1 H2]. apply bool_decide_eq_true_1 in H1 as [d Hd].
  rewrite str_app_cons. cbn [digits_from]. rewrite Hd. by apply IH.
Qed.

(** A leading zero does not change what [parseInt] reads. *)
Lemma parseInt_zero_pad z : (0 <= z < 10)%Z -> parseInt (String "0"%char (string_of_Z z)) = Some z.
Proof.
  intros Hz. assert (z = 0 \/ z = 1 \/ z = 2 \/ z = 3 \/ z = 4 \/ z = 5 \/ z = 6 \/ z = 7 \/ z = 8 \/ z = 9)%Z
    as Hc by lia.
  repeat destruct Hc as [->|Hc]; try reflexivity. subst. reflexivity.
Qed.

(** [parseInt] stops at the first character that is not a digit: a
    non-negative integer followed by a unit reads back as that integer. *)
Lemma parseInt_string_of_Z_stop z c t :
  (0 <= z)%Z -> digit_val c = None -> parseInt (String.append (string_of_Z z) (String c t)) = Some z.
Proof.
  intros Hz Hc. unfold string_of_Z. destruct (Z.ltb_spec z 0); [lia|].
  destruct (z_digits_spec (digits_fuel z) z) as (Hne & Hall & Hp);
    [lia|apply digits_fuel_enough; lia|unfold digits_fuel; lia|].
  destruct (z_digits (digits_fuel z) z) as [|c0 s] eqn:E; [done|].
  cbn [all_digits] in Hall. apply andb_true_iff in Hall as [H1 H2].
  apply bool_decide_eq_true_1 in H1 as [d Hd].
  rewrite str_app_cons, (parseInt_first_digit c0 _ d Hd). cbn [parse_digits] in *. rewrite Hd in *.
  injection Hp as Hp. rewrite digits_from_app by done. cbn [digits_from]. by rewrite Hc, Hp.
Qed.
