(* ===== verification/ArraySort.v ===== *)
(** * ArraySort: [Array.prototype.sort] with a comparator

    The pages sort arrays with [arr.sort((a, b) => ...)] (student-details.tsx
    lines 166-168 and 192, manage-students.tsx lines 290-300).  Since
    ES2019 the sort is stable: for a comparator that is consistent, the
    result is the one permutation of the input that is ordered by the
    comparator and keeps elements that compare equal in their input order.
    [sort_by] is a stable insertion sort with the comparator's sign
    convention ([compareFn(a, b) > 0] puts [b] first); [StableSortOf] is
    the abstract specification, for comparators of the form
    [key(b) - key(a)]; [sort_desc_refines] shows that [sort_by] meets it
    and [stable_sort_unique] that any sort meeting it, the engine's
    included, returns the same array. *)

From Stdlib Require Import QArith Lqa Sorting.Sorted.
From stdpp Require Import base list.
From S2P Require Import Prelude.

Module ArraySort.
Local Open Scope Q_scope.

Section Sort.
Context {A : Type} (compareFn : A -> A -> Q).

(** Insert [x], which precedes every element of [l] in the input, in
    front of the first element it does not compare greater than. *)
Fixpoint insert_by (x : A) (l : list A) : list A :=
  match l with
  | [] => [x]
  | y :: l' => if Qle_bool (compareFn x y) 0 then x :: l else y :: insert_by x l'
  end.

(** [arr.sort(compareFn)] on a copy of [arr]. *)
Fixpoint sort_by (l : list A) : list A :=
  match l with [] => [] | x :: l' => insert_by x (sort_by l') end.

Lemma insert_by_perm x l : insert_by x l ≡ₚ x :: l.
Proof.
  induction l as [|y l IH]; simpl; [done|].
  destruct (Qle_bool _ _); [done|]. rewrite IH. apply perm_swap.
Qed.

Lemma sort_by_perm l : sort_by l ≡ₚ l.
Proof. induction l as [|x l IH]; simpl; [done|]. by rewrite insert_by_perm, IH. Qed.

Lemma sort_by_length l : length (sort_by l) = length l.
Proof. apply Permutation_length, sort_by_perm. Qed.

End Sort.

(** A comparator that always answers [0] leaves the array as it is. *)
Lemma sort_by_const0 {A} (l : list A) : sort_by (λ _ _, 0%Q) l = l.
Proof. induction l as [|x l IH]; simpl; [done|]. rewrite IH. by destruct l. Qed.

Section ByKey.
Context {A : Type} (key : A -> Q).

(** [(a, b) => key(b) - key(a)]: highest key first. *)
Definition desc (a b : A) : Q := key b - key a.

(** ** The abstract specification *)

Definition ordered (l : list A) : Prop := Sorted (λ a b, key b <= key a) l.

Definition same_key (k : Q) (x : A) : Prop := Qeq_bool (key x) k = true.

#[export] Instance same_key_dec k x : Decision (same_key k x).
Proof. unfold same_key. apply _. Defined.

Definition stable_on (l l' : list A) : Prop :=
  ∀ k, filter (same_key k) l' = filter (same_key k) l.

Record StableSortOf (l l' : list A) : Prop := {
  sso_perm : l' ≡ₚ l;
  sso_ordered : ordered l';
  sso_stable : stable_on l l'
}.

(** ** The model meets it *)

Lemma HdRel_insert y x l :
  key x <= key y -> HdRel (λ a b, key b <= key a) y l ->
  HdRel (λ a b, key b <= key a) y (insert_by desc x l).
Proof.
  destruct l as [|z l]; simpl; intros Hx Hh; [by constructor|].
  destruct (Qle_bool _ _); constructor; [done|]. by inversion Hh.
Qed.

Lemma insert_desc_ordered x l : ordered l -> ordered (insert_by desc x l).
Proof.
  unfold ordered. induction l as [|y l IH]; intros Hs; simpl; [by repeat constructor|].
  unfold desc at 1. destruct (Qle_bool (key y - key x) 0) eqn:E.
  - apply Qle_bool_iff in E. constructor; [done|]. constructor. lra.
  - assert (Hxy : ~ (key y - key x <= 0)) by (rewrite <- Qle_bool_iff; congruence).
    apply Sorted_inv in Hs as [Hs Hh]. constructor; [by apply IH|].
    apply HdRel_insert; [lra|done].
Qed.

Lemma filter_insert_desc k x l :
  filter (same_key k) (insert_by desc x l) = filter (same_key k) (x :: l).
Proof.
  induction l as [|y l IH]; simpl; [done|].
  unfold desc at 1. destruct (Qle_bool (key y - key x) 0) eqn:E; [done|].
  assert (Hxy : ~ (key y - key x <= 0)) by (rewrite <- Qle_bool_iff; congruence).
  rewrite filter_cons, IH, !filter_cons. unfold same_key.
  destruct (decide (Qeq_bool (key y) k = true)) as [Hy|Hy],
           (decide (Qeq_bool (key x) k = true)) as [Hx|Hx]; try done.
  apply Qeq_bool_iff in Hx, Hy. lra.
Qed.

Theorem sort_desc_refines l : StableSortOf l (sort_by desc l).
Proof.
  split; [apply sort_by_perm| |].
  - induction l as [|x l IH]; simpl; [constructor|]. by apply insert_desc_ordered.
  - intros k. induction l as [|x l IH]; simpl; [done|].
    rewrite filter_insert_desc, !filter_cons, IH. done.
Qed.

(** ** Any two stable sorts agree *)

Lemma ordered_head_max x l z : ordered (x :: l) -> z ∈ x :: l -> key z <= key x.
Proof.
  intros Hs Hz. unfold ordered in Hs. apply Sorted_StronglySorted in Hs; [|intros a b c ??; simpl in *; lra].
  apply StronglySorted_inv in Hs as [_ Hall].
  apply elem_of_cons in Hz as [->|Hz]; [lra|].
  rewrite Forall_forall in Hall. by apply Hall.
Qed.

Lemma ordered_tail x l : ordered (x :: l) -> ordered l.
Proof. by intros []%Sorted_inv. Qed.

Lemma stable_eq_unique l1 l2 :
  l1 ≡ₚ l2 -> ordered l1 -> ordered l2 ->
  (∀ k, filter (same_key k) l1 = filter (same_key k) l2) -> l1 = l2.
Proof.
  revert l2. induction l1 as [|x r1 IH]; intros l2 Hp H1 H2 Hf.
  { by apply Permutation_nil_l in Hp. }
  destruct l2 as [|y r2]; [by apply Permutation_nil_r in Hp|].
  assert (Hxy : key x == key y).
  { pose proof (ordered_head_max _ _ x H2) as Ha. pose proof (ordered_head_max _ _ y H1) as Hb.
    rewrite <- Hp in Ha. rewrite Hp in Hb. specialize (Ha ltac:(left)). specialize (Hb ltac:(left)). lra. }
  assert (Hx : same_key (key x) x) by (apply Qeq_bool_iff; lra).
  assert (Hy : same_key (key x) y) by (apply Qeq_bool_iff; lra).
  pose proof (Hf (key x)) as Hk. rewrite !filter_cons_True in Hk by done.
  injection Hk as <- _.
  f_equal. apply IH; [by apply Permutation_cons_inv in Hp|eapply ordered_tail; eauto|eapply ordered_tail; eauto|].
  intros k. specialize (Hf k). rewrite !filter_cons in Hf.
  destruct (decide (same_key k x)); [by injection Hf|done].
Qed.

Theorem stable_sort_unique l l1 l2 : StableSortOf l l1 -> StableSortOf l l2 -> l1 = l2.
Proof.
  intros [P1 O1 S1] [P2 O2 S2]. apply stable_eq_unique; [by rewrite P1, P2|done|done|].
  intros k. by rewrite S1, S2.
Qed.

(** The engine's stable sort and the model return the same array. *)
Corollary sort_desc_unique l l' : StableSortOf l l' -> l' = sort_by desc l.
Proof. intros H. exact (stable_sort_unique l _ _ H (sort_desc_refines l)). Qed.

(** The first element of a sorted array has the highest key. *)
Lemma sort_desc_head_max l x r z :
  sort_by desc l = x :: r -> z ∈ l -> key z <= key x.
Proof.
  intros Hs Hz. pose proof (sort_desc_refines l) as [Hp Ho _]. rewrite Hs in Hp, Ho.
  apply (ordered_head_max x r z Ho). by rewrite Hp.
Qed.

End ByKey.

End ArraySort.
