(* ===== verification/Scorer.v ===== *)
(** * Scorer: how a finished practice session is scored

    Models the scoring part of the submit mutation of
    src/client/src/pages/student/practice-session.tsx (lines 133-139 and
    155-166): the count of correct answers computed by [answers.reduce],
    the percentage [score], and the per-question rows sent after the
    session record.  The question record mirrors the [Question] type of
    the shared schema, which is not part of src/. *)

From Stdlib Require Import ZArith QArith Lia.
From stdpp Require Import base list strings.
From S2P Require Import Prelude.

Module Scorer.

(** The [Question] row of the shared schema (spec, section 3). *)
Record Question := mkQuestion {
  q_id : Z;
  q_text : string;
  q_topicId : option Z;
  q_subtopic : option string;
  q_difficulty : string;
  q_imagePath : option string;
  q_optionA : string;
  q_optionB : string;
  q_optionC : string;
  q_optionD : string;
  q_correctOption : string;
  q_explanation : option string
}.

(** [InsertSessionQuestion]: one row per presented question. *)
Record InsertSessionQuestion := mkInsertSessionQuestion {
  sq_sessionId : Z;
  sq_questionId : Z;
  sq_selectedOption : option string;
  sq_isCorrect : bool;
  sq_timeSpent : option nat
}.

Section Scoring.
Context (questions : list Question).

(** [answers.reduce((count, answer, index) =>
       answer === questions[index].correctOption ? count + 1 : count, 0)]:
    reading [questions[index]] past the end of [questions] throws a
    [TypeError], here [None]. *)
Fixpoint reduce_correct (answers : list (option string)) (index count : nat) : option nat :=
  match answers with
  | [] => Some count
  | answer :: rest =>
      match questions !! index with
      | None => None
      | Some q =>
          reduce_correct rest (S index)
            (if opt_str_eqb answer (q_correctOption q) then S count else count)
      end
  end.

Definition correctAnswers (answers : list (option string)) : option nat :=
  reduce_correct answers 0 0.

Definition totalQuestions : nat := length questions.

(** [(correctAnswers / totalQuestions) * 100] *)
Definition score (correct : nat) : JsNum :=
  js_mul (js_div (Q_of_nat correct) (Q_of_nat totalQuestions)) 100.

(** The body of the loop that posts one row per question. *)
Definition session_question (answers : list (option string))
    (questionTimers : list nat) (sessionId : Z) (i : nat) (question : Question)
    : InsertSessionQuestion :=
  let answer := mjoin (answers !! i) in
  {| sq_sessionId := sessionId;
     sq_questionId := q_id question;
     sq_selectedOption := answer;
     sq_isCorrect := opt_str_eqb answer (q_correctOption question);
     sq_timeSpent := questionTimers !! i |}.

Definition session_questions answers questionTimers sessionId : list InsertSessionQuestion :=
  imap (session_question answers questionTimers sessionId) questions.

End Scoring.

(** Reference definition of the number of correct answers: pair each answer
    with its question and count the matches. *)
Definition correct_ref (answers : list (option string)) (questions : list Question) : nat :=
  length (filter (λ b : bool, b = true) (zip_with (fun a q => opt_str_eqb a (q_correctOption q)) answers questions)).

(** ** Lemmas *)

Lemma reduce_correct_spec questions answers idx count :
  length answers + idx <= length questions ->
  reduce_correct questions answers idx count =
  Some (count + correct_ref answers (drop idx questions)).
Proof.
  revert idx count. induction answers as [|a answers IH]; intros idx count Hlen; simpl in *.
  - unfold correct_ref. simpl. f_equal. lia.
  - destruct (questions !! idx) as [q|] eqn:Hq.
    2:{ apply lookup_ge_None in Hq. lia. }
    rewrite (drop_S _ _ _ Hq), IH by lia. unfold correct_ref. simpl.
    destruct (opt_str_eqb a (q_correctOption q)); simpl; f_equal; lia.
Qed.

Lemma correct_ref_le answers questions :
  correct_ref answers questions <= length questions.
Proof.
  unfold correct_ref. etransitivity; [apply length_filter|].
  rewrite length_zip_with. lia.
Qed.

Lemma reduce_correct_past_end questions answers idx count :
  idx <= length questions ->
  length questions < length answers + idx ->
  reduce_correct questions answers idx count = None.
Proof.
  revert idx count. induction answers as [|a answers IH]; intros idx count Hidx Hlen; simpl in *.
  - lia.
  - destruct (questions !! idx) eqn:Hq; [|done].
    apply IH; [apply lookup_lt_Some in Hq|]; lia.
Qed.

Lemma Q_of_nat_le a b : (a <= b)%nat -> (Q_of_nat a <= Q_of_nat b)%Q.
Proof. intros H. unfold Q_of_nat, Qle. simpl. lia. Qed.

Lemma Q_of_nat_nonneg a : (0 <= Q_of_nat a)%Q.
Proof. unfold Q_of_nat, Qle. simpl. lia. Qed.

Lemma session_questions_isCorrect questions answers timers sid :
  length answers = length questions ->
  sq_isCorrect <$> session_questions questions answers timers sid =
  zip_with (fun a q => opt_str_eqb a (q_correctOption q)) answers questions.
Proof.
  intros Hlen. unfold session_questions. apply list_eq. intros i.
  rewrite list_lookup_fmap, list_lookup_imap, lookup_zip_with.
  destruct (questions !! i) as [q|] eqn:Hq; destruct (answers !! i) as [a|] eqn:Ha;
    simpl; rewrite ?Ha; try done.
  all: first [ apply lookup_lt_Some in Hq; apply lookup_ge_None in Ha; lia
             | apply lookup_lt_Some in Ha; apply lookup_ge_None in Hq; lia ].
Qed.

Lemma session_questions_timeSpent questions answers timers sid :
  length timers = length questions ->
  (λ r, default 0 (sq_timeSpent r)) <$> session_questions questions answers timers sid = timers.
Proof.
  intros Hlen. unfold session_questions. apply list_eq. intros i.
  rewrite list_lookup_fmap, list_lookup_imap.
  destruct (questions !! i) as [q|] eqn:Hq; destruct (timers !! i) as [t|] eqn:Ht;
    simpl; rewrite ?Ht; try done.
  all: first [ apply lookup_lt_Some in Hq; apply lookup_ge_None in Ht; lia
             | apply lookup_lt_Some in Ht; apply lookup_ge_None in Hq; lia ].
Qed.

Lemma session_questions_sessionId questions answers timers sid :
  Forall (λ r, sq_sessionId r = sid) (session_questions questions answers timers sid).
Proof.
  apply Forall_lookup_2. intros i r Hr. unfold session_questions in Hr.
  rewrite list_lookup_imap in Hr. destruct (questions !! i); simplify_eq/=. done.
Qed.

Lemma length_session_questions questions answers timers sid :
  length (session_questions questions answers timers sid) = length questions.
Proof. apply length_imap. Qed.

#[export] Hint Resolve correct_ref_le Q_of_nat_le Q_of_nat_nonneg : js.

(** ** Properties *)

(** C3: the count of correct answers computed by [answers.reduce] equals the
    reference count (answers paired with their questions, matches counted)
    whenever there are no more answers than questions. *)
Theorem correctAnswers_ref questions answers :
  length answers <= length questions ->
  correctAnswers questions answers = Some (correct_ref answers questions).
Proof. intros H. unfold correctAnswers. rewrite reduce_correct_spec by lia. done. Qed.

(** C4: with more answers than questions the reduce reads past the end of
    [questions] and throws: the mutation fails with a [TypeError]. *)
Theorem correctAnswers_type_error questions answers :
  length questions < length answers -> correctAnswers questions answers = None.
Proof. intros H. apply reduce_correct_past_end; lia. Qed.

(** C1: the score of a session with at least one question is a finite
    number between 0 and 100, and the correct count never exceeds the
    number of questions. *)
Theorem score_bounds questions answers c :
  correctAnswers questions answers = Some c -> questions <> [] ->
  (c <= totalQuestions questions)%nat /\
  exists q, score questions c = JNum q /\ (0 <= q <= 100)%Q.
Proof.
  intros Hc Hne.
  destruct (decide (length answers <= length questions)) as [Hle|Hgt].
  - rewrite correctAnswers_ref in Hc by done. injection Hc as <-.
    assert (Hle' : (correct_ref answers questions <= totalQuestions questions)%nat) by
      apply correct_ref_le.
    split; [done|]. apply js_percent_bounds; [done|].
    destruct questions; [done|]. unfold totalQuestions. simpl. lia.
  - rewrite correctAnswers_type_error in Hc by lia. discriminate.
Qed.

(** A session with no questions is scored [0 / 0 * 100], which is
    [NaN]: the code has no guard against an empty question list. *)
Theorem score_no_questions : score [] 0 = JNaN.
Proof. reflexivity. Qed.

(** C5: the rows posted after the session agree with it: the number of rows
    flagged [isCorrect] is the [correctAnswers] of the session record. *)
Theorem session_rows_agree questions answers timers sid :
  length answers = length questions ->
  correctAnswers questions answers =
  Some (length (filter (λ r, sq_isCorrect r = true)
                  (session_questions questions answers timers sid))).
Proof.
  intros Hlen. rewrite correctAnswers_ref by lia. f_equal.
  rewrite length_filter_fmap_bool, session_questions_isCorrect by done. done.
Qed.

(** ** Concrete sessions *)

Definition sample_question (id : Z) (correct : string) : Question :=
  mkQuestion id "Q" None None "medium" None "a" "b" "c" "d" correct None.

(** Ten questions, all with answer "B". *)
Definition ten_questions : list Question :=
  map (fun i => sample_question (Z.of_nat i) "B") (seq 1 10).

(** Seven right answers and three left unanswered (spec, section 8). *)
Definition seven_of_ten : list (option string) :=
  replicate 7 (Some "B") ++ replicate 3 None.

(** The spec's scenario: ten questions, seven answered correctly and
    three unanswered, give seven correct answers and a score of 70. *)
Example scenario_seven_of_ten :
  correctAnswers ten_questions seven_of_ten = Some 7 /\
  exists q, score ten_questions 7 = JNum q /\ (q == 70)%Q.
Proof. split; [reflexivity|]. eexists; split; [reflexivity|]. reflexivity. Qed.

Lemma correctAnswers_ref_witness :
  (length seven_of_ten <= length ten_questions)%nat /\
  correctAnswers ten_questions seven_of_ten = Some (correct_ref seven_of_ten ten_questions).
Proof. split; [simpl; lia|]. apply correctAnswers_ref. simpl. lia. Defined.

Lemma correctAnswers_type_error_witness :
  (length ten_questions < length (None :: seven_of_ten))%nat /\
  correctAnswers ten_questions (None :: seven_of_ten) = None.
Proof. split; [simpl; lia|]. apply correctAnswers_type_error. simpl. lia. Defined.

Lemma score_bounds_witness :
  correctAnswers ten_questions seven_of_ten = Some 7 /\ ten_questions <> [] /\
  (7 <= totalQuestions ten_questions)%nat /\
  exists q, score ten_questions 7 = JNum q /\ (0 <= q <= 100)%Q.
Proof.
  assert (H1 : correctAnswers ten_questions seven_of_ten = Some 7) by reflexivity.
  assert (H2 : ten_questions <> []) by discriminate.
  split; [exact H1|]. split; [exact H2|].
  exact (score_bounds ten_questions seven_of_ten 7 H1 H2).
Defined.

Lemma session_rows_agree_witness :
  length seven_of_ten = length ten_questions /\
  correctAnswers ten_questions seven_of_ten =
  Some (length (filter (λ r, sq_isCorrect r = true)
                  (session_questions ten_questions seven_of_ten (replicate 10 3%nat) 1%Z))).
Proof. split; [reflexivity|]. apply session_rows_agree. reflexivity. Defined.

End Scorer.
