(* ===== verification/BulkParser.v ===== *)
(** * BulkParser: the bulk question upload of the admin pages

    Models [parseBulkQuestions], [parseQuestionBlocks] and [handleBulkUpload]
    of src/client/src/pages/admin/upload-questions.tsx (lines 258-404), and
    the validation of the single-question form [handleSubmitQuestion]
    (lines 207-255).  The JavaScript object [question: any = {}] that a block
    is parsed into is a finite map from property names to strings
    ([gmap string string]): a property the block never sets is absent. *)

From Stdlib Require Import Ascii ZArith Lia.
From stdpp Require Import base list strings gmap.
From S2P Require Import Prelude.

Module BulkParser.

Abbreviation JsObject := (gmap string string).

Definition newline : string := String nl EmptyString.

(** ** Splitting the text into blocks *)

(** Index (in [s]) of the last line feed in the run of white space that
    starts [s]: the greedy [\s*] of the regular expression backtracks to it. *)
Fixpoint ws_last_nl (s : string) (i : nat) (acc : option nat) : option nat :=
  match s with
  | String c s' =>
      if is_ws c then ws_last_nl s' (S i) (if ascii_dec c nl then Some i else acc)
      else acc
  | EmptyString => acc
  end.

(** Length of the match of [/\n\s*\n/] at the start of [s], if any. *)
Definition blank_match_len (s : string) : option nat :=
  match s with
  | String c s' =>
      if ascii_dec c nl then option_map (λ i, i + 2) (ws_last_nl s' 0 None) else None
  | EmptyString => None
  end.

(** [text.split(/\n\s*\n/)]: scan left to right, cut at each match and
    resume after it ([skip] counts the characters of the match still to
    drop). *)
Fixpoint split_blank_go (s : string) (skip : nat) : list string :=
  match s with
  | EmptyString => [EmptyString]
  | String c s' =>
      match skip with
      | S k => split_blank_go s' k
      | O =>
          match blank_match_len s with
          | Some n => EmptyString :: split_blank_go s' (n - 1)
          | None => cons_head c (split_blank_go s' 0)
          end
      end
  end.

Definition split_blank_lines (text : string) : list string := split_blank_go text 0.

(** Line 262: [text.split(/\n\s*\n/).filter(block => block.trim())] *)
Definition questionBlocksByEmptyLine (text : string) : list string :=
  filter (λ block, trim block ≠ EmptyString) (split_blank_lines text).

(** Lines 275-289: a new block starts at each line whose trimmed text
    starts with [QUESTION:], once the current block is not empty. *)
Fixpoint marker_blocks (lines : list string) (currentBlock : list string) : list string :=
  match lines with
  | [] =>
      match currentBlock with
      | [] => []
      | _ => [join newline currentBlock]
      end
  | line :: rest =>
      if starts_with "QUESTION:" (trim line) && bool_decide (currentBlock ≠ []) then
        join newline currentBlock :: marker_blocks rest [line]
      else marker_blocks rest (currentBlock ++ [line])
  end.

(** ** Parsing one block *)

Definition field_value (prefix line : string) : string :=
  trim (replace_first prefix EmptyString line).

(** The [if ... else if] chain of lines 307-327, on the untrimmed line. *)
Definition parse_line (question : JsObject) (line : string) : JsObject :=
  if starts_with "QUESTION:" line then <["text" := field_value "QUESTION:" line]> question
  else if starts_with "TOPIC:" line then <["topic" := field_value "TOPIC:" line]> question
  else if starts_with "SUBTOPIC:" line then <["subtopic" := field_value "SUBTOPIC:" line]> question
  else if starts_with "DIFFICULTY:" line then <["difficulty" := field_value "DIFFICULTY:" line]> question
  else if starts_with "OPTION A:" line then <["optionA" := field_value "OPTION A:" line]> question
  else if starts_with "OPTION B:" line then <["optionB" := field_value "OPTION B:" line]> question
  else if starts_with "OPTION C:" line then <["optionC" := field_value "OPTION C:" line]> question
  else if starts_with "OPTION D:" line then <["optionD" := field_value "OPTION D:" line]> question
  else if starts_with "CORRECT:" line then <["correctOption" := field_value "CORRECT:" line]> question
  else if starts_with "EXPLANATION:" line then <["explanation" := field_value "EXPLANATION:" line]> question
  else question.

(** Lines 303-333: non-blank lines folded into the object, then the
    default difficulty. *)
Definition parse_block (block : string) : JsObject :=
  let lines := filter (λ line, trim line ≠ EmptyString) (split_on nl block) in
  let question := foldl parse_line ∅ lines in
  if truthy (question !! "difficulty") then question
  else <["difficulty" := "medium"]> question.

(** Lines 336-339: the required properties. *)
Definition required_fields : list string :=
  ["text"; "topic"; "optionA"; "optionB"; "optionC"; "optionD"; "correctOption"].

Definition is_complete (question : JsObject) : bool :=
  forallb (λ k, truthy (question !! k)) required_fields.

(** Lines 298-350 *)
Fixpoint parseQuestionBlocks (blocks : list string) : list JsObject :=
  match blocks with
  | [] => []
  | block :: rest =>
      let question := parse_block block in
      if is_complete question then question :: parseQuestionBlocks rest
      else parseQuestionBlocks rest
  end.

(** Lines 258-295 *)
Definition parseBulkQuestions (text : string) : list JsObject :=
  let byEmptyLine := questionBlocksByEmptyLine text in
  if decide (1 < length byEmptyLine) then parseQuestionBlocks byEmptyLine
  else parseQuestionBlocks (marker_blocks (split_on nl text) []).

(** ** The upload handler *)

Inductive BulkOutcome :=
  | NoContent
  | NoValidQuestions
  | ValidationErrors (count : nat)
  | Upload (questions : list JsObject).

(** [["A", "B", "C", "D"].includes(q.correctOption)] *)
Definition correct_letter_ok (question : JsObject) : bool :=
  bool_decide (question !! "correctOption" ∈ [Some "A"; Some "B"; Some "C"; Some "D"]).

(** Lines 353-404: the toasts become the outcomes; [Upload] carries the
    payload given to [bulkUploadMutation.mutate]. *)
Definition handleBulkUpload (bulkText : string) : BulkOutcome :=
  if decide (trim bulkText = EmptyString) then NoContent
  else
    let parsedQuestions := parseBulkQuestions bulkText in
    if decide (length parsedQuestions = 0) then NoValidQuestions
    else
      let invalidQuestions := filter (λ q, correct_letter_ok q = false) parsedQuestions in
      let hasValidationErrors := existsb (λ q, negb (correct_letter_ok q)) parsedQuestions in
      if hasValidationErrors then ValidationErrors (length invalidQuestions)
      else Upload parsedQuestions.

(** ** Lemmas *)

Lemma parse_block_difficulty block : truthy (parse_block block !! "difficulty") = true.
Proof.
  unfold parse_block. cbv zeta. set (question := foldl _ _ _).
  destruct (truthy (question !! "difficulty")) eqn:E; [done|].
  by rewrite lookup_insert_eq.
Qed.

Lemma parseQuestionBlocks_filter blocks :
  parseQuestionBlocks blocks = filter (λ q, is_complete q = true) (parse_block <$> blocks).
Proof.
  induction blocks as [|b bs IH]; [done|]. rewrite fmap_cons. simpl.
  destruct (is_complete (parse_block b)) eqn:E.
  - rewrite filter_cons_True by done. by f_equal.
  - rewrite filter_cons_False by (rewrite E; done). done.
Qed.

Lemma elem_of_parseQuestionBlocks blocks q :
  q ∈ parseQuestionBlocks blocks -> is_complete q = true /\ truthy (q !! "difficulty") = true.
Proof.
  rewrite parseQuestionBlocks_filter, list_elem_of_filter, list_elem_of_fmap.
  intros [Hc [b [-> _]]]. split; [done|]. apply parse_block_difficulty.
Qed.

Lemma truthy_spec (o : option string) : truthy o = true <-> ∃ v, o = Some v /\ v <> EmptyString.
Proof.
  split.
  - destruct o as [[|c v]|]; [done| |done]. intros _. by eexists.
  - by intros (v & -> & Hv); destruct v.
Qed.

Lemma existsb_negb_false {A} (f : A -> bool) l :
  existsb (λ x, negb (f x)) l = false <-> Forall (λ x, f x = true) l.
Proof.
  rewrite Forall_forall. split.
  - intros H x Hx. destruct (f x) eqn:E; [done|]. exfalso.
    assert (existsb (λ x, negb (f x)) l = true) as Ht.
    { apply existsb_exists. exists x. split; [by apply list_elem_of_In|by rewrite E]. }
    congruence.
  - intros H. apply not_true_is_false. intros [x [Hx Hf]]%existsb_exists.
    rewrite H in Hf; [discriminate|by apply list_elem_of_In].
Qed.

(** ** Properties *)

(** C7: every question the bulk parser returns, whatever the text and
    whichever splitting strategy was taken, has each of the properties the
    upload form requires (text, topic, the four options, the correct
    option) and a difficulty, each holding a non-empty string. *)
Theorem parseBulkQuestions_complete text q k :
  q ∈ parseBulkQuestions text ->
  k ∈ ["text"; "topic"; "optionA"; "optionB"; "optionC"; "optionD"; "correctOption"; "difficulty"] ->
  ∃ v, q !! k = Some v /\ v <> EmptyString.
Proof.
  intros Hq Hk. apply truthy_spec.
  assert (Hc : is_complete q = true /\ truthy (q !! "difficulty") = true)
    by (unfold parseBulkQuestions in Hq; case_decide; eapply elem_of_parseQuestionBlocks, Hq).
  destruct Hc as [Hc Hd]. unfold is_complete in Hc. rewrite forallb_forall in Hc.
  apply elem_of_cons in Hk as [->|Hk]; [by apply Hc; left|].
  repeat (apply elem_of_cons in Hk as [->|Hk]; [apply Hc; simpl; tauto|]).
  apply elem_of_cons in Hk as [->|Hk]; [done|]. by apply elem_of_nil in Hk.
Qed.

(** [parseQuestionBlocks] keeps exactly the blocks that parse to a
    complete question, in order: malformed blocks are dropped silently. *)
Theorem parseQuestionBlocks_count blocks :
  length (parseQuestionBlocks blocks) =
  length (filter (λ b, is_complete (parse_block b) = true) blocks).
Proof.
  rewrite parseQuestionBlocks_filter.
  induction blocks as [|b bs IH]; [done|]. rewrite fmap_cons.
  destruct (is_complete (parse_block b)) eqn:E.
  - rewrite !filter_cons_True by done. simpl. by rewrite IH.
  - rewrite !filter_cons_False by (rewrite E; done). done.
Qed.

(** C9: the upload handler sends a batch exactly when the text is not
    blank, at least one question parsed, and every parsed question has a
    correct option among A, B, C and D; the batch is the parser's output. *)
Theorem handleBulkUpload_upload text qs :
  handleBulkUpload text = Upload qs <->
  trim text ≠ EmptyString /\ qs = parseBulkQuestions text /\ qs ≠ [] /\
  Forall (λ q, correct_letter_ok q = true) qs.
Proof.
  unfold handleBulkUpload. case_decide as Hblank.
  - split; [discriminate|]. intros [? _]. contradiction.
  - case_decide as Hnil.
    + split; [discriminate|]. intros (_ & -> & Hne & _). by destruct (parseBulkQuestions text).
    + destruct (existsb _ _) eqn:E.
      * split; [discriminate|]. intros (_ & -> & _ & Hall).
        apply existsb_negb_false in Hall. congruence.
      * apply existsb_negb_false in E. split.
        -- intros [= <-]. repeat split; try done. by destruct (parseBulkQuestions text).
        -- intros (_ & -> & _). done.
Qed.

(** C10: when some parsed question has a correct option outside A-D the
    whole batch is rejected, and the count reported is the number of such
    questions, which is positive. *)
Theorem handleBulkUpload_validation text n :
  handleBulkUpload text = ValidationErrors n ->
  0 < n /\ n = length (filter (λ q, correct_letter_ok q = false) (parseBulkQuestions text)).
Proof.
  unfold handleBulkUpload. case_decide; [discriminate|]. case_decide; [discriminate|].
  destruct (existsb _ _) eqn:E; [|discriminate]. intros [= <-]. split; [|done].
  apply existsb_exists in E as [q [Hq Hneg]].
  apply negb_true_iff in Hneg.
  destruct (filter _ _) eqn:Ef; [|simpl; lia].
  assert (q ∈ filter (λ q, correct_letter_ok q = false) (parseBulkQuestions text)) as Hin.
  { apply list_elem_of_filter. split; [done|]. by apply list_elem_of_In. }
  rewrite Ef in Hin. set_solver.
Qed.

(** ** Concrete uploads *)

Definition lines (l : list string) : string := join newline l.

Definition question_lines (q topic correct : string) : list string :=
  ["QUESTION: " +:+ q; "TOPIC: " +:+ topic; "OPTION A: 3"; "OPTION B: 4";
   "OPTION C: 5"; "OPTION D: 6"; "CORRECT: " +:+ correct].

(** The spec's example (section 8): one block, no blank line. *)
Definition spec_text : string := lines (question_lines "2+2?" "Math" "B").

(** The spec's single-block example parses to exactly one question,
    whose correct option is "B", whose difficulty defaults to "medium",
    and the handler uploads it. *)
Example spec_example_one_question :
  parseBulkQuestions spec_text = [parse_block spec_text] /\
  parse_block spec_text !! "correctOption" = Some "B" /\
  parse_block spec_text !! "difficulty" = Some "medium" /\
  handleBulkUpload spec_text = Upload [parse_block spec_text].
Proof. repeat split; reflexivity. Qed.

(** Two questions without a blank line between them; in the second one the
    [QUESTION:] line is indented by two spaces. *)
Definition indented_text : string :=
  lines (question_lines "2+2?" "Math" "B" ++ ("  QUESTION: 3+3?" :: drop 1 (question_lines "" "Math" "D"))).

Definition plain_text : string :=
  lines (question_lines "2+2?" "Math" "B" ++ question_lines "3+3?" "Math" "D").

(** An indented [QUESTION:] line starts a new block (the splitter trims
    the line) but is not recognised by the block parser (which tests the
    untrimmed line), so that question is silently lost: two questions are
    found without the indentation, one with it. *)
Example indented_question_dropped :
  length (parseBulkQuestions plain_text) = 2 /\ length (parseBulkQuestions indented_text) = 1.
Proof. split; reflexivity. Qed.

Definition bad_letter_text : string :=
  lines (question_lines "2+2?" "Math" "B" ++ [""] ++ question_lines "3+3?" "Math" "b").

Lemma parseBulkQuestions_complete_witness :
  parse_block spec_text ∈ parseBulkQuestions spec_text /\
  ∃ v, parse_block spec_text !! "optionD" = Some v /\ v <> EmptyString.
Proof.
  assert (H : parseBulkQuestions spec_text = [parse_block spec_text]) by reflexivity.
  assert (Hin : parse_block spec_text ∈ parseBulkQuestions spec_text) by (rewrite H; constructor).
  split; [exact Hin|]. apply (parseBulkQuestions_complete _ _ "optionD" Hin).
  by apply list_elem_of_In; right; right; right; right; right; left.
Defined.

Lemma handleBulkUpload_validation_witness :
  handleBulkUpload bad_letter_text = ValidationErrors 1 /\
  0 < 1 /\ 1 = length (filter (λ q, correct_letter_ok q = false) (parseBulkQuestions bad_letter_text)).
Proof.
  assert (H : handleBulkUpload bad_letter_text = ValidationErrors 1) by reflexivity.
  split; [exact H|]. exact (handleBulkUpload_validation _ _ H).
Defined.

End BulkParser.
