(* ===== verification/Countdown.v ===== *)
(** * Countdown: the countdown timer of timed quizzes

    Models [CountdownTimer] of src/client/src/components/ui/countdown-timer.tsx:
    its state ([timeLeft], [isRunning]), the interval the effect installs
    (lines 46-62) as a [tick] function, runs of [k] ticks, and the rendered
    view (lines 22-43, 64-100).  [timeLeft] is a JavaScript number that may
    be [NaN]: the practice page passes [parseInt(timeLimit) * 60]. *)

From Stdlib Require Import ZArith QArith Lia.
From stdpp Require Import base list strings.
From S2P Require Import Prelude.

Module Countdown.

Record Countdown := mkCountdown {
  timeLeft : JsInt;
  isRunning : bool
}.

(** [useState(initialTimeInSeconds)], [useState(true)] *)
Definition init (initialTimeInSeconds : JsInt) : Countdown :=
  mkCountdown initialTimeInSeconds true.

(** Line 47: the effect installs an interval unless it returns early. *)
Definition interval_active (c : Countdown) : bool :=
  isRunning c && negb (js_le (timeLeft c) 0).

(** One firing of the interval (lines 50-58), with the flag telling
    whether [onTimeUp] was called. *)
Definition tick (c : Countdown) : Countdown * bool :=
  if interval_active c then
    if js_le (timeLeft c) 1 then (mkCountdown (Some 0%Z) false, true)
    else (mkCountdown (option_map (λ t, t - 1)%Z (timeLeft c)) true, false)
  else (c, false).

(** [k] seconds: the final state and how many times [onTimeUp] ran. *)
Fixpoint run (k : nat) (c : Countdown) : Countdown * nat :=
  match k with
  | O => (c, 0)
  | S k' =>
      let '(c1, fired) := tick c in
      let '(c2, n) := run k' c1 in
      (c2, (if fired then 1 else 0) + n)
  end.

(** ** The rendered view *)

(** Line 23 *)
Definition percentage (initialTimeInSeconds : JsInt) (c : Countdown) : JsNum :=
  js_max0 (js_mul (js_div_int (timeLeft c) initialTimeInSeconds) 100).

(** Lines 26-30; [NaN] prints as "NaN". *)
Definition formatTime (timeInSeconds : JsInt) : string :=
  match timeInSeconds with
  | Some t => string_of_Z (t / 60)%Z +:+ ":" +:+ pad2 (string_of_Z (Z.rem t 60))
  | None => "NaN:NaN"
  end.

(** Lines 33-37 *)
Definition getTimerColor (p : JsNum) : string :=
  if js_gt p 50 then "text-green-600"
  else if js_gt p 25 then "text-yellow-600"
  else "text-red-600".

(** Lines 39-43 *)
Definition getProgressColor (p : JsNum) : string :=
  if js_gt p 50 then "bg-green-600"
  else if js_gt p 25 then "bg-yellow-600"
  else "bg-red-600".

Inductive Size := Sm | Md | Lg.

(** Lines 65-71 *)
Definition getSize (size : Size) : string :=
  match size with Sm => "text-sm" | Lg => "text-lg" | Md => "text-base" end.

Record CountdownView := mkCountdownView {
  v_timerColor : string;
  v_sizeClass : string;
  v_text : string;
  v_label : option string;
  v_progress : JsNum;
  v_progressColor : string
}.

(** Lines 73-100: the label is shown unless the size is "sm". *)
Definition render (initialTimeInSeconds : JsInt) (size : Size) (c : Countdown) : CountdownView :=
  let p := percentage initialTimeInSeconds c in
  {| v_timerColor := getTimerColor p;
     v_sizeClass := getSize size;
     v_text := formatTime (timeLeft c);
     v_label := match size with
                | Sm => None
                | _ => Some (if js_leq p 25 then "Running Out of Time!" else "Time Remaining")
                end;
     v_progress := p;
     v_progressColor := getProgressColor p |}.

(** ** Lemmas *)

Lemma run_inactive k c : interval_active c = false -> run k c = (c, 0).
Proof.
  intros H. induction k as [|k IH]; [done|]. simpl.
  unfold tick. rewrite H, IH. done.
Qed.

Lemma run_positive (n : Z) (k : nat) : (0 < n)%Z ->
  run k (init (Some n)) =
  if (Z.of_nat k <? n)%Z then (mkCountdown (Some (n - Z.of_nat k)%Z) true, 0)
  else (mkCountdown (Some 0%Z) false, 1).
Proof.
  revert n. induction k as [|k IH]; intros n Hn; cbn [run].
  - destruct (Z.ltb_spec (Z.of_nat 0) n); [|lia]. by rewrite Z.sub_0_r.
  - unfold tick, interval_active, init. cbn [isRunning timeLeft js_le andb].
    destruct (Z.leb_spec n 0); [lia|]. cbn [negb].
    destruct (Z.leb_spec n 1).
    + rewrite run_inactive by done. destruct (Z.ltb_spec (Z.of_nat (S k)) n); [lia|done].
    + cbn [option_map]. fold (init (Some (n - 1)%Z)).
      rewrite (IH (n - 1)%Z) by lia. rewrite Nat2Z.inj_succ.
      destruct (Z.ltb_spec (Z.of_nat k) (n - 1)), (Z.ltb_spec (Z.succ (Z.of_nat k)) n);
        try lia; [|done].
      do 3 f_equal. lia.
Qed.

#[export] Hint Resolve run_inactive : js.

(** ** Properties *)

(** C13: started with a positive number of seconds [n], the timer calls
    [onTimeUp] exactly once over any run of at least [n] ticks and not at
    all before: the callback fires on the [n]-th tick and never again. *)
Theorem countdown_fires_once (n : Z) (k : nat) :
  (0 < n)%Z ->
  snd (run k (init (Some n))) = if (Z.of_nat k <? n)%Z then 0 else 1.
Proof. intros Hn. rewrite run_positive by done. by destruct (_ <? _)%Z. Qed.

(** The remaining time after [k] ticks is [max 0 (n - k)]: it never
    becomes negative, and the timer stops at zero. *)
Theorem countdown_time_left (n : Z) (k : nat) :
  (0 < n)%Z ->
  timeLeft (fst (run k (init (Some n)))) = Some (Z.max 0 (n - Z.of_nat k)) /\
  isRunning (fst (run k (init (Some n)))) = (Z.of_nat k <? n)%Z.
Proof.
  intros Hn. rewrite run_positive by done.
  destruct (Z.ltb_spec (Z.of_nat k) n); simpl; split; try done; f_equal; lia.
Qed.

(** Started with zero or a negative number of seconds (a missing
    [timeLimit] parameter gives 0), the effect never installs an interval
    and the quiz never expires. *)
Theorem countdown_nonpositive_never_fires (n : Z) (k : nat) :
  (n <= 0)%Z -> run k (init (Some n)) = (init (Some n), 0).
Proof.
  intros Hn. apply run_inactive. unfold interval_active, init. simpl.
  destruct (Z.leb_spec n 0); [done|lia].
Qed.

(** C16: started with [NaN] (a non-numeric [timeLimit]), the interval runs
    for ever: [NaN <= 1] is false, so the timer ticks with [NaN - 1 = NaN]
    and never calls [onTimeUp]. *)
Theorem countdown_nan_never_fires (k : nat) :
  run k (init None) = (init None, 0) /\ interval_active (init None) = true.
Proof.
  split; [|done]. assert (Ht : tick (init None) = (init None, false)) by reflexivity.
  induction k as [|k IH]; [done|]. cbn [run]. by rewrite Ht, IH.
Qed.

Lemma countdown_fires_once_witness :
  (0 < 300)%Z /\ snd (run 300 (init (Some 300%Z))) = 1.
Proof. split; [lia|]. exact (countdown_fires_once 300 300 ltac:(lia)). Defined.

Lemma countdown_time_left_witness :
  (0 < 5)%Z /\ timeLeft (fst (run 3 (init (Some 5%Z)))) = Some (Z.max 0 (5 - Z.of_nat 3)) /\
  isRunning (fst (run 3 (init (Some 5%Z)))) = (Z.of_nat 3 <? 5)%Z.
Proof. split; [lia|]. exact (countdown_time_left 5 3 ltac:(lia)). Defined.

Lemma countdown_nonpositive_never_fires_witness :
  (0 <= 0)%Z /\ run 10 (init (Some 0%Z)) = (init (Some 0%Z), 0).
Proof. split; [lia|]. exact (countdown_nonpositive_never_fires 0 10 ltac:(lia)). Defined.

End Countdown.
