(* ===== verification/Submission.v ===== *)
(** * Submission: the two-phase write of a finished session

    Models the submit mutation of
    src/client/src/pages/student/practice-session.tsx (lines 128-185): the
    payload computed when [mutate()] is called (the closure over the page's
    state, lines 130-149), then the requests it sends, in order: one
    [POST /api/sessions] and one [POST /api/sessions/:id/questions] per
    question (lines 151-169).  The server side of these endpoints is not in
    src/: it is modelled from the spec (section 6) as a store that assigns
    fresh session ids and appends rows.  A network failure is the index of
    the first request that fails; [apiRequest] throws on it and the loop
    stops there. *)

From Stdlib Require Import ZArith QArith Lia.
From stdpp Require Import base list strings.
From S2P Require Import Prelude Scorer.

Module Submission.
Import Scorer.

(** [InsertSession] of the shared schema. *)
Record InsertSession := mkInsertSession {
  s_userId : Z;
  s_topicId : option Z;
  s_totalQuestions : nat;
  s_correctAnswers : nat;
  s_score : JsNum;
  s_timeSpent : nat
}.

(** The session store of the server (spec, section 6). *)
Record Server := mkServer {
  sessions : list (Z * InsertSession);
  rows : list InsertSessionQuestion;
  next_id : Z
}.

(** [POST /api/sessions] (spec, section 6): the store keeps the record the
    client built under the next id.  [apiRequest] sends it through
    [JSON.stringify], which writes a non-finite score (the [NaN] of a
    zero-question session) as [null]; what the server stores for a null
    score is not in src/ nor in the spec, so the store keeps the client's
    value, and no theorem of the development reads a non-finite score back
    from it. *)
Definition post_session (srv : Server) (data : InsertSession) : Z * Server :=
  (next_id srv, mkServer (sessions srv ++ [(next_id srv, data)]) (rows srv) (next_id srv + 1)).

Definition post_row (srv : Server) (row : InsertSessionQuestion) : Server :=
  mkServer (sessions srv) (rows srv ++ [row]) (next_id srv).

(** What [mutate()] will send: either the mutation throws before any
    request, or a session record and the rows for the id it gets back. *)
Inductive Job :=
  | JobError (message : string)
  | JobPost (data : InsertSession) (mkRows : Z -> list InsertSessionQuestion).

(** [topicId ? parseInt(topicId) : null]; [NaN] is sent as [null]. *)
Definition topic_of_param (topicId : option string) : option Z :=
  match topicId with
  | Some (String _ _ as t) => parseInt t
  | _ => None
  end.

(** Lines 130-149 *)
Definition prepare (topicId : option string) (questions : option (list Question))
    (answers : list (option string)) (timer : nat) (questionTimers : list nat) : Job :=
  match questions with
  | None => JobError "No questions available"
  | Some qs =>
      match correctAnswers qs answers with
      | None => JobError "TypeError"
      | Some c =>
          JobPost {| s_userId := 0; s_topicId := topic_of_param topicId;
                     s_totalQuestions := totalQuestions qs; s_correctAnswers := c;
                     s_score := score qs c; s_timeSpent := timer |}
                  (session_questions qs answers questionTimers)
      end
  end.

Inductive Outcome :=
  | Success (sessionId : Z)
  | Failure (message : string).

(** Lines 155-169: request [k] is the [k]-th of the mutation. *)
Fixpoint post_rows (fail : option nat) (k : nat) (srv : Server)
    (rs : list InsertSessionQuestion) : Server * bool :=
  match rs with
  | [] => (srv, true)
  | r :: rest =>
      if decide (fail = Some k) then (srv, false)
      else post_rows fail (S k) (post_row srv r) rest
  end.

(** Lines 129-171 *)
Definition run_job (fail : option nat) (srv : Server) (job : Job) : Server * Outcome :=
  match job with
  | JobError m => (srv, Failure m)
  | JobPost data mkRows =>
      if decide (fail = Some 0) then (srv, Failure "POST /api/sessions failed")
      else
        let '(sid, srv1) := post_session srv data in
        let '(srv2, ok) := post_rows fail 1 srv1 (mkRows sid) in
        (srv2, if ok then Success sid else Failure "POST /api/sessions/:id/questions failed")
  end.

(** ** Lemmas *)

Lemma post_rows_ok fail k srv rs :
  (forall j, fail = Some j -> j < k \/ k + length rs <= j) ->
  post_rows fail k srv rs = (mkServer (sessions srv) (rows srv ++ rs) (next_id srv), true).
Proof.
  revert k srv. induction rs as [|r rs IH]; intros k srv Hf; simpl in *.
  - rewrite app_nil_r. by destruct srv.
  - case_decide as E; [destruct (Hf k E); lia|].
    rewrite IH; [simpl|intros j Hj; assert (j <> k) by congruence; specialize (Hf j Hj); simpl in Hf; lia].
    by rewrite <- app_assoc.
Qed.

Lemma post_rows_fail k srv rs j :
  k <= j < k + length rs ->
  post_rows (Some j) k srv rs =
  (mkServer (sessions srv) (rows srv ++ take (j - k) rs) (next_id srv), false).
Proof.
  revert k srv. induction rs as [|r rs IH]; intros k srv Hj; simpl in *; [lia|].
  case_decide as E.
  - injection E as ->. rewrite Nat.sub_diag. simpl. rewrite app_nil_r. by destruct srv.
  - assert (j <> k) by congruence.
    rewrite IH by lia. simpl. replace (j - k) with (S (j - S k)) by lia. simpl.
    by rewrite <- app_assoc.
Qed.

(** ** Properties *)

(** C17: with no network failure, the mutation creates exactly one session,
    under the next free id, followed by all its rows in order, and reports
    that id. *)
Theorem run_job_success srv data mkRows :
  run_job None srv (JobPost data mkRows) =
  (mkServer (sessions srv ++ [(next_id srv, data)]) (rows srv ++ mkRows (next_id srv))
            (next_id srv + 1), Success (next_id srv)).
Proof.
  unfold run_job. case_decide; [discriminate|]. simpl.
  rewrite post_rows_ok by (intros; discriminate). done.
Qed.

(** C18: the write is not atomic: if the request for row [k] fails, the
    session record stays on the server with only the first [k] rows, and the
    mutation reports an error. *)
Theorem run_job_partial srv data mkRows k :
  k < length (mkRows (next_id srv)) ->
  run_job (Some (S k)) srv (JobPost data mkRows) =
  (mkServer (sessions srv ++ [(next_id srv, data)]) (rows srv ++ take k (mkRows (next_id srv)))
            (next_id srv + 1),
   Failure "POST /api/sessions/:id/questions failed").
Proof.
  intros Hk. unfold run_job. case_decide as E; [discriminate|]. simpl.
  rewrite (post_rows_fail 1 _ _ (S k)) by lia. simpl. by rewrite Nat.sub_0_r.
Qed.

Definition empty_server : Server := mkServer [] [] 1.

Definition two_rows (sid : Z) : list InsertSessionQuestion :=
  [mkInsertSessionQuestion sid 1 None false (Some 3);
   mkInsertSessionQuestion sid 2 (Some "A") true (Some 4)].

Definition two_question_session : InsertSession :=
  mkInsertSession 0 None 2 1 (JNum 50) 7.

Lemma run_job_partial_witness :
  0 < length (two_rows (next_id empty_server)) /\
  run_job (Some 1) empty_server (JobPost two_question_session two_rows) =
  (mkServer [(1%Z, two_question_session)] [] 2, Failure "POST /api/sessions/:id/questions failed").
Proof.
  split; [simpl; lia|]. exact (run_job_partial empty_server two_question_session two_rows 0 ltac:(simpl; lia)).
Defined.

End Submission.
