(* ===== verification/PracticeSession.v ===== *)
(** * PracticeSession: the page that runs a practice session

    Models the state and handlers of [PracticeSession] in
    src/client/src/pages/student/practice-session.tsx: the URL parameters
    (lines 22-41), the question query and the effect that initialises the
    answers (44-78), the one-second timer (81-96), answer selection and
    navigation (106-125, 378), submission (187-198), the outcome callbacks
    of the mutation (173-184) and the embedded countdown of timed quizzes
    (235-251).  Which events the user can trigger in a state is read off the
    rendered JSX (lines 203-513): each constructor of [step] carries the
    condition under which its button or control is on the screen and
    enabled.  A mutation runs when [mutate()] is called; its payload is fixed
    then ([Submission.prepare]) and the requests run later ([ESettle]),
    possibly after another [mutate()]: [pending] holds the mutations in
    flight, oldest first. *)

From Stdlib Require Import ZArith QArith Lia.
From stdpp Require Import base list strings sets.
From S2P Require Import Prelude Scorer Countdown Submission.

Module PracticeSession.
Import Scorer Submission.

(** The route parameter and the search parameters, as strings. *)
Record Params := mkParams {
  p_topicId : option string;
  p_timed : option string;
  p_timeLimit : option string;
  p_count : option string
}.

(** [searchParams.get(name) || default] *)
Definition or_default (o : option string) (d : string) : string :=
  match o with Some (String _ _ as s) => s | _ => d end.

Definition isTimed (p : Params) : bool := bool_decide (p_timed p = Some "true").
Definition timeLimit (p : Params) : JsInt := parseInt (or_default (p_timeLimit p) "0").
Definition questionCount (p : Params) : JsInt := parseInt (or_default (p_count p) "10").

Inductive QueryState :=
  | Loading
  | Loaded (qs : list Question)
  | Failed (message : string).

Record Page := mkPage {
  currentQuestionIndex : nat;
  answers : list (option string);
  timer : nat;
  questionTimers : list nat;
  isSessionComplete : bool;
  timeExpired : bool;
  query : QueryState;
  showSubmitAnimation : bool;
  pending : list Job;
  countdown : option Countdown.Countdown;
  navigatedTo : option Z
}.

Section WithParams.
Context (params : Params).

Definition initial : Page :=
  mkPage 0 [] 0 [] false false Loading false []
    (if isTimed params
     then Some (Countdown.init (option_map (λ t, t * 60)%Z (timeLimit params)))
     else None)
    None.

Definition questions (s : Page) : option (list Question) :=
  match query s with Loaded qs => Some qs | _ => None end.

Definition isLoadingQuestions (s : Page) : bool :=
  match query s with Loading => true | _ => false end.

(** Line 201 *)
Definition currentQuestion (s : Page) : option Question :=
  match questions s with Some qs => qs !! currentQuestionIndex s | None => None end.

(** Lines 44-58 resolved, then the effect of lines 73-78. *)
Definition on_loaded (qs : list Question) (s : Page) : Page :=
  mkPage (currentQuestionIndex s) (replicate (length qs) None) (timer s)
    (replicate (length qs) 0) (isSessionComplete s) (timeExpired s) (Loaded qs)
    (showSubmitAnimation s) (pending s) (countdown s) (navigatedTo s).

Definition on_failed (message : string) (s : Page) : Page :=
  mkPage (currentQuestionIndex s) (answers s) (timer s) (questionTimers s)
    (isSessionComplete s) (timeExpired s) (Failed message)
    (showSubmitAnimation s) (pending s) (countdown s) (navigatedTo s).

(** Line 82: the interval exists while not loading and not complete. *)
Definition timer_active (s : Page) : bool :=
  negb (isLoadingQuestions s) && negb (isSessionComplete s).

(** Lines 84-92; [alter] leaves an index past the end unchanged, as the
    [!== undefined] test does. *)
Definition on_tick (s : Page) : Page :=
  mkPage (currentQuestionIndex s) (answers s) (S (timer s))
    (alter S (currentQuestionIndex s) (questionTimers s))
    (isSessionComplete s) (timeExpired s) (query s)
    (showSubmitAnimation s) (pending s) (countdown s) (navigatedTo s).

Definition set_answers (a : list (option string)) (s : Page) : Page :=
  mkPage (currentQuestionIndex s) a (timer s) (questionTimers s)
    (isSessionComplete s) (timeExpired s) (query s)
    (showSubmitAnimation s) (pending s) (countdown s) (navigatedTo s).

Definition setCurrentQuestionIndex (i : nat) (s : Page) : Page :=
  mkPage i (answers s) (timer s) (questionTimers s)
    (isSessionComplete s) (timeExpired s) (query s)
    (showSubmitAnimation s) (pending s) (countdown s) (navigatedTo s).

(** Lines 106-112 *)
Definition handleAnswerSelect (answer : string) (s : Page) : Page :=
  set_answers (js_store None (answers s) (currentQuestionIndex s) (Some answer)) s.

(** Lines 115-119 *)
Definition goToPrevQuestion (s : Page) : Page :=
  if decide (0 < currentQuestionIndex s) then
    setCurrentQuestionIndex (currentQuestionIndex s - 1) s
  else s.

(** Lines 121-125, with [questions.length - 1] computed on numbers. *)
Definition goToNextQuestion (s : Page) : Page :=
  match questions s with
  | Some qs =>
      if (Z.of_nat (currentQuestionIndex s) <? Z.of_nat (length qs) - 1)%Z then
        setCurrentQuestionIndex (S (currentQuestionIndex s)) s
      else s
  | None => s
  end.

(** Lines 195-198: [mutate()] fixes the payload from the current state. *)
Definition handleSubmitSession (s : Page) : Page :=
  mkPage (currentQuestionIndex s) (answers s) (timer s) (questionTimers s)
    (isSessionComplete s) (timeExpired s) (query s) true
    (pending s ++ [prepare (p_topicId params) (questions s) (answers s) (timer s) (questionTimers s)])
    (countdown s) (navigatedTo s).

(** Lines 239-247 *)
Definition onTimeUp (s : Page) : Page :=
  handleSubmitSession
    (mkPage (currentQuestionIndex s) (answers s) (timer s) (questionTimers s)
       (isSessionComplete s) true (query s)
       (showSubmitAnimation s) (pending s) (countdown s) (navigatedTo s)).

Definition set_countdown (c : Countdown.Countdown) (s : Page) : Page :=
  mkPage (currentQuestionIndex s) (answers s) (timer s) (questionTimers s)
    (isSessionComplete s) (timeExpired s) (query s)
    (showSubmitAnimation s) (pending s) (Some c) (navigatedTo s).

(** One second of the embedded [CountdownTimer]. *)
Definition on_countdown_tick (s : Page) : Page :=
  match countdown s with
  | Some c =>
      let '(c', fired) := Countdown.tick c in
      if fired then onTimeUp (set_countdown c' s) else set_countdown c' s
  | None => s
  end.

(** Lines 173-184: the oldest mutation in flight settles. *)
Definition on_settled (fail : option nat) (srv : Server) (s : Page) : Page * Server :=
  match pending s with
  | [] => (s, srv)
  | job :: rest =>
      let '(srv', outcome) := run_job fail srv job in
      match outcome with
      | Success sid =>
          (mkPage (currentQuestionIndex s) (answers s) (timer s) (questionTimers s)
             true (timeExpired s) (query s) (showSubmitAnimation s) rest (countdown s) (Some sid),
           srv')
      | Failure _ =>
          (mkPage (currentQuestionIndex s) (answers s) (timer s) (questionTimers s)
             (isSessionComplete s) (timeExpired s) (query s) (showSubmitAnimation s) rest
             (countdown s) (navigatedTo s),
           srv')
      end
  end.

(** ** What the screen offers *)

(** The question card (line 300) is shown, with its radio group,
    "Previous" button and mobile navigation dots. *)
Definition card_shown (s : Page) : bool :=
  negb (isLoadingQuestions s) && bool_decide (is_Some (currentQuestion s)).

(** Line 396: the "Next" button replaces the submit dialog. *)
Definition next_shown (s : Page) : bool :=
  match questions s with
  | Some qs => (Z.of_nat (currentQuestionIndex s) <? Z.of_nat (length qs) - 1)%Z
  | None => false
  end.

(** A submit dialog is on the screen: in the card on the last question
    (lines 404-433) or below it otherwise (lines 463-496); its action is
    disabled while a mutation is pending (lines 426, 487). *)
Definition submit_enabled (s : Page) : bool :=
  let dialog :=
    (card_shown s && negb (next_shown s)) ||
    (match questions s with Some qs => bool_decide (0 < length qs) | None => false end
     && next_shown s) in
  dialog && bool_decide (pending s = []).

Definition answer_letters : list string := ["A"; "B"; "C"; "D"].

Inductive Event :=
  | ELoaded (qs : list Question)
  | EFailed (message : string)
  | ETick
  | ECountdownTick
  | ESelect (answer : string)
  | EPrev
  | ENext
  | EGoTo (i : nat)
  | ESubmit
  | ESettle (fail : option nat).

(** One event; every event but the settling of a mutation needs the page
    to be mounted, i.e. not yet navigated away after success. *)
Inductive step : Page * Server -> Event -> Page * Server -> Prop :=
  | step_loaded s srv qs :
      isSessionComplete s = false -> query s = Loading ->
      step (s, srv) (ELoaded qs) (on_loaded qs s, srv)
  | step_failed s srv m :
      isSessionComplete s = false -> query s = Loading ->
      step (s, srv) (EFailed m) (on_failed m s, srv)
  | step_tick s srv :
      isSessionComplete s = false -> timer_active s = true ->
      step (s, srv) ETick (on_tick s, srv)
  | step_countdown s srv c :
      isSessionComplete s = false -> countdown s = Some c ->
      Countdown.interval_active c = true ->
      step (s, srv) ECountdownTick (on_countdown_tick s, srv)
  | step_select s srv a :
      isSessionComplete s = false -> card_shown s = true -> a ∈ answer_letters ->
      step (s, srv) (ESelect a) (handleAnswerSelect a s, srv)
  | step_prev s srv :
      isSessionComplete s = false -> card_shown s = true ->
      step (s, srv) EPrev (goToPrevQuestion s, srv)
  | step_next s srv :
      isSessionComplete s = false -> card_shown s = true -> next_shown s = true ->
      step (s, srv) ENext (goToNextQuestion s, srv)
  | step_goto s srv qs i :
      isSessionComplete s = false -> card_shown s = true -> questions s = Some qs ->
      i < length qs ->
      step (s, srv) (EGoTo i) (setCurrentQuestionIndex i s, srv)
  | step_submit s srv :
      isSessionComplete s = false -> submit_enabled s = true ->
      step (s, srv) ESubmit (handleSubmitSession s, srv)
  | step_settle s srv fail :
      pending s <> [] ->
      step (s, srv) (ESettle fail) (on_settled fail srv s).

(** The same relation as a function: [None] when the event is not
    available in the state. *)
Definition step_fn (e : Event) (st : Page * Server) : option (Page * Server) :=
  let '(s, srv) := st in
  let mounted := negb (isSessionComplete s) in
  match e with
  | ELoaded qs => if mounted && isLoadingQuestions s then Some (on_loaded qs s, srv) else None
  | EFailed m => if mounted && isLoadingQuestions s then Some (on_failed m s, srv) else None
  | ETick => if mounted && timer_active s then Some (on_tick s, srv) else None
  | ECountdownTick =>
      match countdown s with
      | Some c => if mounted && Countdown.interval_active c then Some (on_countdown_tick s, srv) else None
      | None => None
      end
  | ESelect a =>
      if mounted && card_shown s && bool_decide (a ∈ answer_letters)
      then Some (handleAnswerSelect a s, srv) else None
  | EPrev => if mounted && card_shown s then Some (goToPrevQuestion s, srv) else None
  | ENext => if mounted && card_shown s && next_shown s then Some (goToNextQuestion s, srv) else None
  | EGoTo i =>
      match questions s with
      | Some qs =>
          if mounted && card_shown s && bool_decide (i < length qs)
          then Some (setCurrentQuestionIndex i s, srv) else None
      | None => None
      end
  | ESubmit => if mounted && submit_enabled s then Some (handleSubmitSession s, srv) else None
  | ESettle fail => if bool_decide (pending s <> []) then Some (on_settled fail srv s) else None
  end.

(** A sequence of events run from a state. *)
Fixpoint run_events (es : list Event) (st : Page * Server) : option (Page * Server) :=
  match es with
  | [] => Some st
  | e :: rest => match step_fn e st with Some st' => run_events rest st' | None => None end
  end.

(** The invariant of the page's state: before the questions arrive nothing
    is recorded; once they have arrived the answers and per-question timers
    are parallel to the questions, the index points at a question, and the
    per-question timers add up to the session timer. *)
Definition page_inv (s : Page) : Prop :=
  match query s with
  | Loading => answers s = [] /\ questionTimers s = [] /\ currentQuestionIndex s = 0 /\ timer s = 0
  | Failed _ => answers s = [] /\ questionTimers s = [] /\ currentQuestionIndex s = 0
  | Loaded qs =>
      length (answers s) = length qs /\ length (questionTimers s) = length qs /\
      (currentQuestionIndex s < length qs \/ qs = [] /\ currentQuestionIndex s = 0) /\
      (qs <> [] -> sum_list (questionTimers s) = timer s)
  end.

(** What a mutation in flight will send is self-consistent: one row per
    question, all for the session id the server returns, as many flagged
    correct as the session's [correctAnswers], and (for a non-empty
    session) per-question times adding up to the session's [timeSpent].
    The only mutation that fails before sending is the one started before
    the questions arrived. *)
Definition job_ok (j : Job) : Prop :=
  match j with
  | JobError m => m = "No questions available"
  | JobPost data mkRows => forall sid,
      length (mkRows sid) = s_totalQuestions data /\
      length (filter (λ r, sq_isCorrect r = true) (mkRows sid)) = s_correctAnswers data /\
      (0 < s_totalQuestions data ->
       sum_list ((λ r, default 0 (sq_timeSpent r)) <$> mkRows sid) = s_timeSpent data) /\
      Forall (λ r, sq_sessionId r = sid) (mkRows sid)
  end.

(** The part of the state the invariant reads. *)
Definition core (s : Page) :=
  (currentQuestionIndex s, answers s, timer s, questionTimers s, query s).

Inductive reachable : Page * Server -> Prop :=
  | reach_init srv : reachable (initial, srv)
  | reach_step st e st' : reachable st -> step st e st' -> reachable st'.

End WithParams.

(** ** Lemmas *)

Lemma isLoading_iff s : isLoadingQuestions s = true <-> query s = Loading.
Proof. unfold isLoadingQuestions. destruct (query s); split; congruence. Qed.

Ltac page_bools :=
  repeat (js_bools; match goal with
  | H : isLoadingQuestions _ = true |- _ => apply isLoading_iff in H
  end).

Lemma page_inv_core s s' : core s = core s' -> page_inv s -> page_inv s'.
Proof. destruct s, s'. unfold core. simpl. intros [= -> -> -> -> ->]. done. Qed.

Lemma core_handleSubmitSession params s : core (handleSubmitSession params s) = core s.
Proof. reflexivity. Qed.

Lemma core_on_countdown_tick params s : core (on_countdown_tick params s) = core s.
Proof.
  unfold on_countdown_tick. destruct (countdown s); [|done].
  destruct (Countdown.tick c) as [c' []]; reflexivity.
Qed.

Lemma core_on_settled fail srv s : core (fst (on_settled fail srv s)) = core s.
Proof.
  unfold on_settled. destruct (pending s); [done|].
  destruct (run_job fail srv j) as [srv' []]; reflexivity.
Qed.

Lemma sum_list_alter_S (l : list nat) i :
  i < length l -> sum_list (alter S i l) = S (sum_list l).
Proof.
  revert i. induction l as [|x l IH]; intros [|i] Hi; simpl in Hi; try lia.
  - change (alter S 0 (x :: l)) with (S x :: l). simpl. lia.
  - change (alter S (S i) (x :: l)) with (x :: alter S i l).
    change (sum_list (x :: alter S i l)) with (x + sum_list (alter S i l)).
    rewrite IH by lia. simpl. lia.
Qed.

Lemma card_shown_spec s :
  card_shown s = true ->
  exists qs, query s = Loaded qs /\ currentQuestionIndex s < length qs.
Proof.
  unfold card_shown, currentQuestion, questions. intros H. js_bools.
  destruct (query s) as [|qs|]; destruct H0 as [q Hq]; try discriminate.
  exists qs. split; [done|]. by apply lookup_lt_Some in Hq.
Qed.

Lemma next_shown_spec s :
  next_shown s = true ->
  exists qs, query s = Loaded qs /\ S (currentQuestionIndex s) < length qs.
Proof.
  unfold next_shown, questions. destruct (query s) as [|qs|]; try discriminate.
  intros H. apply Z.ltb_lt in H. exists qs. split; [done|lia].
Qed.

(** Navigation touches only the index. *)
Lemma goToPrevQuestion_other s :
  pending (goToPrevQuestion s) = pending s /\ countdown (goToPrevQuestion s) = countdown s /\
  navigatedTo (goToPrevQuestion s) = navigatedTo s.
Proof. unfold goToPrevQuestion. by case_decide. Qed.

Lemma goToNextQuestion_other s :
  pending (goToNextQuestion s) = pending s /\ countdown (goToNextQuestion s) = countdown s /\
  navigatedTo (goToNextQuestion s) = navigatedTo s.
Proof. unfold goToNextQuestion. destruct (questions s); [|done]. by destruct (_ <? _)%Z. Qed.

Lemma navigatedTo_on_countdown_tick params s :
  navigatedTo (on_countdown_tick params s) = navigatedTo s.
Proof.
  unfold on_countdown_tick. destruct (countdown s); [|done].
  by destruct (Countdown.tick c) as [c' []].
Qed.

#[export] Hint Resolve core_handleSubmitSession core_on_countdown_tick core_on_settled : js.

Lemma prepare_ok t s :
  page_inv s ->
  job_ok (prepare t (questions s) (answers s) (timer s) (questionTimers s)).
Proof.
  unfold page_inv, questions. destruct (query s) as [|qs|]; intros Hinv; simpl; try done.
  destruct Hinv as (Ha & Ht & _ & Hs).
  unfold correctAnswers. rewrite reduce_correct_spec by lia. simpl. intros sid.
  rewrite length_session_questions. repeat split.
  - rewrite length_filter_fmap_bool, session_questions_isCorrect by done. done.
  - intros Hpos. rewrite session_questions_timeSpent by done. apply Hs.
    unfold totalQuestions in Hpos. destruct qs; simpl in *; [lia|done].
  - apply session_questions_sessionId.
Qed.

Lemma jobs_ok_submit params s :
  page_inv s -> Forall job_ok (pending s) -> Forall job_ok (pending (handleSubmitSession params s)).
Proof. intros Hi Hj. simpl. apply Forall_app. split; [done|]. constructor; [|done]. by apply prepare_ok. Qed.

Lemma jobs_ok_countdown params s :
  page_inv s -> Forall job_ok (pending s) -> Forall job_ok (pending (on_countdown_tick params s)).
Proof.
  intros Hi Hj. unfold on_countdown_tick. destruct (countdown s); [|done].
  destruct (Countdown.tick c) as [c' []]; [|done].
  apply jobs_ok_submit; [|done]. by apply (page_inv_core s).
Qed.

Lemma pending_on_settled fail srv s :
  pending (fst (on_settled fail srv s)) = tail (pending s).
Proof.
  unfold on_settled. destruct (pending s) eqn:E; [done|].
  destruct (run_job fail srv j) as [srv' []]; reflexivity.
Qed.

Lemma step_fn_sound params e st st' : step_fn params e st = Some st' -> step params st e st'.
Proof.
  destruct st as [s srv]. intros H. destruct e; simpl in H; repeat (case_match; try discriminate);
    simplify_eq; js_bools; page_bools; econstructor; eauto.
Qed.

Lemma step_fn_complete params e st st' : step params st e st' -> step_fn params e st = Some st'.
Proof.
  intros H. inversion H; subst; simpl;
    repeat match goal with
    | H : ?b = false |- context [negb ?b] => rewrite H
    | H : ?b = true |- context [?b] => rewrite H
    | H : query _ = Loading |- _ => apply isLoading_iff in H
    | H : countdown _ = Some _ |- _ => rewrite H
    | H : questions _ = Some _ |- _ => rewrite H
    end; simpl; rewrite ?bool_decide_eq_true_2 by done; done.
Qed.

Lemma run_events_reachable params es st st' :
  run_events params es st = Some st' -> reachable params st -> reachable params st'.
Proof.
  revert st. induction es as [|e es IH]; intros st H Hr; simpl in H; [by simplify_eq|].
  destruct (step_fn params e st) as [st1|] eqn:E; [|discriminate].
  apply (IH st1); [done|]. econstructor; [exact Hr|]. by apply step_fn_sound.
Qed.

Lemma post_rows_sessions fail k srv rs : sessions (fst (post_rows fail k srv rs)) = sessions srv.
Proof.
  revert k srv. induction rs as [|r rs IH]; intros k srv; simpl; [done|].
  case_decide; [done|]. by rewrite IH.
Qed.

Lemma run_job_sessions fail srv j :
  exists extra, sessions (fst (run_job fail srv j)) = sessions srv ++ extra.
Proof.
  destruct j as [m|data mk]; simpl; [exists []; by rewrite app_nil_r|].
  case_decide; [exists []; by rewrite app_nil_r|].
  destruct (post_rows fail 1 _ _) as [srv2 ok] eqn:E. exists [(next_id srv, data)].
  simpl. pose proof (post_rows_sessions fail 1 (snd (post_session srv data)) (mk (next_id srv))) as P.
  simpl in P. rewrite E in P. simpl in P. by rewrite P.
Qed.

Lemma run_job_success_mem fail srv j srv' sid :
  run_job fail srv j = (srv', Success sid) -> exists data, (sid, data) ∈ sessions srv'.
Proof.
  destruct j as [m|data mk]; simpl; [discriminate|].
  case_decide; [discriminate|].
  destruct (post_rows fail 1 _ _) as [srv2 ok] eqn:E.
  pose proof (post_rows_sessions fail 1 (snd (post_session srv data)) (mk (next_id srv))) as P.
  simpl in P. rewrite E in P. destruct ok; [|discriminate]. intros [= <- <-]. exists data.
  simpl in P. rewrite P. set_solver.
Qed.

(** Steps other than settling leave the server unchanged. *)
Lemma step_server params s srv e s' srv' :
  step params (s, srv) e (s', srv') ->
  (srv' = srv) \/ (exists fail, (s', srv') = on_settled fail srv s).
Proof. intros H. inversion H; subst; eauto. Qed.

(** ** Properties *)

(** C19: every step preserves the page invariant: answers and per-question
    timers stay parallel to the questions, the current index stays on a
    question, and the per-question times add up to the session timer. *)
Theorem step_preserves_inv params st e st' :
  step params st e st' -> page_inv (fst st) -> page_inv (fst st').
Proof.
  intros Hstep Hinv. inversion Hstep; subst; simpl in *.
  - unfold page_inv in *. rewrite H0 in Hinv. destruct Hinv as (_ & _ & Hi & Ht).
    simpl. rewrite !length_replicate, Hi, Ht. repeat split; try done.
    + destruct qs; [right|left]; simpl; split || lia; done.
    + intros _. induction (length qs); simpl; lia.
  - unfold page_inv in *. rewrite H0 in Hinv. simpl. tauto.
  - unfold timer_active, isLoadingQuestions in H0. js_bools.
    unfold page_inv in *. simpl. destruct (query s) as [|qs|]; try done.
    + destruct Hinv as (Ha & Hq & Hi & Hs). rewrite length_alter. repeat split; try done.
      intros Hne. destruct Hi as [Hi|[-> _]]; [|done].
      rewrite sum_list_alter_S by lia. by rewrite Hs.
    + destruct Hinv as (Ha & Hq & Hi). by rewrite Hq.
  - eapply page_inv_core; [|exact Hinv]. by rewrite core_on_countdown_tick.
  - destruct (card_shown_spec s H0) as (qs & Hq & Hi).
    unfold page_inv in *. simpl. rewrite Hq in *. destruct Hinv as (Ha & Ht & _ & Hs).
    rewrite length_js_store_lt by lia. auto.
  - destruct (card_shown_spec s H0) as (qs & Hq & Hi).
    unfold goToPrevQuestion. case_decide; [|done].
    unfold page_inv in *. simpl. rewrite Hq in *. intuition lia.
  - destruct (next_shown_spec s H1) as (qs & Hq & Hi).
    unfold goToNextQuestion, questions. rewrite Hq.
    destruct (_ <? _)%Z; [|done]. unfold page_inv in *. simpl. rewrite Hq in *. intuition lia.
  - unfold questions in H1. destruct (query s) eqn:Hq; try discriminate. injection H1 as <-.
    unfold page_inv in *. simpl. rewrite Hq in *. intuition lia.
  - eapply page_inv_core; [|exact Hinv]. done.
  - eapply page_inv_core; [|exact Hinv]. by rewrite core_on_settled.
Qed.

(** Rule induction on [reachable]: the invariant and the jobs in flight. *)
Lemma reachable_page_jobs params st :
  reachable params st -> page_inv (fst st) /\ Forall job_ok (pending (fst st)).
Proof.
  induction 1 as [srv|st e st' Hr [Hi Hj] Hs].
  - simpl. unfold page_inv. simpl. repeat split; constructor.
  - split; [by eapply step_preserves_inv|].
    inversion Hs; subst; simpl in *.
    all: first [ done
               | by apply jobs_ok_countdown
               | by apply jobs_ok_submit
               | rewrite pending_on_settled; destruct (pending s); [done|]; by inversion Hj
               | unfold goToPrevQuestion; case_decide; done
               | unfold goToNextQuestion; destruct (questions s); [destruct (_ <? _)%Z|]; done ].
Qed.

(** C20: in every reachable state the invariant holds and every mutation in
    flight carries a session record consistent with its rows. *)
Theorem reachable_inv params st :
  reachable params st -> page_inv (fst st) /\ Forall job_ok (pending (fst st)).
Proof. apply reachable_page_jobs. Qed.

(** C21: in an untimed quiz at most one submission is in flight at any
    time: the submit action is disabled while one is pending, and nothing
    else submits. *)
Theorem untimed_single_flight params st :
  isTimed params = false -> reachable params st ->
  countdown (fst st) = None /\ length (pending (fst st)) <= 1.
Proof.
  intros Ht. induction 1 as [srv|st e st' Hr [Hc Hp] Hs].
  - unfold initial. rewrite Ht. simpl. split; [done|lia].
  - inversion Hs; subst; simpl in *.
    all: first [ split; [done|lia]
               | congruence
               | destruct (goToPrevQuestion_other s) as (-> & -> & _); split; [done|lia]
               | destruct (goToNextQuestion_other s) as (-> & -> & _); split; [done|lia]
               | idtac ].
    + unfold submit_enabled in H0. cbv zeta in H0. js_bools.
      match goal with Hp0 : pending s = [] |- _ => rewrite Hp0 end. simpl. split; [done|lia].
    + unfold on_settled. destruct (pending s) as [|j l]; [done|].
      destruct (run_job fail srv j) as [? []]; simpl in *; split; try done;
        destruct l; simpl in *; lia.
Qed.

(** C22: the results page the student is sent to after a successful
    submission is always that of a session that exists on the server. *)
Theorem navigated_session_exists params s srv sid :
  reachable params (s, srv) -> navigatedTo s = Some sid ->
  exists data, (sid, data) ∈ sessions srv.
Proof.
  intros Hr. remember (s, srv) as st eqn:Est. revert s srv sid Est.
  induction Hr as [srv0|st e st' Hr IH Hs]; intros s srv sid Est Hnav; subst; [by simplify_eq/=|].
  destruct st as [s0 srv0]. inversion Hs; subst; simpl in *;
    try by (eapply IH; [done|]; try done).
  - eapply IH; [done|]. by rewrite navigatedTo_on_countdown_tick in Hnav.
  - eapply IH; [done|]. by rewrite (proj2 (proj2 (goToPrevQuestion_other s0))) in Hnav.
  - eapply IH; [done|]. by rewrite (proj2 (proj2 (goToNextQuestion_other s0))) in Hnav.
  - unfold on_settled in *. destruct (pending s0) as [|j rest]; [done|].
    destruct (run_job fail srv0 j) as [srv1 out] eqn:Ej.
    pose proof (run_job_sessions fail srv0 j) as [extra Hex]. rewrite Ej in Hex. simpl in Hex.
    destruct out as [sid'|m]; simplify_eq/=.
    + eapply run_job_success_mem. exact Ej.
    + destruct (IH s0 srv0 sid eq_refl Hnav) as [d Hd]. exists d. rewrite Hex. set_solver.
Qed.

(** ** Concrete sessions *)

Definition one_question : Question := sample_question 7 "B".

(** [/practice?timed=true&timeLimit=1&count=1]: a one-minute timed quiz. *)
Definition timed_params : Params := mkParams None (Some "true") (Some "1") (Some "1").

(** [/practice?count=1]: an untimed quiz. *)
Definition untimed_params : Params := mkParams None None None (Some "1").

(** The student submits on the last second; the countdown then expires
    while the first submission is still in flight, and both settle. *)
Definition race_trace : list Event :=
  [ELoaded [one_question]; ESelect "B"; ESubmit] ++ repeat ECountdownTick 60 ++
  [ESettle None; ESettle None].

Definition untimed_trace : list Event :=
  [ELoaded [one_question]; ETick; ESelect "B"; ESubmit; ESettle None].

(** C23: in a timed quiz the expiry callback submits without checking that
    a submission is already pending, so one attempt can create two sessions
    on the server. *)
Theorem timed_double_submission :
  exists st, reachable timed_params st /\ length (sessions (snd st)) = 2.
Proof.
  destruct (run_events timed_params race_trace (initial timed_params, empty_server))
    as [st|] eqn:E; [|vm_compute in E; discriminate].
  exists st. split.
  - eapply run_events_reachable; [exact E|constructor].
  - vm_compute in E. injection E as <-. reflexivity.
Qed.

Lemma step_preserves_inv_witness :
  step timed_params (initial timed_params, empty_server) (ELoaded [one_question])
       (on_loaded [one_question] (initial timed_params), empty_server) /\
  page_inv (initial timed_params) /\ page_inv (on_loaded [one_question] (initial timed_params)).
Proof.
  assert (Hs : step timed_params (initial timed_params, empty_server) (ELoaded [one_question])
                 (on_loaded [one_question] (initial timed_params), empty_server))
    by (apply step_loaded; reflexivity).
  assert (Hi : page_inv (initial timed_params)) by (unfold page_inv; simpl; repeat split).
  split; [exact Hs|]. split; [exact Hi|].
  exact (step_preserves_inv _ _ _ _ Hs Hi).
Defined.

Lemma reachable_inv_witness :
  reachable timed_params (initial timed_params, empty_server) /\
  page_inv (initial timed_params) /\ Forall job_ok (pending (initial timed_params)).
Proof.
  assert (Hr : reachable timed_params (initial timed_params, empty_server)) by constructor.
  split; [exact Hr|]. exact (reachable_inv _ _ Hr).
Defined.

Lemma untimed_single_flight_witness :
  isTimed untimed_params = false /\
  reachable untimed_params (initial untimed_params, empty_server) /\
  countdown (initial untimed_params) = None /\ length (pending (initial untimed_params)) <= 1.
Proof.
  assert (Ht : isTimed untimed_params = false) by reflexivity.
  assert (Hr : reachable untimed_params (initial untimed_params, empty_server)) by constructor.
  split; [exact Ht|]. split; [exact Hr|]. exact (untimed_single_flight _ _ Ht Hr).
Defined.

Lemma navigated_session_exists_witness :
  exists s srv, reachable untimed_params (s, srv) /\ navigatedTo s = Some 1%Z /\
  exists data, (1%Z, data) ∈ sessions srv.
Proof.
  destruct (run_events untimed_params untimed_trace (initial untimed_params, empty_server))
    as [[s srv]|] eqn:E; [|vm_compute in E; discriminate].
  assert (Hr : reachable untimed_params (s, srv)) by (eapply run_events_reachable; [exact E|constructor]).
  assert (Hn : navigatedTo s = Some 1%Z) by (vm_compute in E; injection E as <- <-; reflexivity).
  exists s, srv. split; [exact Hr|]. split; [exact Hn|].
  exact (navigated_session_exists _ _ _ _ Hr Hn).
Defined.

End PracticeSession.
