(* ===== verification/Results.v ===== *)
(** * Results: the two pages that show a finished session

    Models src/client/src/pages/results/[id].tsx ([ResultsPage]) and
    src/client/src/pages/student/session-results.tsx ([SessionResults]).
    Both fetch a session and its rows joined with their questions and
    render them; the results page also holds a loading animation that a
    timer dismisses and raises a toast per failed query.  The data comes
    from the server store of [Submission]: the two GET endpoints are
    modelled from the spec (section 6) as lookups in that store. *)

From Stdlib Require Import ZArith QArith Qround Lia.
From stdpp Require Import base list strings.
From S2P Require Import Prelude Scorer Submission PracticeSession.

Module Results.
Import Scorer Submission PracticeSession.

(** ** Data *)

(** A row of [GET /api/sessions/:id/questions]: the stored row with its
    question ([SessionQuestion & { question: Question }]). *)
Record SessionQuestionView := mkSQV {
  sqv_row : InsertSessionQuestion;
  sqv_question : Question
}.

(** [GET /api/sessions/:id]: the stored session of that id. *)
Definition get_session (srv : Server) (id : Z) : option InsertSession :=
  snd <$> head (filter (λ p, p.1 = id) (sessions srv)).

(** [GET /api/sessions/:id/questions]: the rows of the session, in the order
    they were written, each with the question of its [questionId]. *)
Definition get_session_questions (bank : list Question) (srv : Server) (id : Z)
    : list SessionQuestionView :=
  omap (λ r, mkSQV r <$> head (filter (λ q, q_id q = sq_questionId r) bank))
       (filter (λ r, sq_sessionId r = id) (rows srv)).

(** The state of a [useQuery]: pending, failed with an [Error], or done. *)
Inductive Query (A : Type) :=
  | QLoading
  | QError (message : string)
  | QData (data : A).
Arguments QLoading {A}.
Arguments QError {A} message.
Arguments QData {A} data.

Definition is_loading {A} (q : Query A) : bool :=
  match q with QLoading => true | _ => false end.

Definition query_error {A} (q : Query A) : option string :=
  match q with QError m => Some m | _ => None end.

Definition query_data {A} (q : Query A) : option A :=
  match q with QData d => Some d | _ => None end.

(** Truthiness of a nullable integer column ([session.topicId ? ... : ...]). *)
Definition z_truthy (o : option Z) : bool :=
  match o with Some z => negb (z =? 0)%Z | None => false end.

(** ** [ResultsPage] (results/[id].tsx) *)

(** Lines 57-61 *)
Definition formatTime (seconds : Z) : string :=
  let mins := (seconds / 60)%Z in
  let secs := Z.rem seconds 60 in
  string_of_Z mins +:+ ":" +:+ (if (secs <? 10)%Z then "0" else "") +:+ string_of_Z secs.

(** Lines 128-133 *)
Definition scoreGrade (session : option InsertSession) : string :=
  match session with
  | None => ""
  | Some s =>
      let x := s_score s in
      if js_ge x 90 then "Excellent"
      else if js_ge x 80 then "Very Good"
      else if js_ge x 70 then "Good"
      else if js_ge x 60 then "Satisfactory"
      else "Needs Improvement"
  end.

(** Lines 135-140 *)
Definition scoreColor (session : option InsertSession) : string :=
  match session with
  | None => ""
  | Some s =>
      let x := s_score s in
      if js_ge x 90 then "bg-green-600"
      else if js_ge x 80 then "bg-green-500"
      else if js_ge x 70 then "bg-yellow-500"
      else if js_ge x 60 then "bg-yellow-600"
      else "bg-red-500"
  end.

(** The [if (sq.selectedOption === "A") ... else if ...] chains of lines
    272-276 and 317-326: the text of the option of that letter, or [""]. *)
Definition option_text (letter : option string) (q : Question) : string :=
  if opt_str_eqb letter "A" then q_optionA q
  else if opt_str_eqb letter "B" then q_optionB q
  else if opt_str_eqb letter "C" then q_optionC q
  else if opt_str_eqb letter "D" then q_optionD q
  else "".

Record CorrectItem := mkCorrectItem {
  ci_text : string;
  ci_answer : string;
  ci_time : string
}.

Record IncorrectItem := mkIncorrectItem {
  ii_text : string;
  ii_answer : string;
  ii_correct : string;
  ii_explanation : option string
}.

(** Lines 270-290 *)
Definition correct_item (sq : SessionQuestionView) : CorrectItem :=
  let r := sqv_row sq in let q := sqv_question sq in
  {| ci_text := q_text q;
     ci_answer := render_opt (sq_selectedOption r) +:+ ". "
                  +:+ or_str (option_text (sq_selectedOption r) q) "None";
     ci_time := formatTime (Z.of_nat (default 0 (sq_timeSpent r))) |}.

(** Lines 313-352 *)
Definition incorrect_item (sq : SessionQuestionView) : IncorrectItem :=
  let r := sqv_row sq in let q := sqv_question sq in
  {| ii_text := q_text q;
     ii_answer := render_opt (sq_selectedOption r) +:+ ". "
                  +:+ or_str (option_text (sq_selectedOption r) q) "None";
     ii_correct := q_correctOption q +:+ ". " +:+ option_text (Some (q_correctOption q)) q;
     ii_explanation := if truthy (q_explanation q) then q_explanation q else None |}.

(** The summary card and the breakdown (lines 143-363). *)
Record ResultsView := mkResultsView {
  rv_percent : JsNum;
  rv_grade : string;
  rv_color : string;
  rv_correct : nat;
  rv_total : nat;
  rv_progress : JsNum;
  rv_time : string;
  rv_avg : string;
  rv_topic : string;
  rv_practice_href : string;
  rv_correct_items : list CorrectItem;
  rv_incorrect_items : list IncorrectItem;
  rv_breakdown_total : nat
}.

(** [x || 1] on a count. *)
Definition or1 (n : nat) : nat := if decide (n = 0) then 1 else n.

(** Lines 127-253 and 255-363 *)
Definition results_view (session : option InsertSession)
    (sessionQuestions : option (list SessionQuestionView)) : ResultsView :=
  let correctQuestions := default [] (filter (λ sq, sq_isCorrect (sqv_row sq) = true) <$> sessionQuestions) in
  let incorrectQuestions := default [] (filter (λ sq, sq_isCorrect (sqv_row sq) = false) <$> sessionQuestions) in
  let correct := default 0 (s_correctAnswers <$> session) in
  let total := default 0 (s_totalQuestions <$> session) in
  let time := default 0 (s_timeSpent <$> session) in
  {| rv_percent := js_round (js_or0 (default JNaN (s_score <$> session)));
     rv_grade := scoreGrade session;
     rv_color := scoreColor session;
     rv_correct := correct;
     rv_total := total;
     rv_progress := js_mul (js_div (Q_of_nat correct) (Q_of_nat (or1 total))) 100;
     rv_time := formatTime (Z.of_nat time);
     rv_avg := formatTime (round_Q (Q_of_nat time / Q_of_nat (or1 total)));
     rv_topic :=
       if z_truthy (mjoin (s_topicId <$> session)) then
         match sessionQuestions ≫= head with
         | Some sq =>
             if z_truthy (q_topicId (sqv_question sq))
             then or_str (render_opt (q_subtopic (sqv_question sq))) "Specific Topic"
             else "General Practice"
         | None => "General Practice"
         end
       else "Mixed Topics";
     rv_practice_href :=
       "/practice" +:+
       (match mjoin (s_topicId <$> session) with
        | Some t => if z_truthy (Some t) then "/" +:+ string_of_Z t else ""
        | None => ""
        end);
     rv_correct_items := correct_item <$> correctQuestions;
     rv_incorrect_items := incorrect_item <$> incorrectQuestions;
     rv_breakdown_total := default 0 (length <$> sessionQuestions) |}.

(** The page state: the two queries, the animation flag (line 22) and the
    toasts raised so far (title, description). *)
Record ResultsPage := mkResultsPage {
  rp_session : Query InsertSession;
  rp_questions : Query (list SessionQuestionView);
  rp_showAnimation : bool;
  rp_toasts : list (string * string)
}.

Definition results_initial : ResultsPage := mkResultsPage QLoading QLoading true [].

(** What the page renders. *)
Inductive ResultsScreen :=
  | RLoading (progress : Z)
  | RError (message : string)
  | RShown (v : ResultsView).

(** Lines 82-146 *)
Definition results_screen (p : ResultsPage) : ResultsScreen :=
  let sessionLoading := is_loading (rp_session p) in
  let questionsLoading := is_loading (rp_questions p) in
  let sessionError := query_error (rp_session p) in
  let questionsError := query_error (rp_questions p) in
  if (sessionLoading || questionsLoading || rp_showAnimation p)
     && negb (present sessionError) && negb (present questionsError) then
    RLoading (if sessionLoading then 30 else if questionsLoading then 70 else 95)%Z
  else if present sessionError || present questionsError then
    RError (or_str (render_opt sessionError)
              (or_str (render_opt questionsError) "Unknown error occurred"))
  else RShown (results_view (query_data (rp_session p)) (query_data (rp_questions p))).

(** Lines 64-80: after a render in which either error changed, one toast
    per error present. *)
Definition error_toasts (p : ResultsPage) : list (string * string) :=
  match query_error (rp_session p) with
  | Some m => [("Error loading session", m)] | None => [] end ++
  match query_error (rp_questions p) with
  | Some m => [("Error loading questions", m)] | None => [] end.

Definition with_toasts (old new : ResultsPage) : ResultsPage :=
  if decide (query_error (rp_session old) = query_error (rp_session new) /\
             query_error (rp_questions old) = query_error (rp_questions new))
  then new
  else mkResultsPage (rp_session new) (rp_questions new) (rp_showAnimation new)
         (rp_toasts new ++ error_toasts new).

(** Lines 46-54: the 1500 ms timer is armed while both queries have data. *)
Definition animation_timer_armed (p : ResultsPage) : bool :=
  negb (is_loading (rp_session p)) && negb (is_loading (rp_questions p))
  && present (query_data (rp_session p))
  && present (query_data (rp_questions p)).

Inductive ResultsEvent :=
  | RSessionSettled (q : Query InsertSession)
  | RQuestionsSettled (q : Query (list SessionQuestionView))
  | RTimerFired.

(** A query settles once, from pending; the questions query runs only once
    the session has data ([enabled: !!session], line 42). *)
Definition results_step (p : ResultsPage) (e : ResultsEvent) : option ResultsPage :=
  match e with
  | RSessionSettled q =>
      if is_loading (rp_session p) && negb (is_loading q) then
        Some (with_toasts p (mkResultsPage q (rp_questions p) (rp_showAnimation p) (rp_toasts p)))
      else None
  | RQuestionsSettled q =>
      if present (query_data (rp_session p)) && is_loading (rp_questions p)
         && negb (is_loading q) then
        Some (with_toasts p (mkResultsPage (rp_session p) q (rp_showAnimation p) (rp_toasts p)))
      else None
  | RTimerFired =>
      if animation_timer_armed p then
        Some (mkResultsPage (rp_session p) (rp_questions p) false (rp_toasts p))
      else None
  end.

Fixpoint results_run (p : ResultsPage) (es : list ResultsEvent) : option ResultsPage :=
  match es with
  | [] => Some p
  | e :: es' => results_step p e ≫= λ p', results_run p' es'
  end.

(** ** [SessionResults] (student/session-results.tsx) *)

(** Line 73: no guard on [totalQuestions]. *)
Definition avgTimePerQuestion (session : option InsertSession) : JsNum :=
  match session with
  | Some s => js_floor (js_div (Q_of_nat (s_timeSpent s)) (Q_of_nat (s_totalQuestions s)))
  | None => JNum 0
  end.

(** Line 130 *)
Definition ringColor (score : JsNum) : string :=
  if js_ge score 80 then "#10B981" else if js_ge score 60 then "#F59E0B" else "#EF4444".

(** The [switch] statements of lines 211-217 and 256-262. *)
Definition selected_text (letter : option string) (q : Question) : string :=
  if opt_str_eqb letter "A" then q_optionA q
  else if opt_str_eqb letter "B" then q_optionB q
  else if opt_str_eqb letter "C" then q_optionC q
  else if opt_str_eqb letter "D" then q_optionD q
  else "Not answered".

Record SummaryView := mkSummaryView {
  sv_ring : string;
  sv_percent : string;
  sv_correct : string;
  sv_time : string;
  sv_avg : string;
  sv_incorrect : Z
}.

(** Lines 118-172 *)
Definition summary_view (s : InsertSession) : SummaryView :=
  let ratio := string_of_Z (Z.of_nat (s_correctAnswers s)) +:+ "/"
               +:+ string_of_Z (Z.of_nat (s_totalQuestions s)) in
  {| sv_ring := ringColor (s_score s);
     sv_percent := toFixed0 (s_score s) +:+ "%";
     sv_correct := ratio;
     sv_time := formatTime (Z.of_nat (s_timeSpent s));
     sv_avg := show_int (avgTimePerQuestion (Some s)) +:+ "s";
     sv_incorrect := (Z.of_nat (s_totalQuestions s) - Z.of_nat (s_correctAnswers s))%Z |}.

Inductive SummaryScreen :=
  | SSkeleton
  | SSummary (v : SummaryView)
  | SNotFound.

(** Lines 107-177 *)
Definition summary_screen (session : Query InsertSession) : SummaryScreen :=
  match session with
  | QLoading => SSkeleton
  | QData s => SSummary (summary_view s)
  | QError _ => SNotFound
  end.

Record ReviewItem := mkReviewItem {
  ri_text : string;
  ri_answer : string;
  ri_correct : option string;
  ri_time : option string;
  ri_explanation : option string
}.

(** Lines 207-231 *)
Definition review_correct (item : SessionQuestionView) : ReviewItem :=
  let r := sqv_row item in let q := sqv_question item in
  {| ri_text := q_text q;
     ri_answer := render_opt (sq_selectedOption r) +:+ ". " +:+ selected_text (sq_selectedOption r) q;
     ri_correct := None;
     ri_time := Some (match sq_timeSpent r with
                      | Some t => string_of_Z (Z.of_nat t) | None => "null" end +:+ "s");
     ri_explanation := None |}.

(** Lines 251-295: a correct option other than A-D leaves [correctText]
    empty. *)
Definition review_incorrect (item : SessionQuestionView) : ReviewItem :=
  let r := sqv_row item in let q := sqv_question item in
  {| ri_text := q_text q;
     ri_answer := render_opt (sq_selectedOption r) +:+ ". " +:+ selected_text (sq_selectedOption r) q;
     ri_correct := Some (q_correctOption q +:+ ". " +:+ option_text (Some (q_correctOption q)) q);
     ri_time := None;
     ri_explanation := if truthy (q_explanation q) then q_explanation q else None |}.

Inductive ReviewScreen :=
  | RvSkeleton
  | RvLists (correct incorrect : list ReviewItem) (correctBadge incorrectBadge : nat * nat)
  | RvEmpty.

(** Lines 189-309 *)
Definition review_screen (sessionQuestions : Query (list SessionQuestionView)) : ReviewScreen :=
  match sessionQuestions with
  | QLoading => RvSkeleton
  | QData ((_ :: _) as l) =>
      let c := filter (λ i, sq_isCorrect (sqv_row i) = true) l in
      let w := filter (λ i, sq_isCorrect (sqv_row i) = false) l in
      RvLists (review_correct <$> c) (review_incorrect <$> w)
              (length c, length l) (length w, length l)
  | _ => RvEmpty
  end.

(** Lines 59-65 *)
Definition practiceAgain (session : option InsertSession) : string :=
  match mjoin (s_topicId <$> session) with
  | Some t => if z_truthy (Some t) then "/practice/" +:+ string_of_Z t else "/practice"
  | None => "/practice"
  end.

(** Every session id and every row's session id is below the next id the
    server will hand out. *)
Definition fresh (srv : Server) : Prop :=
  Forall (λ p, (p.1 < next_id srv)%Z) (sessions srv) /\
  Forall (λ r, (sq_sessionId r < next_id srv)%Z) (rows srv).

(** The question bank answers for the question of row [r]. *)
Definition in_bank (bank : list Question) (r : InsertSessionQuestion) : Prop :=
  is_Some (head (filter (λ q, q_id q = sq_questionId r) bank)).

(** ** Lemmas *)

Lemma filter_app_split {A} (P : A -> Prop) `{!∀ x, Decision (P x)} l1 l2 :
  Forall (λ x, ~ P x) l1 -> Forall P l2 -> filter P (l1 ++ l2) = l2.
Proof.
  intros H1 H2. rewrite filter_app.
  induction H1 as [|x l1 Hx _ IH]; simpl.
  - induction H2 as [|y l2 Hy _ IH]; [done|]. rewrite filter_cons_True by done. by f_equal.
  - by rewrite filter_cons_False.
Qed.

Lemma get_session_post srv d rs n :
  Forall (λ p, (p.1 < next_id srv)%Z) (sessions srv) ->
  get_session (mkServer (sessions srv ++ [(next_id srv, d)]) rs n) (next_id srv) = Some d.
Proof.
  intros H. unfold get_session. simpl. rewrite (filter_app_split _ _ [(next_id srv, d)]).
  - done.
  - eapply Forall_impl; [done|]. simpl. intros p Hp E. lia.
  - by constructor.
Qed.

Lemma rows_post srv rs :
  Forall (λ r, (sq_sessionId r < next_id srv)%Z) (rows srv) ->
  Forall (λ r, sq_sessionId r = next_id srv) rs ->
  filter (λ r, sq_sessionId r = next_id srv) (rows srv ++ rs) = rs.
Proof.
  intros H1 H2. apply filter_app_split; [|done].
  eapply Forall_impl; [done|]. simpl. intros r Hr E. lia.
Qed.

Lemma join_rows bank rs :
  Forall (in_bank bank) rs ->
  sqv_row <$> omap (λ r, mkSQV r <$> head (filter (λ q, q_id q = sq_questionId r) bank)) rs = rs.
Proof.
  induction 1 as [|r rs [q Hq] _ IH]; [done|]. simpl. rewrite Hq. simpl. by f_equal.
Qed.

Lemma length_filter_views (b : bool) (l : list SessionQuestionView) :
  length (filter (λ sq, sq_isCorrect (sqv_row sq) = b) l) =
  length (filter (λ r, sq_isCorrect r = b) (sqv_row <$> l)).
Proof.
  induction l as [|x l IH]; [done|]. simpl.
  destruct (decide (sq_isCorrect (sqv_row x) = b)).
  - rewrite !filter_cons_True by done. simpl. by f_equal.
  - by rewrite !filter_cons_False.
Qed.

(** What the results page fetches right after the mutation has written the
    session and the rows [rs] under the next free id. *)
Lemma fetched_rows bank srv d rs :
  fresh srv ->
  Forall (λ r, sq_sessionId r = next_id srv) rs -> Forall (in_bank bank) rs ->
  sqv_row <$> get_session_questions bank
    (mkServer (sessions srv ++ [(next_id srv, d)]) (rows srv ++ rs) (next_id srv + 1))
    (next_id srv) = rs.
Proof.
  intros [_ Hr] Hs Hb. unfold get_session_questions. simpl.
  rewrite rows_post by done. by apply join_rows.
Qed.

Lemma length_filter_bool_split (l : list InsertSessionQuestion) :
  length (filter (λ r, sq_isCorrect r = false) l) =
  length l - length (filter (λ r, sq_isCorrect r = true) l).
Proof.
  induction l as [|r l IH]; [done|]. simpl. destruct (sq_isCorrect r) eqn:E.
  - rewrite filter_cons_False, filter_cons_True by (rewrite E; done). simpl. done.
  - rewrite filter_cons_True, filter_cons_False by (rewrite E; done). simpl.
    pose proof (length_filter (λ r, sq_isCorrect r = true) l). lia.
Qed.

Lemma review_screen_lists l :
  l <> [] ->
  review_screen (QData l) =
  RvLists (review_correct <$> filter (λ i, sq_isCorrect (sqv_row i) = true) l)
          (review_incorrect <$> filter (λ i, sq_isCorrect (sqv_row i) = false) l)
          (length (filter (λ i, sq_isCorrect (sqv_row i) = true) l), length l)
          (length (filter (λ i, sq_isCorrect (sqv_row i) = false) l), length l).
Proof. destruct l; [done|reflexivity]. Qed.

(** Toasts are raised only for errors. *)
Definition toasts_inv (p : ResultsPage) : Prop :=
  query_error (rp_session p) = None -> query_error (rp_questions p) = None -> rp_toasts p = [].

Lemma with_toasts_inv p q :
  toasts_inv p ->
  (query_error (rp_session q) = None -> query_error (rp_questions q) = None ->
   query_error (rp_session p) = None /\ query_error (rp_questions p) = None) ->
  rp_toasts q = rp_toasts p -> toasts_inv (with_toasts p q).
Proof.
  unfold toasts_inv, with_toasts. intros Hp Hq Ht. case_decide; simpl; intros Hs Hr.
  - destruct (Hq Hs Hr). by rewrite Ht, Hp.
  - destruct (Hq Hs Hr). unfold error_toasts. rewrite Ht, Hp, Hs, Hr by done. done.
Qed.

Lemma results_step_inv p e p' :
  toasts_inv p -> results_step p e = Some p' -> toasts_inv p'.
Proof.
  intros Hp. destruct e as [q|q|]; simpl; intros Hs.
  - destruct (is_loading (rp_session p)) eqn:L, (is_loading q); simplify_eq/=.
    apply with_toasts_inv; [done| |done]. simpl. destruct (rp_session p); done.
  - destruct (present _ && _ && _) eqn:L; simplify_eq/=. apply andb_true_iff in L as [L _].
    apply andb_true_iff in L as [_ L].
    apply with_toasts_inv; [done| |done]. simpl. destruct (rp_questions p); done.
  - destruct (animation_timer_armed p); simplify_eq/=. done.
Qed.

Lemma results_step_anim p e p' :
  results_step p e = Some p' -> rp_showAnimation p = true -> rp_showAnimation p' = false ->
  e = RTimerFired.
Proof.
  destruct e as [q|q|]; simpl; [| |done]; intros Hs Ha.
  - destruct (_ && _); simplify_eq/=. unfold with_toasts. case_decide; simpl; congruence.
  - destruct (_ && _ && _); simplify_eq/=. unfold with_toasts. case_decide; simpl; congruence.
Qed.

Lemma results_run_inv p es p' :
  toasts_inv p -> results_run p es = Some p' ->
  toasts_inv p' /\ (rp_showAnimation p = true -> rp_showAnimation p' = false -> RTimerFired ∈ es).
Proof.
  revert p. induction es as [|e es IH]; intros p Hp; simpl.
  - intros [= <-]. split; [done|]. congruence.
  - destruct (results_step p e) as [p1|] eqn:E; [|done]. simpl. intros Hr.
    destruct (IH p1 (results_step_inv _ _ _ Hp E) Hr) as [Hi Ha]. split; [done|].
    intros H1 H2. destruct (rp_showAnimation p1) eqn:A1.
    + right. by apply Ha.
    + rewrite (results_step_anim _ _ _ E H1 A1). left.
Qed.

Lemma results_screen_shown p v :
  results_screen p = RShown v ->
  exists s qs, rp_session p = QData s /\ rp_questions p = QData qs /\ rp_showAnimation p = false /\
    v = results_view (Some s) (Some qs).
Proof.
  unfold results_screen.
  destruct (rp_session p), (rp_questions p), (rp_showAnimation p); simpl; intros H; simplify_eq; eauto 10.
Qed.

(** The rank of a grade of [scoreGrade], from "Needs Improvement" (0) to
    "Excellent" (4). *)
Definition grade_rank (g : string) : nat :=
  if bool_decide (g = "Excellent") then 4
  else if bool_decide (g = "Very Good") then 3
  else if bool_decide (g = "Good") then 2
  else if bool_decide (g = "Satisfactory") then 1
  else 0.

Lemma Qle_bool_mono k x y : Qle_bool k x = true -> (x <= y)%Q -> Qle_bool k y = true.
Proof. rewrite !Qle_bool_iff. intros; eapply Qle_trans; eauto. Qed.

Ltac qle_contra :=
  match goal with
  | H1 : Qle_bool ?k ?x = true, H2 : Qle_bool ?k ?y = false, Hxy : (?x <= ?y)%Q |- _ =>
      rewrite (Qle_bool_mono k x y H1 Hxy) in H2; discriminate
  end.

Lemma Qle_bool_anti k x y : Qle_bool k y = false -> (x <= y)%Q -> Qle_bool k x = false.
Proof.
  intros Hy Hxy. destruct (Qle_bool k x) eqn:E; [|done].
  rewrite (Qle_bool_mono k x y E Hxy) in Hy. done.
Qed.

(** The state a settled submission leaves: the session [d] under the old
    [next_id], and the rows [rs] after the old rows. *)
Lemma results_view_fetched bank srv d rs :
  fresh srv ->
  Forall (λ r, sq_sessionId r = next_id srv) rs -> Forall (in_bank bank) rs ->
  let srv' := mkServer (sessions srv ++ [(next_id srv, d)]) (rows srv ++ rs) (next_id srv + 1) in
  let v := results_view (get_session srv' (next_id srv))
             (Some (get_session_questions bank srv' (next_id srv))) in
  rv_correct v = s_correctAnswers d /\ rv_total v = s_totalQuestions d /\
  length (rv_correct_items v) = length (filter (λ r, sq_isCorrect r = true) rs) /\
  rv_breakdown_total v = length rs.
Proof.
  intros Hf Hs Hb. simpl. pose proof Hf as [Hf1 _].
  rewrite get_session_post by done. simpl.
  rewrite length_fmap, length_filter_views, fetched_rows by done.
  split; [done|]. split; [done|]. split; [done|].
  rewrite <- (fetched_rows bank srv d rs) at 2 by done. by rewrite length_fmap.
Qed.

(** ** Properties *)

(** The results page shows the summary only once both queries have
    data and the animation has been dismissed, and then shows exactly the
    view of that data; the loading screen's progress is 30 while the
    session loads, 70 while the questions load and 95 during the
    animation; any error replaces the page by the error card. *)
Theorem results_screen_cases p :
  match results_screen p with
  | RLoading n =>
      query_error (rp_session p) = None /\ query_error (rp_questions p) = None /\
      n = (if is_loading (rp_session p) then 30
           else if is_loading (rp_questions p) then 70 else 95)%Z
  | RError m => query_error (rp_session p) <> None \/ query_error (rp_questions p) <> None
  | RShown v => exists s qs,
      rp_session p = QData s /\ rp_questions p = QData qs /\ rp_showAnimation p = false /\
      v = results_view (Some s) (Some qs)
  end.
Proof.
  destruct (results_screen p) eqn:E; [| |by apply results_screen_shown].
  all: revert E; unfold results_screen.
  all: destruct (rp_session p), (rp_questions p), (rp_showAnimation p); simpl;
       intros H; simplify_eq; auto; try (left; discriminate); right; discriminate.
Qed.

(** C29: along any sequence of events from the first render, the summary is
    shown only after the animation timer has fired, and then no error toast
    has been raised. *)
Theorem results_run_shown es p v :
  results_run results_initial es = Some p -> results_screen p = RShown v ->
  RTimerFired ∈ es /\ rp_toasts p = [].
Proof.
  intros Hr Hs. destruct (results_run_inv results_initial es p) as [Hi Ha]; [done|done|].
  destruct (results_screen_shown p v Hs) as (s & qs & E1 & E2 & E3 & _).
  split; [by apply Ha|]. apply Hi; by rewrite ?E1, ?E2.
Qed.

(** The grade badge is monotone in the score: a higher finite score
    never gets a lower grade. *)
Theorem scoreGrade_monotone s1 s2 x y :
  s_score s1 = JNum x -> s_score s2 = JNum y -> (x <= y)%Q ->
  grade_rank (scoreGrade (Some s1)) <= grade_rank (scoreGrade (Some s2)).
Proof.
  intros E1 E2 Hxy. unfold scoreGrade. rewrite E1, E2. simpl.
  repeat match goal with |- context [if Qle_bool ?k ?z then _ else _] => destruct (Qle_bool k z) eqn:? end.
  all: first [ apply Nat.leb_le; vm_compute; reflexivity | exfalso; qle_contra ].
Qed.

(** C31: when the submission the practice page has in flight settles
    without failure on a server whose ids are fresh, both result pages agree
    with the session record: the results page lists as many correct answers
    as the record's [correctAnswers] and as many rows as its
    [totalQuestions], and the session-results page's badges read
    [correctAnswers / totalQuestions] and
    [(totalQuestions - correctAnswers) / totalQuestions].  The job is the
    one a reachable page built; its consistency is proved, not assumed. *)
Theorem results_after_submit params bank s srv data mkRows rest srv' sid :
  reachable params (s, srv) -> pending s = JobPost data mkRows :: rest ->
  fresh srv -> Forall (in_bank bank) (mkRows (next_id srv)) ->
  run_job None srv (JobPost data mkRows) = (srv', Success sid) ->
  let sqs := get_session_questions bank srv' sid in
  let v := results_view (get_session srv' sid) (Some sqs) in
  rv_correct v = length (rv_correct_items v) /\ rv_breakdown_total v = rv_total v /\
  (0 < rv_total v -> exists c w, review_screen (QData sqs) =
     RvLists c w (rv_correct v, rv_total v) (rv_total v - rv_correct v, rv_total v)).
Proof.
  intros Hreach Hp Hf Hb Hr.
  destruct (reachable_page_jobs params _ Hreach) as [_ Hj]. simpl in Hj. rewrite Hp in Hj.
  apply Forall_cons_1 in Hj as [Hj _]. destruct (Hj (next_id srv)) as (Hlen & Hc & _ & Hs).
  revert Hr. unfold run_job. case_decide; [discriminate|]. simpl.
  rewrite post_rows_ok by (intros; discriminate). intros [= <- <-].
  destruct (results_view_fetched bank srv data _ Hf Hs Hb) as (E1 & E2 & E3 & E4).
  simpl in *. rewrite E1, E2, E3, E4, Hc, Hlen. split; [done|]. split; [done|].
  intros Hpos. pose proof (fetched_rows bank srv data _ Hf Hs Hb) as Hrows.
  set (sqs := get_session_questions _ _ _) in *. clearbody sqs.
  destruct sqs as [|x l]; [rewrite <- Hrows in Hlen; simpl in Hlen; lia|]. eexists _, _. f_equal; f_equal.
  all: first [ by rewrite length_filter_views, Hrows
              | by rewrite <- Hlen, <- Hrows, length_fmap
              | rewrite length_filter_views, Hrows, length_filter_bool_split; lia ].
Qed.

(** C32: the write is not atomic, and the results page shows it: when the
    request for row [k] fails, the session is still served under its id,
    the summary reports all [totalQuestions] questions, and the breakdown
    lists only the [k] rows written before the failure. *)
Theorem results_after_partial bank srv data mkRows k srv' m :
  fresh srv -> job_ok (JobPost data mkRows) -> Forall (in_bank bank) (mkRows (next_id srv)) ->
  k < s_totalQuestions data ->
  run_job (Some (S k)) srv (JobPost data mkRows) = (srv', Failure m) ->
  let v := results_view (get_session srv' (next_id srv))
             (Some (get_session_questions bank srv' (next_id srv))) in
  get_session srv' (next_id srv) = Some data /\
  rv_total v = s_totalQuestions data /\ rv_breakdown_total v = k /\ k < rv_total v.
Proof.
  intros Hf Hj Hb Hk Hr. destruct (Hj (next_id srv)) as (Hlen & _ & _ & Hs).
  revert Hr. unfold run_job. case_decide; [discriminate|]. simpl.
  rewrite (post_rows_fail 1 _ _ (S k)) by lia. simpl. rewrite Nat.sub_0_r. intros [= <- _].
  destruct (results_view_fetched bank srv data (take k (mkRows (next_id srv))) Hf)
    as (E1 & E2 & _ & E4).
  - by apply Forall_take.
  - by apply Forall_take.
  - simpl in *. rewrite E2, E4, length_take, get_session_post by apply Hf. split; [done|]. lia.
Qed.

(** ** Witnesses *)

Definition two_bank : list Question := [sample_question 1 "B"; sample_question 2 "A"].

Lemma two_rows_job_ok : job_ok (JobPost two_question_session two_rows).
Proof. intros sid. simpl. repeat split; repeat constructor. Qed.

Lemma two_rows_in_bank sid : Forall (in_bank two_bank) (two_rows sid).
Proof. repeat constructor; unfold in_bank; simpl; eexists; reflexivity. Qed.

Lemma empty_server_fresh : fresh empty_server.
Proof. split; constructor. Qed.

(** An untimed one-question quiz, answered and submitted. *)
Definition submit_trace : list Event := [ELoaded [one_question]; ETick; ESelect "B"; ESubmit].

Lemma results_after_submit_witness :
  ∃ s data mkRows srv' sid,
    reachable untimed_params (s, empty_server) /\ pending s = [JobPost data mkRows] /\
    fresh empty_server /\ Forall (in_bank [one_question]) (mkRows (next_id empty_server)) /\
    run_job None empty_server (JobPost data mkRows) = (srv', Success sid) /\
    let sqs := get_session_questions [one_question] srv' sid in
    let v := results_view (get_session srv' sid) (Some sqs) in
    rv_correct v = length (rv_correct_items v) /\ rv_breakdown_total v = rv_total v /\
    (0 < rv_total v -> exists c w, review_screen (QData sqs) =
       RvLists c w (rv_correct v, rv_total v) (rv_total v - rv_correct v, rv_total v)).
Proof.
  destruct (run_events untimed_params submit_trace (initial untimed_params, empty_server))
    as [[s srv]|] eqn:E; [|vm_compute in E; discriminate].
  assert (Hr : reachable untimed_params (s, srv)) by (eapply run_events_reachable; [exact E|constructor]).
  vm_compute in E. injection E as <- <-.
  eexists _, _, _, _, _. split; [exact Hr|]. split; [reflexivity|].
  split; [exact empty_server_fresh|]. split; [apply Forall_singleton; eexists; reflexivity|]. split; [reflexivity|].
  eapply (results_after_submit untimed_params [one_question]);
    [exact Hr|reflexivity|exact empty_server_fresh|apply Forall_singleton; eexists; reflexivity|reflexivity].
Defined.

Lemma results_after_partial_witness :
  fresh empty_server /\ job_ok (JobPost two_question_session two_rows) /\
  Forall (in_bank two_bank) (two_rows (next_id empty_server)) /\
  1 < s_totalQuestions two_question_session /\
  run_job (Some 2) empty_server (JobPost two_question_session two_rows) =
    (fst (run_job (Some 2) empty_server (JobPost two_question_session two_rows)),
     Failure "POST /api/sessions/:id/questions failed") /\
  let srv' := fst (run_job (Some 2) empty_server (JobPost two_question_session two_rows)) in
  let v := results_view (get_session srv' 1) (Some (get_session_questions two_bank srv' 1)) in
  get_session srv' 1 = Some two_question_session /\
  rv_total v = s_totalQuestions two_question_session /\ rv_breakdown_total v = 1 /\ 1 < rv_total v.
Proof.
  assert (Hr : run_job (Some 2) empty_server (JobPost two_question_session two_rows) =
    (fst (run_job (Some 2) empty_server (JobPost two_question_session two_rows)),
     Failure "POST /api/sessions/:id/questions failed")) by reflexivity.
  assert (Hk : 1 < s_totalQuestions two_question_session) by (simpl; lia).
  refine (conj empty_server_fresh (conj two_rows_job_ok (conj (two_rows_in_bank _) (conj Hk (conj Hr _))))).
  exact (results_after_partial two_bank empty_server two_question_session two_rows 1 _ _
           empty_server_fresh two_rows_job_ok (two_rows_in_bank _) Hk Hr).
Defined.

Definition shown_trace : list ResultsEvent :=
  [RSessionSettled (QData two_question_session);
   RQuestionsSettled (QData [mkSQV (mkInsertSessionQuestion 1 1 None false (Some 3)) (sample_question 1 "B")]);
   RTimerFired].

Lemma results_run_shown_witness :
  exists p v, results_run results_initial shown_trace = Some p /\ results_screen p = RShown v /\
  RTimerFired ∈ shown_trace /\ rp_toasts p = [].
Proof.
  do 2 eexists. split; [reflexivity|]. split; [reflexivity|].
  eapply results_run_shown; reflexivity.
Defined.

Lemma scoreGrade_monotone_witness :
  s_score two_question_session = JNum 50 /\
  s_score (mkInsertSession 0 None 10 7 (JNum 70) 0) = JNum 70 /\ (50 <= 70)%Q /\
  grade_rank (scoreGrade (Some two_question_session)) <=
  grade_rank (scoreGrade (Some (mkInsertSession 0 None 10 7 (JNum 70) 0))).
Proof.
  assert (H : (50 <= 70)%Q) by (apply Qle_bool_iff; reflexivity).
  refine (conj eq_refl (conj eq_refl (conj H _))).
  exact (scoreGrade_monotone two_question_session (mkInsertSession 0 None 10 7 (JNum 70) 0) 50 70 eq_refl eq_refl H).
Defined.

End Results.
