(* ===== verification/SessionResults.v ===== *)
(** * SessionResults: the student's session results page as a whole

    src/client/src/pages/student/session-results.tsx ([SessionResults]):
    the three queries of lines 14-43 as a page state driven by their
    answers, the header and subtitle (lines 74-104), the review card's
    header (178-188), the three navigation buttons (52-72, 310-331), and
    the screens of [Results] ([summary_screen], [review_screen]) the page
    composes.  The date of the subtitle ([new Date(session.completedAt)
    .toLocaleDateString()]) is a section parameter: the stored session's
    [completedAt] is set by the server and formatting is library code. *)

From Stdlib Require Import ZArith QArith Lia.
From stdpp Require Import base list strings.
From S2P Require Import Prelude Scorer Submission Results.

Module SessionResults.
Import Scorer Submission Results.

(** The state: the three queries and where the page has navigated.  The
    topic query keeps no data while it is disabled; the page reads only
    the topic's [name]. *)
Record Page := mkPage {
  session : Query InsertSession;
  sessionQuestions : Query (list SessionQuestionView);
  topic : Query string;
  navigatedTo : option string
}.

Definition initial : Page := mkPage QLoading QLoading QLoading None.

(** Line 42: [enabled: !!session?.topicId]. *)
Definition topic_enabled (p : Page) : bool :=
  z_truthy (mjoin (s_topicId <$> query_data (session p))).

Inductive Event :=
  | SessionAnswered (q : Query InsertSession)                  (* lines 15-22 *)
  | QuestionsAnswered (q : Query (list SessionQuestionView))   (* lines 25-32 *)
  | TopicAnswered (q : Query string)                           (* lines 35-43 *)
  | ClickReturn                                                (* line 315 *)
  | ClickPracticeAgain                                         (* line 320 *)
  | ClickTryDifferent.                                         (* line 324 *)

(** A query answers once, and the topic query only while enabled.  The
    buttons are rendered in every state of the page. *)
Definition step (p : Page) (e : Event) : option Page :=
  match e with
  | SessionAnswered q =>
      if is_loading (session p) && negb (is_loading q)
      then Some (mkPage q (sessionQuestions p) (topic p) (navigatedTo p)) else None
  | QuestionsAnswered q =>
      if is_loading (sessionQuestions p) && negb (is_loading q)
      then Some (mkPage (session p) q (topic p) (navigatedTo p)) else None
  | TopicAnswered q =>
      if topic_enabled p && is_loading (topic p) && negb (is_loading q)
      then Some (mkPage (session p) (sessionQuestions p) q (navigatedTo p)) else None
  | ClickReturn => Some (mkPage (session p) (sessionQuestions p) (topic p) (Some "/"))   (* lines 53-55 *)
  | ClickPracticeAgain =>                                                                 (* lines 58-65 *)
      Some (mkPage (session p) (sessionQuestions p) (topic p) (Some (practiceAgain (query_data (session p)))))
  | ClickTryDifferent => Some (mkPage (session p) (sessionQuestions p) (topic p) (Some "/"))   (* lines 68-70 *)
  end.

Definition run : Page -> list Event -> option Page := run_steps step.

Section View.
Context (completedDate : InsertSession -> string).

Record View := mkView {
  v_subtitle : string;
  v_summary : SummaryScreen;
  v_review : ReviewScreen
}.

(** Lines 94-309: [{topic?.name || "All Topics"} - {date}], then the two
    cards. *)
Definition view (p : Page) : View :=
  mkView (or_str (default "" (query_data (topic p))) "All Topics" +:+ " - " +:+
          default "" (completedDate <$> query_data (session p)))
    (summary_screen (session p)) (review_screen (sessionQuestions p)).

End View.

(** ** The topic in the subtitle *)

(** The page's invariant: the topic has answered only for a session with
    a topic. *)
Definition topic_inv (p : Page) : Prop :=
  is_loading (topic p) = false -> topic_enabled p = true.

Lemma step_topic_inv p e p' : topic_inv p -> step p e = Some p' -> topic_inv p'.
Proof.
  unfold topic_inv. intros Hi Hs. destruct e; cbn in Hs.
  - destruct (is_loading (session p)) eqn:Hl; cbn in Hs; [|discriminate].
    destruct (is_loading q); cbn in Hs; [discriminate|]. injection Hs as <-.
    assert (He : topic_enabled p = false) by (unfold topic_enabled; by destruct (session p)).
    destruct (topic p); cbn; [done| |]; intros _; specialize (Hi eq_refl); congruence.
  - destruct (_ && _); [injection Hs as <-|discriminate]. exact Hi.
  - destruct (topic_enabled p) eqn:He; [|discriminate].
    destruct (_ && _); [injection Hs as <-|discriminate]. by intros _.
  - injection Hs as <-. exact Hi.
  - injection Hs as <-. exact Hi.
  - injection Hs as <-. exact Hi.
Qed.

Lemma run_topic_inv es p p' : topic_inv p -> run p es = Some p' -> topic_inv p'.
Proof. intros Hp Hr. eapply (run_steps_inv step topic_inv); [exact step_topic_inv|exact Hp|exact Hr]. Qed.

(** Whatever happens on the page, a loaded session without a topic shows
    "All Topics" in the subtitle: its topic query never answers. *)
Theorem no_topic_subtitle completedDate es p s :
  run initial es = Some p -> session p = QData s -> z_truthy (s_topicId s) = false ->
  v_subtitle (view completedDate p) = "All Topics - " +:+ completedDate s.
Proof.
  intros Hr Hs Ht. pose proof (run_topic_inv es initial p ltac:(done) Hr) as Hi.
  unfold topic_inv, topic_enabled in Hi. rewrite Hs in Hi. cbn in Hi. rewrite Ht in Hi.
  unfold view. rewrite Hs. cbn.
  destruct (topic p); cbn; [done| |]; by specialize (Hi eq_refl).
Qed.

End SessionResults.
