(* ===== verification/Url.v ===== *)
(** * Url: the browser's URL handling the pages rely on

    The quiz dialogs hand their settings to the practice page through the
    URL: they [navigate] to a path with a query string, and the page reads
    [window.location.search] with [URLSearchParams] and its route parameter
    from the router's pattern [/practice/:topicId?] (src/client/src/App.tsx,
    line 34).  This file defines the parts of that machinery the round trip
    goes through: the URL parser's handling of a path-absolute location
    ([parse_location]: trimming of leading and trailing C0 controls and
    spaces, removal of tabs and newlines, the fragment after [#], the
    query after [?], backslashes as slashes, percent-encoding of the path
    and query, resolution of [.] and [..] segments, a [//] prefix that
    names another host), the
    [application/x-www-form-urlencoded] parser behind [URLSearchParams]
    ([&]-separated pairs, [=] between name and value, [+] as space, [%XX]
    escapes of ASCII bytes), its serializer, and the match of the route
    pattern.  These are library behaviours, not code of the repository. *)

From Stdlib Require Import Ascii ZArith Lia.
From stdpp Require Import base list strings.
From S2P Require Import Prelude.

Module Url.

(** A location cut at its first [?]: the path and the query with its
    leading [?]. *)
Fixpoint split_query (s : string) : string * string :=
  match s with
  | EmptyString => (EmptyString, EmptyString)
  | String c s' =>
      if ascii_dec c "?"%char then (EmptyString, s)
      else let '(p, q) := split_query s' in (String c p, q)
  end.

(** Name and value of one pair, cut at the first [=]. *)
Fixpoint break_eq (s : string) : string * string :=
  match s with
  | EmptyString => (EmptyString, EmptyString)
  | String c s' =>
      if ascii_dec c "="%char then (EmptyString, s')
      else let '(n, v) := break_eq s' in (String c n, v)
  end.

Definition hex_val (c : ascii) : option nat :=
  let n := nat_of_ascii c in
  if (48 <=? n) && (n <=? 57) then Some (n - 48)
  else if (65 <=? n) && (n <=? 70) then Some (n - 55)
  else if (97 <=? n) && (n <=? 102) then Some (n - 87)
  else None.

(** Percent-decoding of ASCII bytes and [+] as space. *)
Fixpoint url_decode (s : string) : string :=
  match s with
  | EmptyString => EmptyString
  | String c s' =>
      if ascii_dec c "%"%char then
        match s' with
        | String h1 (String h2 rest) =>
            match hex_val h1, hex_val h2 with
            | Some a, Some b =>
                if (16 * a + b <? 128) then String (ascii_of_nat (16 * a + b)) (url_decode rest)
                else String c (url_decode s')
            | _, _ => String c (url_decode s')
            end
        | _ => String c (url_decode s')
        end
      else if ascii_dec c "+"%char then String " "%char (url_decode s')
      else String c (url_decode s')
  end.

(** [new URLSearchParams(search)]: the leading [?] is dropped and empty
    pieces are skipped. *)
Definition search_pairs (search : string) : list (string * string) :=
  let body := match search with
              | String c b => if ascii_dec c "?"%char then b else search
              | EmptyString => EmptyString
              end in
  (λ piece, let '(n, v) := break_eq piece in (url_decode n, url_decode v))
    <$> filter (λ piece, piece ≠ EmptyString) (split_on "&"%char body).

(** [params.get(name)]: the first value of that name, [null] if none. *)
Fixpoint lookup_first (name : string) (pairs : list (string * string)) : option string :=
  match pairs with
  | [] => None
  | (n, v) :: rest => if decide (n = name) then Some v else lookup_first name rest
  end.

Definition search_get (search name : string) : option string :=
  lookup_first name (search_pairs search).

Definition is_unreserved (c : ascii) : bool :=
  let n := nat_of_ascii c in
  ((48 <=? n) && (n <=? 57)) || ((65 <=? n) && (n <=? 90)) || ((97 <=? n) && (n <=? 122)) ||
  bool_decide (c = "*"%char) || bool_decide (c = "-"%char) ||
  bool_decide (c = "."%char) || bool_decide (c = "_"%char).

Definition hex_digit (n : nat) : ascii :=
  if n <? 10 then ascii_of_nat (48 + n) else ascii_of_nat (55 + n).

(** The serializer behind [URLSearchParams.toString()], for ASCII. *)
Fixpoint form_encode (s : string) : string :=
  match s with
  | EmptyString => EmptyString
  | String c s' =>
      if is_unreserved c then String c (form_encode s')
      else if ascii_dec c " "%char then String "+"%char (form_encode s')
      else String "%"%char (String (hex_digit (nat_of_ascii c / 16))
             (String (hex_digit (nat_of_ascii c mod 16)) (form_encode s')))
  end.

(** ** The URL parser

    [navigate(path)] and [fetch(url)] resolve a path against the page's
    URL with the WHATWG URL parser; the page then reads [pathname] and
    [search].  Modelled for the path-absolute inputs the code builds:
    leading and trailing C0 controls and spaces are trimmed, tabs and
    newlines removed anywhere, the fragment cut at the first [#], the
    query at the first [?]; in the path [\] counts as [/], the bytes of
    the path percent-encode set are escaped and the dot segments ([.],
    [..], also written with [%2e]) are resolved; the bytes of the query
    percent-encode set are escaped in the query.  An input that does not
    start with a slash, or that starts with two (another host), is outside
    the model and gives [None]. *)

Definition code_in (c : ascii) (codes : list nat) : bool := bool_decide (nat_of_ascii c ∈ codes).

Definition is_tab_or_newline (c : ascii) : bool := code_in c [9; 10; 13].
Definition c0_or_space (c : ascii) : bool := nat_of_ascii c <=? 32.

Fixpoint str_filter (p : ascii -> bool) (s : string) : string :=
  match s with
  | EmptyString => EmptyString
  | String c s' => if p c then String c (str_filter p s') else str_filter p s'
  end.

Fixpoint trim_left (p : ascii -> bool) (s : string) : string :=
  match s with
  | String c s' => if p c then trim_left p s' else s
  | EmptyString => EmptyString
  end.

Fixpoint trim_right (p : ascii -> bool) (s : string) : string :=
  match s with
  | EmptyString => EmptyString
  | String c s' =>
      let r := trim_right p s' in
      if bool_decide (r = EmptyString) && p c then EmptyString else String c r
  end.

Fixpoint before_hash (s : string) : string :=
  match s with
  | EmptyString => EmptyString
  | String c s' => if ascii_dec c "#"%char then EmptyString else String c (before_hash s')
  end.

Fixpoint str_map (f : ascii -> ascii) (s : string) : string :=
  match s with EmptyString => EmptyString | String c s' => String (f c) (str_map f s') end.

Definition backslash_to_slash (c : ascii) : ascii :=
  if ascii_dec c (ascii_of_nat 92) then "/"%char else c.

(** The path and query percent-encode sets: C0 controls and bytes above
    [~], and space, the double quote, [#], [<], [>], plus [?], [`], [{],
    [}] in a path and ['] in the query of a special URL. *)
Definition path_set (c : ascii) : bool :=
  (nat_of_ascii c <? 32) || (126 <? nat_of_ascii c) || code_in c [32; 34; 35; 60; 62; 63; 96; 123; 125].
Definition query_set (c : ascii) : bool :=
  (nat_of_ascii c <? 32) || (126 <? nat_of_ascii c) || code_in c [32; 34; 35; 39; 60; 62].

Fixpoint pct_encode (set : ascii -> bool) (s : string) : string :=
  match s with
  | EmptyString => EmptyString
  | String c s' =>
      if set c then String "%"%char (String (hex_digit (nat_of_ascii c / 16))
                      (String (hex_digit (nat_of_ascii c mod 16)) (pct_encode set s')))
      else String c (pct_encode set s')
  end.

Definition single_dots : list string := ["."; "%2e"; "%2E"].
Definition double_dots : list string :=
  [".."; ".%2e"; ".%2E"; "%2e."; "%2E."; "%2e%2e"; "%2E%2E"; "%2e%2E"; "%2E%2e"].

(** The path state's handling of each segment: [..] drops the last one,
    [.] is skipped, and either leaves an empty segment when it ends the
    path. *)
Fixpoint resolve_dots (acc : list string) (segs : list string) : list string :=
  match segs with
  | [] => reverse acc
  | seg :: rest =>
      let last := bool_decide (rest = []) in
      if bool_decide (seg ∈ double_dots) then
        resolve_dots (if last then EmptyString :: tail acc else tail acc) rest
      else if bool_decide (seg ∈ single_dots) then
        resolve_dots (if last then EmptyString :: acc else acc) rest
      else resolve_dots (seg :: acc) rest
  end.

(** [location.search]: empty for no query or a bare [?]. *)
Definition url_search (q : string) : string :=
  match q with
  | String _ (String c q') => String "?"%char (pct_encode query_set (String c q'))
  | _ => EmptyString
  end.

(** [(location.pathname, location.search)] after navigating to [s]. *)
Definition parse_location (s : string) : option (string * string) :=
  let s1 := str_filter (λ c, negb (is_tab_or_newline c))
              (trim_right c0_or_space (trim_left c0_or_space s)) in
  let '(p, q) := split_query (before_hash s1) in
  match str_map backslash_to_slash p with
  | String c body =>
      if ascii_dec c "/"%char then
        if starts_with "/" body then None
        else Some (String "/"%char (String.concat "/" (resolve_dots [] (split_on "/"%char (pct_encode path_set body)))),
                   url_search q)
      else None
  | EmptyString => None
  end.

(** The route [/practice/:topicId?]: [None] when the path is another page,
    [Some None] without the parameter, [Some (Some id)] with it. *)
Definition practice_route (pathname : string) : option (option string) :=
  if decide (pathname = "/practice") then Some None
  else if starts_with "/practice/" pathname then
    let rest := str_drop 10 pathname in
    if bool_decide (rest ≠ EmptyString) && str_lacks "/"%char rest then Some (Some rest) else None
  else None.

(** A query body made of [name=value] pairs joined by [&]. *)
Definition encode_pair (nv : string * string) : string :=
  String.append (fst nv) (String "="%char (snd nv)).

Definition encode_pairs (l : list (string * string)) : string :=
  String.concat "&" (encode_pair <$> l).

(** Bytes the parser keeps as they are in a path segment and in a query,
    and that no decoder rewrites: visible ASCII except the double quote,
    [#], [%], ['], [<], [>], [?], [\], [`], [{] and [}]. *)
Definition url_plain (c : ascii) : bool :=
  (33 <=? nat_of_ascii c) && (nat_of_ascii c <=? 126) &&
  negb (code_in c [34; 35; 37; 39; 60; 62; 63; 92; 96; 123; 125]).

(** A path segment the parser keeps: non-empty, plain, without [/], and
    not a dot segment. *)
Definition seg_ok (seg : string) : Prop :=
  seg <> EmptyString /\ str_forall url_plain seg = true /\ str_lacks "/"%char seg = true /\
  seg <> "." /\ seg <> "..".

(** Names and values that need no escaping. *)
Definition plain_pair (nv : string * string) : Prop :=
  fst nv <> EmptyString /\
  str_lacks "="%char (fst nv) = true /\ str_lacks "&"%char (fst nv) = true /\
  str_lacks "%"%char (fst nv) = true /\ str_lacks "+"%char (fst nv) = true /\
  str_lacks "&"%char (snd nv) = true /\ str_lacks "%"%char (snd nv) = true /\
  str_lacks "+"%char (snd nv) = true /\
  str_forall url_plain (fst nv) = true /\ str_forall url_plain (snd nv) = true.

(** ** Lemmas *)

Lemma split_query_app p r :
  str_lacks "?"%char p = true -> split_query (String.append p (String "?"%char r)) = (p, String "?"%char r).
Proof.
  unfold str_lacks. induction p as [|c p IH]; intros Hp; [reflexivity|].
  change (String.append (String c p) (String "?"%char r)) with (String c (String.append p (String "?"%char r))).
  cbn [str_forall] in Hp. apply andb_true_iff in Hp as [Hc Hp].
  cbn [split_query]. destruct (ascii_dec c "?"%char) as [->|_]; [by rewrite bool_decide_eq_true_2 in Hc|].
  by rewrite IH.
Qed.

Lemma break_eq_app n v :
  str_lacks "="%char n = true -> break_eq (String.append n (String "="%char v)) = (n, v).
Proof.
  unfold str_lacks. induction n as [|c n IH]; intros Hn; [reflexivity|].
  change (String.append (String c n) (String "="%char v)) with (String c (String.append n (String "="%char v))).
  cbn [str_forall] in Hn. apply andb_true_iff in Hn as [Hc Hn].
  cbn [break_eq]. destruct (ascii_dec c "="%char) as [->|_]; [by rewrite bool_decide_eq_true_2 in Hc|].
  by rewrite IH.
Qed.

Lemma url_decode_id s :
  str_lacks "%"%char s = true -> str_lacks "+"%char s = true -> url_decode s = s.
Proof.
  unfold str_lacks. induction s as [|c s IH]; intros H1 H2; [reflexivity|].
  cbn [str_forall] in H1, H2. apply andb_true_iff in H1 as [Hc1 H1]. apply andb_true_iff in H2 as [Hc2 H2].
  cbn [url_decode]. destruct (ascii_dec c "%"%char) as [->|_]; [by rewrite bool_decide_eq_true_2 in Hc1|].
  destruct (ascii_dec c "+"%char) as [->|_]; [by rewrite bool_decide_eq_true_2 in Hc2|].
  by rewrite IH.
Qed.

Lemma str_lacks_app c s t : str_lacks c (String.append s t) = str_lacks c s && str_lacks c t.
Proof. apply str_forall_app. Qed.

Lemma encode_pair_lacks_amp nv : plain_pair nv -> str_lacks "&"%char (encode_pair nv) = true.
Proof.
  intros (_ & _ & Hn & _ & _ & Hv & _). unfold encode_pair.
  rewrite str_lacks_app, Hn. unfold str_lacks in *. cbn [str_forall]. rewrite Hv. reflexivity.
Qed.

Lemma split_on_encode_pairs l :
  l <> [] -> Forall plain_pair l -> split_on "&"%char (encode_pairs l) = encode_pair <$> l.
Proof.
  unfold encode_pairs. induction l as [|x [|y l] IH]; intros Hne Hall; [done| |].
  - inversion Hall; subst. simpl. apply split_on_lacks. by apply encode_pair_lacks_amp.
  - inversion Hall; subst.
    change (String.concat "&" (encode_pair <$> x :: y :: l))
      with (String.append (encode_pair x) (String "&"%char (String.concat "&" (encode_pair <$> y :: l)))).
    rewrite split_on_app_sep by (by apply encode_pair_lacks_amp).
    rewrite IH by done. done.
Qed.

Lemma decode_encode_pair nv :
  plain_pair nv -> (let '(n, v) := break_eq (encode_pair nv) in (url_decode n, url_decode v)) = nv.
Proof.
  destruct nv as [n v]. intros (_ & He & _ & Hp1 & Hp2 & _ & Hv1 & Hv2 & _). unfold encode_pair. simpl.
  rewrite break_eq_app by done. by rewrite !url_decode_id.
Qed.

Lemma filter_nonempty_id (l : list string) :
  Forall (λ s, s <> EmptyString) l -> filter (λ s, s <> EmptyString) l = l.
Proof.
  induction 1 as [|x l Hx Hl IH]; [done|]. rewrite filter_cons_True by done. by rewrite IH.
Qed.

(** [URLSearchParams] reads back the pairs of a plain query string. *)
Lemma search_pairs_encode l :
  Forall plain_pair l -> search_pairs (String "?"%char (encode_pairs l)) = l.
Proof.
  intros Hall. unfold search_pairs.
  destruct (ascii_dec "?"%char "?"%char) as [_|]; [|congruence].
  destruct l as [|x l]; [reflexivity|].
  rewrite split_on_encode_pairs by done.
  rewrite filter_nonempty_id.
  - clear -Hall. induction Hall as [|nv l' Hnv Hl IH]; [done|].
    rewrite !fmap_cons, IH. f_equal. by apply decode_encode_pair.
  - apply Forall_fmap. apply (Forall_impl _ _ _ Hall). intros [n v] (Hn & _).
    unfold encode_pair. simpl. by apply str_app_nonempty.
Qed.

#[export] Hint Rewrite str_lacks_app : js_rw.

(** ** The parser on plain locations *)

Lemma url_plain_kept c :
  url_plain c = true ->
  c0_or_space c = false /\ is_tab_or_newline c = false /\ path_set c = false /\ query_set c = false /\
  c <> "#"%char /\ c <> "?"%char /\ c <> ascii_of_nat 92 /\ c <> "%"%char.
Proof.
  unfold url_plain, c0_or_space, is_tab_or_newline, path_set, query_set, code_in.
  intros [[H1 H2]%andb_true_iff H3]%andb_true_iff.
  apply Nat.leb_le in H1, H2. apply negb_true_iff, bool_decide_eq_false_1 in H3.
  rewrite list_elem_of_In in H3. cbn [In] in H3.
  split_and!.
  - apply Nat.leb_gt. lia.
  - apply bool_decide_eq_false_2. rewrite list_elem_of_In. cbn [In]. lia.
  - apply orb_false_iff. split; [apply orb_false_iff; split; apply Nat.ltb_ge; lia|].
    apply bool_decide_eq_false_2. rewrite list_elem_of_In. cbn [In]. lia.
  - apply orb_false_iff. split; [apply orb_false_iff; split; apply Nat.ltb_ge; lia|].
    apply bool_decide_eq_false_2. rewrite list_elem_of_In. cbn [In]. lia.
  - intros ->. apply H3. vm_compute. lia.
  - intros ->. apply H3. vm_compute. lia.
  - intros ->. apply H3. vm_compute. lia.
  - intros ->. apply H3. vm_compute. lia.
Qed.

(** The characters of a plain location: plain ones, [/] and [?]. *)
Definition loc_char (c : ascii) : bool :=
  url_plain c || bool_decide (c = "/"%char) || bool_decide (c = "?"%char).

Lemma loc_char_kept c :
  loc_char c = true -> c0_or_space c = false /\ is_tab_or_newline c = false /\ c <> "#"%char.
Proof.
  unfold loc_char. intros [[H|H%bool_decide_eq_true_1]%orb_true_iff|H%bool_decide_eq_true_1]%orb_true_iff.
  - destruct (url_plain_kept c H) as (? & ? & _ & _ & ? & _). done.
  - subst. split_and!; [reflexivity|reflexivity|discriminate].
  - subst. split_and!; [reflexivity|reflexivity|discriminate].
Qed.

Lemma str_filter_id p s : str_forall p s = true -> str_filter p s = s.
Proof.
  induction s as [|c s IH]; [done|]. cbn [str_forall str_filter].
  intros [-> Hs]%andb_true_iff. by rewrite IH.
Qed.

Lemma trim_right_id p s : str_forall (λ c, negb (p c)) s = true -> trim_right p s = s.
Proof.
  induction s as [|c s IH]; [done|]. cbn [str_forall trim_right].
  intros [Hc Hs]%andb_true_iff. apply negb_true_iff in Hc. rewrite IH, Hc by done.
  by rewrite andb_false_r.
Qed.

Lemma before_hash_id s : str_lacks "#"%char s = true -> before_hash s = s.
Proof.
  unfold str_lacks. induction s as [|c s IH]; [done|]. cbn [str_forall before_hash].
  intros [Hc Hs]%andb_true_iff. apply negb_true_iff, bool_decide_eq_false_1 in Hc.
  destruct (ascii_dec c "#"%char); [done|]. by rewrite IH.
Qed.

Lemma str_map_backslash_id s : str_lacks (ascii_of_nat 92) s = true -> str_map backslash_to_slash s = s.
Proof.
  unfold str_lacks. induction s as [|c s IH]; [done|]. cbn [str_forall str_map].
  intros [Hc Hs]%andb_true_iff. apply negb_true_iff, bool_decide_eq_false_1 in Hc.
  rewrite IH by done. unfold backslash_to_slash. by destruct (ascii_dec c (ascii_of_nat 92)).
Qed.

Lemma pct_encode_id set s : str_forall (λ c, negb (set c)) s = true -> pct_encode set s = s.
Proof.
  induction s as [|c s IH]; [done|]. cbn [str_forall pct_encode].
  intros [Hc Hs]%andb_true_iff. apply negb_true_iff in Hc. rewrite Hc. by rewrite IH.
Qed.

Lemma split_on_concat (segs : list string) :
  segs <> [] -> Forall (λ seg, str_lacks "/"%char seg = true) segs ->
  split_on "/"%char (String.concat "/" segs) = segs.
Proof.
  induction segs as [|x [|y l] IH]; intros Hne Hall; [done| |].
  - inversion Hall; subst. simpl. by apply split_on_lacks.
  - inversion Hall; subst.
    change (String.concat "/" (x :: y :: l)) with (String.append x (String "/"%char (String.concat "/" (y :: l)))).
    rewrite split_on_app_sep by done. by rewrite IH.
Qed.

Lemma seg_ok_not_dot seg : seg_ok seg -> seg ∉ double_dots /\ seg ∉ single_dots.
Proof.
  intros (_ & Hp & _ & H1 & H2).
  assert (Hpct : str_lacks "%"%char seg = true).
  { unfold str_lacks. apply (str_forall_impl url_plain); [|done].
    intros c Hc. destruct (url_plain_kept c Hc) as (_ & _ & _ & _ & _ & _ & _ & Hne).
    by apply negb_true_iff, bool_decide_eq_false_2. }
  split; intros Hin; repeat (apply elem_of_cons in Hin as [->|Hin]; [done || (cbn in Hpct; discriminate)|]);
    by apply elem_of_nil in Hin.
Qed.

Lemma resolve_dots_id acc segs :
  Forall seg_ok segs -> resolve_dots acc segs = reverse acc ++ segs.
Proof.
  revert acc. induction segs as [|seg rest IH]; intros acc Hall; cbn [resolve_dots].
  - by rewrite app_nil_r.
  - inversion Hall as [|? ? Hseg Hrest]; subst. destruct (seg_ok_not_dot seg Hseg) as [Hd Hs].
    rewrite bool_decide_eq_false_2 by done. rewrite bool_decide_eq_false_2 by done.
    rewrite IH by done. rewrite reverse_cons, <- app_assoc. reflexivity.
Qed.

Lemma concat_cons_head (x : string) (l : list string) :
  ∃ t, String.concat "/" (x :: l) = String.append x t.
Proof. destruct l as [|y l]; [exists EmptyString; cbn; by rewrite str_app_nil_r|by eexists]. Qed.

Lemma str_forall_concat p (segs : list string) :
  p "/"%char = true -> Forall (λ seg, str_forall p seg = true) segs ->
  str_forall p (String.concat "/" segs) = true.
Proof.
  intros Hs. induction 1 as [|x l Hx Hl IH]; [done|].
  destruct l as [|y l]; [exact Hx|].
  change (String.concat "/" (x :: y :: l)) with (String.append x (String "/"%char (String.concat "/" (y :: l)))).
  rewrite str_forall_app, Hx. cbn [str_forall]. by rewrite Hs, IH.
Qed.

(** A location made of plain path segments and a plain query is read
    back as it was written. *)
Lemma parse_location_plain segs q :
  segs <> [] -> Forall seg_ok segs -> q <> EmptyString -> str_forall url_plain q = true ->
  parse_location (String.append (String "/"%char (String.concat "/" segs)) (String "?"%char q)) =
    Some (String "/"%char (String.concat "/" segs), String "?"%char q).
Proof.
  intros Hne Hall Hq Hplain.
  set (body := String.concat "/" segs).
  assert (Hb' : str_forall (λ c, url_plain c || bool_decide (c = "/"%char)) body = true).
  { apply str_forall_concat; [reflexivity|]. apply (Forall_impl _ _ _ Hall).
    intros seg (_ & Hs & _). apply (str_forall_impl url_plain); [|done].
    intros c Hc. by rewrite Hc. }
  assert (Hb : str_forall loc_char body = true).
  { apply (str_forall_impl (λ c, url_plain c || bool_decide (c = "/"%char))); [|exact Hb'].
    intros c Hc. unfold loc_char. by rewrite Hc. }
  assert (Hqc : str_forall loc_char q = true).
  { apply (str_forall_impl url_plain); [|done]. intros c Hc. unfold loc_char. by rewrite Hc. }
  assert (Hall_loc : str_forall loc_char (String.append (String "/"%char body) (String "?"%char q)) = true).
  { change (String.append (String "/"%char body) (String "?"%char q)) with (String "/"%char (String.append body (String "?"%char q))).
    cbn [str_forall]. rewrite str_forall_app, Hb. cbn [str_forall]. by rewrite Hqc. }
  assert (Hkept : ∀ P, (∀ c, c0_or_space c = false /\ is_tab_or_newline c = false /\ c <> "#"%char -> P c = true) ->
                       str_forall P (String.append (String "/"%char body) (String "?"%char q)) = true).
  { intros P HP. apply (str_forall_impl loc_char); [|done]. intros c Hc. by apply HP, loc_char_kept. }
  unfold parse_location.
  change (trim_left c0_or_space (String.append (String "/"%char body) (String "?"%char q)))
    with (String.append (String "/"%char body) (String "?"%char q)).
  rewrite trim_right_id by (apply Hkept; intros c (H & _); by rewrite H).
  rewrite str_filter_id by (apply Hkept; intros c (_ & H & _); by rewrite H).
  rewrite before_hash_id by (apply Hkept; intros c (_ & _ & H); by apply negb_true_iff, bool_decide_eq_false_2).
  assert (Hlack : ∀ ch, url_plain ch = false -> ch <> "/"%char -> str_lacks ch body = true).
  { intros ch Hch Hsl. unfold str_lacks.
    apply (str_forall_impl (λ c, url_plain c || bool_decide (c = "/"%char))); [|exact Hb'].
    intros c Hc. apply negb_true_iff, bool_decide_eq_false_2. intros ->.
    rewrite Hch in Hc. by apply bool_decide_eq_true_1 in Hc. }
  rewrite (split_query_app (String "/"%char body)).
  2:{ unfold str_lacks. cbn [str_forall]. rewrite bool_decide_eq_false_2 by discriminate. cbn [negb andb].
      apply Hlack; [reflexivity|discriminate]. }
  cbn [str_map]. change (backslash_to_slash "/"%char) with "/"%char.
  rewrite str_map_backslash_id by (apply Hlack; reflexivity || discriminate).
  destruct (ascii_dec "/"%char "/"%char) as [_|]; [|congruence].
  destruct segs as [|s0 segs']; [done|]. inversion Hall as [|? ? Hs0 _]; subst.
  destruct Hs0 as (Hs0ne & _ & Hs0l & _).
  destruct s0 as [|c0 r0]; [done|].
  destruct (concat_cons_head (String c0 r0) segs') as [t Ht].
  assert (Hsw : starts_with "/" body = false).
  { unfold body. rewrite Ht. unfold starts_with.
    change (String.append (String c0 r0) t) with (String c0 (String.append r0 t)). cbn [String.prefix].
    unfold str_lacks in Hs0l. cbn [str_forall] in Hs0l. apply andb_true_iff in Hs0l as [Hc0 _].
    apply negb_true_iff, bool_decide_eq_false_1 in Hc0.
    destruct (ascii_dec "/"%char c0); [congruence|reflexivity]. }
  rewrite Hsw.
  rewrite pct_encode_id.
  2:{ apply (str_forall_impl (λ c, url_plain c || bool_decide (c = "/"%char))); [|exact Hb'].
      intros c Hc. apply negb_true_iff. apply orb_true_iff in Hc as [Hc|Hc].
      - by destruct (url_plain_kept c Hc) as (_ & _ & -> & _).
      - apply bool_decide_eq_true_1 in Hc. by subst. }
  unfold body. rewrite split_on_concat; [|done|].
  2:{ apply (Forall_impl _ _ _ Hall). by intros seg (_ & _ & ? & _). }
  rewrite resolve_dots_id by done. cbn [reverse app].
  destruct q as [|c q']; [done|]. cbn [url_search]. rewrite pct_encode_id; [done|].
  apply (str_forall_impl url_plain); [|done]. intros c' Hc'. apply negb_true_iff.
  by destruct (url_plain_kept c' Hc') as (_ & _ & _ & -> & _).
Qed.

Lemma str_forall_of_lacks (P : ascii -> bool) s :
  (∀ c, P c = false -> str_lacks c s = true) -> str_forall P s = true.
Proof.
  induction s as [|c s IH]; intros H; [done|]. cbn [str_forall].
  destruct (P c) eqn:Hc.
  - apply IH. intros c' Hc'. specialize (H c' Hc'). unfold str_lacks in *. cbn [str_forall] in H.
    by apply andb_true_iff in H as [_ H].
  - specialize (H c Hc). unfold str_lacks in H. cbn [str_forall] in H.
    by rewrite bool_decide_eq_true_2 in H.
Qed.

Lemma digit_url_plain c : url_plain c = false -> digit_val c = None /\ c <> "-"%char.
Proof.
  intros H. split.
  - unfold digit_val. destruct ((48 <=? nat_of_ascii c) && (nat_of_ascii c <=? 57)) eqn:E; [|done].
    exfalso. apply andb_true_iff in E as [E1 E2]. apply Nat.leb_le in E1, E2.
    unfold url_plain, code_in in H.
    rewrite (proj2 (Nat.leb_le 33 _)), (proj2 (Nat.leb_le _ 126)) in H by lia. cbn in H.
    apply negb_false_iff, bool_decide_eq_true_1 in H. rewrite list_elem_of_In in H. cbn [In] in H. lia.
  - intros ->. vm_compute in H. discriminate.
Qed.

(** A number's decimal text is plain. *)
Lemma string_of_Z_plain z : str_forall url_plain (string_of_Z z) = true.
Proof.
  apply str_forall_of_lacks. intros c Hc. destruct (digit_url_plain c Hc) as [H1 H2].
  by apply string_of_Z_shape.
Qed.

(** ... and a path segment of its own: it has no dot. *)
Lemma seg_ok_string_of_Z z : seg_ok (string_of_Z z).
Proof.
  destruct (string_of_Z_shape z) as [Hne Hl].
  assert (Hd : str_lacks "."%char (string_of_Z z) = true) by (apply Hl; [reflexivity|discriminate]).
  split_and!; [done|apply string_of_Z_plain|apply Hl; [reflexivity|discriminate]| |];
    intros He; rewrite He in Hd; discriminate.
Qed.

Lemma digits_plain v : all_digits v = true -> str_forall url_plain v = true.
Proof.
  intros Hv. apply str_forall_of_lacks. intros c Hc. apply digits_lack; [|done].
  by destruct (digit_url_plain c Hc).
Qed.

Lemma encode_pairs_plain l :
  Forall plain_pair l -> str_forall url_plain (encode_pairs l) = true.
Proof.
  unfold encode_pairs. induction 1 as [|x l Hx Hl IH]; [done|].
  destruct Hx as (_ & _ & _ & _ & _ & _ & _ & _ & Hn & Hv).
  assert (He : str_forall url_plain (encode_pair x) = true).
  { unfold encode_pair. rewrite str_forall_app, Hn. cbn [str_forall]. by rewrite Hv. }
  destruct l as [|y l]; [exact He|].
  change (String.concat "&" (encode_pair <$> x :: y :: l))
    with (String.append (encode_pair x) (String "&"%char (String.concat "&" (encode_pair <$> y :: l)))).
  rewrite str_forall_app, He. cbn [str_forall]. by rewrite IH.
Qed.

Lemma encode_pairs_nonempty x l : encode_pairs (x :: l) <> EmptyString.
Proof.
  unfold encode_pairs, encode_pair. destruct l; cbn.
  - destruct (fst x); discriminate.
  - destruct (fst x); discriminate.
Qed.

(** A location built from plain segments and plain pairs, as the pages
    build theirs, is read back as written. *)
Lemma parse_location_pairs segs x l :
  segs <> [] -> Forall seg_ok segs -> Forall plain_pair (x :: l) ->
  parse_location (String.append (String "/"%char (String.concat "/" segs)) (String "?"%char (encode_pairs (x :: l)))) =
    Some (String "/"%char (String.concat "/" segs), String "?"%char (encode_pairs (x :: l))).
Proof.
  intros Hne Hs Hl. apply parse_location_plain; [done|done|apply encode_pairs_nonempty|].
  by apply encode_pairs_plain.
Qed.

End Url.
