(* ===== verification/QuizConfig.v ===== *)
(** * QuizConfig: the dialogs that start a practice session

    Models [TimedQuizConfig] (src/client/src/components/student/
    timed-quiz-config.tsx) and [PracticeConfig]
    (src/client/src/components/student/practice-config.tsx): their state,
    the handlers of their controls, and the path they navigate to.  The
    practice page reads that path back ([practice_params]); the theorems of
    this file follow a configuration through the URL into the page's
    parameters and the length of its countdown. *)

From Stdlib Require Import Ascii ZArith Lia.
From stdpp Require Import base list strings.
From S2P Require Import Prelude Countdown PracticeSession Url.

(** The parameters the practice page sees at a location (path and query):
    the route parameter and the three [searchParams.get] calls. *)
Definition practice_params (location : string) : option PracticeSession.Params :=
  match Url.parse_location location with
  | Some (pathname, search) =>
      match Url.practice_route pathname with
      | Some topicId =>
          Some (PracticeSession.mkParams topicId (Url.search_get search "timed")
                  (Url.search_get search "timeLimit") (Url.search_get search "count"))
      | None => None
      end
  | None => None
  end.

(** The values offered by the "Number of Questions" select of both dialogs. *)
Definition question_count_options : list string :=
  ["5"; "10"; "15"; "20"; "25"; "30"; "40"; "50"; "100"; "9999"].

(** A topic id that the URL parser and the route give back unchanged:
    one plain path segment. *)
Definition topic_ok (topic : option string) : Prop :=
  match topic with
  | None => True
  | Some t => Url.seg_ok t
  end.

Module TimedQuizConfig.

Record State := mkState {
  timeLimit : Z;
  questionCount : Z
}.

(** Lines 31-32 *)
Definition initial : State := mkState 60 10.

(** The slider (lines 117-121): 15 to 180 seconds in steps of 15. *)
Definition slider_values : list Z := (λ k, 15 * Z.of_nat k)%Z <$> seq 1 12.

Definition setTimeLimit (v : Z) (s : State) : State := mkState v (questionCount s).

(** Line 89: [setQuestionCount(parseInt(value))]; every offered value is a
    numeral, so the [NaN] branch is never taken. *)
Definition onQuestionCountChange (value : string) (s : State) : State :=
  match parseInt value with
  | Some n => mkState (timeLimit s) n
  | None => s
  end.

(** Line 40 *)
Definition totalTime (s : State) : Z := timeLimit s * questionCount s.

(** Lines 43-47 *)
Definition formatTime (seconds : Z) : string :=
  string_of_Z (seconds / 60) +:+ ":" +:+ pad2 (string_of_Z (Z.rem seconds 60)).

(** Line 54: [Math.ceil(totalTime / 60)]. *)
Definition timeLimitInMinutes (s : State) : Z := - ((- totalTime s) / 60).

(** Lines 50-65 *)
Definition path (topicId : option string) (s : State) : string :=
  let timeLimitParam := "timeLimit=" +:+ string_of_Z (timeLimitInMinutes s) in
  let questionCountParam := "count=" +:+ string_of_Z (questionCount s) in
  let timedParam := "timed=true" in
  match topicId with
  | Some (String _ _ as t) =>
      "/practice/" +:+ t +:+ "?" +:+ timedParam +:+ "&" +:+ timeLimitParam +:+ "&" +:+ questionCountParam
  | _ => "/practice?" +:+ timedParam +:+ "&" +:+ timeLimitParam +:+ "&" +:+ questionCountParam
  end.

(** [startTimedQuiz] (lines 50-68): the location navigated to, and the
    dialog closed. *)
Definition startTimedQuiz (topicId : option string) (s : State) : string * bool :=
  (path topicId s, false).

(** The dialog's two controls: the count select (lines 87-106, its items
    are [question_count_options]) and the slider (lines 116-122). *)
Inductive Event := SelectCount (v : string) | Slide (v : Z).

Definition step (s : State) (e : Event) : option State :=
  match e with
  | SelectCount v => if bool_decide (v ∈ question_count_options) then Some (onQuestionCountChange v s) else None
  | Slide v => if bool_decide (v ∈ slider_values) then Some (setTimeLimit v s) else None
  end.

Definition run : State -> list Event -> option State := run_steps step.

(** Lines 88, 113 and 135-142: what the dialog shows. *)
Record View := mkView {
  v_count : string;
  v_perQuestion : string;
  v_total : string;
  v_summary : string
}.

Definition view (s : State) : View :=
  mkView (string_of_Z (questionCount s)) (string_of_Z (timeLimit s) +:+ " seconds")
    (formatTime (totalTime s))
    ("You'll have " +:+ formatTime (totalTime s) +:+ " to answer " +:+ string_of_Z (questionCount s) +:+ " questions.").

End TimedQuizConfig.

Module PracticeConfig.

(** Line 30 *)
Definition initial : string := "10".

(** Lines 32-34 *)
Definition handleQuestionCountChange (value : string) (questionCount : string) : string := value.

(** Lines 36-45: [URLSearchParams] with one [count] pair. *)
Definition startPractice (topicId : option string) (questionCount : string) : string :=
  let query := "count=" +:+ Url.form_encode questionCount in
  match topicId with
  | Some (String _ _ as t) => "/practice/" +:+ t +:+ "?" +:+ query
  | _ => "/practice?" +:+ query
  end.

(** Line 53: the dialog's description. *)
Definition description (topicId : option string) : string :=
  "Configure your practice session settings for " +:+ (if truthy topicId then "this topic" else "all topics") +:+ ".".

(** Lines 62-64: the count select offers [question_count_options]. *)
Definition step (questionCount : string) (v : string) : option string :=
  if bool_decide (v ∈ question_count_options) then Some (handleQuestionCountChange v questionCount) else None.

End PracticeConfig.

(** ** Lemmas *)
Import Url.

Lemma practice_route_param t :
  t <> EmptyString -> str_lacks "/"%char t = true ->
  practice_route (String.append "/practice/" t) = Some (Some t).
Proof.
  intros Hne Hl. unfold practice_route.
  rewrite decide_False by discriminate.
  rewrite starts_with_append.
  change 10 with (String.length "/practice/"). rewrite str_drop_append.
  rewrite Hl, bool_decide_eq_true_2 by done. reflexivity.
Qed.

Lemma value_plain name z :
  name <> EmptyString -> str_lacks "="%char name = true -> str_lacks "&"%char name = true ->
  str_lacks "%"%char name = true -> str_lacks "+"%char name = true ->
  str_forall url_plain name = true ->
  plain_pair (name, string_of_Z z).
Proof.
  intros. destruct (string_of_Z_shape z) as [_ Hs].
  split_and!; try done; cbn [snd]; try apply string_of_Z_plain; apply Hs; try reflexivity; discriminate.
Qed.

Lemma seg_ok_practice : seg_ok "practice".
Proof. split_and!; [discriminate|reflexivity|reflexivity|discriminate|discriminate]. Qed.

(** The location a dialog navigates to is read back as written. *)
Lemma practice_location topic x l :
  topic_ok topic -> Forall plain_pair (x :: l) ->
  parse_location (String.append (match topic with Some t => String.append "/practice/" t | None => "/practice" end)
                    (String "?"%char (encode_pairs (x :: l)))) =
  Some (match topic with Some t => String.append "/practice/" t | None => "/practice" end,
        String "?"%char (encode_pairs (x :: l))).
Proof.
  intros Ht Hl. destruct topic as [t|].
  - change (String.append "/practice/" t) with (String "/"%char (String.concat "/" ["practice"; t])).
    apply parse_location_pairs; [discriminate| |done]. constructor; [apply seg_ok_practice|]. constructor; [exact Ht|constructor].
  - change "/practice" with (String "/"%char (String.concat "/" ["practice"])).
    apply parse_location_pairs; [discriminate| |done]. constructor; [apply seg_ok_practice|constructor].
Qed.

Lemma timed_pairs_plain s :
  Forall plain_pair [("timed", "true"); ("timeLimit", string_of_Z (TimedQuizConfig.timeLimitInMinutes s));
                     ("count", string_of_Z (TimedQuizConfig.questionCount s))].
Proof.
  repeat constructor; try done; apply value_plain; done.
Qed.

Lemma timed_path_eq topic s :
  topic_ok topic ->
  TimedQuizConfig.path topic s =
  String.append (match topic with Some t => String.append "/practice/" t | None => "/practice" end)
    (String "?"%char (encode_pairs [("timed", "true");
       ("timeLimit", string_of_Z (TimedQuizConfig.timeLimitInMinutes s));
       ("count", string_of_Z (TimedQuizConfig.questionCount s))])).
Proof.
  destruct topic as [[|c t]|]; simpl; intros Ht; [by destruct Ht| |reflexivity].
  unfold TimedQuizConfig.path. rewrite <- str_app_assoc. reflexivity.
Qed.

Lemma timed_path_params topic s :
  topic_ok topic ->
  practice_params (TimedQuizConfig.path topic s) =
  Some (PracticeSession.mkParams topic (Some "true")
          (Some (string_of_Z (TimedQuizConfig.timeLimitInMinutes s)))
          (Some (string_of_Z (TimedQuizConfig.questionCount s)))).
Proof.
  intros Ht. rewrite timed_path_eq by done. unfold practice_params.
  rewrite practice_location by (done || apply timed_pairs_plain).
  assert (Hr : practice_route (match topic with Some t => String.append "/practice/" t | None => "/practice" end)
               = Some topic).
  { destruct topic as [t|]; [|reflexivity]. destruct Ht as (? & _ & ? & _). by apply practice_route_param. }
  rewrite Hr. unfold search_get. rewrite search_pairs_encode by apply timed_pairs_plain.
  reflexivity.
Qed.

Lemma or_default_some v d : v <> EmptyString -> PracticeSession.or_default (Some v) d = v.
Proof. by destruct v. Qed.

Lemma is_unreserved_digit c d : digit_val c = Some d -> is_unreserved c = true.
Proof.
  unfold digit_val, is_unreserved. cbv zeta. destruct ((48 <=? _) && (_ <=? 57)) eqn:E; [|discriminate].
  intros _. reflexivity.
Qed.

Lemma form_encode_digits v : all_digits v = true -> form_encode v = v.
Proof.
  induction v as [|c v IH]; [done|]. cbn [all_digits form_encode].
  intros [Hc Hv]%andb_true_iff. apply bool_decide_eq_true_1 in Hc as [d Hd].
  rewrite (is_unreserved_digit c d Hd). by rewrite IH.
Qed.

Lemma practice_path_params topic v :
  topic_ok topic -> v <> EmptyString -> all_digits v = true ->
  practice_params (PracticeConfig.startPractice topic v) =
  Some (PracticeSession.mkParams topic None None (Some v)).
Proof.
  intros Ht Hne Hv.
  assert (Hp : PracticeConfig.startPractice topic v =
    String.append (match topic with Some t => String.append "/practice/" t | None => "/practice" end)
      (String "?"%char (encode_pairs [("count", v)]))).
  { destruct topic as [[|c t]|]; simpl in Ht; [by destruct Ht as [[] _]| |];
      unfold PracticeConfig.startPractice; rewrite form_encode_digits by done; [|reflexivity].
    rewrite <- str_app_assoc. reflexivity. }
  assert (Hpl : Forall plain_pair [("count", v)]).
  { repeat constructor; try done; simpl; [apply digits_lack; done..|by apply digits_plain]. }
  rewrite Hp. unfold practice_params. rewrite practice_location by done.
  assert (Hr : practice_route (match topic with Some t => String.append "/practice/" t | None => "/practice" end)
               = Some topic).
  { destruct topic as [t|]; [|reflexivity]. destruct Ht as (? & _ & ? & _). by apply practice_route_param. }
  rewrite Hr. unfold search_get. by rewrite search_pairs_encode.
Qed.

(** ** Properties *)

(** C24: the timed-quiz dialog hands its settings to the practice page
    intact: for a topic id that is one plain path segment ([topic_ok]: the
    decimal ids the dashboard passes are, see [Url.seg_ok_string_of_Z]),
    the location it navigates to, parsed by the browser's URL rules
    ([Url.parse_location]: trimming, tab and newline removal, the fragment,
    percent-encoding, dot segments), gives the page the same topic, a timed
    quiz, the time limit in minutes and the question count. *)
Theorem timed_config_roundtrip topic s :
  topic_ok topic ->
  exists p, practice_params (fst (TimedQuizConfig.startTimedQuiz topic s)) = Some p /\
    PracticeSession.p_topicId p = topic /\ PracticeSession.isTimed p = true /\
    PracticeSession.timeLimit p = Some (TimedQuizConfig.timeLimitInMinutes s) /\
    PracticeSession.questionCount p = Some (TimedQuizConfig.questionCount s).
Proof.
  intros Ht. eexists. split; [by apply timed_path_params|].
  unfold PracticeSession.isTimed, PracticeSession.timeLimit, PracticeSession.questionCount.
  cbn [PracticeSession.p_timeLimit PracticeSession.p_count PracticeSession.p_timed PracticeSession.p_topicId].
  rewrite !or_default_some by apply string_of_Z_shape. rewrite !parseInt_string_of_Z.
  repeat split; by rewrite ?bool_decide_eq_true_2.
Qed.

(** C25: the countdown of the quiz started from the dialog, at the
    location the browser parses as in C24, runs for the total time rounded
    up to whole minutes: at least [timeLimit * questionCount] seconds and
    less than a minute more. *)
Theorem timed_countdown_allotted topic s :
  topic_ok topic ->
  exists p secs, practice_params (fst (TimedQuizConfig.startTimedQuiz topic s)) = Some p /\
    PracticeSession.countdown (PracticeSession.initial p) = Some (Countdown.init (Some secs)) /\
    (TimedQuizConfig.totalTime s <= secs < TimedQuizConfig.totalTime s + 60)%Z.
Proof.
  intros Ht. exists (PracticeSession.mkParams topic (Some "true")
          (Some (string_of_Z (TimedQuizConfig.timeLimitInMinutes s)))
          (Some (string_of_Z (TimedQuizConfig.questionCount s)))).
  exists (TimedQuizConfig.timeLimitInMinutes s * 60)%Z.
  split; [by apply timed_path_params|]. split.
  - unfold PracticeSession.initial, PracticeSession.isTimed, PracticeSession.timeLimit.
    cbn [PracticeSession.p_timeLimit PracticeSession.p_timed PracticeSession.countdown].
    rewrite bool_decide_eq_true_2 by done.
    rewrite or_default_some by apply string_of_Z_shape. by rewrite parseInt_string_of_Z.
  - unfold TimedQuizConfig.timeLimitInMinutes.
    pose proof (Z.div_mod (- TimedQuizConfig.totalTime s) 60).
    pose proof (Z.mod_pos_bound (- TimedQuizConfig.totalTime s) 60). lia.
Qed.

(** ** The timed-quiz dialog's state *)

(** The counts the select offers, as numbers. *)
Definition question_counts : list Z := [5; 10; 15; 20; 25; 30; 40; 50; 100; 9999]%Z.

Definition dialog_ok (s : TimedQuizConfig.State) : Prop :=
  TimedQuizConfig.questionCount s ∈ question_counts /\ TimedQuizConfig.timeLimit s ∈ TimedQuizConfig.slider_values.

Lemma offered_count v :
  v ∈ question_count_options -> ∃ n, parseInt v = Some n /\ n ∈ question_counts.
Proof.
  intros Hv. apply list_elem_of_In in Hv. cbn in Hv.
  repeat (destruct Hv as [<-|Hv]; [eexists; split; [reflexivity|apply list_elem_of_In; cbn; tauto]|]).
  contradiction.
Qed.

Lemma dialog_step_ok s e s' : dialog_ok s -> TimedQuizConfig.step s e = Some s' -> dialog_ok s'.
Proof.
  intros [Hc Ht] Hs. destruct e as [v|v]; cbn in Hs; case_bool_decide as Hv; try discriminate;
    injection Hs as <-.
  - destruct (offered_count v Hv) as (n & Hn & Hin).
    unfold TimedQuizConfig.onQuestionCountChange. rewrite Hn. by split.
  - by split.
Qed.

(** Whatever the student does in the dialog, it holds an offered count
    and a slider value: between 5 and 9999 questions, 15 to 180 seconds
    each, so at least 75 seconds in all. *)
Theorem dialog_bounds es s :
  TimedQuizConfig.run TimedQuizConfig.initial es = Some s ->
  (5 <= TimedQuizConfig.questionCount s <= 9999)%Z /\ (15 <= TimedQuizConfig.timeLimit s <= 180)%Z /\
  (75 <= TimedQuizConfig.totalTime s)%Z.
Proof.
  intros Hr. destruct (run_steps_inv _ dialog_ok dialog_step_ok es TimedQuizConfig.initial s
                         ltac:(split; apply list_elem_of_In; cbn; [right; left; reflexivity|do 3 right; left; reflexivity]) Hr) as [Hc Ht].
  apply list_elem_of_In in Hc, Ht. cbn in Hc, Ht. unfold TimedQuizConfig.totalTime.
  repeat destruct Hc as [<-|Hc]; try contradiction;
    repeat destruct Ht as [<-|Ht]; try contradiction; lia.
Qed.

(** The allotted time is not [timeLimit * questionCount] as the
    dialog displays it: 5 questions at 15 seconds (75 s) get a 120-second
    countdown, and "All Questions in Topic" counts 9999 questions whatever
    the topic holds. *)
Example timed_allotted_rounding :
  TimedQuizConfig.totalTime (TimedQuizConfig.mkState 15 5) = 75%Z /\
  (TimedQuizConfig.timeLimitInMinutes (TimedQuizConfig.mkState 15 5) * 60 = 120)%Z /\
  (TimedQuizConfig.timeLimitInMinutes (TimedQuizConfig.mkState 15 9999) * 60 = 150000)%Z.
Proof. repeat split; reflexivity. Qed.

(** Reached through the dialog's controls, the same quiz: the dialog
    says "You'll have 1:15", the countdown starts at two minutes. *)
Lemma dialog_total_not_allotted :
  match TimedQuizConfig.run TimedQuizConfig.initial [TimedQuizConfig.SelectCount "5"; TimedQuizConfig.Slide 15] with
  | Some s => TimedQuizConfig.v_total (TimedQuizConfig.view s) = "1:15"%string /\
              (TimedQuizConfig.timeLimitInMinutes s * 60 = 120)%Z
  | None => False
  end.
Proof. vm_compute. split; reflexivity. Qed.

(** The regular practice dialog hands every offered question count to
    the page intact, as an untimed quiz on the same topic. *)
Theorem practice_config_roundtrip topic v :
  topic_ok topic -> v ∈ question_count_options ->
  exists p, practice_params (PracticeConfig.startPractice topic v) = Some p /\
    PracticeSession.p_topicId p = topic /\ PracticeSession.isTimed p = false /\
    PracticeSession.questionCount p = parseInt v.
Proof.
  intros Ht Hv. eexists. split.
  - apply practice_path_params; [done| |].
    + repeat (inversion Hv as [|? ? ? Hv']; subst; [discriminate|clear Hv; rename Hv' into Hv]);
        inversion Hv.
    + repeat (inversion Hv as [|? ? ? Hv']; subst; [reflexivity|clear Hv; rename Hv' into Hv]);
        inversion Hv.
  - unfold PracticeSession.questionCount, PracticeSession.isTimed.
    cbn [PracticeSession.p_count PracticeSession.p_timed PracticeSession.p_topicId].
    split; [done|]. split; [reflexivity|]. f_equal. apply or_default_some.
    repeat (inversion Hv as [|? ? ? Hv']; subst; [discriminate|clear Hv; rename Hv' into Hv]);
      inversion Hv.
Qed.

Lemma timed_config_roundtrip_witness :
  topic_ok (Some "5") /\
  exists p, practice_params (fst (TimedQuizConfig.startTimedQuiz (Some "5") TimedQuizConfig.initial)) = Some p /\
    PracticeSession.p_topicId p = Some "5" /\ PracticeSession.isTimed p = true /\
    PracticeSession.timeLimit p = Some (TimedQuizConfig.timeLimitInMinutes TimedQuizConfig.initial) /\
    PracticeSession.questionCount p = Some (TimedQuizConfig.questionCount TimedQuizConfig.initial).
Proof.
  assert (Ht : topic_ok (Some "5")) by (split_and!; [discriminate|reflexivity|reflexivity|discriminate|discriminate]).
  split; [exact Ht|]. exact (timed_config_roundtrip _ _ Ht).
Defined.

Lemma timed_countdown_allotted_witness :
  topic_ok None /\
  exists p secs, practice_params (fst (TimedQuizConfig.startTimedQuiz None (TimedQuizConfig.mkState 15 5))) = Some p /\
    PracticeSession.countdown (PracticeSession.initial p) = Some (Countdown.init (Some secs)) /\
    (TimedQuizConfig.totalTime (TimedQuizConfig.mkState 15 5) <= secs <
     TimedQuizConfig.totalTime (TimedQuizConfig.mkState 15 5) + 60)%Z.
Proof.
  assert (Ht : topic_ok None) by exact I.
  split; [exact Ht|]. exact (timed_countdown_allotted _ _ Ht).
Defined.

Lemma practice_config_roundtrip_witness :
  topic_ok (Some "12") /\ "9999" ∈ question_count_options /\
  exists p, practice_params (PracticeConfig.startPractice (Some "12") "9999") = Some p /\
    PracticeSession.p_topicId p = Some "12" /\ PracticeSession.isTimed p = false /\
    PracticeSession.questionCount p = parseInt "9999".
Proof.
  assert (Ht : topic_ok (Some "12")) by (split_and!; [discriminate|reflexivity|reflexivity|discriminate|discriminate]).
  assert (Hv : "9999" ∈ question_count_options) by (unfold question_count_options; do 9 right; left).
  split; [exact Ht|]. split; [exact Hv|]. exact (practice_config_roundtrip _ _ Ht Hv).
Defined.
