(* ===== verification/PracticeView.v ===== *)
(** * PracticeView: what the practice page sends and shows

    The render of [PracticeSession] in
    src/client/src/pages/student/practice-session.tsx, over the state of
    [PracticeSession]: the request the question query sends (lines 44-58)
    and its error message, the topic query (61-70), the session clock
    [formatTime] (95-99), the header (216-224), the timer and progress bar
    (228-277), the question card with its options (300-361), the mobile
    navigation dots (366-382), the submit dialogs (404-496), the card shown
    when there are no questions (436-459) and the submission overlay
    (499-511). *)

From Stdlib Require Import Ascii ZArith QArith Qround Lia Lqa.
From stdpp Require Import base list strings.
From S2P Require Import Prelude Scorer Countdown Submission PracticeSession Url QuizConfig.

Module PracticeView.
Import Scorer PracticeSession.

(** ** The requests *)

(** [`${n}`] of a number read by [parseInt]. *)
Definition show_jsint (n : JsInt) : string := show_int (js_of_int n).

Section Requests.
Context (params : Params).

(** Lines 47-48: the URL of the question query. *)
Definition questions_url : string :=
  "/api/questions/random?count=" +:+ show_jsint (questionCount params) +:+
  (if truthy (p_topicId params) then "&topicId=" +:+ default "" (p_topicId params) else "").

(** Lines 62-67: the topic query runs only with a topic; its URL. *)
Definition topic_url : option string :=
  if truthy (p_topicId params) then Some ("/api/topics/" +:+ default "" (p_topicId params)) else None.

End Requests.

(** The body of a failed response: JSON with or without [message], or a
    body that is not JSON. *)
Inductive ErrorBody := BodyJson (message : option string) | BodyUnparsable.

(** Lines 49-53: the message of the [Error] the query fails with. *)
Definition fetch_error_message (body : ErrorBody) (statusText : string) : string :=
  "Failed to fetch questions: " +:+
  match body with
  | BodyJson (Some m) => or_str m statusText
  | BodyJson None => statusText
  | BodyUnparsable => "Unknown error"
  end.

(** ** The clock *)

(** Lines 95-99 *)
Definition formatTime (seconds : Z) : string :=
  let mins := (seconds / 60)%Z in
  let secs := Z.rem seconds 60 in
  string_of_Z mins +:+ ":" +:+ (if (secs <? 10)%Z then "0" else "") +:+ string_of_Z secs.

(** Reading a clock back: minutes and seconds around the colon. *)
Definition read_clock (t : string) : option Z :=
  match split_on ":"%char t with
  | [m; s] => match parseInt m, parseInt s with
              | Some m', Some s' => Some (m' * 60 + s')%Z
              | _, _ => None
              end
  | _ => None
  end.

(** ** The screen *)

Inductive Dot := DotCurrent | DotAnswered | DotOpen.

Record OptionView := mkOptionView { ov_label : string; ov_text : string; ov_selected : bool }.

Record Card := mkCard {
  c_title : string;
  c_subtitle : string;
  c_text : string;
  c_image : option string;
  c_options : list OptionView;
  c_dots : list Dot;
  c_prevDisabled : bool;
  c_next : bool
}.

Record Empty := mkEmpty { e_error : option string; e_topicId : string; e_topicName : string }.

Inductive Body := BSkeleton | BCard (c : Card) | BEmpty (e : Empty).

(** The submit dialog: its unanswered warning and its action's label. *)
Record SubmitDialog := mkSubmitDialog { d_warning : option string; d_action : string; d_disabled : bool }.

Record View := mkView {
  v_topicLabel : string;
  v_counter : string;
  v_clock : option string;
  v_countdown : option Countdown.CountdownView;
  v_timedBadge : bool;
  v_progressWidth : JsNum;
  v_body : Body;
  v_dialog : option SubmitDialog;
  v_overlay : bool
}.

(** [questions?.length || "..."] *)
Definition length_or_dots (qs : option (list Question)) : string :=
  match qs with
  | Some ((_ :: _) as l) => string_of_Z (Z.of_nat (length l))
  | _ => "..."
  end.

(** Line 269: [questions ? (currentQuestionIndex / questions.length) * 100 : 0] *)
Definition progress_width (s : Page) : JsNum :=
  match questions s with
  | Some qs => js_mul (js_div (Q_of_nat (currentQuestionIndex s)) (Q_of_nat (length qs))) 100
  | None => JNum 0
  end.

(** Lines 370-376: [answers[idx] !== null], where a missing entry is
    [undefined]. *)
Definition dot (s : Page) (idx : nat) : Dot :=
  if decide (idx = currentQuestionIndex s) then DotCurrent
  else match answers s !! idx with Some None => DotOpen | _ => DotAnswered end.

(** Lines 331-336 *)
Definition options (s : Page) (q : Question) : list OptionView :=
  let sel l := opt_str_eqb (mjoin (answers s !! currentQuestionIndex s)) l in
  [mkOptionView "A" (q_optionA q) (sel "A"); mkOptionView "B" (q_optionB q) (sel "B");
   mkOptionView "C" (q_optionC q) (sel "C"); mkOptionView "D" (q_optionD q) (sel "D")].

Definition unanswered (s : Page) : nat := length (filter (λ a, a = None) (answers s)).

(** Lines 413-417 and 424-430 (and 474-491) *)
Definition submit_dialog (s : Page) : SubmitDialog :=
  let n := unanswered s in
  mkSubmitDialog
    (if decide (0 < n) then Some ("Warning: You have " +:+ string_of_Z (Z.of_nat n) +:+ " unanswered questions.")
     else None)
    (if bool_decide (pending s = []) then "Submit" else "Submitting...")
    (negb (bool_decide (pending s = []))).

(** Lines 404 and 463: a "Submit All Answers" trigger is on the screen,
    in the card on the last question or below it otherwise. *)
Definition submit_trigger (s : Page) : bool :=
  (card_shown s && negb (next_shown s)) ||
  (match questions s with Some qs => bool_decide (0 < length qs) | None => false end && next_shown s).

Section Render.
Context (params : Params) (topicName : option string).

(** Line 218 and line 304 *)
Definition topic_label : string :=
  if truthy (p_topicId params) then or_str (default "" topicName) "Loading..." else "All Topics".

Definition card (s : Page) (q : Question) : Card :=
  mkCard ("Question " +:+ string_of_Z (Z.of_nat (S (currentQuestionIndex s))))
    ((if truthy (p_topicId params) then default "" topicName else "Mixed Topics") +:+
     (if truthy (q_subtopic q) then " - " +:+ default "" (q_subtopic q) else ""))
    (q_text q)
    (if truthy (q_imagePath q) then q_imagePath q else None)
    (options s q)
    (imap (λ idx _, dot s idx) (default [] (questions s)))
    (bool_decide (currentQuestionIndex s = 0))
    (next_shown s).

(** Lines 281-459 *)
Definition body (s : Page) : Body :=
  if isLoadingQuestions s then BSkeleton
  else match currentQuestion s with
       | Some q => BCard (card s q)
       | None => BEmpty (mkEmpty (match query s with Failed m => Some m | _ => None end)
                          (or_str (default "" (p_topicId params)) "All Topics")
                          (or_str (default "" topicName) "N/A"))
       end.

(** The page. *)
Definition view (s : Page) : View :=
  mkView topic_label
    ("Q " +:+ string_of_Z (Z.of_nat (S (currentQuestionIndex s))) +:+ "/" +:+ length_or_dots (questions s))
    (if isTimed params then None else Some (formatTime (Z.of_nat (timer s))))
    (if isTimed params
     then option_map (Countdown.render (option_map (λ t, t * 60)%Z (timeLimit params)) Countdown.Md) (countdown s)
     else None)
    (isTimed params)
    (progress_width s)
    (body s)
    (if submit_trigger s then Some (submit_dialog s) else None)
    (negb (bool_decide (pending s = [])) && showSubmitAnimation s).

End Render.

(** ** The clock reads back *)

Lemma string_of_Z_lacks_colon z : str_lacks ":"%char (string_of_Z z) = true.
Proof. apply (proj2 (string_of_Z_shape z)); [reflexivity|discriminate]. Qed.

(** The session clock, read back minutes and seconds, gives the timer. *)
Lemma clock_roundtrip seconds : (0 <= seconds)%Z -> read_clock (formatTime seconds) = Some seconds.
Proof.
  intros Hs. unfold formatTime, read_clock. rewrite Z.rem_mod_nonneg by lia.
  pose proof (Z.mod_pos_bound seconds 60 ltac:(lia)) as Hr.
  pose proof (Z.div_pos seconds 60 Hs ltac:(lia)) as Hm.
  change (":" +:+ ?x) with (String ":"%char x).
  rewrite split_on_app_sep by apply string_of_Z_lacks_colon.
  destruct (Z.ltb_spec (seconds mod 60) 10).
  - change ("0" +:+ ?x) with (String "0"%char x).
    rewrite split_on_lacks by (unfold str_lacks; cbn [str_forall]; apply string_of_Z_lacks_colon).
    rewrite parseInt_string_of_Z, parseInt_zero_pad by lia. f_equal. pose proof (Z.div_mod seconds 60). lia.
  - change ("" +:+ ?x) with x.
    rewrite split_on_lacks by apply string_of_Z_lacks_colon.
    rewrite !parseInt_string_of_Z. f_equal. pose proof (Z.div_mod seconds 60). lia.
Qed.

(** ** The loaded page *)

Lemma progress_width_lt s qs :
  questions s = Some qs -> (currentQuestionIndex s < length qs)%nat ->
  ∃ w, progress_width s = JNum w /\ (0 <= w < 100)%Q.
Proof. intros Hq Hi. unfold progress_width. rewrite Hq. by apply js_percent_lt. Qed.

Lemma dots_lookup s qs idx :
  questions s = Some qs -> length (answers s) = length qs -> idx <> currentQuestionIndex s ->
  (imap (λ i _, dot s i) qs !! idx = Some DotOpen <-> answers s !! idx = Some None).
Proof.
  intros _ Hl Hne. rewrite list_lookup_imap. unfold dot. rewrite decide_False by done.
  destruct (qs !! idx) as [q|] eqn:Eq; cbn.
  - destruct (answers s !! idx) as [[a|]|] eqn:Ea; [naive_solver|done|].
    apply lookup_ge_None in Ea. apply lookup_lt_Some in Eq. lia.
  - apply lookup_ge_None in Eq. rewrite (proj2 (lookup_ge_None _ _)) by lia. done.
Qed.

(** C34: on a page whose questions have arrived (and which satisfies the
    page invariant, as every reachable page does), the card shows the
    current question, the counter reads "Q i/n" with i at most n, the
    mobile dots mark exactly the unanswered questions as open, and the
    progress bar lies in [0, 100) -- it never fills, even on the last
    question. *)
Theorem loaded_view params topicName s qs :
  page_inv s -> query s = Loaded qs -> qs <> [] ->
  let v := view params topicName s in
  ∃ q c w, qs !! currentQuestionIndex s = Some q /\ v_body v = BCard c /\ c_text c = q_text q /\
    v_counter v = "Q " +:+ string_of_Z (Z.of_nat (S (currentQuestionIndex s))) +:+ "/" +:+
                  string_of_Z (Z.of_nat (length qs)) /\ (S (currentQuestionIndex s) <= length qs)%nat /\
    length (c_dots c) = length qs /\
    (∀ idx, idx <> currentQuestionIndex s -> c_dots c !! idx = Some DotOpen <-> answers s !! idx = Some None) /\
    v_progressWidth v = JNum w /\ (0 <= w < 100)%Q.
Proof.
  intros Hinv Hq Hne v. unfold page_inv in Hinv. rewrite Hq in Hinv.
  destruct Hinv as (Ha & _ & Hi & _). destruct Hi as [Hi|[-> _]]; [|done].
  assert (Hqs : questions s = Some qs) by (unfold questions; by rewrite Hq).
  destruct (lookup_lt_is_Some_2 qs (currentQuestionIndex s) Hi) as [q Hl].
  destruct (progress_width_lt s qs Hqs Hi) as [w [Hw Hb]].
  exists q, (card params topicName s q), w.
  assert (Hb' : v_body v = BCard (card params topicName s q)).
  { unfold v, view, body, isLoadingQuestions, currentQuestion. cbn [v_body]. rewrite Hq, Hqs. cbn. by rewrite Hl. }
  split; [done|]. split; [done|]. split; [done|].
  split. { unfold v, view. cbn [v_counter]. rewrite Hqs. destruct qs as [|q0 qs']; [congruence|]. unfold length_or_dots. reflexivity. }
  split; [lia|]. unfold card; cbn [c_dots]. rewrite Hqs; cbn [default].
  split; [by rewrite length_imap|]. split; [intros idx; by apply dots_lookup|].
  split; [done|done].
Qed.

(** A page on which one question has arrived. *)
Definition loaded_page : Page := on_loaded [one_question] (initial untimed_params).

Lemma loaded_view_witness :
  ∃ w, v_progressWidth (view untimed_params None loaded_page) = JNum w /\ (0 <= w < 100)%Q.
Proof.
  destruct (loaded_view untimed_params None loaded_page [one_question]
              ltac:(vm_compute; split; [reflexivity|split; [reflexivity|split; [left; lia|intros _; reflexivity]]])
              ltac:(reflexivity) ltac:(discriminate))
    as (q & c & w & _ & _ & _ & _ & _ & _ & _ & Hw & Hb).
  exists w. split; [exact Hw|exact Hb].
Defined.

(** ** The request carries the page's parameters *)

Lemma show_jsint_some n : show_jsint (Some n) = string_of_Z n.
Proof. unfold show_jsint, show_int, js_of_int. by rewrite Qfloor_Z. Qed.

Lemma plain_count n : Url.plain_pair ("count", string_of_Z n).
Proof. apply QuizConfig.value_plain; first [reflexivity|discriminate]. Qed.

(** The question URL is the path followed by an encoded query. *)
Lemma questions_url_pairs params n :
  questionCount params = Some n ->
  questions_url params =
    "/api/questions/random" +:+ String "?"%char (Url.encode_pairs
      (("count", string_of_Z n) ::
       (if truthy (p_topicId params) then [("topicId", default "" (p_topicId params))] else []))).
Proof.
  intros Hn. unfold questions_url. rewrite Hn, show_jsint_some.
  destruct (truthy (p_topicId params)); cbn -[string_of_Z]; by rewrite ?str_app_nil_r.
Qed.

Lemma search_get_encode l n :
  Forall Url.plain_pair l -> Url.search_get (String "?"%char (Url.encode_pairs l)) n = Url.lookup_first n l.
Proof. intros Hl. unfold Url.search_get. by rewrite Url.search_pairs_encode. Qed.

(** A topic id the query string carries unescaped. *)
Definition query_safe (topic : option string) : bool :=
  match topic with
  | Some t => str_lacks "&"%char t && str_lacks "%"%char t && str_lacks "+"%char t
  | None => true
  end.

Lemma plain_topic t :
  QuizConfig.topic_ok (Some t) -> query_safe (Some t) = true -> Url.plain_pair ("topicId", t).
Proof.
  intros (_ & Hp & _) Hq. cbn in Hq. apply andb_true_iff in Hq as [[H1 H2]%andb_true_iff H3].
  by split_and!.
Qed.

Lemma questions_location x l :
  Forall Url.plain_pair (x :: l) ->
  Url.parse_location ("/api/questions/random" +:+ String "?"%char (Url.encode_pairs (x :: l))) =
    Some ("/api/questions/random", String "?"%char (Url.encode_pairs (x :: l))).
Proof.
  intros Hl. change "/api/questions/random" with (String "/"%char (String.concat "/" ["api"; "questions"; "random"])).
  apply Url.parse_location_pairs; [discriminate| |done].
  repeat constructor; discriminate.
Qed.

(** C8: the settings chosen in the timed-quiz dialog reach the server: the
    practice page it navigates to requests its questions from
    /api/questions/random with the dialog's question count and, when a
    topic was chosen, that topic: the request URL, parsed by the browser's
    URL rules ([Url.parse_location]), has that path, and its query string,
    read as [URLSearchParams] reads it, gives back the count and the topic.
    The topic is one plain path segment ([QuizConfig.topic_ok]) without
    [&], [%] or [+] ([query_safe]); every decimal id is. *)
Theorem timed_quiz_request topic s :
  QuizConfig.topic_ok topic -> query_safe topic = true ->
  ∃ p, QuizConfig.practice_params (fst (QuizConfig.TimedQuizConfig.startTimedQuiz topic s)) = Some p /\
    ∃ search, Url.parse_location (questions_url p) = Some ("/api/questions/random", search) /\
    Url.search_get search "count" = Some (string_of_Z (QuizConfig.TimedQuizConfig.questionCount s)) /\
    Url.search_get search "topicId" = topic.
Proof.
  intros Ht Hq. eexists. split; [by apply QuizConfig.timed_path_params|].
  rewrite (questions_url_pairs _ (QuizConfig.TimedQuizConfig.questionCount s)).
  2: { unfold questionCount. cbn [p_count]. rewrite QuizConfig.or_default_some by apply string_of_Z_shape.
       apply parseInt_string_of_Z. }
  cbn [p_topicId]. destruct topic as [t|].
  - assert (Hpl := plain_topic t Ht Hq). destruct Ht as [Hne _]. destruct t as [|c t]; [done|].
    cbn [truthy default].
    assert (Hl : Forall Url.plain_pair [("count", string_of_Z (QuizConfig.TimedQuizConfig.questionCount s));
                                        ("topicId", String c t)]) by (constructor; [apply plain_count|constructor; [exact Hpl|constructor]]).
    rewrite questions_location by done. eexists. split; [reflexivity|].
    by rewrite !search_get_encode by done.
  - cbn [truthy].
    assert (Hl : Forall Url.plain_pair [("count", string_of_Z (QuizConfig.TimedQuizConfig.questionCount s))])
      by (constructor; [apply plain_count|constructor]).
    rewrite questions_location by done. eexists. split; [reflexivity|].
    by rewrite !search_get_encode by done.
Qed.

Lemma timed_quiz_request_witness :
  ∃ p, QuizConfig.practice_params (fst (QuizConfig.TimedQuizConfig.startTimedQuiz (Some "3")
                                          QuizConfig.TimedQuizConfig.initial)) = Some p /\
    ∃ search, Url.parse_location (questions_url p) = Some ("/api/questions/random", search) /\
    Url.search_get search "count" = Some "10" /\ Url.search_get search "topicId" = Some "3".
Proof.
  destruct (timed_quiz_request (Some "3") QuizConfig.TimedQuizConfig.initial) as (p & H1 & search & H2 & H3 & H4).
  - split_and!; [discriminate|reflexivity|reflexivity|discriminate|discriminate].
  - reflexivity.
  - exists p. split; [exact H1|]. exists search. split_and!; [exact H2|exact H3|exact H4].
Defined.

End PracticeView.
