(* ===== verification/Dashboard.v ===== *)
(** * Dashboard: the student's home page

    Models src/client/src/pages/student/dashboard.tsx ([StudentDashboard]):
    the three dialog-related state variables and the buttons that set them,
    the statistics derived from the student's sessions, the topic cards and
    the table of recent sessions.  A topic's "Timed Quiz" button opens the
    dialog of [QuizConfig] on that topic; the theorems follow that choice
    to the parameters the practice page reads and the topic of the session
    it posts. *)

From Stdlib Require Import Ascii ZArith QArith Qminmax Qround Lia Lqa.
From stdpp Require Import base list strings.
From S2P Require Import Prelude Scorer Submission PracticeSession Results Url QuizConfig.

(** [Topic] of the shared schema (spec, section 3): [questionCount] is
    derived by the server. *)
Record Topic := mkTopic {
  t_id : Z;
  t_name : string;
  t_description : option string;
  t_questionCount : option Z
}.

#[export] Instance Topic_eq_dec : EqDecision Topic.
Proof. solve_decision. Defined.

(** [User] of the shared schema (spec, section 3). *)
Record User := mkUser {
  u_id : Z;
  u_username : string;
  u_fullName : string;
  u_email : string;
  u_role : string;
  u_approved : bool;
  u_active : bool;
  u_createdAt : string
}.

Module StudentDashboard.
Import Submission Results.

(** Lines 18-20 *)
Record State := mkState {
  isTimedQuizOpen : bool;
  isPracticeConfigOpen : bool;
  selectedTopicId : option string
}.

Definition initial : State := mkState false false None.

(** The controls of the page that change its state. *)
Inductive Event :=
  | StartTimedQuiz                  (* lines 59-63 *)
  | TopicPractice (id : Z)          (* lines 176-179 *)
  | TopicTimed (id : Z)             (* lines 203-206 *)
  | AllTopicsPractice               (* lines 218-221 *)
  | AllTopicsTimed                  (* lines 239-242 *)
  | TimedOpenChange (open : bool)   (* line 74 *)
  | PracticeOpenChange (open : bool). (* line 81 *)

(** [String(topic.id)] *)
Definition topic_param (id : Z) : string := string_of_Z id.

(** The topic cards exist once the topics are loaded, one per topic. *)
Definition step (topics : Query (list Topic)) (s : State) (e : Event) : option State :=
  match e with
  | StartTimedQuiz => Some (mkState true (isPracticeConfigOpen s) None)
  | TopicPractice id =>
      if bool_decide (id ∈ t_id <$> default [] (query_data topics))
      then Some (mkState (isTimedQuizOpen s) true (Some (topic_param id))) else None
  | TopicTimed id =>
      if bool_decide (id ∈ t_id <$> default [] (query_data topics))
      then Some (mkState true (isPracticeConfigOpen s) (Some (topic_param id))) else None
  | AllTopicsPractice =>
      if is_loading topics then None else Some (mkState (isTimedQuizOpen s) true None)
  | AllTopicsTimed =>
      if is_loading topics then None else Some (mkState true (isPracticeConfigOpen s) None)
  | TimedOpenChange b => Some (mkState b (isPracticeConfigOpen s) (selectedTopicId s))
  | PracticeOpenChange b => Some (mkState (isTimedQuizOpen s) b (selectedTopicId s))
  end.

(** ** Statistics (lines 36-43) *)

Definition sum_by (f : InsertSession -> nat) (l : list InsertSession) : nat :=
  foldl (λ total s, total + f s) 0 l.

Definition attempted (sessions : option (list InsertSession)) : nat :=
  default 0 (sum_by s_totalQuestions <$> sessions).

Definition accuracy (sessions : option (list InsertSession)) : string :=
  match sessions with
  | Some ((_ :: _) as l) =>
      toFixed0 (js_mul (js_div (Q_of_nat (sum_by s_correctAnswers l))
                               (Q_of_nat (sum_by s_totalQuestions l))) 100)
  | _ => "0"
  end.

Definition sessionsCount (sessions : option (list InsertSession)) : nat :=
  default 0 (length <$> sessions).

(** The widths of the bars of lines 102 and 146, in percent. *)
Definition attempted_width (sessions : option (list InsertSession)) : Q :=
  Qmin (Q_of_nat (attempted sessions) / 100 * 100) 100.

Definition sessions_width (sessions : option (list InsertSession)) : Q :=
  Qmin (Q_of_nat (sessionsCount sessions) / 20 * 100) 100.

(** Lines 84-141: the three statistics cards, each a number and a bar;
    the accuracy bar's width is the accuracy text itself. *)
Record StatsView := mkStatsView {
  st_attempted : nat;
  st_attemptedWidth : Q;
  st_accuracy : string;
  st_accuracyWidth : string;
  st_sessions : nat;
  st_sessionsWidth : Q
}.

Definition stats_view (sessions : option (list InsertSession)) : StatsView :=
  mkStatsView (attempted sessions) (attempted_width sessions)
    (accuracy sessions +:+ "%") (accuracy sessions +:+ "%")
    (sessionsCount sessions) (sessions_width sessions).

(** Line 55: [user?.fullName?.split(' ')[0] || 'Student']. *)
Definition first_name (user : option User) : string :=
  match user with
  | Some u => or_str (default "" (head (split_on " "%char (u_fullName u)))) "Student"
  | None => "Student"
  end.

(** ** Topic cards (lines 164-250) *)

Record TopicCard := mkTopicCard {
  tc_name : string;
  tc_description : string;
  tc_count : string
}.

(** [topics?.find(t => t.id === topic.id)?.questionCount || "Loading..."] *)
Definition count_text (topics : list Topic) (t : Topic) : string :=
  match find (λ t', bool_decide (t_id t' = t_id t)) topics ≫= t_questionCount with
  | Some n => if bool_decide (n = 0%Z) then "Loading..." else string_of_Z n
  | None => "Loading..."
  end +:+ " questions".

Definition topic_card (topics : list Topic) (t : Topic) : TopicCard :=
  {| tc_name := t_name t;
     tc_description := or_str (render_opt (t_description t)) ("Practice " +:+ t_name t +:+ " questions");
     tc_count := count_text topics t |}.

Inductive TopicsView :=
  | TopicsSkeleton
  | TopicsGrid (cards : list TopicCard).

Definition topics_view (topics : Query (list Topic)) : TopicsView :=
  match topics with
  | QLoading => TopicsSkeleton
  | QData ts => TopicsGrid (topic_card ts <$> ts)
  | QError _ => TopicsGrid []
  end.

(** ** Recent sessions (lines 46 and 264-336) *)

Record RecentRow := mkRecentRow {
  rr_topic : string;
  rr_questions : nat;
  rr_scoreClass : string;
  rr_score : string;
  rr_barClass : string;
  rr_accuracy : string;
  rr_time : string;
  rr_href : string
}.

(** Lines 290-292 *)
Definition score_class (score : JsNum) : string :=
  let c := "text-green-600 font-medium" in
  let c := if js_lt score 70 then "text-yellow-600 font-medium" else c in
  if js_lt score 60 then "text-red-600 font-medium" else c.

(** [x >= k] on an integer-valued number: false on [NaN]. *)
Definition int_ge (x : JsInt) (k : Z) : bool :=
  match x with Some v => (k <=? v)%Z | None => false end.

(** Lines 307-310: the colour is read back from the rounded text. *)
Definition bar_class (accuracy : string) : string :=
  if int_ge (parseInt accuracy) 80 then "bg-green-600"
  else if int_ge (parseInt accuracy) 60 then "bg-yellow-600"
  else "bg-red-600".

(** Lines 283-327 *)
Definition recent_row (topics : option (list Topic)) (p : Z * InsertSession) : RecentRow :=
  let '(id, s) := p in
  let topicName :=
    or_str (default "" (t_name <$> (topics ≫= find (λ t, bool_decide (Some (t_id t) = s_topicId s)))))
           "All Topics" in
  let acc := toFixed0 (js_mul (js_div (Q_of_nat (s_correctAnswers s)) (Q_of_nat (s_totalQuestions s))) 100) in
  let t := Z.of_nat (s_timeSpent s) in
  {| rr_topic := topicName;
     rr_questions := s_totalQuestions s;
     rr_scoreClass := score_class (s_score s);
     rr_score := toFixed0 (s_score s) +:+ "% (" +:+ string_of_Z (Z.of_nat (s_correctAnswers s))
                 +:+ "/" +:+ string_of_Z (Z.of_nat (s_totalQuestions s)) +:+ ")";
     rr_barClass := bar_class acc;
     rr_accuracy := acc;
     rr_time := string_of_Z (t / 60) +:+ "m " +:+ string_of_Z (Z.rem t 60) +:+ "s";
     rr_href := "/results/" +:+ string_of_Z id |}.

Inductive RecentView :=
  | RecentSkeleton
  | RecentTable (rows : list RecentRow)
  | RecentEmpty.

Definition recent_view (topics : option (list Topic)) (sessions : Query (list (Z * InsertSession)))
    : RecentView :=
  match sessions with
  | QLoading => RecentSkeleton
  | _ =>
      let recentSessions := take 5 (default [] (query_data sessions)) in
      if bool_decide (0 < length recentSessions) then RecentTable (recent_row topics <$> recentSessions)
      else RecentEmpty
  end.

(** ** Lemmas *)

Lemma sum_by_foldl f a l : foldl (λ total s, total + f s) a l = a + sum_by f l.
Proof.
  unfold sum_by. assert (G : forall b, foldl (λ total s, total + f s) (a + b) l =
                                      a + foldl (λ total s, total + f s) b l).
  { revert a. induction l as [|x l IH]; intros a b; simpl; [done|].
    rewrite <- Nat.add_assoc. apply IH. }
  rewrite <- G. by rewrite Nat.add_0_r.
Qed.

Lemma sum_by_cons f x l : sum_by f (x :: l) = f x + sum_by f l.
Proof. unfold sum_by at 1. simpl. by rewrite sum_by_foldl. Qed.

Lemma sum_by_le (f g : InsertSession -> nat) l :
  Forall (λ s, f s <= g s) l -> sum_by f l <= sum_by g l.
Proof. induction 1; [done|]. rewrite !sum_by_cons. lia. Qed.

Lemma round_Q_bounds q : (0 <= q <= 100)%Q -> (0 <= round_Q q <= 100)%Z.
Proof.
  intros [H0 H1]. unfold round_Q. split.
  - change 0%Z with (Qfloor (0 + (1 # 2))). apply Qfloor_resp_le. by apply Qplus_le_l.
  - change 100%Z with (Qfloor (100 + (1 # 2))). apply Qfloor_resp_le. by apply Qplus_le_l.
Qed.

Lemma toFixed0_nonneg q : (0 <= q)%Q -> toFixed0 (JNum q) = string_of_Z (round_Q q).
Proof. intros Hq. unfold toFixed0. apply Qle_bool_iff in Hq. by rewrite Hq. Qed.

Lemma topic_ok_param z : topic_ok (Some (topic_param z)).
Proof. apply Url.seg_ok_string_of_Z. Qed.

Lemma topic_of_param_Z z : topic_of_param (Some (topic_param z)) = Some z.
Proof.
  unfold topic_param. destruct (string_of_Z_shape z) as [Hne _].
  rewrite <- (parseInt_string_of_Z z). unfold topic_of_param.
  destruct (string_of_Z z); [done|reflexivity].
Qed.

(** ** Properties *)

(** C33: a topic's "Timed Quiz" button opens the timed dialog on that
    topic, and whatever the dialog's settings, the practice page it starts
    runs a timed quiz whose session is posted with that topic's id. *)
Theorem topic_timed_to_session topics s s' z ds :
  step topics s (TopicTimed z) = Some s' ->
  isTimedQuizOpen s' = true /\
  exists p, practice_params (fst (QuizConfig.TimedQuizConfig.startTimedQuiz (selectedTopicId s') ds)) = Some p /\
    PracticeSession.isTimed p = true /\ topic_of_param (PracticeSession.p_topicId p) = Some z.
Proof.
  simpl. case_bool_decide; [|discriminate]. intros [= <-]. split; [done|].
  eexists. split; [apply timed_path_params, topic_ok_param|]. split.
  - reflexivity.
  - apply topic_of_param_Z.
Qed.

(** The dashboard's accuracy rate, for sessions that each have no
    more correct answers than questions, reads as a whole percentage in
    [0, 100] once some session has a question; if sessions exist but none
    has a question it is the text "NaN" (shown as "NaN%"). *)
Theorem accuracy_cases l :
  Forall (λ s, s_correctAnswers s <= s_totalQuestions s) l ->
  (0 < sum_by s_totalQuestions l ->
     exists n, parseInt (accuracy (Some l)) = Some n /\ (0 <= n <= 100)%Z) /\
  (l <> [] -> sum_by s_totalQuestions l = 0 -> accuracy (Some l) = "NaN").
Proof.
  intros Hl. pose proof (sum_by_le _ _ _ Hl) as Hle. split.
  - intros Hpos. destruct l as [|x l']; [unfold sum_by in Hpos; simpl in Hpos; lia|]. unfold accuracy.
    destruct (js_percent_bounds (sum_by s_correctAnswers (x :: l')) (sum_by s_totalQuestions (x :: l')))
      as (q & -> & Hq); [done|done|].
    rewrite toFixed0_nonneg by apply Hq. rewrite parseInt_string_of_Z.
    eexists; split; [done|]. by apply round_Q_bounds.
  - intros Hne H0. destruct l as [|x l']; [done|]. unfold accuracy.
    assert (Hc : sum_by s_correctAnswers (x :: l') = 0) by lia. rewrite Hc, H0. reflexivity.
Qed.

(** [Math.min(n / k * 100, 100)] for a count [n] and a scale [k]. *)
Lemma bar_width_bounds (n k : nat) :
  (0 < k)%nat ->
  (0 <= Qmin (Q_of_nat n / Q_of_nat k * 100) 100 <= 100)%Q /\
  (Qmin (Q_of_nat n / Q_of_nat k * 100) 100 == 100 <-> (k <= n)%nat)%Q.
Proof.
  intros Hk. unfold Q_of_nat.
  assert (Hkn : (inject_Z (Z.of_nat k) <= inject_Z (Z.of_nat n))%Q <-> (k <= n)%nat)
    by (unfold Qle; cbn; lia).
  assert (HK : (0 < inject_Z (Z.of_nat k))%Q) by (unfold Qlt; cbn; lia).
  assert (HN : (0 <= inject_Z (Z.of_nat n))%Q) by (unfold Qle; cbn; lia).
  revert Hkn HK HN. generalize (inject_Z (Z.of_nat n)) (inject_Z (Z.of_nat k)). intros N K Hkn HK HN.
  assert (HxK : (N / K * K == N)%Q) by (rewrite Qmult_comm, Qmult_div_r; [reflexivity|intros H; lra]).
  revert HxK. generalize (N / K)%Q. intros x HxK.
  assert (Hx : (0 <= x)%Q) by nra.
  assert (Hiff : (100 <= x * 100 <-> (k <= n)%nat)%Q) by (rewrite <- Hkn; split; intros; nra).
  destruct (Q.min_spec (x * 100) 100) as [[H1 H2]|[H1 H2]]; rewrite H2; split; try lra.
  - split; [intros Hq; apply Hiff; lra|intros Hle; apply Hiff in Hle; lra].
  - split; [intros _; apply Hiff; lra|reflexivity].
Qed.

(** The bars of the first and third cards stay within their track and
    are full exactly from 100 questions and from 20 sessions. *)
Theorem stats_bars sessions :
  let v := stats_view sessions in
  (0 <= st_attemptedWidth v <= 100)%Q /\ (st_attemptedWidth v == 100 <-> (100 <= st_attempted v)%nat)%Q /\
  (0 <= st_sessionsWidth v <= 100)%Q /\ (st_sessionsWidth v == 100 <-> (20 <= st_sessions v)%nat)%Q.
Proof.
  cbn. destruct (bar_width_bounds (attempted sessions) 100) as [? ?]; [lia|].
  destruct (bar_width_bounds (sessionsCount sessions) 20) as [? ?]; [lia|].
  unfold attempted_width, sessions_width. done.
Qed.

(** ** Witnesses *)

Definition sample_topics : Query (list Topic) := QData [mkTopic 3 "Valves" None (Some 12%Z)].

Lemma topic_timed_to_session_witness :
  step sample_topics initial (TopicTimed 3) = Some (mkState true false (Some "3")) /\
  isTimedQuizOpen (mkState true false (Some "3")) = true /\
  exists p, practice_params (fst (QuizConfig.TimedQuizConfig.startTimedQuiz (Some "3")
                                    QuizConfig.TimedQuizConfig.initial)) = Some p /\
    PracticeSession.isTimed p = true /\ topic_of_param (PracticeSession.p_topicId p) = Some 3%Z.
Proof.
  assert (H : step sample_topics initial (TopicTimed 3) = Some (mkState true false (Some "3")))
    by reflexivity.
  split; [exact H|]. exact (topic_timed_to_session _ _ _ 3 QuizConfig.TimedQuizConfig.initial H).
Defined.

Definition two_sessions : list InsertSession :=
  [two_question_session; mkInsertSession 0 None 10 7 (JNum 70) 95].

Lemma accuracy_cases_witness :
  Forall (λ s, s_correctAnswers s <= s_totalQuestions s) two_sessions /\
  (0 < sum_by s_totalQuestions two_sessions ->
     exists n, parseInt (accuracy (Some two_sessions)) = Some n /\ (0 <= n <= 100)%Z) /\
  (two_sessions <> [] -> sum_by s_totalQuestions two_sessions = 0 ->
     accuracy (Some two_sessions) = "NaN").
Proof.
  assert (H : Forall (λ s, s_correctAnswers s <= s_totalQuestions s) two_sessions)
    by (repeat constructor; simpl; lia).
  split; [exact H|]. exact (accuracy_cases two_sessions H).
Defined.

End StudentDashboard.
