(* ===== verification/Backup.v ===== *)
(** * Backup: the backup management page

    Models src/client/src/pages/admin/backup-management.tsx
    ([BackupManagement]).  Its handlers are [async]: each runs a first
    synchronous part when the control is used, sends a request, and runs
    the rest when the response arrives, with the values of the render that
    created it ([loading] in particular).  The page is a state with the
    requests sent so far and the continuations still waiting, one per
    request or timer; an event is either a control of the rendered page
    (enabled as the JSX enables it) or the arrival of the response of one
    waiting continuation, in any order.  The [loading] object is a map from
    keys to booleans, updated with [{ ...loading, key: v }] from the
    captured value as the code does. *)

From Stdlib Require Import Ascii ZArith QArith Qround Lia.
From stdpp Require Import base list strings gmap.
From S2P Require Import Prelude.

Module Backup.

(** Lines 19-26 *)
Record BackupFile := mkBackupFile {
  b_id : string;
  b_filename : string;
  b_createdAt : string;
  b_size : Z;
  b_isAutomatic : bool;
  b_status : string
}.

#[export] Instance BackupFile_eq_dec : EqDecision BackupFile.
Proof. solve_decision. Defined.

(** The [loading] object: [{ [key: string]: boolean }]. *)
Abbreviation Loading := (gmap string bool).

(** [loading[key]], [undefined] being falsy. *)
Definition flag (l : Loading) (k : string) : bool := default false (l !! k).

(** Lines 33-39 *)
Definition loading_initial : Loading :=
  <["list" := true]> (<["create" := false]> (<["restore" := false]>
    (<["view" := false]> (<["delete" := false]> ∅)))).

(** Line 44 *)
Inductive BackupStatus := SIdle | SRunning | SComplete | SError.

#[export] Instance BackupStatus_eq_dec : EqDecision BackupStatus.
Proof. solve_decision. Defined.

Inductive Request :=
  | GetBackups
  | GetSchedule
  | PostCreate
  | GetContent (id : string)
  | DeleteBackup (id : string)
  | PostRestore (id : string).

#[export] Instance Request_eq_dec : EqDecision Request.
Proof. solve_decision. Defined.

(** A continuation waiting for a response (or a timer), with the [loading]
    of the render whose handler created it. *)
Inductive Task :=
  | TFetchList (captured : Loading)
  | TFetchSchedule
  | TCreate (captured : Loading)
  | TView (captured : Loading)
  | TDelete (captured : Loading)
  | TRestore (captured : Loading)
  | TStatusReset.

Inductive Response :=
  | RFail
  | RFiles (files : list BackupFile)
  | RSchedule (lastBackup nextBackup : option string)
  | RContent (content : string)
  | ROk.

(** Lines 30-44, with the toasts raised, the requests sent and the
    continuations waiting. *)
Record Page := mkPage {
  backupFiles : list BackupFile;
  selectedBackup : option BackupFile;
  backupContent : string;
  loading : Loading;
  openDialog : option string;
  confirmText : string;
  lastBackupDate : option string;
  nextBackupDate : option string;
  backupStatus : BackupStatus;
  toasts : list string;
  sent : list Request;
  pending : list Task
}.

(** The state setters ([setX(v)]) and the two effects of the page on the
    outside world. *)
Definition setBackupFiles v p := mkPage v (selectedBackup p) (backupContent p) (loading p) (openDialog p) (confirmText p) (lastBackupDate p) (nextBackupDate p) (backupStatus p) (toasts p) (sent p) (pending p).
Definition setSelectedBackup v p := mkPage (backupFiles p) v (backupContent p) (loading p) (openDialog p) (confirmText p) (lastBackupDate p) (nextBackupDate p) (backupStatus p) (toasts p) (sent p) (pending p).
Definition setBackupContent v p := mkPage (backupFiles p) (selectedBackup p) v (loading p) (openDialog p) (confirmText p) (lastBackupDate p) (nextBackupDate p) (backupStatus p) (toasts p) (sent p) (pending p).
Definition setLoading v p := mkPage (backupFiles p) (selectedBackup p) (backupContent p) v (openDialog p) (confirmText p) (lastBackupDate p) (nextBackupDate p) (backupStatus p) (toasts p) (sent p) (pending p).
Definition setOpenDialog v p := mkPage (backupFiles p) (selectedBackup p) (backupContent p) (loading p) v (confirmText p) (lastBackupDate p) (nextBackupDate p) (backupStatus p) (toasts p) (sent p) (pending p).
Definition setConfirmText v p := mkPage (backupFiles p) (selectedBackup p) (backupContent p) (loading p) (openDialog p) v (lastBackupDate p) (nextBackupDate p) (backupStatus p) (toasts p) (sent p) (pending p).
Definition setLastBackupDate v p := mkPage (backupFiles p) (selectedBackup p) (backupContent p) (loading p) (openDialog p) (confirmText p) v (nextBackupDate p) (backupStatus p) (toasts p) (sent p) (pending p).
Definition setNextBackupDate v p := mkPage (backupFiles p) (selectedBackup p) (backupContent p) (loading p) (openDialog p) (confirmText p) (lastBackupDate p) v (backupStatus p) (toasts p) (sent p) (pending p).
Definition setBackupStatus v p := mkPage (backupFiles p) (selectedBackup p) (backupContent p) (loading p) (openDialog p) (confirmText p) (lastBackupDate p) (nextBackupDate p) v (toasts p) (sent p) (pending p).
Definition toast (title : string) p := mkPage (backupFiles p) (selectedBackup p) (backupContent p) (loading p) (openDialog p) (confirmText p) (lastBackupDate p) (nextBackupDate p) (backupStatus p) (toasts p ++ [title]) (sent p) (pending p).
Definition request (r : Request) (t : Task) p := mkPage (backupFiles p) (selectedBackup p) (backupContent p) (loading p) (openDialog p) (confirmText p) (lastBackupDate p) (nextBackupDate p) (backupStatus p) (toasts p) (sent p ++ [r]) (pending p ++ [t]).
Definition setTimeout (t : Task) p := mkPage (backupFiles p) (selectedBackup p) (backupContent p) (loading p) (openDialog p) (confirmText p) (lastBackupDate p) (nextBackupDate p) (backupStatus p) (toasts p) (sent p) (pending p ++ [t]).
Definition set_pending v p := mkPage (backupFiles p) (selectedBackup p) (backupContent p) (loading p) (openDialog p) (confirmText p) (lastBackupDate p) (nextBackupDate p) (backupStatus p) (toasts p) (sent p) v.

(** ** Handlers: the part before the first [await] *)

(** Lines 51-54; [captured] is the [loading] of the render that defined the
    calling handler. *)
Definition fetchBackups (captured : Loading) (p : Page) : Page :=
  request GetBackups (TFetchList captured) (setLoading (<["list" := true]> captured) p).

(** Lines 69-71 *)
Definition fetchBackupSchedule (p : Page) : Page := request GetSchedule TFetchSchedule p.

(** Lines 80-84 *)
Definition createManualBackup (p : Page) : Page :=
  let l := loading p in
  request PostCreate (TCreate l) (setBackupStatus SRunning (setLoading (<["create" := true]> l) p)).

(** Lines 106-111 *)
Definition viewBackupContent (backup : BackupFile) (p : Page) : Page :=
  let l := loading p in
  request (GetContent (b_id backup)) (TView l)
    (setOpenDialog (Some "view") (setLoading (<["view" := true]> l) (setSelectedBackup (Some backup) p))).

(** Lines 127-139 *)
Definition deleteBackup (backup : BackupFile) (p : Page) : Page :=
  if bool_decide (confirmText p <> b_filename backup) then toast "Confirmation Failed" p
  else let l := loading p in
       request (DeleteBackup (b_id backup)) (TDelete l) (setLoading (<["delete" := true]> l) p).

(** Lines 159-171 *)
Definition restoreBackup (backup : BackupFile) (p : Page) : Page :=
  if bool_decide (confirmText p <> b_filename backup) then toast "Confirmation Failed" p
  else let l := loading p in
       request (PostRestore (b_id backup)) (TRestore l) (setLoading (<["restore" := true]> l) p).

(** ** Continuations: the part after the [await], [catch] and [finally] *)

(** The responses a continuation can receive. *)
Definition fits (t : Task) (r : Response) : bool :=
  match t, r with
  | TStatusReset, ROk => true
  | TStatusReset, _ => false
  | _, RFail => true
  | TFetchList _, RFiles _ => true
  | TFetchSchedule, RSchedule _ _ => true
  | (TCreate _ | TDelete _ | TRestore _), ROk => true
  | TView _, RContent _ => true
  | _, _ => false
  end.

(** Lines 55-66, 72-77, 85-103, 112-124, 139-156, 171-187 and the timer of
    line 102. *)
Definition finish (t : Task) (r : Response) (p : Page) : Page :=
  match t with
  | TFetchList l =>
      let p := match r with
               | RFiles fs => setBackupFiles fs p
               | _ => toast "Error Fetching Backups" p
               end in
      setLoading (<["list" := false]> l) p
  | TFetchSchedule =>
      match r with
      | RSchedule a b => setNextBackupDate b (setLastBackupDate a p)
      | _ => p
      end
  | TCreate l =>
      let p := match r with
               | RFail => setBackupStatus SError (toast "Backup Failed" p)
               | _ => setBackupStatus SComplete (fetchBackups l (toast "Backup Created" p))
               end in
      setTimeout TStatusReset (setLoading (<["create" := false]> l) p)
  | TView l =>
      let p := match r with
               | RContent c => setBackupContent c p
               | _ => setBackupContent "Error loading backup content" (toast "Error Viewing Backup" p)
               end in
      setLoading (<["view" := false]> l) p
  | TDelete l =>
      let p := match r with
               | RFail => toast "Error Deleting Backup" p
               | _ => fetchBackups l (setOpenDialog None (toast "Backup Deleted" p))
               end in
      setConfirmText "" (setLoading (<["delete" := false]> l) p)
  | TRestore l =>
      let p := match r with
               | RFail => toast "Error Restoring Backup" p
               | _ => setOpenDialog None (toast "Backup Restored" p)
               end in
      setConfirmText "" (setLoading (<["restore" := false]> l) p)
  | TStatusReset => setBackupStatus SIdle p
  end.

(** The first render and the mount effect (lines 46-49). *)
Definition initial : Page :=
  let p := mkPage [] None "" loading_initial None "" None None SIdle [] [] [] in
  fetchBackupSchedule (fetchBackups (loading p) p).

(** ** Events *)

Inductive Event :=
  | ERefresh                      (* lines 229-237 *)
  | ECreate                       (* lines 238-251 *)
  | EView (b : BackupFile)        (* line 330 *)
  | EOpenRestore (b : BackupFile) (* lines 340-343 *)
  | EOpenDelete (b : BackupFile)  (* lines 352-355 *)
  | ETypeConfirm (text : string)  (* lines 420-424, 465-469 *)
  | ECloseDialog                  (* lines 369, 392, 398, 427, 450, 472 *)
  | EConfirmRestore               (* lines 430-434 *)
  | EConfirmDelete                (* lines 475-479 *)
  | ESettle (i : nat) (r : Response).

(** The rows of the list exist when the list is not loading (line 292). *)
Definition row_shown (p : Page) (b : BackupFile) : bool :=
  negb (flag (loading p) "list") && bool_decide (b ∈ backupFiles p).

(** [disabled={loading.x || confirmText !== selectedBackup?.filename}] *)
Definition confirm_enabled (p : Page) (key : string) : option BackupFile :=
  match selectedBackup p with
  | Some b => if negb (flag (loading p) key) && bool_decide (confirmText p = b_filename b)
              then Some b else None
  | None => None
  end.

Definition step (p : Page) (e : Event) : option Page :=
  match e with
  | ERefresh => if flag (loading p) "list" then None else Some (fetchBackups (loading p) p)
  | ECreate =>
      if flag (loading p) "create" || negb (bool_decide (backupStatus p = SIdle)) then None
      else Some (createManualBackup p)
  | EView b => if row_shown p b then Some (viewBackupContent b p) else None
  | EOpenRestore b =>
      if row_shown p b then Some (setOpenDialog (Some "restore") (setSelectedBackup (Some b) p)) else None
  | EOpenDelete b =>
      if row_shown p b then Some (setOpenDialog (Some "delete") (setSelectedBackup (Some b) p)) else None
  | ETypeConfirm text =>
      if bool_decide (openDialog p = Some "restore" \/ openDialog p = Some "delete")
      then Some (setConfirmText text p) else None
  | ECloseDialog =>
      match openDialog p with Some _ => Some (setOpenDialog None p) | None => None end
  | EConfirmRestore =>
      if bool_decide (openDialog p = Some "restore") then (λ b, restoreBackup b p) <$> confirm_enabled p "restore"
      else None
  | EConfirmDelete =>
      if bool_decide (openDialog p = Some "delete") then (λ b, deleteBackup b p) <$> confirm_enabled p "delete"
      else None
  | ESettle i r =>
      match pending p !! i with
      | Some t => if fits t r then Some (finish t r (set_pending (delete i (pending p)) p)) else None
      | None => None
      end
  end.

Definition run : Page -> list Event -> option Page := run_steps step.

(** ** The rendered page *)

(** [x.toFixed(2)] *)
Definition toFixed2 (q : Q) : string :=
  let digits n := string_of_Z (n / 100) +:+ "." +:+ pad2 (string_of_Z (n mod 100)) in
  if Qle_bool 0 q then digits (round_Q (q * 100))
  else String "-"%char (digits (round_Q (- q * 100))).

(** Lines 190-194 *)
Definition formatFileSize (bytes : Z) : string :=
  if (bytes <? 1024)%Z then string_of_Z bytes +:+ " B"
  else if (bytes <? 1048576)%Z then toFixed2 (inject_Z bytes / 1024) +:+ " KB"
  else toFixed2 (inject_Z bytes / 1048576) +:+ " MB".

(** Lines 235-250 *)
Definition createLabel (st : BackupStatus) : string :=
  match st with
  | SIdle => "Create Backup"
  | SRunning => "Processing..."
  | SComplete => "Completed"
  | SError => "Failed"
  end.

Section View.
(** [new Intl.DateTimeFormat('en-US', {...}).format(new Date(s))] in
    Central Time, [None] when it throws; the time zone database is not
    modelled. *)
Context (intl_format : string -> option string).

(** Lines 196-216 *)
Definition formatDate (dateString : string) : string :=
  if str_includes "AM" dateString || str_includes "PM" dateString then dateString
  else default dateString (intl_format dateString).

Record BackupRow := mkBackupRow {
  br_filename : string;
  br_badge : string;
  br_date : string;
  br_size : string
}.

Inductive ListView :=
  | ListSpinner
  | ListEmpty
  | ListRows (rows : list BackupRow).

Record PageView := mkPageView {
  pv_refreshDisabled : bool;
  pv_createDisabled : bool;
  pv_createLabel : string;
  pv_lastBackup : string;
  pv_nextBackup : string;
  pv_list : ListView
}.

(** Lines 306-325 *)
Definition backup_row (b : BackupFile) : BackupRow :=
  {| br_filename := b_filename b;
     br_badge := if b_isAutomatic b then "Automatic" else "Manual";
     br_date := formatDate (b_createdAt b);
     br_size := formatFileSize (b_size b) |}.

(** Lines 218-366 *)
Definition render_page (p : Page) : PageView :=
  {| pv_refreshDisabled := flag (loading p) "list";
     pv_createDisabled := flag (loading p) "create" || negb (bool_decide (backupStatus p = SIdle));
     pv_createLabel := createLabel (backupStatus p);
     pv_lastBackup := if truthy (lastBackupDate p) then formatDate (render_opt (lastBackupDate p))
                      else "No previous backup";
     pv_nextBackup := if truthy (nextBackupDate p) then formatDate (render_opt (nextBackupDate p))
                      else "8:00 AM daily";
     pv_list := if flag (loading p) "list" then ListSpinner
                else match backupFiles p with
                     | [] => ListEmpty
                     | fs => ListRows (backup_row <$> fs)
                     end |}.

(** A confirmation dialog: the filename to type, whether the button is
    disabled, and its label. *)
Record ConfirmDialog := mkConfirmDialog {
  cd_filename : string;
  cd_disabled : bool;
  cd_label : string
}.

Record DialogsView := mkDialogsView {
  dv_view : option (string * option string);
  dv_restore : option ConfirmDialog;
  dv_delete : option ConfirmDialog
}.

Definition confirm_dialog (p : Page) (key busy idle : string) : ConfirmDialog :=
  {| cd_filename := render_opt (b_filename <$> selectedBackup p);
     cd_disabled := negb (present (confirm_enabled p key));
     cd_label := if flag (loading p) key then busy else idle |}.

(** Lines 368-492: the open dialog, if any. *)
Definition render_dialogs (p : Page) : DialogsView :=
  {| dv_view :=
       if bool_decide (openDialog p = Some "view") then
         Some (render_opt (b_filename <$> selectedBackup p) +:+ " - Backup Content",
               if flag (loading p) "view" then None else Some (backupContent p))
       else None;
     dv_restore :=
       if bool_decide (openDialog p = Some "restore") then
         Some (confirm_dialog p "restore" "Restoring..." "Restore Backup")
       else None;
     dv_delete :=
       if bool_decide (openDialog p = Some "delete") then
         Some (confirm_dialog p "delete" "Deleting..." "Delete Backup")
       else None |}.

End View.

(** No continuation waiting would clear [loading.create]: none is a
    [createManualBackup] one, and all captured a [loading] with [create]
    set. *)
Definition keeps_create (t : Task) : Prop :=
  match t with
  | TFetchList l | TView l | TDelete l | TRestore l => flag l "create" = true
  | TCreate _ => False
  | TFetchSchedule | TStatusReset => True
  end.

Definition create_stuck (p : Page) : Prop :=
  flag (loading p) "create" = true /\ Forall keeps_create (pending p).

(** ** Lemmas *)

Lemma flag_insert_ne (l : Loading) k k' v : k <> k' -> flag (<[k := v]> l) k' = flag l k'.
Proof. intros Hk. unfold flag. by rewrite lookup_insert_ne. Qed.

Lemma flag_insert_create (l : Loading) k v :
  k <> "create" -> flag l "create" = true -> flag (<[k := v]> l) "create" = true.
Proof. intros Hk Hl. by rewrite flag_insert_ne. Qed.

Lemma keeps_app ts t : Forall keeps_create ts -> keeps_create t -> Forall keeps_create (ts ++ [t]).
Proof. intros H1 H2. apply Forall_app. split; [done|]. by constructor. Qed.


Lemma fetchBackups_stuck l p :
  flag l "create" = true -> Forall keeps_create (pending p) ->
  create_stuck (fetchBackups l p).
Proof. intros Hl Hp. split; simpl; [by apply flag_insert_create|by apply keeps_app]. Qed.

Lemma delete_stuck b p : create_stuck p -> create_stuck (deleteBackup b p).
Proof.
  intros [Hc Hp]. unfold deleteBackup. case_bool_decide; [done|].
  split; simpl; [by apply flag_insert_create|by apply keeps_app].
Qed.

Lemma restore_stuck b p : create_stuck p -> create_stuck (restoreBackup b p).
Proof.
  intros [Hc Hp]. unfold restoreBackup. case_bool_decide; [done|].
  split; simpl; [by apply flag_insert_create|by apply keeps_app].
Qed.

Lemma finish_stuck t r p :
  keeps_create t -> create_stuck p -> create_stuck (finish t r p).
Proof.
  intros Ht [Hc Hp]. destruct t as [l| |l|l|l|l|]; simpl in *; try done;
    destruct r; split; simpl;
    first [ done | apply flag_insert_create; [discriminate|done] | apply keeps_app; done ].
Qed.

Lemma step_stuck p e p' : create_stuck p -> step p e = Some p' -> create_stuck p'.
Proof.
  intros Hs. pose proof Hs as [Hc Hp]. destruct e as [| |b|b|b|text| | | |i r]; simpl.
  - destruct (flag _ "list"); intros; simplify_eq. by apply fetchBackups_stuck.
  - by rewrite Hc.
  - destruct (row_shown p b); intros; simplify_eq.
    split; simpl; [by apply flag_insert_create|by apply keeps_app].
  - destruct (row_shown p b); intros; simplify_eq. done.
  - destruct (row_shown p b); intros; simplify_eq. done.
  - case_bool_decide; intros; simplify_eq. done.
  - destruct (openDialog p); intros; simplify_eq. done.
  - case_bool_decide; [|done]. destruct (confirm_enabled p "restore"); intros He; simplify_eq/=.
    by apply restore_stuck.
  - case_bool_decide; [|done]. destruct (confirm_enabled p "delete"); intros He; simplify_eq/=.
    by apply delete_stuck.
  - destruct (pending p !! i) as [t|] eqn:Ht; [|done]. destruct (fits t r); intros; simplify_eq.
    apply finish_stuck; [eapply Forall_lookup_1; eauto|].
    split; simpl; [done|by apply Forall_delete].
Qed.

Lemma run_stuck p es p' : create_stuck p -> run p es = Some p' -> create_stuck p'.
Proof. apply run_steps_inv, step_stuck. Qed.

(** ** Properties *)

Definition b1 : BackupFile := mkBackupFile "1" "backup-1.json" "2024-05-01T13:00:00Z" 2048 false "success".

(** Every response arrives, but the list fetch started by Refresh during a
    manual backup arrives after the one started by the backup. *)
Definition stuck_trace : list Event :=
  [ESettle 0 (RFiles [b1]); ESettle 0 RFail; ECreate; ERefresh; ESettle 0 ROk;
   ESettle 1 (RFiles [b1]); ESettle 0 (RFiles [b1]); ESettle 0 ROk].

Definition stuck_page : Page := default initial (run initial stuck_trace).

(** C35: "Create Backup" can be disabled for ever.  [loading] is updated
    from the copy captured by each handler: if Refresh is used while a
    manual backup runs, and its list arrives last, it writes back
    [create: true] after the backup finished.  Once nothing is waiting,
    the status is "idle" but no sequence of events enables the button
    again. *)
Theorem create_backup_stuck :
  exists p, run initial stuck_trace = Some p /\ pending p = [] /\ backupStatus p = SIdle /\
    forall es p', run p es = Some p' -> step p' ECreate = None.
Proof.
  exists stuck_page. split; [vm_compute; reflexivity|].
  split; [vm_compute; reflexivity|]. split; [vm_compute; reflexivity|].
  intros es p' Hr. apply run_stuck in Hr; [|split; [vm_compute; reflexivity|vm_compute; constructor]].
  destruct Hr as [Hc _]. simpl. by rewrite Hc.
Qed.

(** C36: the typed confirmation is shared by the two dialogs and survives
    Cancel: once the filename has been typed in the restore dialog, closing
    it, opening the delete dialog on the same backup and pressing Delete
    sends the DELETE request with no typing in the delete dialog. *)
Theorem delete_confirmed_by_restore_text p b :
  openDialog p = Some "restore" -> confirmText p = b_filename b -> row_shown p b = true ->
  flag (loading p) "delete" = false ->
  exists p', run p [ECloseDialog; EOpenDelete b; EConfirmDelete] = Some p' /\
    sent p' = sent p ++ [DeleteBackup (b_id b)].
Proof.
  intros Ho Hc Hr Hd. simpl. rewrite Ho. simpl. unfold row_shown in *. simpl. rewrite Hr. simpl.
  unfold confirm_enabled. simpl. rewrite Hd, Hc, bool_decide_eq_true_2 by done. simpl.
  unfold deleteBackup. simpl. rewrite Hc, bool_decide_eq_false_2 by tauto.
  eexists. split; reflexivity.
Qed.

(** ** Witnesses *)

(** The page after the list arrived, the restore dialog opened on [b1] and
    its filename typed. *)
Definition restore_typed : Page :=
  default initial (run initial [ESettle 0 (RFiles [b1]); ESettle 0 RFail;
                                EOpenRestore b1; ETypeConfirm "backup-1.json"]).

Lemma delete_confirmed_by_restore_text_witness :
  openDialog restore_typed = Some "restore" /\ confirmText restore_typed = b_filename b1 /\
  row_shown restore_typed b1 = true /\ flag (loading restore_typed) "delete" = false /\
  exists p', run restore_typed [ECloseDialog; EOpenDelete b1; EConfirmDelete] = Some p' /\
    sent p' = sent restore_typed ++ [DeleteBackup (b_id b1)].
Proof.
  assert (H1 : openDialog restore_typed = Some "restore") by reflexivity.
  assert (H2 : confirmText restore_typed = b_filename b1) by reflexivity.
  assert (H3 : row_shown restore_typed b1 = true) by reflexivity.
  assert (H4 : flag (loading restore_typed) "delete" = false) by reflexivity.
  refine (conj H1 (conj H2 (conj H3 (conj H4 _)))).
  exact (delete_confirmed_by_restore_text restore_typed b1 H1 H2 H3 H4).
Defined.

End Backup.
