(* ===== verification/Auth.v ===== *)
(** * Auth: the authentication context and the pages before login

    Models src/client/src/hooks/use-auth.tsx ([AuthProvider]: the current
    user query and the login, register and logout mutations with their
    callbacks) and src/client/src/pages/auth-page.tsx: [AuthPage] and its
    two forms, [ForgotPasswordPage] and [ResetPasswordPage].  The zod
    schemas of the forms live in the shared schema, outside src/: they are
    parameters of the sections below ([loginSchema] and so on), and a form
    calls its [onSubmit] only with data they accept. *)

From Stdlib Require Import Ascii ZArith Lia.
From stdpp Require Import base list strings.
From S2P Require Import Prelude Results Url Dashboard.

Module Auth.
Import Results.

(** [LoginData] and [RegisterData] of the shared schema. *)
Record LoginData := mkLoginData { ld_username : string; ld_password : string }.

Record RegisterData := mkRegisterData {
  rd_username : string;
  rd_password : string;
  rd_confirmPassword : string;
  rd_fullName : string;
  rd_email : string;
  rd_role : string
}.

(** ** [AuthProvider] (use-auth.tsx) *)

(** The query [/api/user] and the pending flags of the three mutations,
    with the toasts raised (title, description). *)
Record Provider := mkProvider {
  userQuery : Query (option User);
  loginPending : bool;
  registerPending : bool;
  logoutPending : bool;
  toasts : list (string * string)
}.

Definition provider_initial : Provider := mkProvider QLoading false false false [].

(** Line 139: [user ?? null] *)
Definition current_user (p : Provider) : option User := mjoin (query_data (userQuery p)).

Definition set_user (u : option User) (p : Provider) : Provider :=
  mkProvider (QData u) (loginPending p) (registerPending p) (logoutPending p) (toasts p).

Definition add_toast (t : string * string) (p : Provider) : Provider :=
  mkProvider (userQuery p) (loginPending p) (registerPending p) (logoutPending p) (toasts p ++ [t]).

Definition set_pending (login register logout : bool) (p : Provider) : Provider :=
  mkProvider (userQuery p) login register logout (toasts p).

(** What [POST /api/login] resolves to or rejects with. *)
Inductive LoginResult := LoginOk (u : User) | LoginErr (message : string).

(** Lines 33-52: [onSuccess] and [onError] of the login mutation. *)
Definition login_settled (r : LoginResult) (p : Provider) : Provider :=
  let p := set_pending false (registerPending p) (logoutPending p) p in
  match r with
  | LoginOk u => add_toast ("Login successful", "Welcome back, " +:+ u_fullName u +:+ "!") (set_user (Some u) p)
  | LoginErr m => add_toast ("Login failed", or_str m "Invalid username or password") p
  end.

(** The body of a registration response: the user (without password) and
    an optional message. *)
Record RegBody := mkRegBody { rb_user : User; rb_message : option string }.

(** What [apiRequest("POST", "/api/register", ...)] gives back: a thrown
    [Error], a thrown value that is not an [Error], or a response. *)
Inductive RegResponse :=
  | RegThrown (message : string)
  | RegNotAnError
  | RegHttp (ok : bool) (status : Z) (body : RegBody).

(** Lines 55-74: the result of the mutation function, a body or the
    message of the [Error] it throws. *)
Definition register_result (r : RegResponse) : RegBody + string :=
  match r with
  | RegThrown m => inr m
  | RegNotAnError => inr "Failed to connect to registration service"
  | RegHttp ok status body =>
      if ok then inl body
      else if bool_decide (status = 503%Z) then
        inr (or_str (render_opt (rb_message body))
               "Database connection issue. The registration service is temporarily unavailable. Please try again later.")
      else inr (or_str (render_opt (rb_message body)) ("Registration failed with status: " +:+ string_of_Z status))
  end.

(** Lines 93-113 *)
Definition register_error_toast (errorMsg : string) : string * string :=
  if str_includes "database" errorMsg || str_includes "temporarily unavailable" errorMsg
     || str_includes "503" errorMsg then
    ("Registration service unavailable",
     "The registration service is currently unavailable due to database connection issues. Please try again later.")
  else ("Registration failed", or_str errorMsg "Failed to create account. Please try again later.").

(** Lines 75-92: an answer with a message does not log in. *)
Definition register_success (b : RegBody) (p : Provider) : Provider :=
  if truthy (rb_message b) then add_toast ("Registration successful", render_opt (rb_message b)) p
  else add_toast ("Registration successful", "Welcome, " +:+ u_fullName (rb_user b) +:+ "!")
         (set_user (Some (rb_user b)) p).

Definition register_settled (r : RegResponse) (p : Provider) : Provider :=
  let p := set_pending (loginPending p) false (logoutPending p) p in
  match register_result r with
  | inl b => register_success b p
  | inr m => add_toast (register_error_toast m) p
  end.

(** Lines 116-134 *)
Definition logout_settled (r : option string) (p : Provider) : Provider :=
  let p := set_pending (loginPending p) (registerPending p) false p in
  match r with
  | None => add_toast ("Logged out", "You have been successfully logged out.") (set_user None p)
  | Some m => add_toast ("Logout failed", m) p
  end.

(** ** [AuthPage] and its forms (auth-page.tsx, lines 17-265) *)

(** The [RegisterForm]'s own state (lines 143-144). *)
Record AuthUI := mkAuthUI {
  provider : Provider;
  registrationComplete : bool;
  registrationMessage : string
}.

Definition auth_initial : AuthUI := mkAuthUI provider_initial false "".

Inductive AuthScreen :=
  | Redirect (to : string)
  | LoginRegister (signInLabel createLabel : string)
  | RegistrationNotice (message : string).

(** Lines 21-27, 129-135, 170-180 and 255-261 *)
Definition auth_screen (s : AuthUI) : AuthScreen :=
  match current_user (provider s) with
  | Some u => Redirect (if bool_decide (u_role u = "admin") then "/admin" else "/")
  | None =>
      if registrationComplete s then RegistrationNotice (registrationMessage s)
      else LoginRegister (if loginPending (provider s) then "Signing In..." else "Sign In")
                         (if registerPending (provider s) then "Creating Account..." else "Create Account")
  end.

Inductive AuthEvent :=
  | EUserFetched (u : option User)
  | ELoginSubmit (d : LoginData)
  | ELoginSettled (r : LoginResult)
  | ERegisterSubmit (d : RegisterData)
  | ERegisterSettled (r : RegResponse)
  | ELogout
  | ELogoutSettled (r : option string).

Section Forms.
Context (loginSchema : LoginData -> bool) (registerSchema : RegisterData -> bool).

(** The forms exist while no user is logged in; a submit button is
    disabled while its mutation is pending; [handleSubmit] calls [onSubmit]
    only with data the schema accepts. *)
Definition auth_step (s : AuthUI) (e : AuthEvent) : option AuthUI :=
  let p := provider s in
  match e with
  | EUserFetched u =>
      if is_loading (userQuery p) then Some (mkAuthUI (set_user u p) (registrationComplete s) (registrationMessage s))
      else None
  | ELoginSubmit d =>
      if negb (present (current_user p)) && negb (registrationComplete s) && negb (loginPending p)
         && loginSchema d
      then Some (mkAuthUI (set_pending true (registerPending p) (logoutPending p) p)
                  (registrationComplete s) (registrationMessage s))
      else None
  | ELoginSettled r =>
      if loginPending p then Some (mkAuthUI (login_settled r p) (registrationComplete s) (registrationMessage s))
      else None
  | ERegisterSubmit d =>
      if negb (present (current_user p)) && negb (registrationComplete s) && negb (registerPending p)
         && registerSchema d
      then Some (mkAuthUI (set_pending (loginPending p) true (logoutPending p) p)
                  (registrationComplete s) (registrationMessage s))
      else None
  | ERegisterSettled r =>
      if registerPending p then
        let p' := register_settled r p in
        (* lines 159-167: the form's own [onSuccess], after the hook's *)
        match register_result r with
        | inl b =>
            if truthy (rb_message b) && str_includes "pending approval" (render_opt (rb_message b))
            then Some (mkAuthUI p' true (render_opt (rb_message b)))
            else Some (mkAuthUI p' (registrationComplete s) (registrationMessage s))
        | inr _ => Some (mkAuthUI p' (registrationComplete s) (registrationMessage s))
        end
      else None
  | ELogout =>
      if present (current_user p) && negb (logoutPending p)
      then Some (mkAuthUI (set_pending (loginPending p) (registerPending p) true p)
                  (registrationComplete s) (registrationMessage s))
      else None
  | ELogoutSettled r =>
      if logoutPending p then Some (mkAuthUI (logout_settled r p) (registrationComplete s) (registrationMessage s))
      else None
  end.

End Forms.

(** ** [ForgotPasswordPage] (auth-page.tsx, lines 267-416) *)

Record Forgot := mkForgot {
  f_isSubmitting : bool;
  f_tokenSent : bool;
  f_resetToken : option string;
  f_toasts : list (string * string)
}.

Definition forgot_initial : Forgot := mkForgot false false None [].

(** A response to [POST /api/forgot-password] ([response.ok], [result.token],
    [result.message]), or a thrown error. *)
Inductive ForgotResponse :=
  | FThrown
  | FHttp (ok : bool) (token message : option string).

(** Line 282 *)
Definition forgot_submit (s : Forgot) : Forgot :=
  mkForgot true (f_tokenSent s) (f_resetToken s) (f_toasts s).

(** Lines 284-310 *)
Definition forgot_settled (r : ForgotResponse) (s : Forgot) : Forgot :=
  let s := match r with
           | FHttp true token _ =>
               mkForgot (f_isSubmitting s) true token
                 (f_toasts s ++ [("Reset instructions sent",
                                  "If an account with that email exists, you'll receive reset instructions.")])
           | FHttp false _ message =>
               mkForgot (f_isSubmitting s) (f_tokenSent s) (f_resetToken s)
                 (f_toasts s ++ [("Something went wrong", or_str (render_opt message) "Please try again later")])
           | FThrown =>
               mkForgot (f_isSubmitting s) (f_tokenSent s) (f_resetToken s)
                 (f_toasts s ++ [("Error", "An unexpected error occurred. Please try again.")])
           end in
  mkForgot false (f_tokenSent s) (f_resetToken s) (f_toasts s).

(** Line 392: the location of "Continue to Reset Password". *)
Definition continue_location (resetToken : string) : string :=
  "/reset-password?token=" +:+ resetToken.

Inductive ForgotScreen :=
  | ForgotForm (buttonLabel : string)
  | ForgotSent (continueTo : option string).

(** Lines 324-405; [development] is [process.env.NODE_ENV === 'development']. *)
Definition forgot_screen (development : bool) (s : Forgot) : ForgotScreen :=
  if negb (f_tokenSent s) then ForgotForm (if f_isSubmitting s then "Processing..." else "Reset Password")
  else ForgotSent (if truthy (f_resetToken s) && development
                   then Some (continue_location (render_opt (f_resetToken s))) else None).

(** ** [ResetPasswordPage] (auth-page.tsx, lines 418-595) *)

Record ResetPasswordData := mkResetPasswordData {
  rpd_token : string;
  rpd_password : string;
  rpd_confirmPassword : string
}.

Record Reset := mkReset {
  r_isSubmitting : bool;
  r_success : bool;
  r_toasts : list (string * string);
  r_timers : list string
}.

Definition reset_initial : Reset := mkReset false false [] [].

(** Lines 425-426: [new URLSearchParams(window.location.search).get('token')]. *)
Definition reset_token (search : string) : option string := Url.search_get search "token".

(** Lines 441-444: the body posted. *)
Definition reset_payload (search : string) (data : ResetPasswordData) : ResetPasswordData :=
  mkResetPasswordData (or_str (render_opt (reset_token search)) (rpd_token data))
    (rpd_password data) (rpd_confirmPassword data).

Inductive ResetResponse :=
  | RThrown
  | RHttp (ok : bool) (message : option string).

(** Lines 448-478; the timer of line 458 navigates to "/auth". *)
Definition reset_settled (r : ResetResponse) (s : Reset) : Reset :=
  let s := match r with
           | RHttp true _ =>
               mkReset (r_isSubmitting s) true
                 (r_toasts s ++ [("Success", "Your password has been reset successfully.")])
                 (r_timers s ++ ["/auth"])
           | RHttp false message =>
               mkReset (r_isSubmitting s) (r_success s)
                 (r_toasts s ++ [("Error", or_str (render_opt message) "Failed to reset password")]) (r_timers s)
           | RThrown =>
               mkReset (r_isSubmitting s) (r_success s)
                 (r_toasts s ++ [("Error", "An unexpected error occurred. Please try again.")]) (r_timers s)
           end in
  mkReset false (r_success s) (r_toasts s) (r_timers s).

Inductive ResetScreen :=
  | InvalidLink
  | ResetForm (buttonLabel : string)
  | ResetDone.

(** Lines 481-584 *)
Definition reset_screen (search : string) (s : Reset) : ResetScreen :=
  if negb (truthy (reset_token search)) then InvalidLink
  else if negb (r_success s) then ResetForm (if r_isSubmitting s then "Updating Password..." else "Reset Password")
  else ResetDone.

(** ** Lemmas *)

Lemma truthy_nonempty t : t <> EmptyString -> truthy (Some t) = true.
Proof. by destruct t. Qed.

Lemma or_str_nonempty a b : a <> EmptyString -> or_str a b = a.
Proof. by destruct a. Qed.

Lemma continue_location_eq t :
  continue_location t = String.append "/reset-password" (String "?"%char (Url.encode_pairs [("token", t)])).
Proof. reflexivity. Qed.

Lemma token_pair_plain t :
  str_forall Url.url_plain t = true -> str_lacks "&"%char t = true -> str_lacks "%"%char t = true ->
  str_lacks "+"%char t = true -> Forall Url.plain_pair [("token", t)].
Proof. intros Hu Ha Hp Hplus. constructor; [|constructor]. by split_and!. Qed.

Lemma reset_location t :
  Forall Url.plain_pair [("token", t)] ->
  Url.parse_location (continue_location t) =
    Some ("/reset-password", String "?"%char (Url.encode_pairs [("token", t)])).
Proof.
  intros Hl. rewrite continue_location_eq.
  change "/reset-password" with (String "/"%char (String.concat "/" ["reset-password"])).
  apply Url.parse_location_pairs; [discriminate| |done].
  constructor; [|constructor]. split_and!; [discriminate|reflexivity|reflexivity|discriminate|discriminate].
Qed.

Lemma reset_token_plain t :
  Forall Url.plain_pair [("token", t)] ->
  reset_token (String "?"%char (Url.encode_pairs [("token", t)])) = Some t.
Proof.
  intros Hl. unfold reset_token, Url.search_get.
  by rewrite Url.search_pairs_encode.
Qed.

(** ** Properties *)

(** C37: how a registration ends.  A response with a message (pending
    approval) never logs anyone in, and switches the form to the approval
    notice exactly when the message mentions "pending approval"; a response
    without a message logs the new user in and the page redirects by role;
    an error leaves the user unchanged and ends with the toast chosen from
    its message. *)
Theorem register_outcome loginSchema registerSchema s r s' :
  auth_step loginSchema registerSchema s (ERegisterSettled r) = Some s' ->
  match register_result r with
  | inl b =>
      if truthy (rb_message b) then
        current_user (provider s') = current_user (provider s) /\
        (registrationComplete s' = true <->
         registrationComplete s = true \/ str_includes "pending approval" (render_opt (rb_message b)) = true)
      else
        current_user (provider s') = Some (rb_user b) /\
        auth_screen s' = Redirect (if bool_decide (u_role (rb_user b) = "admin") then "/admin" else "/")
  | inr m =>
      current_user (provider s') = current_user (provider s) /\
      last (toasts (provider s')) = Some (register_error_toast m)
  end.
Proof.
  simpl. destruct (registerPending (provider s)); [|discriminate]. intros H.
  unfold register_settled, register_success in H. destruct (register_result r) as [b|m].
  - destruct (truthy (rb_message b)) eqn:Ht; simpl in H.
    + destruct (str_includes _ _) eqn:Hi; injection H as <-; simpl; (split; [reflexivity|]).
      * split; [by right|done].
      * split; [intros ->; by left|intros [->|?]; [done|discriminate]].
    + injection H as <-. split; [reflexivity|]. unfold auth_screen. reflexivity.
  - injection H as <-. split; [reflexivity|]. simpl. by rewrite last_snoc.
Qed.

(** C38: the reset link of the forgot-password page in development mode
    carries the token to the reset page: for a non-empty token of visible
    characters that a URL keeps as they are (no [#], space, control
    character, quote or [%]) and without [&] or [+], the browser's parse
    of the location it navigates to gives the reset page's path, the page
    reads the same token back, shows its form, and posts that token. *)
Theorem reset_link_roundtrip s t message data :
  t <> EmptyString -> str_forall Url.url_plain t = true -> str_lacks "&"%char t = true ->
  str_lacks "%"%char t = true -> str_lacks "+"%char t = true ->
  forgot_screen true (forgot_settled (FHttp true (Some t) message) s) = ForgotSent (Some (continue_location t)) /\
  ∃ search, Url.parse_location (continue_location t) = Some ("/reset-password", search) /\
  reset_screen search reset_initial = ResetForm "Reset Password" /\
  rpd_token (reset_payload search data) = t.
Proof.
  intros Hne Hu Ha Hp Hplus. pose proof (token_pair_plain t Hu Ha Hp Hplus) as Hl. split.
  - destruct t as [|c t']; [done|reflexivity].
  - rewrite reset_location by done. eexists. split; [reflexivity|].
    unfold reset_screen, reset_payload. rewrite reset_token_plain by done.
    rewrite truthy_nonempty by done. simpl. split; [done|].
    by apply or_str_nonempty.
Qed.

(** ** Witnesses *)

Definition new_student : User := mkUser 7 "amina" "Amina Khan" "amina@example.org" "student" false false "2026-01-05T10:00:00.000Z".

Definition registering : AuthUI := mkAuthUI (mkProvider (QData None) false true false []) false "".

Definition pending_answer : RegResponse :=
  RegHttp true 201 (mkRegBody new_student (Some "Registration successful, pending approval")).

Lemma register_outcome_witness :
  auth_step (λ _, true) (λ _, true) registering (ERegisterSettled pending_answer) =
    Some (mkAuthUI (register_settled pending_answer (provider registering)) true
            "Registration successful, pending approval") /\
  registrationComplete (mkAuthUI (register_settled pending_answer (provider registering)) true
                          "Registration successful, pending approval") = true /\
  current_user (register_settled pending_answer (provider registering)) = None.
Proof.
  assert (H : auth_step (λ _, true) (λ _, true) registering (ERegisterSettled pending_answer) =
    Some (mkAuthUI (register_settled pending_answer (provider registering)) true
            "Registration successful, pending approval")) by reflexivity.
  split; [exact H|]. split; [reflexivity|].
  exact (proj1 (register_outcome _ _ _ _ _ H)).
Defined.

Lemma reset_link_roundtrip_witness :
  "9f3ab2" <> EmptyString /\ str_forall Url.url_plain "9f3ab2" = true /\
  str_lacks "&"%char "9f3ab2" = true /\ str_lacks "%"%char "9f3ab2" = true /\
  str_lacks "+"%char "9f3ab2" = true /\
  forgot_screen true (forgot_settled (FHttp true (Some "9f3ab2") None) (forgot_submit forgot_initial)) =
    ForgotSent (Some (continue_location "9f3ab2")).
Proof.
  assert (H1 : "9f3ab2" <> EmptyString) by discriminate.
  assert (H0 : str_forall Url.url_plain "9f3ab2" = true) by reflexivity.
  assert (H2 : str_lacks "&"%char "9f3ab2" = true) by reflexivity.
  assert (H3 : str_lacks "%"%char "9f3ab2" = true) by reflexivity.
  assert (H4 : str_lacks "+"%char "9f3ab2" = true) by reflexivity.
  refine (conj H1 (conj H0 (conj H2 (conj H3 (conj H4 _))))).
  exact (proj1 (reset_link_roundtrip (forgot_submit forgot_initial) "9f3ab2" None
                  (mkResetPasswordData "" "pw" "pw") H1 H0 H2 H3 H4)).
Defined.

End Auth.
