(* ===== verification/Widgets.v ===== *)
(** * Widgets: hooks, shared components and the route table

    Models the small pieces the pages are built from:
    src/client/src/hooks/use-loading-progress.tsx (a progress value driven
    by an interval, with the proof that the interval stops),
    src/client/src/components/ui/loading-animation.tsx,
    src/client/src/components/ui/toggle-active-button.tsx,
    src/client/src/components/student/header.tsx,
    src/client/src/components/admin/layout.tsx and sidebar.tsx, and the
    route table of src/client/src/App.tsx with wouter's matching of
    [:param] and [:param?] segments. *)

From Stdlib Require Import Ascii ZArith QArith Qminmax Qround Lia Lqa.
From stdpp Require Import base list strings.
From S2P Require Import Prelude Dashboard.

(** ** [useLoadingProgress] *)
Module LoadingProgress.

(** Lines 6-18: the options and their defaults. *)
Record Options := mkOptions {
  initialProgress : Q;
  incrementRate : Q;
  maxProgress : Q;
  duration : Z
}.

Definition defaults : Options := mkOptions 0 5 95 100.

(** The hook's state: [progress] and whether the interval is installed. *)
Record Hook := mkHook { progress : Q; interval : bool }.

Definition hook_initial (o : Options) : Hook := mkHook (initialProgress o) false.

(** Lines 22-46: the effect when [isLoading] changes. *)
Definition on_loading (isLoading : bool) (o : Options) (h : Hook) : Hook :=
  if negb isLoading then mkHook 100 false else mkHook (initialProgress o) true.

(** Lines 31-42: one firing of the interval. *)
Definition tick (o : Options) (h : Hook) : Hook :=
  if interval h then
    let prev := progress h in
    let increment := Qmax (1 # 2) (incrementRate o * (1 - prev / 100))%Q in
    let newProgress := (prev + increment)%Q in
    if Qle_bool (maxProgress o) newProgress then mkHook (maxProgress o) false
    else mkHook newProgress true
  else h.

Fixpoint ticks (k : nat) (o : Options) (h : Hook) : Hook :=
  match k with O => h | S k' => ticks k' o (tick o h) end.

(** ** Lemmas *)

Lemma ticks_stopped k o h : interval h = false -> ticks k o h = h.
Proof.
  revert h. induction k as [|k IH]; intros h Hh; [done|]. simpl.
  unfold tick. rewrite Hh. by apply IH.
Qed.

Lemma increment_ge o prev : (1 # 2 <= Qmax (1 # 2) (incrementRate o * (1 - prev / 100)))%Q.
Proof. apply Q.le_max_l. Qed.

Lemma inject_Z_succ k : inject_Z (Z.of_nat (S k)) == inject_Z (Z.of_nat k) + 1.
Proof. rewrite Nat2Z.inj_succ, <- Z.add_1_r, inject_Z_plus. reflexivity. Qed.

(** C30: the progress interval terminates: started at [p] below
    [maxProgress], it has set the progress to [maxProgress] and cleared
    itself after any number of firings above [2 * (maxProgress - p)],
    since each firing adds at least one half; further firings change
    nothing. *)
Theorem progress_terminates o p k :
  (p <= maxProgress o)%Q -> ((maxProgress o - p) * 2 < inject_Z (Z.of_nat k))%Q ->
  ticks k o (mkHook p true) = mkHook (maxProgress o) false.
Proof.
  revert p. induction k as [|k IH]; intros p Hp Hk; simpl in *; [exfalso; change (inject_Z (Z.of_nat 0)) with 0%Q in Hk; lra|].
  pose proof (increment_ge o p) as Hinc. rewrite inject_Z_succ in Hk.
  unfold tick; simpl.
  destruct (Qle_bool (maxProgress o) (p + Qmax (1 # 2) (incrementRate o * (1 - p / 100)))) eqn:E; [by apply ticks_stopped|].
  assert (Hlt : ~ (maxProgress o <= p + Qmax (1 # 2) (incrementRate o * (1 - p / 100)))%Q)
    by (rewrite <- Qle_bool_iff; congruence).
  apply IH; lra.
Qed.

Lemma progress_terminates_witness :
  ticks 200 defaults (mkHook 0 true) = mkHook (maxProgress defaults) false.
Proof. apply progress_terminates; unfold Qle, Qlt; simpl; lia. Defined.

(** The progress never decreases and never exceeds [maxProgress]. *)
Theorem progress_bounded o p k :
  (p <= maxProgress o)%Q ->
  (p <= progress (ticks k o (mkHook p true)) <= maxProgress o)%Q.
Proof.
  revert p. induction k as [|k IH]; intros p Hp; simpl; [split; [apply Qle_refl|done]|].
  pose proof (increment_ge o p) as Hinc.
  unfold tick; simpl.
  destruct (Qle_bool (maxProgress o) (p + Qmax (1 # 2) (incrementRate o * (1 - p / 100)))) eqn:E.
  - rewrite ticks_stopped by done. simpl. lra.
  - assert (Hlt : ~ (maxProgress o <= p + Qmax (1 # 2) (incrementRate o * (1 - p / 100)))%Q)
      by (rewrite <- Qle_bool_iff; congruence).
    destruct (IH (p + Qmax (1 # 2) (incrementRate o * (1 - p / 100)))%Q) as [H1 H2]; [lra|].
    split; [lra|done].
Qed.

End LoadingProgress.

(** ** [LoadingAnimation] *)
Module LoadingAnimation.

Record View := mkView {
  iconShown : option (string * bool);
  spinnerShown : bool;
  title : string;
  description : option string;
  bar : option (Q * JsNum)
}.

(** Lines 40-90, with the defaults of lines 44-49: the icon (and whether it
    spins), the spinner, the texts and, with a [progress], the width of the
    bar and the rounded percentage. *)
Definition render (title description : option string) (isLoading : option bool)
    (icon : option string) (spinIcon showSpinner : option bool) (progress : option Q) : View :=
  let isLoading := default true isLoading in
  {| iconShown := (λ i, (i, default false spinIcon && isLoading)) <$> icon;
     spinnerShown := default true showSpinner && isLoading && negb (present icon);
     title := default "Loading..." title;
     description := if truthy description then description else None;
     bar := (λ p, (Qmax 0 (Qmin 100 p), js_round (JNum p))) <$> progress |}.

End LoadingAnimation.

(** ** [ToggleActiveButton] *)
Module ToggleActive.

Record State := mkState { isLoading : bool; toasts : list (string * string); requests : list (Z * bool) }.

(** Lines 100-105 and 70-73: the request sent for the student. *)
Definition handleToggleActive (student : User) (s : State) : State :=
  mkState true (toasts s) (requests s ++ [(u_id student, negb (u_active student))]).

(** The answer: [data.user.active] and [data.message], or an error. *)
Inductive Answer := Toggled (active : option bool) (message : string) | Failed (message : string).

(** Lines 75-96 *)
Definition settled (a : Answer) (s : State) : State :=
  match a with
  | Toggled active message =>
      mkState false (toasts s ++ [(if default false active then "Student activated" else "Student deactivated", message)])
        (requests s)
  | Failed m =>
      mkState false (toasts s ++ [("Error updating student status", or_str m "Failed to update student status.")])
        (requests s)
  end.

(** Lines 107-129: the label of the button. *)
Definition label (student : User) (s : State) : option string :=
  if isLoading s then None else Some (if u_active student then "Active" else "Inactive").

End ToggleActive.

(** ** The headers *)
Module Headers.

(** [part[0]]: [undefined] for an empty part, joined as "". *)
Definition first_char (part : string) : string :=
  match part with String c _ => String c EmptyString | EmptyString => EmptyString end.

(** header.tsx lines 10-17 and layout.tsx lines 18-25 *)
Definition getInitials (name : string) : string :=
  String.substring 0 2 (to_upper (String.concat "" (first_char <$> split_on " "%char name))).

(** header.tsx line 43: the avatar. *)
Definition avatar (user : option User) (fallback : string) : string :=
  match user with
  | Some u => if bool_decide (u_fullName u = EmptyString) then fallback else getInitials (u_fullName u)
  | None => fallback
  end.

(** layout.tsx lines 34-41 *)
Definition getPageTitle (location : string) : string :=
  if bool_decide (location = "/admin") then "Dashboard"
  else if bool_decide (location = "/admin/upload-questions") then "Upload Questions"
  else if bool_decide (location = "/admin/manage-questions") then "Manage Questions"
  else if bool_decide (location = "/admin/manage-students") then "Manage Students"
  else if bool_decide (location = "/admin/analytics") then "Analytics"
  else "Admin Panel".

(** sidebar.tsx lines 55-119: the links in order, each with whether it is
    highlighted at [location]. *)
Definition sidebar_hrefs : list (string * string) :=
  [("/admin", "Dashboard"); ("/admin/manage-questions", "Manage Questions");
   ("/admin/manage-topics", "Manage Topics"); ("/admin/upload-questions", "Upload Questions");
   ("/admin/manage-students", "Manage Students"); ("/admin/user-approvals", "User Approvals");
   ("/admin/analytics", "Analytics"); ("/admin/backup-management", "Backup Management")].

Definition sidebar (location : string) : list (string * string * bool) :=
  (λ hl, (hl.1, hl.2, bool_decide (location = hl.1))) <$> sidebar_hrefs.

(** layout.tsx line 15, 47-54, 68-69: the mobile sidebar. *)
Inductive SidebarEvent := OpenSidebar | CloseSidebar | ClickOverlay.

Definition sidebar_step (open : bool) (e : SidebarEvent) : option bool :=
  match e with
  | OpenSidebar => Some true
  | CloseSidebar => Some false
  | ClickOverlay => if open then Some false else None
  end.

(** header.tsx lines 20-23, layout.tsx lines 27-30: the logout request is
    sent and the page goes to "/auth" at once. *)
Definition handleLogout (logoutPending : bool) : option (bool * string) :=
  if logoutPending then None else Some (true, "/auth").

(** What a header shows: header.tsx lines 25-60 and layout.tsx lines
    64-100.  [{user?.fullName}] renders nothing without a user. *)
Record HeaderView := mkHeaderView {
  hv_title : string;
  hv_name : string;
  hv_avatar : string;
  hv_logoutDisabled : bool
}.

(** header.tsx lines 25-60: the brand links home. *)
Definition student_header (user : option User) (logoutPending : bool) : HeaderView :=
  mkHeaderView "MCQ Practice" (default "" (u_fullName <$> user)) (avatar user "ST") logoutPending.

(** layout.tsx lines 43-109: the sidebar, its overlay while open on a
    small screen, and the header titled after the location. *)
Record LayoutView := mkLayoutView {
  lv_sidebar : list (string * string * bool);
  lv_overlay : bool;
  lv_header : HeaderView
}.

Definition layout (location : string) (user : option User) (logoutPending sidebarOpen : bool) : LayoutView :=
  mkLayoutView (sidebar location) sidebarOpen
    (mkHeaderView (getPageTitle location) (default "" (u_fullName <$> user)) (avatar user "AD") logoutPending).

(** The layout's title names the sidebar link it highlights, except on
    three of the eight pages, which getPageTitle does not list and which
    are titled "Admin Panel". *)
Lemma layout_title_sidebar user pending open :
  filter (λ hl, hv_title (lv_header (layout hl.1 user pending open)) <> hl.2) sidebar_hrefs =
    [("/admin/manage-topics", "Manage Topics"); ("/admin/user-approvals", "User Approvals");
     ("/admin/backup-management", "Backup Management")] /\
  Forall (λ hl, hv_title (lv_header (layout hl.1 user pending open)) = hl.2 \/
                hv_title (lv_header (layout hl.1 user pending open)) = "Admin Panel") sidebar_hrefs /\
  Forall (λ hl, filter (λ l, l.2 = true) (lv_sidebar (layout hl.1 user pending open)) = [(hl.1, hl.2, true)])
    sidebar_hrefs.
Proof. split_and!; [vm_compute; reflexivity|repeat constructor; vm_compute; tauto|repeat constructor]. Qed.

End Headers.

(** ** The route table of App.tsx *)
Module Routes.

Inductive Page :=
  | AuthPage | ForgotPasswordPage | ResetPasswordPage
  | StudentDashboard | PracticeSession | ResultsPage
  | AdminDashboard | UploadQuestions | ManageQuestions | ManageTopics | ManageStudents
  | UserApprovals | Analytics | BackupManagement | StudentDetails | SessionDetails
  | NotFound.

#[export] Instance Page_eq_dec : EqDecision Page.
Proof. solve_decision. Defined.

Inductive Segment := Lit (s : string) | Param (optional : bool).

(** A route: its pattern, its page and the role [ProtectedRoute] requires. *)
Definition routes : list (list Segment * Page * option string) :=
  [([Lit "auth"], AuthPage, None);
   ([Lit "forgot-password"], ForgotPasswordPage, None);
   ([Lit "reset-password"], ResetPasswordPage, None);
   ([], StudentDashboard, Some "student");
   ([Lit "practice"; Param true], PracticeSession, Some "student");
   ([Lit "results"; Param false], ResultsPage, Some "student");
   ([Lit "admin"], AdminDashboard, Some "admin");
   ([Lit "admin"; Lit "upload-questions"], UploadQuestions, Some "admin");
   ([Lit "admin"; Lit "manage-questions"], ManageQuestions, Some "admin");
   ([Lit "admin"; Lit "manage-topics"], ManageTopics, Some "admin");
   ([Lit "admin"; Lit "manage-students"], ManageStudents, Some "admin");
   ([Lit "admin"; Lit "user-approvals"], UserApprovals, Some "admin");
   ([Lit "admin"; Lit "analytics"], Analytics, Some "admin");
   ([Lit "admin"; Lit "backup-management"], BackupManagement, Some "admin");
   ([Lit "admin"; Lit "student-details"; Param false], StudentDetails, Some "admin");
   ([Lit "admin"; Lit "session-details"; Param false], SessionDetails, Some "admin")].

(** wouter's match of a whole path, split at [/]: a literal matches itself,
    a parameter a non-empty segment, an optional parameter also nothing at
    the end. *)
Fixpoint matches (pat : list Segment) (segs : list string) : option (list string) :=
  match pat, segs with
  | [], [] => Some []
  | Lit l :: pat', s :: segs' => if bool_decide (l = s) then matches pat' segs' else None
  | Param _ :: pat', s :: segs' =>
      if bool_decide (s = EmptyString) then None else (λ ps, s :: ps) <$> matches pat' segs'
  | [Param true], [] => Some []
  | _, _ => None
  end.

(** The segments of a pathname "/a/b". *)
Definition segments (path : string) : list string :=
  match split_on "/"%char path with
  | EmptyString :: rest => filter (λ s, s ≠ EmptyString) rest
  | l => l
  end.

(** Lines 26-51: the first route of the [Switch] that matches. *)
Definition route (path : string) : Page * list string * option string :=
  let fix go (rs : list (list Segment * Page * option string)) :=
    match rs with
    | [] => (NotFound, [], None)
    | (pat, pg, role) :: rs' =>
        match matches pat (segments path) with
        | Some ps => (pg, ps, role)
        | None => go rs'
        end
    end in
  go routes.

(** ** Lemmas *)

Lemma segments_slash_lit (lit s : string) :
  str_lacks "/"%char lit = true -> lit <> EmptyString ->
  str_lacks "/"%char s = true -> s <> EmptyString ->
  segments (String "/"%char (String.append lit (String "/"%char s))) = [lit; s].
Proof.
  intros Hl Hln Hs Hsn. unfold segments. cbn [split_on].
  destruct (ascii_dec "/" "/") as [_|]; [|congruence].
  rewrite split_on_app_sep, split_on_lacks by done.
  rewrite !filter_cons_True by done. done.
Qed.

(** Every link of the admin sidebar leads to a page that requires the
    admin role. *)
Lemma sidebar_routes :
  Forall (λ hl, (route hl.1).1.1 <> NotFound /\ (route hl.1).2 = Some "admin") Headers.sidebar_hrefs.
Proof. repeat constructor; vm_compute; congruence. Qed.

(** The "Details" link of a row of the dashboard's recent sessions opens
    the results page of that session, for students. *)
Lemma dashboard_row_route topics id s :
  route (StudentDashboard.rr_href (StudentDashboard.recent_row topics (id, s))) =
  (ResultsPage, [string_of_Z id], Some "student").
Proof.
  destruct (string_of_Z_shape id) as [Hne Hl].
  change (StudentDashboard.rr_href (StudentDashboard.recent_row topics (id, s)))
    with (String "/"%char (String.append "results" (String "/"%char (string_of_Z id)))).
  unfold route. rewrite segments_slash_lit; [|reflexivity|discriminate|apply Hl; [reflexivity|discriminate]|done].
  simpl. rewrite bool_decide_eq_false_2 by done. reflexivity.
Qed.

End Routes.
