(* ===== verification/Admin.v ===== *)
(** * Admin: the administrator's pages for approvals, statistics and topics

    Models src/client/src/pages/admin/user-approvals.tsx ([UserApprovals]),
    src/client/src/pages/admin/dashboard.tsx ([AdminDashboard]) and
    src/client/src/pages/admin/manage-topics.tsx ([ManageTopics]).  Each
    page is its state, its handlers and mutation callbacks, a step function
    over the controls the JSX renders, and the values it displays.  A
    mutation's [invalidateQueries] marks its list stale; the refetched list
    arrives as an event. *)

From Stdlib Require Import Ascii ZArith QArith Lia.
From stdpp Require Import base list strings.
From S2P Require Import Prelude Results Dashboard.

Module UserApprovals.
Import Results.

(** Lines 10-18 *)
Record PendingUser := mkPendingUser {
  pu_id : Z;
  pu_username : string;
  pu_fullName : string;
  pu_email : string;
  pu_role : string;
  pu_createdAt : string;
  pu_approved : bool
}.

#[export] Instance PendingUser_eq_dec : EqDecision PendingUser.
Proof. solve_decision. Defined.

Inductive Request := Approve (id : Z) | Reject (id : Z).

(** The query, the two mutations' pending flags, toasts and requests. *)
Record State := mkState {
  pendingUsers : Query (list PendingUser);
  approvePending : bool;
  rejectPending : bool;
  stale : bool;
  toasts : list (string * string);
  sent : list Request
}.

Definition initial : State := mkState QLoading false false false [] [].

(** The cards exist once the list is loaded (lines 104-111). *)
Definition card_shown (s : State) (u : PendingUser) : bool :=
  bool_decide (u ∈ default [] (query_data (pendingUsers s))).

Inductive Event :=
  | Loaded (q : Query (list PendingUser))
  | ApproveClick (u : PendingUser)        (* line 141 *)
  | RejectClick (u : PendingUser)         (* line 155 *)
  | ApproveSettled (error : option string)
  | RejectSettled (error : option string).

(** Lines 34-85 and 139-164 *)
Definition step (s : State) (e : Event) : option State :=
  match e with
  | Loaded q =>
      if (is_loading (pendingUsers s) || stale s) && negb (is_loading q)
      then Some (mkState q (approvePending s) (rejectPending s) false (toasts s) (sent s)) else None
  | ApproveClick u =>
      if card_shown s u && negb (approvePending s)
      then Some (mkState (pendingUsers s) true (rejectPending s) (stale s) (toasts s) (sent s ++ [Approve (pu_id u)]))
      else None
  | RejectClick u =>
      if card_shown s u && negb (rejectPending s)
      then Some (mkState (pendingUsers s) (approvePending s) true (stale s) (toasts s) (sent s ++ [Reject (pu_id u)]))
      else None
  | ApproveSettled err =>
      if approvePending s then
        Some match err with
             | None => mkState (pendingUsers s) false (rejectPending s) true
                         (toasts s ++ [("User Approved", "The user can now access the platform.")]) (sent s)
             | Some m => mkState (pendingUsers s) false (rejectPending s) (stale s)
                           (toasts s ++ [("Approval Failed", m)]) (sent s)
             end
      else None
  | RejectSettled err =>
      if rejectPending s then
        Some match err with
             | None => mkState (pendingUsers s) (approvePending s) false true
                         (toasts s ++ [("User Rejected", "The user has been removed from the system.")]) (sent s)
             | Some m => mkState (pendingUsers s) (approvePending s) false (stale s)
                           (toasts s ++ [("Rejection Failed", m)]) (sent s)
             end
      else None
  end.

(** Line 134: [role.charAt(0).toUpperCase() + role.slice(1)]. *)
Definition capitalize (role : string) : string :=
  match role with
  | EmptyString => EmptyString
  | String c r => String (upper c) r
  end.

Definition run : State -> list Event -> option State := run_steps step.

(** ** What the page shows (lines 87-183) *)

Section View.
Context (toLocaleDateString : string -> string).   (* formatDate, lines 87-89 *)

(** Lines 112-166: a user's card. *)
Record UserCard := mkUserCard {
  uc_fullName : string;
  uc_handle : string;
  uc_email : string;
  uc_registered : string;
  uc_role : string;
  uc_approveDisabled : bool;
  uc_rejectDisabled : bool
}.

Definition user_card (s : State) (u : PendingUser) : UserCard :=
  mkUserCard (pu_fullName u) ("@" +:+ pu_username u) (pu_email u)
    (toLocaleDateString (pu_createdAt u)) (capitalize (pu_role u))
    (approvePending s) (rejectPending s).

Inductive Screen :=
  | SLoading                          (* lines 104-108 *)
  | SCards (cards : list UserCard)    (* lines 109-170 *)
  | SNoRequests.                      (* lines 171-180 *)

Definition view (s : State) : Screen :=
  match pendingUsers s with
  | QLoading => SLoading
  | QData ((_ :: _) as l) => SCards (user_card s <$> l)
  | _ => SNoRequests
  end.

End View.

(** ** Lemmas *)

(** Approve and Reject are two mutations with their own pending flags:
    while the approval of a user is in flight, Reject is still enabled on
    the same card, and both requests are sent. *)
Lemma approve_and_reject_both_sent s u :
  card_shown s u = true -> approvePending s = false -> rejectPending s = false ->
  exists s', run s [ApproveClick u; RejectClick u] = Some s' /\
    sent s' = sent s ++ [Approve (pu_id u); Reject (pu_id u)].
Proof.
  intros Hc Ha Hr. simpl. rewrite Hc, Ha. simpl. unfold card_shown in *. simpl. rewrite Hc, Hr. simpl.
  eexists. split; [reflexivity|]. by rewrite <- app_assoc.
Qed.

(** A card's buttons are enabled exactly when [step] accepts their
    clicks; since the pending flags belong to the two mutations, not to a
    user, one approval in flight disables Approve on every card. *)
Lemma card_buttons_step toLocaleDateString s u :
  u ∈ default [] (query_data (pendingUsers s)) ->
  (uc_approveDisabled (user_card toLocaleDateString s u) = false <-> is_Some (step s (ApproveClick u))) /\
  (uc_rejectDisabled (user_card toLocaleDateString s u) = false <-> is_Some (step s (RejectClick u))).
Proof.
  intros Hu. cbn. unfold card_shown. rewrite bool_decide_eq_true_2 by done. cbn.
  split; destruct (approvePending s), (rejectPending s); cbn; split; intros H;
    first [done | by eexists | by destruct H].
Qed.

End UserApprovals.

Module AdminDashboard.
Import Results.

(** One row of [stats.recentActivity] (server data). *)
Record Activity := mkActivity {
  a_user : option (string * string);
  a_completedAt : string;
  a_topic : option string;
  a_score : JsNum;
  a_correctAnswers : option Z;
  a_questionCount : Z;
  a_timeSpent : Z
}.

Record TopicPerformance := mkTopicPerformance { tp_name : string; tp_averageScore : JsNum }.

(** The body of [GET /api/statistics]. *)
Record Statistics := mkStatistics {
  studentCount : option Z;
  questionCount : option Z;
  sessionCount : option Z;
  averageScore : option JsNum;
  recentActivity : list Activity;
  topicPerformance : option (list TopicPerformance)
}.

(** [x || 0] on a count. *)
Definition count_or0 (x : option Z) : Z := match x with Some n => n | None => 0%Z end.

(** Lines 25-29 *)
Definition formatTime (seconds : Z) : string :=
  string_of_Z (seconds / 60) +:+ "m " +:+ string_of_Z (Z.rem seconds 60) +:+ "s".

(** Lines 181-185 and 233-236 *)
Definition score_class (score : JsNum) : string :=
  if js_ge score 80 then "bg-green-100 text-green-800"
  else if js_ge score 60 then "bg-yellow-100 text-yellow-800" else "bg-red-100 text-red-800".

Definition bar_class (score : JsNum) : string :=
  if js_ge score 80 then "bg-green-600" else if js_ge score 60 then "bg-yellow-600" else "bg-red-600".

Record ActivityRow := mkActivityRow {
  ar_name : string;
  ar_email : string;
  ar_topic : string;
  ar_class : string;
  ar_score : string;
  ar_questions : Z;
  ar_time : string
}.

(** Lines 165-194 *)
Definition activity_row (a : Activity) : ActivityRow :=
  {| ar_name := default "" (fst <$> a_user a);
     ar_email := default "" (snd <$> a_user a);
     ar_topic := render_opt (a_topic a);
     ar_class := score_class (a_score a);
     ar_score := toFixed0 (a_score a) +:+ "%" +:+
                 match a_correctAnswers a with
                 | Some c => " (" +:+ string_of_Z c +:+ "/" +:+ string_of_Z (a_questionCount a) +:+ ")"
                 | None => ""
                 end;
     ar_questions := a_questionCount a;
     ar_time := formatTime (a_timeSpent a) |}.

(** Lines 139-207: the activity table's body, its rows or "No recent
    activity found"; [stats?.recentActivity.length] is falsy without
    statistics. *)
Definition activity_card (st : option Statistics) : list ActivityRow + string :=
  match recentActivity <$> st with
  | Some ((_ :: _) as l) => inl (activity_row <$> l)
  | _ => inr "No recent activity found"
  end.

(** Lines 209-251: the topic bars, then the note shown when there are
    none.  [stats?.topicPerformance.map] guards only [stats]: loaded
    statistics without [topicPerformance] make the render throw. *)
Inductive TopicsCard :=
  | TopicBars (bars : list (string * string * string)) (note : option string)
  | TopicsThrow.

Definition topics_card (st : option Statistics) : TopicsCard :=
  let note := "No topic performance data available yet" in
  match st with
  | None => TopicBars [] (Some note)
  | Some s =>
      match topicPerformance s with
      | None => TopicsThrow
      | Some ts =>
          TopicBars ((λ t, (tp_name t, toFixed0 (tp_averageScore t) +:+ "%", bar_class (tp_averageScore t))) <$> ts)
            (match ts with [] => Some note | _ => None end)
      end
  end.

Record View := mkView {
  v_students : option Z;
  v_questions : option Z;
  v_sessions : option Z;
  v_average : option (string * string);
  v_activity : option (list ActivityRow + string);
  v_topics : option TopicsCard
}.

(** Lines 31-255: [None] stands for the skeletons while loading. *)
Definition render (stats : Query Statistics) : View :=
  if is_loading stats then mkView None None None None None None
  else
    let st := query_data stats in
    let avg := mjoin (averageScore <$> st) in
    {| v_students := Some (count_or0 (mjoin (studentCount <$> st)));
       v_questions := Some (count_or0 (mjoin (questionCount <$> st)));
       v_sessions := Some (count_or0 (mjoin (sessionCount <$> st)));
       v_average :=
         Some (match avg with
               | Some x => if js_truthy x then toFixed0 x +:+ "%" else "N/A"
               | None => "N/A"
               end,
               match avg with
               | Some x => if js_ge x 75 then "text-green-600" else "text-yellow-600"
               | None => "text-yellow-600"
               end);
       v_activity := Some (activity_card st);
       v_topics := Some (topics_card st) |}.

(** ** Lemmas *)

(** An average score of exactly 0 is shown as "N/A", like a missing one:
    the card tests the number's truthiness. *)
Lemma zero_average_not_available st :
  averageScore st = Some (JNum 0) ->
  v_average (render (QData st)) = Some ("N/A", "text-yellow-600").
Proof. intros H. simpl. by rewrite H. Qed.

(** The note for missing topic data is shown only when the statistics
    are absent or list no topic; statistics that lack the field do not
    reach it, since the [map] above it throws first. *)
Lemma topics_note_unreachable_when_missing stats :
  is_loading stats = false ->
  (v_topics (render stats) = Some TopicsThrow <->
     ∃ st, stats = QData st /\ topicPerformance st = None) /\
  (∀ bars, v_topics (render stats) = Some (TopicBars bars (Some "No topic performance data available yet")) <->
     bars = [] /\ (query_data stats = None \/ mjoin (topicPerformance <$> query_data stats) = Some [])).
Proof.
  intros Hl. unfold render. rewrite Hl. cbn.
  destruct stats as [| |st]; try discriminate; cbn.
  { split; [split; [discriminate|naive_solver]|intros bars; split; [intros [= <-]; auto|naive_solver]]. }
  destruct (topicPerformance st) as [[|t ts]|] eqn:E; cbn.
  - split; [split; [discriminate|intros (st0 & [= <-] & H); congruence]|].
    intros bars; split; [intros [= <-]; auto|intros [-> _]; reflexivity].
  - split; [split; [discriminate|intros (st0 & [= <-] & H); congruence]|].
    intros bars; split; [discriminate|intros [_ [H|H]]; discriminate].
  - split; [split; [intros _; eauto|done]|].
    intros bars; split; [discriminate|intros [_ [H|H]]; discriminate].
Qed.

End AdminDashboard.

Module ManageTopics.
Import Results.

Inductive Request :=
  | PostTopic (name description : string)
  | PutTopic (t : Topic)
  | DeleteTopic (id : Z).

(** Lines 20-31 and the three mutations' pending flags. *)
Record State := mkState {
  searchTerm : string;
  newTopic : string * string;
  editingTopic : option Topic;
  topicToDelete : option Topic;
  openNewTopicDialog : bool;
  openEditDialog : bool;
  openDeleteDialog : bool;
  topics : Query (list Topic);
  stale : bool;
  createPending : bool;
  updatePending : bool;
  deletePending : bool;
  toasts : list (string * string);
  sent : list Request
}.

Definition initial : State :=
  mkState "" ("", "") None None false false false QLoading false false false false [] [].

(** Lines 104-107 *)
Definition matches_search (searchTerm : string) (t : Topic) : bool :=
  str_includes (to_lower searchTerm) (to_lower (t_name t)) ||
  (truthy (t_description t) && str_includes (to_lower searchTerm) (to_lower (render_opt (t_description t)))).

Definition filteredTopics (s : State) : option (list Topic) :=
  filter (λ t, matches_search (searchTerm s) t = true) <$> query_data (topics s).

(** Lines 199-234: the rows, with the count and its noun. *)
Definition topic_row (t : Topic) : string * string * Z * string :=
  (t_name t, or_str (render_opt (t_description t)) "No description",
   default 0%Z (t_questionCount t),
   if bool_decide (t_questionCount t = Some 1%Z) then "question" else "questions").

Inductive TableView :=
  | TableSkeleton
  | TableRows (rows : list (string * string * Z * string))
  | TableEmpty (hint : string).

(** Lines 180-246 *)
Definition table_view (s : State) : TableView :=
  if is_loading (topics s) then TableSkeleton
  else match filteredTopics s with
       | Some ((_ :: _) as ts) => TableRows (topic_row <$> ts)
       | _ => TableEmpty (if bool_decide (searchTerm s = EmptyString)
                          then "Start by adding topics to your database" else "Try adjusting your search")
       end.

Inductive Event :=
  | SetSearch (term : string)                (* line 170 *)
  | OpenNew                                  (* line 158 *)
  | SetNewName (v : string)                  (* line 265 *)
  | SetNewDescription (v : string)           (* line 275 *)
  | CreateClick                              (* line 284 *)
  | SetNewOpen (b : bool)                    (* lines 251, 281 *)
  | EditClick (t : Topic)                    (* line 219 *)
  | SetEditName (v : string)                 (* line 314 *)
  | SetEditDescription (v : string)          (* line 323 *)
  | SaveClick                                (* line 332 *)
  | SetEditOpen (b : bool)                   (* lines 299, 329 *)
  | DeleteClick (t : Topic)                  (* line 227 *)
  | ConfirmDelete                            (* line 359 *)
  | CancelDelete                             (* line 357 *)
  | TopicsLoaded (q : Query (list Topic))
  | CreateSettled (error : option string)
  | UpdateSettled (error : option string)
  | DeleteSettled (error : option string).

(** A row of the table is rendered for [t]. *)
Definition row_shown (s : State) (t : Topic) : bool :=
  negb (is_loading (topics s)) && bool_decide (t ∈ default [] (filteredTopics s)).

(** Record updates used by the handlers. *)
Definition with_toast (t : string * string) (s : State) : State :=
  mkState (searchTerm s) (newTopic s) (editingTopic s) (topicToDelete s) (openNewTopicDialog s)
    (openEditDialog s) (openDeleteDialog s) (topics s) (stale s) (createPending s) (updatePending s)
    (deletePending s) (toasts s ++ [t]) (sent s).

(** Lines 110-121 *)
Definition handleCreateTopic (s : State) : State :=
  if bool_decide (trim (newTopic s).1 = EmptyString) then
    with_toast ("Missing information", "Topic name is required.") s
  else mkState (searchTerm s) (newTopic s) (editingTopic s) (topicToDelete s) (openNewTopicDialog s)
         (openEditDialog s) (openDeleteDialog s) (topics s) (stale s) true (updatePending s)
         (deletePending s) (toasts s) (sent s ++ [PostTopic (newTopic s).1 (newTopic s).2]).

(** Lines 136-140: no check of the name. *)
Definition handleSaveEdit (s : State) : State :=
  match editingTopic s with
  | Some t => mkState (searchTerm s) (newTopic s) (editingTopic s) (topicToDelete s) (openNewTopicDialog s)
                (openEditDialog s) (openDeleteDialog s) (topics s) (stale s) (createPending s) true
                (deletePending s) (toasts s) (sent s ++ [PutTopic t])
  | None => s
  end.

(** Lines 143-147; the alert's action also closes it. *)
Definition handleConfirmDelete (s : State) : State :=
  match topicToDelete s with
  | Some t => mkState (searchTerm s) (newTopic s) (editingTopic s) (topicToDelete s) (openNewTopicDialog s)
                (openEditDialog s) false (topics s) (stale s) (createPending s) (updatePending s)
                true (toasts s) (sent s ++ [DeleteTopic (t_id t)])
  | None => mkState (searchTerm s) (newTopic s) (editingTopic s) (topicToDelete s) (openNewTopicDialog s)
              (openEditDialog s) false (topics s) (stale s) (createPending s) (updatePending s)
              (deletePending s) (toasts s) (sent s)
  end.

Definition set_editing (t : option Topic) (s : State) : State :=
  mkState (searchTerm s) (newTopic s) t (topicToDelete s) (openNewTopicDialog s)
    (openEditDialog s) (openDeleteDialog s) (topics s) (stale s) (createPending s) (updatePending s)
    (deletePending s) (toasts s) (sent s).

Definition step (s : State) (e : Event) : option State :=
  let keep := s in
  match e with
  | SetSearch v =>
      Some (mkState v (newTopic s) (editingTopic s) (topicToDelete s) (openNewTopicDialog s)
              (openEditDialog s) (openDeleteDialog s) (topics s) (stale s) (createPending s)
              (updatePending s) (deletePending s) (toasts s) (sent s))
  | OpenNew | SetNewOpen true =>
      Some (mkState (searchTerm s) (newTopic s) (editingTopic s) (topicToDelete s) true
              (openEditDialog s) (openDeleteDialog s) (topics s) (stale s) (createPending s)
              (updatePending s) (deletePending s) (toasts s) (sent s))
  | SetNewOpen false =>
      Some (mkState (searchTerm s) (newTopic s) (editingTopic s) (topicToDelete s) false
              (openEditDialog s) (openDeleteDialog s) (topics s) (stale s) (createPending s)
              (updatePending s) (deletePending s) (toasts s) (sent s))
  | SetNewName v =>
      if openNewTopicDialog s then
        Some (mkState (searchTerm s) (v, (newTopic s).2) (editingTopic s) (topicToDelete s) true
                (openEditDialog s) (openDeleteDialog s) (topics s) (stale s) (createPending s)
                (updatePending s) (deletePending s) (toasts s) (sent s))
      else None
  | SetNewDescription v =>
      if openNewTopicDialog s then
        Some (mkState (searchTerm s) ((newTopic s).1, v) (editingTopic s) (topicToDelete s) true
                (openEditDialog s) (openDeleteDialog s) (topics s) (stale s) (createPending s)
                (updatePending s) (deletePending s) (toasts s) (sent s))
      else None
  | CreateClick =>
      if openNewTopicDialog s && negb (createPending s) then Some (handleCreateTopic s) else None
  | EditClick t =>
      if row_shown s t then
        Some (mkState (searchTerm s) (newTopic s) (Some t) (topicToDelete s) (openNewTopicDialog s)
                true (openDeleteDialog s) (topics s) (stale s) (createPending s)
                (updatePending s) (deletePending s) (toasts s) (sent s))
      else None
  | SetEditName v =>
      match editingTopic s with
      | Some t => if openEditDialog s
                  then Some (set_editing (Some (mkTopic (t_id t) v (t_description t) (t_questionCount t))) s)
                  else None
      | None => None
      end
  | SetEditDescription v =>
      match editingTopic s with
      | Some t => if openEditDialog s
                  then Some (set_editing (Some (mkTopic (t_id t) (t_name t) (Some v) (t_questionCount t))) s)
                  else None
      | None => None
      end
  | SaveClick => if openEditDialog s && negb (updatePending s) then Some (handleSaveEdit s) else None
  | SetEditOpen b =>
      Some (mkState (searchTerm s) (newTopic s) (editingTopic s) (topicToDelete s) (openNewTopicDialog s)
              b (openDeleteDialog s) (topics s) (stale s) (createPending s)
              (updatePending s) (deletePending s) (toasts s) (sent s))
  | DeleteClick t =>
      if row_shown s t then
        Some (mkState (searchTerm s) (newTopic s) (editingTopic s) (Some t) (openNewTopicDialog s)
                (openEditDialog s) true (topics s) (stale s) (createPending s)
                (updatePending s) (deletePending s) (toasts s) (sent s))
      else None
  | ConfirmDelete => if openDeleteDialog s then Some (handleConfirmDelete s) else None
  | CancelDelete =>
      if openDeleteDialog s then
        Some (mkState (searchTerm s) (newTopic s) (editingTopic s) (topicToDelete s) (openNewTopicDialog s)
                (openEditDialog s) false (topics s) (stale s) (createPending s)
                (updatePending s) (deletePending s) (toasts s) (sent s))
      else None
  | TopicsLoaded q =>
      if (is_loading (topics s) || stale s) && negb (is_loading q) then
        Some (mkState (searchTerm s) (newTopic s) (editingTopic s) (topicToDelete s) (openNewTopicDialog s)
                (openEditDialog s) (openDeleteDialog s) q false (createPending s)
                (updatePending s) (deletePending s) (toasts s) (sent s))
      else None
  (* lines 39-54 *)
  | CreateSettled err =>
      if createPending s then
        Some match err with
             | None => mkState (searchTerm s) ("", "") (editingTopic s) (topicToDelete s) false
                         (openEditDialog s) (openDeleteDialog s) (topics s) true false
                         (updatePending s) (deletePending s)
                         (toasts s ++ [("Topic created", "New topic has been successfully created.")]) (sent s)
             | Some m => with_toast ("Error creating topic", or_str m "Failed to create topic.")
                           (mkState (searchTerm s) (newTopic s) (editingTopic s) (topicToDelete s)
                              (openNewTopicDialog s) (openEditDialog s) (openDeleteDialog s) (topics s)
                              (stale s) false (updatePending s) (deletePending s) (toasts s) (sent s))
             end
      else None
  (* lines 63-77 *)
  | UpdateSettled err =>
      if updatePending s then
        Some match err with
             | None => mkState (searchTerm s) (newTopic s) (editingTopic s) (topicToDelete s)
                         (openNewTopicDialog s) false (openDeleteDialog s) (topics s) true (createPending s)
                         false (deletePending s)
                         (toasts s ++ [("Topic updated", "The topic has been successfully updated.")]) (sent s)
             | Some m => with_toast ("Error updating topic", or_str m "Failed to update topic.")
                           (mkState (searchTerm s) (newTopic s) (editingTopic s) (topicToDelete s)
                              (openNewTopicDialog s) (openEditDialog s) (openDeleteDialog s) (topics s)
                              (stale s) (createPending s) false (deletePending s) (toasts s) (sent s))
             end
      else None
  (* lines 86-100 *)
  | DeleteSettled err =>
      if deletePending s then
        Some match err with
             | None => mkState (searchTerm s) (newTopic s) (editingTopic s) (topicToDelete s)
                         (openNewTopicDialog s) (openEditDialog s) false (topics s) true (createPending s)
                         (updatePending s) false
                         (toasts s ++ [("Topic deleted", "The topic has been successfully removed.")]) (sent s)
             | Some m => with_toast ("Error deleting topic",
                             or_str m "Failed to delete topic. Make sure there are no questions associated with this topic.")
                           (mkState (searchTerm s) (newTopic s) (editingTopic s) (topicToDelete s)
                              (openNewTopicDialog s) (openEditDialog s) (openDeleteDialog s) (topics s)
                              (stale s) (createPending s) (updatePending s) false (toasts s) (sent s))
             end
      else None
  end.

Definition run : State -> list Event -> option State := run_steps step.

(** ** Lemmas *)

Lemma str_includes_empty s : str_includes "" s = true.
Proof. destruct s; reflexivity. Qed.

(** An empty search shows every topic. *)
Lemma filtered_empty_search s :
  searchTerm s = "" -> filteredTopics s = query_data (topics s).
Proof.
  intros H. unfold filteredTopics. rewrite H. destruct (query_data (topics s)) as [ts|]; [|done].
  simpl. f_equal. induction ts as [|t ts IH]; [done|].
  rewrite filter_cons_True; [by rewrite IH|]. unfold matches_search. by rewrite str_includes_empty.
Qed.

(** Creating a topic with a blank name is refused with a toast and sends
    nothing. *)
Lemma create_refuses_blank_name s s' :
  trim (newTopic s).1 = "" -> step s CreateClick = Some s' -> sent s' = sent s.
Proof.
  intros Hb. simpl. destruct (openNewTopicDialog s && negb (createPending s)); [|done].
  intros [= <-]. unfold handleCreateTopic. by rewrite bool_decide_eq_true_2.
Qed.

(** Editing has no such check: clearing the name of the topic being edited
    and saving sends the topic with an empty name. *)
Lemma edit_sends_empty_name s t :
  openEditDialog s = true -> editingTopic s = Some t -> updatePending s = false ->
  exists s', run s [SetEditName ""; SaveClick] = Some s' /\
    sent s' = sent s ++ [PutTopic (mkTopic (t_id t) "" (t_description t) (t_questionCount t))].
Proof.
  intros Ho He Hu. simpl. rewrite He, Ho. simpl. rewrite Ho, Hu. simpl.
  eexists. split; reflexivity.
Qed.

End ManageTopics.
