(* ===== verification/Students.v ===== *)
(** * Students: the administrator's pages about students

    Models src/client/src/pages/admin/student-details.tsx
    ([StudentDetails]): the three queries and the screen they select, the
    sessions enhanced with topic names and sorted newest first, the
    statistics, the per-topic performance, the progress series and the four
    tabs with their charts' data and empty cards.  Dates are strings the
    page hands to [new Date]; the time value of a date,
    [toLocaleDateString] and [toLocaleString] are parameters of the
    section (library code).  The sort is [ArraySort.sort_by], the
    stable sort of ES2019. *)

From Stdlib Require Import Ascii ZArith QArith Qround Lia Lqa.
From stdpp Require Import base list strings gmap.
From S2P Require Import Prelude ArraySort Results Dashboard.

#[export] Instance User_eq_dec : EqDecision User.
Proof. solve_decision. Defined.

Module StudentDetails.
Import Results ArraySort.

(** Lines 48-57: the [Session] interface of the page. *)
Record Session := mkSession {
  s_id : Z;
  s_userId : Z;
  s_topicId : option Z;
  s_correctAnswers : Z;
  s_totalQuestions : Z;
  s_timeSpent : Z;
  s_score : Q;
  s_completedAt : string
}.

(** Lines 65-67: [DetailedSession], the session and its [topicName]. *)
Record DetailedSession := mkDetailed { ds_session : Session; ds_topicName : string }.

(** Lines 182-192: one entry of [topicPerformance]. *)
Record TopicPerformance := mkTopicPerformance {
  tp_topicId : Z;
  tp_topicName : string;
  tp_sessionCount : nat;
  tp_averageScore : Q
}.

(** Lines 197-204: one point of [sessionProgressData]. *)
Record ProgressPoint := mkProgressPoint {
  pp_session : string;
  pp_date : string;
  pp_score : Q;
  pp_correctAnswers : Z;
  pp_totalQuestions : Z
}.

(** Lines 212-224 *)
Definition formatTime (seconds : Z) : string :=
  let hours := (seconds / 3600)%Z in
  let minutes := (Z.rem seconds 3600 / 60)%Z in
  let secs := Z.rem seconds 60 in
  if (0 <? hours)%Z then string_of_Z hours +:+ "h " +:+ string_of_Z minutes +:+ "m " +:+ string_of_Z secs +:+ "s"
  else if (0 <? minutes)%Z then string_of_Z minutes +:+ "m " +:+ string_of_Z secs +:+ "s"
  else string_of_Z secs +:+ "s".

(** The badge colour of a score (lines 477-482) and the grade of a topic
    average (lines 576-580). *)
Definition score_badge (x : Q) : string :=
  if Qle_bool 90 x then "bg-green-600" else if Qle_bool 80 x then "bg-green-500"
  else if Qle_bool 70 x then "bg-yellow-500" else if Qle_bool 60 x then "bg-yellow-600"
  else "bg-red-500".

Definition grade (x : Q) : string :=
  if Qle_bool 90 x then "Excellent" else if Qle_bool 80 x then "Very Good"
  else if Qle_bool 70 x then "Good" else if Qle_bool 60 x then "Satisfactory"
  else "Needs Improvement".

(** [!!userId] with [userId = parseInt(id)] (lines 72, 84, 95): the two
    queries of the student only run for a non-zero number. *)
Definition enabled (id : string) : bool :=
  match parseInt id with Some z => negb (z =? 0)%Z | None => false end.

Section Page.
Context (getTime : string -> Z)               (* new Date(s).getTime() *)
        (toLocaleDateString : string -> string)
        (toLocaleString : string -> string).

(** The key of the sort of lines 166-168. *)
Definition completed (d : DetailedSession) : Q := inject_Z (getTime (s_completedAt (ds_session d))).

(** Lines 152-160 *)
Definition enhance (topics : option (list Topic)) (session : Session) : DetailedSession :=
  let topicName :=
    match topics with
    | Some ts =>
        if z_truthy (s_topicId session) then
          match head (filter (λ t, Some (t_id t) = s_topicId session) ts) with
          | Some topic => t_name topic
          | None => "All Topics"
          end
        else "All Topics"
    | None => "All Topics"
    end in
  mkDetailed session topicName.

(** Line 151 *)
Definition enhancedSessions (topics : option (list Topic)) (sessions : option (list Session)) : list DetailedSession :=
  default [] (map (enhance topics) <$> sessions).

(** Lines 166-168: newest first. *)
Definition sortedSessions (topics : option (list Topic)) (sessions : option (list Session)) : list DetailedSession :=
  sort_by (desc completed) (enhancedSessions topics sessions).

(** [arr.reduce((sum, session) => sum + f(session), 0)] *)
Definition sum_Z (f : Session -> Z) (l : list DetailedSession) : Z :=
  foldl (λ acc d, acc + f (ds_session d))%Z 0%Z l.

Definition sum_score (l : list DetailedSession) : Q :=
  foldl (λ acc d, acc + s_score (ds_session d))%Q 0%Q l.

(** Lines 174-176 and 183-185 *)
Definition average (l : list DetailedSession) : Q :=
  if decide (0 < length l) then (sum_score l / Q_of_nat (length l))%Q else 0%Q.

(** Lines 180-193 *)
Definition topic_perf (sorted : list DetailedSession) (topic : Topic) : TopicPerformance :=
  let topicSessions := filter (λ d, s_topicId (ds_session d) = Some (t_id topic)) sorted in
  mkTopicPerformance (t_id topic) (t_name topic) (length topicSessions) (average topicSessions).

Definition topicPerformance (topics : option (list Topic)) (sorted : list DetailedSession) : list TopicPerformance :=
  default [] (map (topic_perf sorted) <$> topics).

(** Lines 195-205: oldest first, labelled S1, S2, ... *)
Definition sessionProgressData (sorted : list DetailedSession) : list ProgressPoint :=
  imap (λ i d, let s := ds_session d in
          mkProgressPoint ("S" +:+ string_of_Z (Z.of_nat (i + 1))) (toLocaleDateString (s_completedAt s))
            (s_score s) (s_correctAnswers s) (s_totalQuestions s))
       (reverse sorted).

(** Lines 207-209: topics with sessions, best average first. *)
Definition topicPerformanceData (perf : list TopicPerformance) : list TopicPerformance :=
  sort_by (desc tp_averageScore) (filter (λ t, 0 < tp_sessionCount t)%nat perf).

(** ** The rendered page *)

(** Lines 297-354: the four summary cards of the overview tab. *)
Record Overview := mkOverview {
  ov_totalSessions : nat;
  ov_lastSession : string;
  ov_averageScore : string;
  ov_correctAnswers : Z;
  ov_totalQuestions : Z;
  ov_accuracy : Z;
  ov_totalTime : string;
  ov_avgTime : string
}.

Definition overview (sorted : list DetailedSession) : Overview :=
  let totalSessions := length sorted in
  let totalQuestions := sum_Z s_totalQuestions sorted in
  let correctAnswers := sum_Z s_correctAnswers sorted in
  let totalTimeSpent := sum_Z s_timeSpent sorted in
  mkOverview totalSessions
    (match sorted with d :: _ => toLocaleDateString (s_completedAt (ds_session d)) | [] => "N/A" end)
    (toFixed1 (average sorted) +:+ "%")
    correctAnswers totalQuestions
    (if (0 <? totalQuestions)%Z then round_Q (inject_Z correctAnswers / inject_Z totalQuestions * 100)%Q else 0%Z)
    (formatTime totalTimeSpent)
    (if decide (0 < totalSessions) then formatTime (round_Q (inject_Z totalTimeSpent / Q_of_nat totalSessions)%Q) else "0s").

(** Lines 466-495: a row of the session history. *)
Record SessionRow := mkSessionRow {
  sr_date : string;
  sr_topic : string;
  sr_badge : string;
  sr_score : string;
  sr_correct : string;
  sr_time : string;
  sr_href : string
}.

Definition session_row (d : DetailedSession) : SessionRow :=
  let s := ds_session d in
  mkSessionRow (toLocaleString (s_completedAt s)) (or_str (ds_topicName d) "All Topics")
    (score_badge (s_score s)) (toFixed1 (s_score s) +:+ "%")
    (string_of_Z (s_correctAnswers s) +:+ " / " +:+ string_of_Z (s_totalQuestions s))
    (formatTime (s_timeSpent s)) ("/admin/session-details/" +:+ string_of_Z (s_id s)).

(** Lines 559-583: a row of the topic table. *)
Definition topic_row (t : TopicPerformance) : string * nat * string * string :=
  (tp_topicName t, tp_sessionCount t, toFixed1 (tp_averageScore t) +:+ "%", grade (tp_averageScore t)).

(** Lines 660-697: the progress summary. *)
Record ProgressSummary := mkProgressSummary {
  ps_first : string;
  ps_latest : string;
  ps_initialScore : string;
  ps_latestScore : string;
  ps_changeLabel : string;
  ps_change : string
}.

Definition progress_summary (sorted : list DetailedSession) : option ProgressSummary :=
  let data := sessionProgressData sorted in
  match data, sorted with
  | p0 :: _, d0 :: _ =>
      let pl := default p0 (last data) in
      let dl := default d0 (last sorted) in
      Some (mkProgressSummary (toLocaleString (s_completedAt (ds_session dl)))
              (toLocaleString (s_completedAt (ds_session d0)))
              (toFixed1 (pp_score p0) +:+ "%") (toFixed1 (pp_score pl) +:+ "%")
              (if bool_decide (1 < length data)%nat && negb (Qle_bool (pp_score pl) (pp_score p0))
               then "Improvement:" else "Change:")
              (if bool_decide (1 < length data)%nat then toFixed1 (pp_score pl - pp_score p0)%Q +:+ "%" else "N/A"))
  | _, _ => None
  end.

(** Lines 357-440: the overview's two charts, the last five progress
    points under "Last min(5, n) sessions" and the topic bars (or "No
    topic data available"), or the "No Sessions Yet" card. *)
Record OverviewCharts := mkOverviewCharts {
  oc_recentLabel : string;
  oc_recent : list ProgressPoint;
  oc_topicBars : option (list TopicPerformance)
}.

Definition nonempty {A} (l : list A) : option (list A) := match l with [] => None | _ => Some l end.

Definition overview_charts (topics : option (list Topic)) (sorted : list DetailedSession) : option OverviewCharts :=
  let data := sessionProgressData sorted in
  let perf := topicPerformanceData (topicPerformance topics sorted) in
  if decide (0 < length sorted)%nat then
    Some (mkOverviewCharts
            ("Last " +:+ string_of_Z (Z.of_nat (Nat.min 5 (length sorted))) +:+ " sessions")
            (drop (length data - 5) data) (nonempty perf))
  else None.

(** The page once the student is loaded (lines 231-717): the header, the
    summary cards, and the four tabs.  A tab's [None] is its empty card:
    "No Sessions Yet" (lines 502-510), "No Topic Data Available" (589-597),
    "No Progress Data Available" (700-708). *)
Record DetailsView := mkDetailsView {
  dv_fullName : string;
  dv_username : string;
  dv_badge : string;
  dv_overview : Overview;
  dv_charts : option OverviewCharts;
  dv_sessions : option (list SessionRow);
  dv_topics : option (list TopicPerformance * list (string * nat * string * string));
  dv_progress : option (list ProgressPoint * ProgressSummary)
}.

Inductive Screen :=
  | SLoading                       (* lines 108-120 *)
  | SNotFound                      (* lines 122-147 *)
  | SDetails (v : DetailsView).

Definition details_view (student : User) (topics : option (list Topic)) (sessions : option (list Session)) : DetailsView :=
  let sorted := sortedSessions topics sessions in
  let data := sessionProgressData sorted in
  let perf := topicPerformanceData (topicPerformance topics sorted) in
  mkDetailsView (u_fullName student) ("@" +:+ u_username student)
    (if u_approved student then "Approved" else "Pending Approval")
    (overview sorted)
    (overview_charts topics sorted)
    (if decide (0 < length sorted)%nat then Some (map session_row sorted) else None)
    (match nonempty perf with Some l => Some (l, map topic_row l) | None => None end)
    (if decide (0 < length data)%nat
     then match progress_summary sorted with Some ps => Some (data, ps) | None => None end else None).

(** Lines 76-147: the screen the three queries select.  A disabled query
    is not loading and has no data. *)
Definition page (id : string) (student : Query User) (sessions : Query (list Session))
    (topics : Query (list Topic)) : Screen :=
  let on := enabled id in
  if on && (is_loading student || is_loading sessions) then SLoading
  else match (if on then query_data student else None) with
       | None => SNotFound
       | Some u => SDetails (details_view u (query_data topics) (if on then query_data sessions else None))
       end.

End Page.

(** ** Reading a duration back *)

(** A reader of what [formatTime] prints: the space-separated fields,
    each an integer followed by its unit, hours first. *)
Definition read_duration (text : string) : option Z :=
  match parseInt <$> split_on " "%char text with
  | [Some h; Some m; Some s] => Some (h * 3600 + m * 60 + s)%Z
  | [Some m; Some s] => Some (m * 60 + s)%Z
  | [Some s] => Some s
  | _ => None
  end.

(** ** Lemmas *)

(** The three numbers [formatTime] prints decompose the duration. *)
Lemma formatTime_parts seconds : (0 <= seconds)%Z ->
  (0 <= seconds / 3600 /\ 0 <= Z.rem seconds 3600 / 60 < 60 /\ 0 <= Z.rem seconds 60 < 60 /\
   seconds / 3600 * 3600 + Z.rem seconds 3600 / 60 * 60 + Z.rem seconds 60 = seconds)%Z.
Proof.
  intros Hs. rewrite !Z.rem_mod_nonneg by lia. Z.div_mod_to_equations. lia.
Qed.

Lemma unit_field_lacks_space z u :
  (0 <= z)%Z -> u <> " "%char -> digit_val u = None ->
  str_lacks " " (String.append (string_of_Z z) (String u EmptyString)) = true.
Proof.
  intros Hz Hu Hd. destruct (string_of_Z_shape z) as [_ Hs].
  unfold str_lacks in *. rewrite str_forall_app, Hs by done. simpl.
  by rewrite bool_decide_eq_false_2.
Qed.

Lemma split_field z u rest :
  (0 <= z)%Z -> u <> " "%char -> digit_val u = None ->
  split_on " " (String.append (string_of_Z z) (String u (String " " rest))) =
  String.append (string_of_Z z) (String u EmptyString) :: split_on " " rest.
Proof.
  intros Hz Hu Hd.
  replace (String.append (string_of_Z z) (String u (String " " rest)))
    with (String.append (String.append (string_of_Z z) (String u EmptyString)) (String " " rest))
    by (by rewrite str_app_assoc).
  by apply split_on_app_sep, unit_field_lacks_space.
Qed.

Lemma str_app_nil_l (s : string) : String.append EmptyString s = s.
Proof. reflexivity. Qed.

Ltac read_fields :=
  rewrite ?str_app_cons, ?str_app_nil_l;
  repeat (rewrite split_field by (done || lia));
  rewrite split_on_lacks by (apply unit_field_lacks_space; (done || lia));
  cbn [fmap list_fmap];
  rewrite ?parseInt_string_of_Z_stop by (done || lia).


(** C6: [formatTime] loses nothing: for any non-negative number of
    seconds, the hours, minutes and seconds it prints, read back field by
    field with [parseInt], add up to the duration it was given. *)
Theorem formatTime_roundtrip seconds :
  (0 <= seconds)%Z -> read_duration (formatTime seconds) = Some seconds.
Proof.
  intros Hs. destruct (formatTime_parts seconds Hs) as (Hh & Hm & Hsec & Heq).
  unfold read_duration, formatTime.
  destruct (Z.ltb_spec 0 (seconds / 3600)); [|destruct (Z.ltb_spec 0 (Z.rem seconds 3600 / 60))];
    read_fields; f_equal; lia.
Qed.

Lemma formatTime_roundtrip_witness : (0 <= 3725)%Z /\ read_duration (formatTime 3725) = Some 3725%Z.
Proof. split; [lia|]. apply formatTime_roundtrip. lia. Defined.

(** The "Last session" card shows the date of a session completed no
    earlier than any other. *)
Lemma overview_last_newest getTime toLocaleDateString topics sessions d :
  d ∈ enhancedSessions topics sessions ->
  ∃ d0, d0 ∈ enhancedSessions topics sessions /\
    (completed getTime d <= completed getTime d0)%Q /\
    ov_lastSession (overview toLocaleDateString (sortedSessions getTime topics sessions)) =
      toLocaleDateString (s_completedAt (ds_session d0)).
Proof.
  intros Hd. pose proof (sort_by_perm (desc (completed getTime)) (enhancedSessions topics sessions)) as Hp.
  unfold sortedSessions in *.
  destruct (sort_by (desc (completed getTime)) (enhancedSessions topics sessions)) as [|d0 r] eqn:E.
  { apply Permutation_nil_l in Hp. rewrite <- Hp in Hd. by apply not_elem_of_nil in Hd. }
  exists d0. split; [rewrite <- Hp; left|split; [by eapply sort_desc_head_max|done]].
Qed.

(** C11: the session history refines the abstract specification of a
    stable sort by completion time: it is a permutation of the sessions,
    newest first, sessions completed at the same time keep the server's
    order, and it is the only array with these properties, so the model
    and the engine's sort agree.  The "Last session" card therefore shows
    the newest session. *)
Theorem sortedSessions_refines getTime toLocaleDateString topics sessions :
  StableSortOf (completed getTime) (enhancedSessions topics sessions) (sortedSessions getTime topics sessions) /\
  (∀ l', StableSortOf (completed getTime) (enhancedSessions topics sessions) l' ->
         l' = sortedSessions getTime topics sessions) /\
  (∀ d, d ∈ enhancedSessions topics sessions ->
   ∃ d0, d0 ∈ enhancedSessions topics sessions /\ (completed getTime d <= completed getTime d0)%Q /\
     ov_lastSession (overview toLocaleDateString (sortedSessions getTime topics sessions)) =
       toLocaleDateString (s_completedAt (ds_session d0))).
Proof.
  split; [apply sort_desc_refines|split; [intros l' H; by apply sort_desc_unique|]].
  intros d. apply overview_last_newest.
Qed.

(** ** The four tabs *)

Section Tabs.
Context (getTime : string -> Z) (toLocaleDateString toLocaleString : string -> string).

Lemma sessionProgressData_length sorted : length (sessionProgressData toLocaleDateString sorted) = length sorted.
Proof. unfold sessionProgressData. by rewrite length_imap, length_reverse. Qed.

Lemma sessionProgressData_score sorted i :
  pp_score <$> sessionProgressData toLocaleDateString sorted !! i = (λ d, s_score (ds_session d)) <$> reverse sorted !! i.
Proof. unfold sessionProgressData. rewrite list_lookup_imap. by destruct (reverse sorted !! i). Qed.

(** The first point of the progress chart is the oldest session, the last
    one the newest. *)
Lemma progress_ends sorted :
  (pp_score <$> head (sessionProgressData toLocaleDateString sorted) = (λ d, s_score (ds_session d)) <$> last sorted) /\
  (pp_score <$> last (sessionProgressData toLocaleDateString sorted) = (λ d, s_score (ds_session d)) <$> head sorted).
Proof.
  split.
  - rewrite head_lookup, sessionProgressData_score, <- head_reverse. by rewrite head_lookup.
  - rewrite (last_lookup (sessionProgressData _ _)), sessionProgressData_score, sessionProgressData_length.
    destruct sorted as [|d sorted]; [done|]. rewrite reverse_lookup; cbn; [|lia].
    by rewrite Nat.sub_diag.
Qed.

Lemma topicPerformanceData_nil topics : topicPerformanceData (topicPerformance topics []) = [].
Proof. destruct topics as [ts|]; [|done]. cbn. by induction ts. Qed.

Lemma progress_summary_cons d sorted :
  ∃ ps, progress_summary toLocaleDateString toLocaleString (d :: sorted) = Some ps.
Proof.
  unfold progress_summary. pose proof (sessionProgressData_length (d :: sorted)) as Hl.
  destruct (sessionProgressData _ _); [discriminate|]. by eexists.
Qed.

(** The tabs show their empty cards together: no session means the
    overview's "No Sessions Yet", the empty history, no topic data and no
    progress; with sessions all of them are filled, except the topic tab,
    which is empty when no session is on a listed topic.  The overview's
    topic bars are the topic tab's chart. *)
Theorem tabs_agree student topics sessions :
  let v := details_view getTime toLocaleDateString toLocaleString student topics sessions in
  let n := length (sortedSessions getTime topics sessions) in
  (dv_charts v = None <-> n = 0%nat) /\ (dv_sessions v = None <-> n = 0%nat) /\
  (dv_progress v = None <-> n = 0%nat) /\ (n = 0%nat -> dv_topics v = None) /\
  (∀ c, dv_charts v = Some c -> oc_topicBars c = fst <$> dv_topics v).
Proof.
  cbn zeta. unfold details_view, overview_charts. rewrite sessionProgressData_length.
  destruct (sortedSessions getTime topics sessions) as [|d sorted] eqn:Hs.
  - rewrite topicPerformanceData_nil. cbn. naive_solver.
  - destruct (progress_summary_cons d sorted) as [ps ->].
    rewrite !decide_True by (cbn; lia). cbn [dv_charts dv_sessions dv_progress dv_topics].
    split_and!; try (split; [discriminate|cbn; lia]).
    + cbn; lia.
    + intros c [= <-]. cbn. by destruct (nonempty _).
Qed.

(** The progress summary (lines 660-697) reads its first date and initial
    score from the oldest session and its latest date and score from the
    newest, so each line of it describes one session; it says
    "Improvement:" exactly when there are two sessions or more and the
    newest scored strictly more than the oldest. *)
Theorem progress_summary_ends sorted ps :
  progress_summary toLocaleDateString toLocaleString sorted = Some ps ->
  ∃ newest oldest, head sorted = Some newest /\ last sorted = Some oldest /\
    ps_first ps = toLocaleString (s_completedAt (ds_session oldest)) /\
    ps_initialScore ps = toFixed1 (s_score (ds_session oldest)) +:+ "%" /\
    ps_latest ps = toLocaleString (s_completedAt (ds_session newest)) /\
    ps_latestScore ps = toFixed1 (s_score (ds_session newest)) +:+ "%" /\
    (ps_changeLabel ps = "Improvement:" <->
       (1 < length sorted)%nat /\ (s_score (ds_session oldest) < s_score (ds_session newest))%Q).
Proof.
  unfold progress_summary. destruct (progress_ends sorted) as [Hh Hl].
  pose proof (sessionProgressData_length sorted) as Hn.
  destruct (sessionProgressData _ sorted) as [|p0 data] eqn:Ed; [done|].
  destruct sorted as [|d0 sorted]; [done|]. intros [= <-].
  destruct (last (p0 :: data)) as [pl|] eqn:Epl; [|by destruct data].
  destruct (last (d0 :: sorted)) as [dl|] eqn:Edl; [|by destruct sorted].
  cbn in Hh, Hl, Hn. injection Hh as Hh. injection Hl as Hl. injection Hn as Hn.
  exists d0, dl. cbn. rewrite <- Hh, <- Hl, Hn. split_and!; try done.
  case_bool_decide as Hb; cbn; [|split; [discriminate|intros [? ?]; lia]].
  destruct (Qle_bool (pp_score pl) (pp_score p0)) eqn:Hq; cbn.
  - apply Qle_bool_iff in Hq. split; [discriminate|intros [_ ?]; lra].
  - split; [intros _; split; [lia|]|done].
    apply Qnot_le_lt. intros Hle. apply Qle_bool_iff in Hle. congruence.
Qed.

(** The overview's "Last k sessions" counts the points its chart draws:
    the last min(5, n) points of the progress series. *)
Lemma recent_label_counts topics sorted c :
  overview_charts toLocaleDateString topics sorted = Some c ->
  oc_recentLabel c = "Last " +:+ string_of_Z (Z.of_nat (length (oc_recent c))) +:+ " sessions" /\
  oc_recent c = drop (length sorted - 5) (sessionProgressData toLocaleDateString sorted).
Proof.
  unfold overview_charts. case_decide; [intros [= <-]|done]. cbn [oc_recentLabel oc_recent].
  rewrite length_drop, !sessionProgressData_length. split; [|done].
  do 3 f_equal. change (Z.of_nat (Nat.min 5 (length sorted)) = Z.of_nat (length sorted - (length sorted - 5))). lia.
Qed.

End Tabs.

End StudentDetails.
