(* ===== verification/ManageStudents.v ===== *)
(** * ManageStudents: the student management page

    Models src/client/src/pages/admin/manage-students.tsx
    ([ManageStudents]): its state grouped per dialog, the zod schemas of
    the add and edit forms (the email check is a parameter), search and
    sort ([localeCompare] and date parsing are parameters, the sort is the
    stable [ArraySort.sort_by]), the selection with its refinement of a set
    of ids, the four mutations and their callbacks, [step] over the
    controls the table and dialogs render, the table itself with its
    links into the student-details page, and what the four dialogs show. *)

From Stdlib Require Import Ascii ZArith QArith Qround Lia Lqa.
From stdpp Require Import base list strings gmap.
From S2P Require Import Prelude ArraySort Results Dashboard Widgets Students.

Module ManageStudents.
Import Results ArraySort.

(** Lines 27-35: the values of the add form. *)
Record AddStudentForm := mkAddForm {
  af_username : string;
  af_fullName : string;
  af_email : string;
  af_password : string;
  af_confirmPassword : string
}.

Definition add_defaults : AddStudentForm := mkAddForm "" "" "" "" "".

(** Lines 39-44: the values of the edit form. *)
Record EditStudentForm := mkEditForm {
  ef_username : string;
  ef_fullName : string;
  ef_email : string;
  ef_role : string
}.

Definition edit_defaults : EditStudentForm := mkEditForm "" "" "" "student".

(** The requests the page sends. *)
Inductive Request :=
  | PostRegister (v : AddStudentForm) (role : string)     (* lines 101-104 *)
  | PutUser (id : Z) (v : EditStudentForm)                (* line 128 *)
  | DeleteUser (id : Z)                                   (* line 151 *)
  | PostResetPassword (userId : Z) (newPassword : string). (* lines 175-178 *)

(** The state of each dialog: the [useState]s of lines 54-63, the form
    values of lines 76-96 and the pending flag of the dialog's mutation. *)
Record AddDialog := mkAddDialog { ad_open : bool; ad_form : AddStudentForm; ad_pending : bool }.

Record EditDialog := mkEditDialog {
  ed_open : bool; ed_student : option User; ed_form : EditStudentForm; ed_pending : bool }.

Record DeleteDialog := mkDeleteDialog { dd_open : bool; dd_student : option User; dd_pending : bool }.

Record ResetDialog := mkResetDialog {
  rd_open : bool;
  rd_student : option User;
  rd_newPassword : string;
  rd_confirmNewPassword : string;
  rd_error : string;
  rd_pending : bool
}.

Record State := mkState {
  searchTerm : string;
  sortBy : string;
  selectedStudents : list Z;
  students : Query (list User);
  stale : bool;
  addDialog : AddDialog;
  editDialog : EditDialog;
  deleteDialog : DeleteDialog;
  resetDialog : ResetDialog;
  toasts : list (string * string);
  sent : list Request
}.

Definition initial : State :=
  mkState "" "fullName" [] QLoading false
    (mkAddDialog false add_defaults false) (mkEditDialog false None edit_defaults false)
    (mkDeleteDialog false None false) (mkResetDialog false None "" "" "" false) [] [].

(** Record updates used by the handlers. *)
Definition set_selected (l : list Z) (s : State) : State :=
  mkState (searchTerm s) (sortBy s) l (students s) (stale s) (addDialog s) (editDialog s)
    (deleteDialog s) (resetDialog s) (toasts s) (sent s).

Definition set_add (a : AddDialog) (s : State) : State :=
  mkState (searchTerm s) (sortBy s) (selectedStudents s) (students s) (stale s) a (editDialog s)
    (deleteDialog s) (resetDialog s) (toasts s) (sent s).

Definition set_edit (e : EditDialog) (s : State) : State :=
  mkState (searchTerm s) (sortBy s) (selectedStudents s) (students s) (stale s) (addDialog s) e
    (deleteDialog s) (resetDialog s) (toasts s) (sent s).

Definition set_delete (d : DeleteDialog) (s : State) : State :=
  mkState (searchTerm s) (sortBy s) (selectedStudents s) (students s) (stale s) (addDialog s)
    (editDialog s) d (resetDialog s) (toasts s) (sent s).

Definition set_reset (r : ResetDialog) (s : State) : State :=
  mkState (searchTerm s) (sortBy s) (selectedStudents s) (students s) (stale s) (addDialog s)
    (editDialog s) (deleteDialog s) r (toasts s) (sent s).

Definition toast (t : string * string) (s : State) : State :=
  mkState (searchTerm s) (sortBy s) (selectedStudents s) (students s) (stale s) (addDialog s)
    (editDialog s) (deleteDialog s) (resetDialog s) (toasts s ++ [t]) (sent s).

Definition send (r : Request) (s : State) : State :=
  mkState (searchTerm s) (sortBy s) (selectedStudents s) (students s) (stale s) (addDialog s)
    (editDialog s) (deleteDialog s) (resetDialog s) (toasts s) (sent s ++ [r]).

(** [queryClient.invalidateQueries({ queryKey: ["/api/users"] })] *)
Definition invalidate (s : State) : State :=
  mkState (searchTerm s) (sortBy s) (selectedStudents s) (students s) true (addDialog s)
    (editDialog s) (deleteDialog s) (resetDialog s) (toasts s) (sent s).

Section Page.
Context (is_email : string -> bool)          (* z.string().email() *)
        (localeCompare : string -> string -> Z)
        (getTime : string -> Z).             (* new Date(s).getTime() *)

(** Lines 27-35 *)
Definition addStudentSchema (v : AddStudentForm) : bool :=
  (3 <=? String.length (af_username v))%nat && (1 <=? String.length (af_fullName v))%nat &&
  is_email (af_email v) && (6 <=? String.length (af_password v))%nat &&
  (1 <=? String.length (af_confirmPassword v))%nat &&
  bool_decide (af_password v = af_confirmPassword v).

(** Lines 39-44 *)
Definition editStudentSchema (v : EditStudentForm) : bool :=
  (3 <=? String.length (ef_username v))%nat && (1 <=? String.length (ef_fullName v))%nat &&
  is_email (ef_email v) && bool_decide (ef_role v = "admin" \/ ef_role v = "student").

(** Lines 289-301: the search, then the sort the select chose. *)
Definition matches_search (searchTerm : string) (u : User) : bool :=
  str_includes (to_lower searchTerm) (to_lower (u_fullName u)) ||
  str_includes (to_lower searchTerm) (to_lower (u_email u)) ||
  str_includes (to_lower searchTerm) (to_lower (u_username u)).

Definition compareFn (sortBy : string) (a b : User) : Q :=
  if bool_decide (sortBy = "fullName") then inject_Z (localeCompare (u_fullName a) (u_fullName b))
  else if bool_decide (sortBy = "email") then inject_Z (localeCompare (u_email a) (u_email b))
  else if bool_decide (sortBy = "createdAt") then inject_Z (getTime (u_createdAt b) - getTime (u_createdAt a))
  else 0.

Definition filteredStudents (s : State) : option (list User) :=
  (λ l, sort_by (compareFn (sortBy s)) (filter (λ u, matches_search (searchTerm s) u = true) l))
    <$> query_data (students s).

(** Line 368: the header checkbox is checked when as many ids are
    selected as there are rows. *)
Definition all_checked (s : State) : bool :=
  match query_data (students s), filteredStudents s with
  | Some _, Some f => bool_decide (0 < length f)%nat && bool_decide (length (selectedStudents s) = length f)
  | _, _ => false
  end.

(** Lines 272-278 *)
Definition handleSelectAll (checked : bool) (s : State) : State :=
  match checked, query_data (students s) with
  | true, Some l => set_selected (u_id <$> l) s
  | _, _ => set_selected [] s
  end.

(** Lines 281-287 *)
Definition handleSelectStudent (studentId : Z) (checked : bool) (s : State) : State :=
  if checked then set_selected (selectedStudents s ++ [studentId]) s
  else set_selected (filter (λ id, id <> studentId) (selectedStudents s)) s.

(** Lines 250-269 *)
Definition submitPasswordReset (s : State) : State :=
  let r := resetDialog s in
  let cleared := mkResetDialog (rd_open r) (rd_student r) (rd_newPassword r) (rd_confirmNewPassword r) "" (rd_pending r) in
  let fail msg := set_reset (mkResetDialog (rd_open r) (rd_student r) (rd_newPassword r) (rd_confirmNewPassword r) msg (rd_pending r)) s in
  if bool_decide (rd_newPassword r = "") || (String.length (rd_newPassword r) <? 6)%nat then
    fail "Password must be at least 6 characters"
  else if negb (bool_decide (rd_newPassword r = rd_confirmNewPassword r)) then
    fail "Passwords don't match"
  else match rd_student r with
       | Some u =>
           send (PostResetPassword (u_id u) (rd_newPassword r))
             (set_reset (mkResetDialog (rd_open r) (rd_student r) (rd_newPassword r) (rd_confirmNewPassword r) "" true) s)
       | None => set_reset cleared s
       end.

(** Lines 223-234 *)
Definition handleEditStudent (u : User) (s : State) : State :=
  let role := if bool_decide (u_role u = "admin") then "admin" else "student" in
  set_edit (mkEditDialog true (Some u) (mkEditForm (u_username u) (u_fullName u) (u_email u) role)
              (ed_pending (editDialog s))) s.

(** Lines 202-214: [handleSubmit] runs the handler only on values the
    schema accepts. *)
Definition submitAdd (s : State) : State :=
  let a := addDialog s in
  if addStudentSchema (ad_form a) then
    send (PostRegister (ad_form a) "student") (set_add (mkAddDialog (ad_open a) (ad_form a) true) s)
  else s.

Definition submitEdit (s : State) : State :=
  let e := editDialog s in
  if editStudentSchema (ed_form e) then
    match ed_student e with
    | Some u => send (PutUser (u_id u) (ed_form e)) (set_edit (mkEditDialog (ed_open e) (ed_student e) (ed_form e) true) s)
    | None => s
    end
  else s.

(** Lines 237-241; the alert's action also closes it. *)
Definition confirmDelete (s : State) : State :=
  let d := deleteDialog s in
  match dd_student d with
  | Some u => send (DeleteUser (u_id u)) (set_delete (mkDeleteDialog false (Some u) true) s)
  | None => set_delete (mkDeleteDialog false None (dd_pending d)) s
  end.

End Page.

(** The controls of the page and the answers of its requests. *)
Inductive Event :=
  | SetSearch (v : string)                  (* line 329 *)
  | SetSortBy (v : string)                  (* line 340 *)
  | ClickSelectAll                          (* line 370 *)
  | ClickSelectRow (id : Z)                 (* line 386 *)
  | OpenAdd                                 (* line 317 *)
  | SetAddOpen (b : bool)                   (* lines 501, 585 *)
  | EditAddForm (v : AddStudentForm)        (* lines 511-575 *)
  | SubmitAdd                               (* lines 510, 589-594 *)
  | EditClick (u : User)                    (* line 428 *)
  | SetEditOpen (b : bool)                  (* lines 602, 683 *)
  | EditEditForm (v : EditStudentForm)      (* lines 612-675 *)
  | SubmitEdit                              (* lines 611, 687-692 *)
  | ResetClick (u : User)                   (* line 436 *)
  | SetResetOpen (b : bool)                 (* lines 700, 741 *)
  | TypeNewPassword (v : string)            (* line 718 *)
  | TypeConfirmPassword (v : string)        (* line 729 *)
  | SubmitReset                             (* lines 746-747 *)
  | DeleteClick (u : User)                  (* line 454 *)
  | SetDeleteOpen (b : bool)                (* line 756 *)
  | ConfirmDelete                           (* lines 771-772 *)
  | StudentsLoaded (q : Query (list User))
  | ToggledActive                           (* lines 441-447 *)
  | RegisterSettled (error : option string)
  | UpdateSettled (error : option string)
  | DeleteSettled (error : option string)
  | ResetSettled (error : option string).

Section Steps.
Context (is_email : string -> bool) (localeCompare : string -> string -> Z) (getTime : string -> Z).

(** A row of the table is rendered for [u] (lines 362-467). *)
Definition row_shown (s : State) (u : User) : bool :=
  negb (is_loading (students s)) &&
  bool_decide (u ∈ default [] (filteredStudents localeCompare getTime s)).

Definition header_shown (s : State) : bool :=
  negb (is_loading (students s)) &&
  bool_decide (0 < length (default [] (filteredStudents localeCompare getTime s)))%nat.

Definition step (s : State) (e : Event) : option State :=
  let a := addDialog s in let ed := editDialog s in
  let d := deleteDialog s in let r := resetDialog s in
  match e with
  | SetSearch v =>
      Some (mkState v (sortBy s) (selectedStudents s) (students s) (stale s) a ed d r (toasts s) (sent s))
  | SetSortBy v =>
      if bool_decide (v = "fullName" \/ v = "email" \/ v = "createdAt") then
        Some (mkState (searchTerm s) v (selectedStudents s) (students s) (stale s) a ed d r (toasts s) (sent s))
      else None
  | ClickSelectAll =>
      if header_shown s then Some (handleSelectAll (negb (all_checked localeCompare getTime s)) s) else None
  | ClickSelectRow id =>
      if bool_decide (id ∈ u_id <$> default [] (filteredStudents localeCompare getTime s))
         && negb (is_loading (students s))
      then Some (handleSelectStudent id (negb (bool_decide (id ∈ selectedStudents s))) s)
      else None
  | OpenAdd => Some (set_add (mkAddDialog true (ad_form a) (ad_pending a)) s)
  | SetAddOpen b => Some (set_add (mkAddDialog b (ad_form a) (ad_pending a)) s)
  | EditAddForm v => if ad_open a then Some (set_add (mkAddDialog true v (ad_pending a)) s) else None
  | SubmitAdd => if ad_open a && negb (ad_pending a) then Some (submitAdd is_email s) else None
  | EditClick u => if row_shown s u then Some (handleEditStudent u s) else None
  | SetEditOpen b => Some (set_edit (mkEditDialog b (ed_student ed) (ed_form ed) (ed_pending ed)) s)
  | EditEditForm v =>
      if ed_open ed then Some (set_edit (mkEditDialog true (ed_student ed) v (ed_pending ed)) s) else None
  | SubmitEdit => if ed_open ed && negb (ed_pending ed) then Some (submitEdit is_email s) else None
  | ResetClick u =>
      if row_shown s u then
        Some (set_reset (mkResetDialog true (Some u) (rd_newPassword r) (rd_confirmNewPassword r) (rd_error r) (rd_pending r)) s)
      else None
  | SetResetOpen b =>
      Some (set_reset (mkResetDialog b (rd_student r) (rd_newPassword r) (rd_confirmNewPassword r) (rd_error r) (rd_pending r)) s)
  | TypeNewPassword v =>
      if rd_open r then
        Some (set_reset (mkResetDialog true (rd_student r) v (rd_confirmNewPassword r) (rd_error r) (rd_pending r)) s)
      else None
  | TypeConfirmPassword v =>
      if rd_open r then
        Some (set_reset (mkResetDialog true (rd_student r) (rd_newPassword r) v (rd_error r) (rd_pending r)) s)
      else None
  | SubmitReset => if rd_open r && negb (rd_pending r) then Some (submitPasswordReset s) else None
  | DeleteClick u =>
      if row_shown s u then Some (set_delete (mkDeleteDialog true (Some u) (dd_pending d)) s) else None
  | SetDeleteOpen b => Some (set_delete (mkDeleteDialog b (dd_student d) (dd_pending d)) s)
  | ConfirmDelete => if dd_open d && negb (dd_pending d) then Some (confirmDelete s) else None
  | StudentsLoaded q =>
      if (is_loading (students s) || stale s) && negb (is_loading q) then
        Some (mkState (searchTerm s) (sortBy s) (selectedStudents s) q false a ed d r (toasts s) (sent s))
      else None
  | ToggledActive => Some (invalidate s)
  (* lines 107-122 *)
  | RegisterSettled err =>
      if ad_pending a then
        Some match err with
             | None => invalidate (toast ("Student added", "The student has been successfully added.")
                         (set_add (mkAddDialog false add_defaults false) s))
             | Some m => toast ("Error adding student", or_str m "Failed to add student.")
                           (set_add (mkAddDialog (ad_open a) (ad_form a) false) s)
             end
      else None
  (* lines 130-145 *)
  | UpdateSettled err =>
      if ed_pending ed then
        Some match err with
             | None => invalidate (toast ("Student updated", "The student details have been successfully updated.")
                         (set_edit (mkEditDialog false (ed_student ed) (ed_form ed) false) s))
             | Some m => toast ("Error updating student", or_str m "Failed to update student details.")
                           (set_edit (mkEditDialog (ed_open ed) (ed_student ed) (ed_form ed) false) s)
             end
      else None
  (* lines 153-169 *)
  | DeleteSettled err =>
      if dd_pending d then
        Some match err with
             | None => invalidate (toast ("Student deleted", "The student has been successfully removed.")
                         (set_delete (mkDeleteDialog false None false) s))
             | Some m => toast ("Error deleting student", or_str m "Failed to delete student.")
                           (set_delete (mkDeleteDialog (dd_open d) (dd_student d) false) s)
             end
      else None
  (* lines 180-198 *)
  | ResetSettled err =>
      if rd_pending r then
        Some match err with
             | None => toast ("Password reset", "The student's password has been successfully reset.")
                         (set_reset (mkResetDialog false None "" "" "" false) s)
             | Some m => toast ("Error resetting password", or_str m "Failed to reset password.")
                           (set_reset (mkResetDialog (rd_open r) (rd_student r) (rd_newPassword r)
                                         (rd_confirmNewPassword r) (rd_error r) false) s)
             end
      else None
  end.

Definition run : State -> list Event -> option State := run_steps step.

End Steps.

(** ** The table (lines 353-497) *)

Record StudentRow := mkStudentRow {
  sr_checked : bool;
  sr_name : string;
  sr_email : string;
  sr_handle : string;
  sr_status : string;
  sr_statusClass : string;
  sr_details : string
}.

(** Lines 378-458: one row; the "Date Added" cell ([formatDistanceToNow])
    is library code and left out. *)
Definition student_row (s : State) (u : User) : StudentRow :=
  mkStudentRow (bool_decide (u_id u ∈ selectedStudents s)) (u_fullName u) (u_email u)
    ("@" +:+ u_username u)
    (if u_active u then "Active" else "Inactive")
    (if u_active u then "text-green-600" else "text-red-600")
    ("/admin/student-details/" +:+ string_of_Z (u_id u)).

Inductive Table :=
  | TSkeleton                                                    (* lines 354-360 *)
  | TRows (headerChecked : bool) (rows : list StudentRow) (footer : string)
  | TEmpty (hint : string).                                      (* lines 464-473 *)

Section Table.
Context (localeCompare : string -> string -> Z) (getTime : string -> Z).

(** Lines 353-497, with the pagination text of lines 476-483. *)
Definition table (s : State) : Table :=
  if is_loading (students s) then TSkeleton
  else match filteredStudents localeCompare getTime s with
       | Some ((_ :: _) as l) =>
           let n := string_of_Z (Z.of_nat (length l)) in
           TRows (all_checked localeCompare getTime s) (student_row s <$> l)
             ("Showing 1 to " +:+ n +:+ " of " +:+ n +:+ " students")
       | _ => TEmpty (if truthy (Some (searchTerm s)) then "Try adjusting your search"
                      else "Start by adding students to your platform")
       end.

End Table.

(** ** The dialogs (lines 500-779)

    A closed dialog renders no content, so each dialog's view is [None]
    while it is closed. *)

(** Lines 500-596 *)
Record AddView := mkAddView { av_values : AddStudentForm; av_submitLabel : string; av_submitDisabled : bool }.

(** Lines 598-694 *)
Record EditView := mkEditView { ev_values : EditStudentForm; ev_submitLabel : string; ev_submitDisabled : bool }.

(** Lines 696-751 *)
Record ResetView := mkResetView {
  rv_description : string;
  rv_newPassword : string;
  rv_confirmNewPassword : string;
  rv_error : option string;
  rv_submitLabel : string;
  rv_submitDisabled : bool
}.

(** Lines 753-778: the alert does not name the student. *)
Record DeleteView := mkDeleteView { xv_actionLabel : string; xv_actionDisabled : bool }.

Record DialogsView := mkDialogsView {
  dv_add : option AddView;
  dv_edit : option EditView;
  dv_reset : option ResetView;
  dv_delete : option DeleteView
}.

Definition dialogs_view (s : State) : DialogsView :=
  let a := addDialog s in let e := editDialog s in
  let r := resetDialog s in let d := deleteDialog s in
  mkDialogsView
    (if ad_open a then
       Some (mkAddView (ad_form a) (if ad_pending a then "Adding..." else "Add Student") (ad_pending a))
     else None)
    (if ed_open e then
       Some (mkEditView (ed_form e) (if ed_pending e then "Saving..." else "Save Changes") (ed_pending e))
     else None)
    (if rd_open r then
       Some (mkResetView
               ("Set a new password for " +:+ default "" (u_fullName <$> rd_student r) +:+
                ". The student will use this password for their next login.")
               (rd_newPassword r) (rd_confirmNewPassword r)
               (if truthy (Some (rd_error r)) then Some (rd_error r) else None)
               (if rd_pending r then "Resetting..." else "Reset Password") (rd_pending r))
     else None)
    (if dd_open d then
       Some (mkDeleteView (if dd_pending d then "Deleting..." else "Delete") (dd_pending d))
     else None).

(** ** The selection as a set *)

(** What the checkboxes promise: the selection is a set of student ids;
    a row's checkbox adds or removes its id, the header selects every
    student or clears the selection. *)
Inductive SelOp := Select (id : Z) | Deselect (id : Z) | SelectAll (ids : list Z) | Clear.

Definition sel_spec (S : gset Z) (o : SelOp) : gset Z :=
  match o with
  | Select id => {[id]} ∪ S
  | Deselect id => S ∖ {[id]}
  | SelectAll ids => list_to_set ids
  | Clear => ∅
  end.

Section Selection.
Context (is_email : string -> bool) (localeCompare : string -> string -> Z) (getTime : string -> Z).

(** The abstract operation an event performs on the selection, if any. *)
Definition sel_op (s : State) (e : Event) : option SelOp :=
  match e with
  | ClickSelectAll =>
      match negb (all_checked localeCompare getTime s), query_data (students s) with
      | true, Some l => Some (SelectAll (u_id <$> l))
      | _, _ => Some Clear
      end
  | ClickSelectRow id => Some (if bool_decide (id ∈ selectedStudents s) then Deselect id else Select id)
  | _ => None
  end.

(** The concrete selection: no id twice, and the loaded students have
    distinct ids (they are the table's primary key). *)
Definition sel_inv (s : State) : Prop :=
  NoDup (selectedStudents s) /\ ∀ l, query_data (students s) = Some l -> NoDup (u_id <$> l).

Lemma step_keeps_selection s e s' :
  step is_email localeCompare getTime s e = Some s' -> sel_op s e = None ->
  selectedStudents s' = selectedStudents s /\ students s' = students s \/ (∃ q, e = StudentsLoaded q /\ selectedStudents s' = selectedStudents s /\ students s' = q).
Proof.
  intros Hs Ho. destruct e; simpl in Ho; try discriminate; simpl in Hs;
    unfold submitAdd, submitEdit, submitPasswordReset, confirmDelete, handleEditStudent in Hs;
    simplify_eq/=; repeat (case_match; simplify_eq/=); eauto.
Qed.

Lemma select_row_refines (sel : list Z) id :
  NoDup sel ->
  let sel' := if negb (bool_decide (id ∈ sel)) then sel ++ [id] else filter (λ x, x <> id) sel in
  NoDup sel' /\
  list_to_set sel' =@{gset Z} sel_spec (list_to_set sel) (if bool_decide (id ∈ sel) then Deselect id else Select id).
Proof.
  intros Hnd. simpl. destruct (decide (id ∈ sel)) as [Hin|Hin].
  all: rewrite ?(bool_decide_eq_true_2 _ Hin), ?(bool_decide_eq_false_2 _ Hin); simpl.
  - split; [by apply NoDup_filter|]. apply set_eq. intros x.
    rewrite elem_of_difference, !elem_of_list_to_set, list_elem_of_filter, elem_of_singleton. naive_solver.
  - split; [|set_solver]. apply NoDup_app. split; [done|]. split; [set_solver|apply NoDup_singleton].
Qed.

Lemma sel_inv_set_selected l s : NoDup l -> sel_inv s -> sel_inv (set_selected l s).
Proof. intros ? [_ ?]. by split. Qed.

(** The rows shown are loaded rows, so their ids are distinct too. *)
Lemma filtered_ids_NoDup s l f :
  query_data (students s) = Some l -> NoDup (u_id <$> l) ->
  filteredStudents localeCompare getTime s = Some f -> NoDup (u_id <$> f).
Proof.
  unfold filteredStudents. intros Hl Hnd. rewrite Hl. intros [= <-].
  rewrite ArraySort.sort_by_perm. eapply sublist_NoDup; [exact Hnd|].
  apply fmap_sublist, sublist_filter.
Qed.

(** Pigeonhole: as many distinct selected ids as distinct row ids, one of
    them hidden, leave a row unselected. *)
Lemma hidden_selection_unselected (sel ids : list Z) id :
  NoDup sel -> NoDup ids -> length sel = length ids -> id ∈ sel -> id ∉ ids ->
  ∃ x, x ∈ ids /\ x ∉ sel.
Proof.
  intros Hs Hi Hlen Hin Hnot. destruct (decide (Forall (λ x, x ∈ sel) ids)) as [Hall|Hall].
  - exfalso. assert (Hsub : id :: ids ⊆+ sel).
    { apply NoDup_submseteq; [by constructor|]. intros x [->|Hx]%elem_of_cons; [done|].
      by eapply Forall_forall in Hall. }
    apply submseteq_length in Hsub. simpl in Hsub. lia.
  - apply not_Forall_Exists, Exists_exists in Hall; [|apply _]. naive_solver.
Qed.

(** C14: the row and header checkboxes refine the set semantics of the
    selection: from a state whose selection has no duplicate and whose
    loaded students have distinct ids, every event of the page keeps both
    facts, and the set of selected ids after the event is the abstract
    operation of the event ([sel_op]) applied to the set before it, or
    the same set when the event does not touch the selection. *)
Theorem selection_refines s e s' :
  sel_inv s -> step is_email localeCompare getTime s e = Some s' ->
  (∀ q l, e = StudentsLoaded q -> query_data q = Some l -> NoDup (u_id <$> l)) ->
  sel_inv s' /\
  list_to_set (selectedStudents s') =@{gset Z}
    match sel_op s e with
    | Some o => sel_spec (list_to_set (selectedStudents s)) o
    | None => list_to_set (selectedStudents s)
    end.
Proof.
  intros Hinv Hs Hload. destruct (sel_op s e) as [o|] eqn:Ho.
  - destruct e; simpl in Ho; try discriminate; simpl in Hs.
    + destruct (header_shown _ _ _); [|done]. injection Hs as <-. unfold handleSelectAll.
      destruct (negb _), (query_data (students s)) as [l|] eqn:Eq; injection Ho as <-;
        (split; [apply sel_inv_set_selected; [|done]|done]); [by apply Hinv|apply NoDup_nil_2..].
    + destruct (_ && _); [|done]. injection Hs as <-. injection Ho as <-.
      destruct (select_row_refines (selectedStudents s) id (proj1 Hinv)) as [H1 H2].
      unfold handleSelectStudent. destruct (negb _); (split; [by apply sel_inv_set_selected|done]).
  - destruct Hinv as [Hnd Hids]. unfold sel_inv.
    destruct (step_keeps_selection _ _ _ Hs Ho) as [[-> ->]|(q & -> & -> & ->)];
      (split; [split; [done|]|done]); eauto.
Qed.

(** C28: the header checkbox compares counts, not rows: when as many
    ids are selected as rows are shown, but one selected student is hidden
    by the search, the header reads "all selected" although a shown row is
    not selected, and clicking it clears the whole selection, the hidden
    one included.  The selection and the loaded ids are duplicate-free
    ([sel_inv], kept by every event: C14). *)
Theorem header_checkbox_counts_not_rows s l f :
  sel_inv s -> query_data (students s) = Some l ->
  filteredStudents localeCompare getTime s = Some f ->
  length (selectedStudents s) = length f -> (0 < length f)%nat ->
  (∃ id, id ∈ selectedStudents s /\ id ∉ u_id <$> f) ->
  all_checked localeCompare getTime s = true /\
  (∃ u, row_shown localeCompare getTime s u = true /\ u_id u ∉ selectedStudents s) /\
  step is_email localeCompare getTime s ClickSelectAll = Some (set_selected [] s).
Proof.
  intros [Hsel Hids] Hl Hf Hlen Hpos (id & Hin & Hnot).
  assert (Hnl : is_loading (students s) = false) by (destruct (students s); done).
  assert (Hall : all_checked localeCompare getTime s = true).
  { unfold all_checked. rewrite Hl, Hf. by rewrite !bool_decide_eq_true_2. }
  split; [exact Hall|]. split.
  - destruct (hidden_selection_unselected (selectedStudents s) (u_id <$> f) id) as (x & Hx & Hxs);
      [done|eapply filtered_ids_NoDup; eauto|by rewrite length_fmap|done|done|].
    apply list_elem_of_fmap in Hx as (u & -> & Hu). exists u. split; [|done].
    unfold row_shown. rewrite Hnl, Hf. simpl. by apply bool_decide_eq_true_2.
  - simpl. unfold header_shown. rewrite Hnl, Hf. simpl. rewrite bool_decide_eq_true_2 by done.
    by rewrite Hall.
Qed.

End Selection.

(** ** Password reset *)

(** C15: the reset dialog's submit button: a password shorter than six
    characters, or one that differs from its confirmation, is refused with
    the code's message and sends nothing; otherwise the error is cleared
    and, when a student is being reset, exactly one reset request with the
    typed password is sent for that student. *)
Theorem submitPasswordReset_cases s :
  let r := resetDialog s in
  let s' := submitPasswordReset s in
  ((String.length (rd_newPassword r) < 6)%nat ->
     sent s' = sent s /\ rd_error (resetDialog s') = "Password must be at least 6 characters") /\
  ((6 <= String.length (rd_newPassword r))%nat -> rd_newPassword r <> rd_confirmNewPassword r ->
     sent s' = sent s /\ rd_error (resetDialog s') = "Passwords don't match") /\
  ((6 <= String.length (rd_newPassword r))%nat -> rd_newPassword r = rd_confirmNewPassword r ->
     rd_error (resetDialog s') = "" /\
     sent s' = sent s ++ match rd_student r with
                         | Some u => [PostResetPassword (u_id u) (rd_newPassword r)]
                         | None => []
                         end).
Proof.
  unfold submitPasswordReset. simpl.
  destruct (Nat.ltb_spec (String.length (rd_newPassword (resetDialog s))) 6) as [Hl|Hl].
  - rewrite orb_true_r. repeat split; lia.
  - rewrite orb_false_r, bool_decide_eq_false_2
      by (intros Hn; rewrite Hn in Hl; simpl in Hl; lia).
    repeat split; try lia.
    + by rewrite bool_decide_eq_false_2.
    + by rewrite bool_decide_eq_false_2.
    + rewrite bool_decide_eq_true_2 by done. by destruct (rd_student _).
    + rewrite bool_decide_eq_true_2 by done. destruct (rd_student _); simpl; [done|by rewrite app_nil_r].
Qed.

Lemma row_shown_set_reset localeCompare getTime r s u :
  row_shown localeCompare getTime (set_reset r s) u = row_shown localeCompare getTime s u.
Proof. reflexivity. Qed.

(** ** The dialogs' buttons *)

Section Dialogs.
Context (is_email : string -> bool) (localeCompare : string -> string -> Z) (getTime : string -> Z).

Local Notation step := (step is_email localeCompare getTime).

(** Each dialog's submit button is shown enabled exactly when [step]
    accepts its event. *)
Lemma dialog_buttons_step s :
  (is_Some (step s SubmitAdd) <-> ∃ v, dv_add (dialogs_view s) = Some v /\ av_submitDisabled v = false) /\
  (is_Some (step s SubmitEdit) <-> ∃ v, dv_edit (dialogs_view s) = Some v /\ ev_submitDisabled v = false) /\
  (is_Some (step s SubmitReset) <-> ∃ v, dv_reset (dialogs_view s) = Some v /\ rv_submitDisabled v = false) /\
  (is_Some (step s ConfirmDelete) <-> ∃ v, dv_delete (dialogs_view s) = Some v /\ xv_actionDisabled v = false).
Proof.
  cbn -[submitAdd submitEdit submitPasswordReset confirmDelete truthy].
  split_and!; by apply guard_view.
Qed.

(** Clicking Delete on another row while a deletion is pending opens the
    alert on that student with its action disabled ("Deleting..."); when
    the first deletion succeeds, its callback closes the alert and forgets
    the second student, who is not deleted. *)
Theorem delete_success_forgets_reopened s v :
  dd_pending (deleteDialog s) = true -> row_shown localeCompare getTime s v = true ->
  ∃ s1 s2, step s (DeleteClick v) = Some s1 /\
    dd_student (deleteDialog s1) = Some v /\
    dv_delete (dialogs_view s1) = Some (mkDeleteView "Deleting..." true) /\
    step s1 ConfirmDelete = None /\
    step s1 (DeleteSettled None) = Some s2 /\
    dv_delete (dialogs_view s2) = None /\ dd_student (deleteDialog s2) = None /\
    sent s2 = sent s.
Proof.
  intros Hp Hv. do 2 eexists. split; [cbn; rewrite Hv; reflexivity|].
  cbn. rewrite Hp. split_and!; reflexivity.
Qed.

End Dialogs.

Section Scenarios.
Context (is_email : string -> bool) (localeCompare : string -> string -> Z) (getTime : string -> Z).

(** Cancelling the reset dialog keeps what was typed: the next reset,
    for another student, sends the previous password at once. *)
Theorem reset_reuses_typed_password s a b p :
  row_shown localeCompare getTime s a = true -> row_shown localeCompare getTime s b = true ->
  rd_pending (resetDialog s) = false -> (6 <= String.length p)%nat ->
  ∃ s', run is_email localeCompare getTime s
          [ResetClick a; TypeNewPassword p; TypeConfirmPassword p; SetResetOpen false; ResetClick b; SubmitReset]
        = Some s' /\ sent s' = sent s ++ [PostResetPassword (u_id b) p].
Proof.
  intros Ha Hb Hp Hl. simpl. rewrite Ha. simpl. rewrite !row_shown_set_reset, Hb. simpl. rewrite Hp. simpl.
  eexists. split; [reflexivity|]. unfold submitPasswordReset. simpl.
  destruct (Nat.ltb_spec (String.length p) 6); [lia|].
  rewrite orb_false_r, bool_decide_eq_false_2 by (intros ->; simpl in *; lia).
  by rewrite bool_decide_eq_true_2.
Qed.

End Scenarios.

(** ** Witnesses on two students *)

Definition student_a : User :=
  mkUser 7 "amina" "Amina Khan" "amina@example.org" "student" true true "2026-01-05T10:00:00.000Z".
Definition student_b : User :=
  mkUser 8 "bilal" "Bilal Rahman" "bilal@example.org" "student" true true "2026-01-06T10:00:00.000Z".

Definition any_email (_ : string) : bool := true.
Definition same_order (_ _ : string) : Z := 0.
Definition no_time (_ : string) : Z := 0.

(** The page once the two students are loaded. *)
Definition two_students : State :=
  mkState "" "fullName" [] (QData [student_a; student_b]) false (addDialog initial)
    (editDialog initial) (deleteDialog initial) (resetDialog initial) [] [].

(** Amina selected, then the search narrowed to Bilal. *)
Definition searched_state : State :=
  mkState "bilal" "fullName" [7%Z] (QData [student_a; student_b]) false (addDialog initial)
    (editDialog initial) (deleteDialog initial) (resetDialog initial) [] [].

Lemma two_students_inv : sel_inv two_students.
Proof. split; [constructor|]. intros l [= <-]. apply (bool_decide_unpack _). reflexivity. Qed.

Lemma selection_refines_witness :
  step any_email same_order no_time two_students (ClickSelectRow 7) = Some (set_selected [7%Z] two_students) /\
  sel_inv (set_selected [7%Z] two_students).
Proof.
  assert (Hs : step any_email same_order no_time two_students (ClickSelectRow 7) = Some (set_selected [7%Z] two_students))
    by (vm_compute; reflexivity).
  split; [exact Hs|].
  refine (proj1 (selection_refines any_email same_order no_time _ _ _ two_students_inv Hs _)).
  intros q l Hq. discriminate Hq.
Defined.

Lemma reset_reuses_typed_password_witness :
  ∃ s', run any_email same_order no_time two_students
          [ResetClick student_a; TypeNewPassword "secret1"; TypeConfirmPassword "secret1";
           SetResetOpen false; ResetClick student_b; SubmitReset] = Some s' /\
        sent s' = sent two_students ++ [PostResetPassword (u_id student_b) "secret1"].
Proof.
  apply reset_reuses_typed_password; [vm_compute; reflexivity|vm_compute; reflexivity|reflexivity|simpl; lia].
Defined.

(** With Amina selected, the search narrowed to Bilal. *)
Lemma header_checkbox_counts_not_rows_witness :
  run any_email same_order no_time two_students [ClickSelectRow 7; SetSearch "bilal"] = Some searched_state /\
  all_checked same_order no_time searched_state = true /\
  (∃ u, row_shown same_order no_time searched_state u = true /\ u_id u ∉ selectedStudents searched_state) /\
  step any_email same_order no_time searched_state ClickSelectAll = Some (set_selected [] searched_state).
Proof.
  split; [vm_compute; reflexivity|].
  apply (header_checkbox_counts_not_rows any_email same_order no_time searched_state [student_a; student_b] [student_b]).
  - split; [repeat constructor; set_solver|]. intros l [= <-]. apply (bool_decide_unpack _). reflexivity.
  - reflexivity.
  - vm_compute. reflexivity.
  - reflexivity.
  - simpl. lia.
  - exists 7%Z. split; [set_solver|]. simpl. set_solver.
Defined.

(** ** The rows link into the student-details page *)

Lemma segments_three (a b c : string) :
  str_lacks "/"%char a = true -> a <> EmptyString -> str_lacks "/"%char b = true -> b <> EmptyString ->
  str_lacks "/"%char c = true -> c <> EmptyString ->
  Routes.segments (String "/"%char (a +:+ String "/"%char (b +:+ String "/"%char c))) = [a; b; c].
Proof.
  intros Ha Han Hb Hbn Hc Hcn. unfold Routes.segments. cbn [split_on].
  destruct (ascii_dec "/" "/") as [_|]; [|congruence].
  rewrite !split_on_app_sep, split_on_lacks by done.
  rewrite !filter_cons_True by done. done.
Qed.

(** C12: the "Details" link of every row of the table opens the student-details
    page, for administrators, with a parameter that the page reads back
    as the student's id, and the page's queries are enabled for it. *)
Theorem details_link_opens_student localeCompare getTime s u :
  row_shown localeCompare getTime s u = true -> u_id u <> 0%Z ->
  Routes.route (sr_details (student_row s u)) = (Routes.StudentDetails, [string_of_Z (u_id u)], Some "admin") /\
  parseInt (string_of_Z (u_id u)) = Some (u_id u) /\ StudentDetails.enabled (string_of_Z (u_id u)) = true.
Proof.
  intros _ Hz. destruct (string_of_Z_shape (u_id u)) as [Hne Hl].
  split; [|split; [apply parseInt_string_of_Z|]].
  - change (sr_details (student_row s u))
      with (String "/"%char ("admin" +:+ String "/"%char ("student-details" +:+ String "/"%char (string_of_Z (u_id u))))).
    unfold Routes.route.
    rewrite segments_three; [|reflexivity|discriminate|reflexivity|discriminate|apply Hl; [reflexivity|discriminate]|done].
    simpl. rewrite bool_decide_eq_false_2 by done. reflexivity.
  - unfold StudentDetails.enabled. rewrite parseInt_string_of_Z. by apply negb_true_iff, Z.eqb_neq.
Qed.

Lemma details_link_opens_student_witness :
  Routes.route (sr_details (student_row two_students student_a)) = (Routes.StudentDetails, ["7"], Some "admin").
Proof.
  destruct (details_link_opens_student same_order no_time two_students student_a
              ltac:(vm_compute; reflexivity) ltac:(discriminate)) as [H _].
  exact H.
Defined.

End ManageStudents.
