(* ===== verification/Questions.v ===== *)
(** * Questions: the administrator's question table

    Models src/client/src/pages/admin/manage-questions.tsx
    ([ManageQuestions]): the questions query keyed by the topic filter, the
    search, the table rows with their topic names and truncated answers,
    the edit dialog whose controls rewrite the question being edited, the
    delete alert, the two mutations and what the two dialogs show.  The
    question record is [Scorer.Question], the row of the shared
    schema. *)

From Stdlib Require Import Ascii ZArith Lia.
From stdpp Require Import base list strings.
From S2P Require Import Prelude Scorer Results Dashboard.

Module ManageQuestions.
Import Scorer Results.

#[export] Instance Question_eq_dec : EqDecision Question.
Proof. solve_decision. Defined.

Inductive Request :=
  | PutQuestion (q : Question)      (* line 48 *)
  | DeleteQuestion (id : Z).        (* line 71 *)

(** Lines 22-28, the two queries and the two mutations' pending flags. *)
Record State := mkState {
  searchTerm : string;
  selectedTopic : string;
  editingQuestion : option Question;
  questionToDelete : option Question;
  openEditDialog : bool;
  openDeleteDialog : bool;
  questions : Query (list Question);
  topics : Query (list Topic);
  stale : bool;
  updatePending : bool;
  deletePending : bool;
  toasts : list (string * string);
  sent : list Request
}.

Definition initial : State :=
  mkState "" "" None None false false QLoading QLoading false false false [] [].

(** Lines 31-38: the URL of the questions query, which is also its key. *)
Definition questions_url (selectedTopic : string) : string :=
  "/api/questions" +:+
  (if negb (bool_decide (selectedTopic = "")) && negb (bool_decide (selectedTopic = "all"))
   then "?topicId=" +:+ selectedTopic else "").

(** Lines 91-95 *)
Definition matches_search (searchTerm : string) (q : Question) : bool :=
  str_includes (to_lower searchTerm) (to_lower (q_text q)) ||
  (truthy (q_subtopic q) && str_includes (to_lower searchTerm) (to_lower (render_opt (q_subtopic q)))).

Definition filteredQuestions (s : State) : option (list Question) :=
  filter (λ q, matches_search (searchTerm s) q = true) <$> query_data (questions s).

(** Lines 123-126 *)
Definition getTopicName (topics : option (list Topic)) (topicId : option Z) : string :=
  if negb (z_truthy topicId) then "No Topic"
  else match topics ≫= λ ts, head (filter (λ t, Some (t_id t) = topicId) ts) with
       | Some t => or_str (t_name t) "Unknown Topic"
       | None => "Unknown Topic"
       end.

(** Lines 200-206: the switch on the correct option. *)
Definition correctOptionText (q : Question) : string :=
  if bool_decide (q_correctOption q = "A") then q_optionA q
  else if bool_decide (q_correctOption q = "B") then q_optionB q
  else if bool_decide (q_correctOption q = "C") then q_optionC q
  else if bool_decide (q_correctOption q = "D") then q_optionD q
  else "".

(** Lines 209-244: a row of the table. *)
Record Row := mkRow {
  row_text : string;
  row_subtopic : option string;
  row_topic : string;
  row_correct : string
}.

Definition question_row (topics : option (list Topic)) (q : Question) : Row :=
  let t := correctOptionText q in
  mkRow (q_text q)
    (if truthy (q_subtopic q) then Some ("Subtopic: " +:+ render_opt (q_subtopic q)) else None)
    (getTopicName topics (q_topicId q))
    (q_correctOption q +:+ ": " +:+ String.substring 0 20 t +:+ (if (20 <? String.length t)%nat then "..." else "")).

Inductive TableView :=
  | TableSkeleton
  | TableRows (rows : list Row)
  | TableEmpty (hint : string).

(** Lines 181-259 *)
Definition table_view (s : State) : TableView :=
  if is_loading (questions s) then TableSkeleton
  else match filteredQuestions s with
       | Some ((_ :: _) as qs) => TableRows (question_row (query_data (topics s)) <$> qs)
       | _ => TableEmpty (if negb (bool_decide (searchTerm s = "")) || negb (bool_decide (selectedTopic s = ""))
                          then "Try adjusting your search or filter"
                          else "Start by adding questions to your database")
       end.

Inductive Event :=
  | SetSearch (v : string)                      (* line 145 *)
  | SetTopicFilter (v : string)                 (* line 156 *)
  | AddQuestionClick                            (* line 136 *)
  | EditClick (q : Question)                    (* line 226 *)
  | DeleteClick (q : Question)                  (* line 234 *)
  | SetText (v : string)                        (* line 276 *)
  | SetTopicId (v : string)                     (* line 285 *)
  | SetSubtopic (v : string)                    (* line 305 *)
  | SetCorrectOption (v : string)               (* lines 317, 333, 349, 365 *)
  | SetOption (letter v : string)               (* lines 325, 341, 357, 373 *)
  | SetExplanation (v : string)                 (* line 385 *)
  | SetEditOpen (b : bool)                      (* lines 262, 393 *)
  | SaveClick                                   (* lines 397-402 *)
  | SetDeleteOpen (b : bool)                    (* line 409 *)
  | ConfirmDelete                               (* lines 420-426 *)
  | QuestionsLoaded (url : string) (q : Query (list Question))
  | TopicsLoaded (q : Query (list Topic))
  | UpdateSettled (error : option string)
  | DeleteSettled (error : option string).

(** What a step can lead to: a new state, or leaving for another page. *)
Inductive Outcome := Stay (s : State) | Navigate (href : string).

(** Record updates. *)
Definition set_editing (q : option Question) (s : State) : State :=
  mkState (searchTerm s) (selectedTopic s) q (questionToDelete s) (openEditDialog s) (openDeleteDialog s)
    (questions s) (topics s) (stale s) (updatePending s) (deletePending s) (toasts s) (sent s).

Definition with_toast (t : string * string) (s : State) : State :=
  mkState (searchTerm s) (selectedTopic s) (editingQuestion s) (questionToDelete s) (openEditDialog s)
    (openDeleteDialog s) (questions s) (topics s) (stale s) (updatePending s) (deletePending s)
    (toasts s ++ [t]) (sent s).

Definition row_shown (s : State) (q : Question) : bool :=
  negb (is_loading (questions s)) && bool_decide (q ∈ default [] (filteredQuestions s)).

(** The question with one field replaced, as the dialog's [onChange]s do
    with [{...editingQuestion, field: value}]. *)
Definition with_text (q : Question) v := mkQuestion (q_id q) v (q_topicId q) (q_subtopic q) (q_difficulty q)
  (q_imagePath q) (q_optionA q) (q_optionB q) (q_optionC q) (q_optionD q) (q_correctOption q) (q_explanation q).
Definition with_topicId (q : Question) v := mkQuestion (q_id q) (q_text q) v (q_subtopic q) (q_difficulty q)
  (q_imagePath q) (q_optionA q) (q_optionB q) (q_optionC q) (q_optionD q) (q_correctOption q) (q_explanation q).
Definition with_subtopic (q : Question) v := mkQuestion (q_id q) (q_text q) (q_topicId q) v (q_difficulty q)
  (q_imagePath q) (q_optionA q) (q_optionB q) (q_optionC q) (q_optionD q) (q_correctOption q) (q_explanation q).
Definition with_correct (q : Question) v := mkQuestion (q_id q) (q_text q) (q_topicId q) (q_subtopic q)
  (q_difficulty q) (q_imagePath q) (q_optionA q) (q_optionB q) (q_optionC q) (q_optionD q) v (q_explanation q).
Definition with_explanation (q : Question) v := mkQuestion (q_id q) (q_text q) (q_topicId q) (q_subtopic q)
  (q_difficulty q) (q_imagePath q) (q_optionA q) (q_optionB q) (q_optionC q) (q_optionD q) (q_correctOption q) v.
Definition with_option (q : Question) (letter v : string) : Question :=
  mkQuestion (q_id q) (q_text q) (q_topicId q) (q_subtopic q) (q_difficulty q) (q_imagePath q)
    (if bool_decide (letter = "A") then v else q_optionA q)
    (if bool_decide (letter = "B") then v else q_optionB q)
    (if bool_decide (letter = "C") then v else q_optionC q)
    (if bool_decide (letter = "D") then v else q_optionD q)
    (q_correctOption q) (q_explanation q).

(** The four radio buttons and the four inputs (lines 313-377). *)
Definition option_letters : list string := ["A"; "B"; "C"; "D"].

(** The select offers the loaded topics' ids (lines 290-296). *)
Definition topic_offered (s : State) (v : string) : bool :=
  bool_decide (v ∈ (λ t, string_of_Z (t_id t)) <$> default [] (query_data (topics s))).

(** Lines 103-106, 109-112, 115-120 and the controls of the page. *)
Definition step (s : State) (e : Event) : option Outcome :=
  let edit f := match editingQuestion s with
                | Some q => if openEditDialog s then Some (Stay (set_editing (Some (f q)) s)) else None
                | None => None
                end in
  match e with
  | SetSearch v =>
      Some (Stay (mkState v (selectedTopic s) (editingQuestion s) (questionToDelete s) (openEditDialog s)
                    (openDeleteDialog s) (questions s) (topics s) (stale s) (updatePending s)
                    (deletePending s) (toasts s) (sent s)))
  | SetTopicFilter v =>
      if bool_decide (v = "all") || topic_offered s v then
        Some (Stay (mkState (searchTerm s) v (editingQuestion s) (questionToDelete s) (openEditDialog s)
                      (openDeleteDialog s)
                      (if bool_decide (questions_url v = questions_url (selectedTopic s)) then questions s else QLoading)
                      (topics s) (stale s) (updatePending s) (deletePending s) (toasts s) (sent s)))
      else None
  | AddQuestionClick => Some (Navigate "/admin/upload-questions")
  | EditClick q =>
      if row_shown s q then
        Some (Stay (mkState (searchTerm s) (selectedTopic s) (Some q) (questionToDelete s) true
                      (openDeleteDialog s) (questions s) (topics s) (stale s) (updatePending s)
                      (deletePending s) (toasts s) (sent s)))
      else None
  | DeleteClick q =>
      if row_shown s q then
        Some (Stay (mkState (searchTerm s) (selectedTopic s) (editingQuestion s) (Some q) (openEditDialog s)
                      true (questions s) (topics s) (stale s) (updatePending s)
                      (deletePending s) (toasts s) (sent s)))
      else None
  | SetText v => edit (λ q, with_text q v)
  | SetTopicId v => if topic_offered s v then edit (λ q, with_topicId q (parseInt v)) else None
  | SetSubtopic v => edit (λ q, with_subtopic q (Some v))
  | SetCorrectOption v => if bool_decide (v ∈ option_letters) then edit (λ q, with_correct q v) else None
  | SetOption letter v => if bool_decide (letter ∈ option_letters) then edit (λ q, with_option q letter v) else None
  | SetExplanation v => edit (λ q, with_explanation q (Some v))
  | SetEditOpen b =>
      Some (Stay (mkState (searchTerm s) (selectedTopic s) (editingQuestion s) (questionToDelete s) b
                    (openDeleteDialog s) (questions s) (topics s) (stale s) (updatePending s)
                    (deletePending s) (toasts s) (sent s)))
  | SaveClick =>
      if openEditDialog s && negb (updatePending s) then
        Some (Stay match editingQuestion s with
                   | Some q => mkState (searchTerm s) (selectedTopic s) (editingQuestion s) (questionToDelete s)
                                 (openEditDialog s) (openDeleteDialog s) (questions s) (topics s) (stale s)
                                 true (deletePending s) (toasts s) (sent s ++ [PutQuestion q])
                   | None => s
                   end)
      else None
  | SetDeleteOpen b =>
      Some (Stay (mkState (searchTerm s) (selectedTopic s) (editingQuestion s) (questionToDelete s)
                    (openEditDialog s) b (questions s) (topics s) (stale s) (updatePending s)
                    (deletePending s) (toasts s) (sent s)))
  | ConfirmDelete =>
      if openDeleteDialog s && negb (deletePending s) then
        Some (Stay match questionToDelete s with
                   | Some q => mkState (searchTerm s) (selectedTopic s) (editingQuestion s) (questionToDelete s)
                                 (openEditDialog s) false (questions s) (topics s) (stale s)
                                 (updatePending s) true (toasts s) (sent s ++ [DeleteQuestion (q_id q)])
                   | None => mkState (searchTerm s) (selectedTopic s) (editingQuestion s) (questionToDelete s)
                               (openEditDialog s) false (questions s) (topics s) (stale s)
                               (updatePending s) (deletePending s) (toasts s) (sent s)
                   end)
      else None
  | QuestionsLoaded url q =>
      if bool_decide (url = questions_url (selectedTopic s)) && (is_loading (questions s) || stale s)
         && negb (is_loading q) then
        Some (Stay (mkState (searchTerm s) (selectedTopic s) (editingQuestion s) (questionToDelete s)
                      (openEditDialog s) (openDeleteDialog s) q (topics s) false (updatePending s)
                      (deletePending s) (toasts s) (sent s)))
      else None
  | TopicsLoaded q =>
      if is_loading (topics s) && negb (is_loading q) then
        Some (Stay (mkState (searchTerm s) (selectedTopic s) (editingQuestion s) (questionToDelete s)
                      (openEditDialog s) (openDeleteDialog s) (questions s) q (stale s) (updatePending s)
                      (deletePending s) (toasts s) (sent s)))
      else None
  (* lines 50-63 *)
  | UpdateSettled err =>
      if updatePending s then
        Some (Stay match err with
                   | None => with_toast ("Question updated", "The question has been successfully updated.")
                               (mkState (searchTerm s) (selectedTopic s) (editingQuestion s) (questionToDelete s)
                                  false (openDeleteDialog s) (questions s) (topics s) true false
                                  (deletePending s) (toasts s) (sent s))
                   | Some m => with_toast ("Error updating question", or_str m "Failed to update question.")
                                 (mkState (searchTerm s) (selectedTopic s) (editingQuestion s) (questionToDelete s)
                                    (openEditDialog s) (openDeleteDialog s) (questions s) (topics s) (stale s)
                                    false (deletePending s) (toasts s) (sent s))
                   end)
      else None
  (* lines 73-86 *)
  | DeleteSettled err =>
      if deletePending s then
        Some (Stay match err with
                   | None => with_toast ("Question deleted", "The question has been successfully removed.")
                               (mkState (searchTerm s) (selectedTopic s) (editingQuestion s) (questionToDelete s)
                                  (openEditDialog s) false (questions s) (topics s) true (updatePending s)
                                  false (toasts s) (sent s))
                   | Some m => with_toast ("Error deleting question", or_str m "Failed to delete question.")
                                 (mkState (searchTerm s) (selectedTopic s) (editingQuestion s) (questionToDelete s)
                                    (openEditDialog s) (openDeleteDialog s) (questions s) (topics s) (stale s)
                                    (updatePending s) false (toasts s) (sent s))
                   end)
      else None
  end.

Fixpoint run (s : State) (es : list Event) : option Outcome :=
  match es with
  | [] => Some (Stay s)
  | e :: es' => match step s e with Some (Stay s') => run s' es' | Some (Navigate h) => match es' with [] => Some (Navigate h) | _ => None end | None => None end
  end.

(** ** Well-formed questions *)

(** The shape the rest of the program expects of a question: its correct
    option is one of the four letters the practice page compares answers
    with. *)
(** ** The two dialogs (lines 262-428)

    A closed dialog renders no content. *)

(** Lines 262-404: the edit dialog shows the fields of [editingQuestion]
    (lines 271-388) and its Save button. *)
Record EditView := mkEditView {
  ev_question : option Question;
  ev_saveLabel : string;
  ev_saveDisabled : bool
}.

(** Lines 406-428: the alert names no question. *)
Record DeleteView := mkDeleteView { xv_actionLabel : string; xv_actionDisabled : bool }.

Record DialogsView := mkDialogsView { dv_edit : option EditView; dv_delete : option DeleteView }.

Definition dialogs_view (s : State) : DialogsView :=
  mkDialogsView
    (if openEditDialog s then
       Some (mkEditView (editingQuestion s) (if updatePending s then "Saving..." else "Save Changes")
               (updatePending s))
     else None)
    (if openDeleteDialog s then
       Some (mkDeleteView (if deletePending s then "Deleting..." else "Delete") (deletePending s))
     else None).

Definition wf_question (q : Question) : Prop := q_correctOption q ∈ option_letters.

Definition wf_request (r : Request) : Prop :=
  match r with PutQuestion q => wf_question q | DeleteQuestion _ => True end.

Definition page_wf (s : State) : Prop :=
  (∀ l, query_data (questions s) = Some l -> Forall wf_question l) /\
  (∀ q, editingQuestion s = Some q -> wf_question q) /\
  Forall wf_request (sent s).

(** The server's lists are well formed. *)
Definition loads_wf (e : Event) : Prop :=
  ∀ url q l, e = QuestionsLoaded url q -> query_data q = Some l -> Forall wf_question l.

Lemma row_shown_loaded s q :
  row_shown s q = true -> ∃ l, query_data (questions s) = Some l /\ q ∈ l.
Proof.
  unfold row_shown, filteredQuestions. intros [_ Hin]%andb_true_iff.
  apply bool_decide_eq_true_1 in Hin. destruct (query_data (questions s)) as [l|]; simpl in Hin.
  - exists l. split; [done|]. by apply list_elem_of_filter in Hin as [_ ?].
  - by apply not_elem_of_nil in Hin.
Qed.

Lemma wf_edit s s' f :
  page_wf s -> (∀ q, wf_question q -> wf_question (f q)) ->
  match editingQuestion s with
  | Some q => if openEditDialog s then Some (Stay (set_editing (Some (f q)) s)) else None
  | None => None
  end = Some (Stay s') -> page_wf s'.
Proof.
  intros (H1 & H2 & H3) Hf. destruct (editingQuestion s) eqn:E; [|done].
  destruct (openEditDialog s); [|done]. intros [= <-].
  split; [done|split; [intros q' [= <-]; by apply Hf, H2|done]].
Qed.

(** Every event keeps the page well formed, given well-formed server data. *)
Lemma step_wf s e s' : page_wf s -> loads_wf e -> step s e = Some (Stay s') -> page_wf s'.
Proof.
  intros Hwf Hl Hs. destruct e; lazy beta iota zeta delta [step] in Hs.
  all: try (eapply wf_edit; [exact Hwf| |exact Hs]; done).
  all: repeat (case_match; try discriminate); try discriminate.
  all: injection Hs as <-.
  all: destruct Hwf as (Wq & We & Ws); split; [|split]; cbn [questions editingQuestion sent].
  all: try done.
  all: try (apply Forall_app; split; [done|constructor; [|constructor]]; match goal with H : editingQuestion _ = Some _ |- _ => exact (We _ H) end).
  all: try (apply Forall_app; split; [done|by repeat constructor]).
  all: try (intros l Hq; by eapply Hl).
  all: try (intros q0 Hq0; cbn [editingQuestion set_editing] in Hq0; injection Hq0 as <-).
  all: try (match goal with H : editingQuestion _ = Some ?q |- _ => exact (We q H) end).
  all: try (match goal with H : row_shown ?s ?q = true |- _ =>
              destruct (row_shown_loaded s q H) as (l & Hd & Hin);
              specialize (Wq l Hd); rewrite Forall_forall in Wq; by apply Wq end).
  all: try (match goal with H : bool_decide _ = true |- _ => by apply bool_decide_eq_true_1 in H end).
Qed.

(** C26: the type of what the page sends: as long as the questions it
    loads have a correct option among A-D, every question the edit dialog
    sends back in a PUT has one too, whatever the administrator types:
    the radio buttons only offer the four letters. *)
Theorem run_sends_wf s es s' :
  page_wf s -> Forall loads_wf es -> run s es = Some (Stay s') -> Forall wf_request (sent s').
Proof.
  revert s. induction es as [|e es IH]; intros s Hwf Hl Hr; simpl in Hr.
  { injection Hr as <-. apply Hwf. }
  apply Forall_cons in Hl as [He Hl].
  destruct (step s e) as [[s1|h]|] eqn:Hs; [|by destruct es|done].
  eapply IH; [eapply step_wf| |]; eauto.
Qed.

(** ** Witness *)

(** ** The dialogs' buttons and the save callback *)

(** Save and Delete are shown enabled exactly when [step] accepts them. *)
Lemma question_dialog_buttons_step s :
  (is_Some (step s SaveClick) <-> ∃ v, dv_edit (dialogs_view s) = Some v /\ ev_saveDisabled v = false) /\
  (is_Some (step s ConfirmDelete) <-> ∃ v, dv_delete (dialogs_view s) = Some v /\ xv_actionDisabled v = false).
Proof. split; by apply guard_view. Qed.

(** While a save is in flight, Edit on another row opens the dialog on
    that question with Save disabled ("Saving..."); the first save's
    success then closes the dialog over the new edits, which are never
    sent. *)
Theorem update_success_closes_other_edit s q v :
  updatePending s = true -> row_shown s q = true ->
  ∃ s1 s2 s3, step s (EditClick q) = Some (Stay s1) /\
    dv_edit (dialogs_view s1) = Some (mkEditView (Some q) "Saving..." true) /\
    step s1 (SetText v) = Some (Stay s2) /\
    step s2 (UpdateSettled None) = Some (Stay s3) /\
    dv_edit (dialogs_view s3) = None /\ editingQuestion s3 = Some (with_text q v) /\
    sent s3 = sent s.
Proof.
  intros Hp Hq. do 3 eexists. split; [cbn; rewrite Hq; reflexivity|].
  cbn. rewrite Hp. split_and!; reflexivity.
Qed.

Definition sample_question : Question :=
  mkQuestion 1 "What is 2 + 2?" (Some 1%Z) None "easy" None "3" "4" "5" "6" "B" None.

Definition loaded_page : State :=
  mkState "" "" None None false false (QData [sample_question]) (QData []) false false false [] [].

(** After choosing option C in the edit dialog and saving. *)
Definition saved_page : State :=
  mkState "" "" (Some (with_correct sample_question "C")) None true false (QData [sample_question])
    (QData []) false true false [] [PutQuestion (with_correct sample_question "C")].

Lemma run_sends_wf_witness :
  run loaded_page [EditClick sample_question; SetCorrectOption "C"; SaveClick] = Some (Stay saved_page) /\
  Forall wf_request (sent saved_page).
Proof.
  assert (Hr : run loaded_page [EditClick sample_question; SetCorrectOption "C"; SaveClick] = Some (Stay saved_page))
    by (vm_compute; reflexivity).
  split; [exact Hr|]. apply (run_sends_wf loaded_page [EditClick sample_question; SetCorrectOption "C"; SaveClick]);
    [|repeat constructor; intros ??? Heq; discriminate Heq|exact Hr].
  split; [intros l Hl; injection Hl as <-; constructor; [apply (bool_decide_unpack _); reflexivity|constructor]|].
  split; [intros q Hq; discriminate Hq|constructor].
Defined.

End ManageQuestions.
