(* ===== verification/Analytics.v ===== *)
(** * Analytics: the administrator's session report and analytics page

    Models src/client/src/pages/admin/session-details.tsx
    ([SessionDetails]): the query that fetches a session and then, in
    parallel, its student and its topic, the summary card and the
    question cards with their option colouring; and
    src/client/src/pages/admin/analytics.tsx ([Analytics]): its three
    controls, the statistics query and what each chart and card shows.
    The session and its rows are those of the server store of
    [Submission] and [Results]. *)

From Stdlib Require Import Ascii ZArith QArith Qround Lia Lqa.
From stdpp Require Import base list strings.
From S2P Require Import Prelude Scorer Submission Results Dashboard Students.

Module SessionDetails.
Import Scorer Submission Results.

(** The answer to a [fetch]: a response with [ok] and its body, a
    response that is not [ok], or a rejected promise. *)
Inductive Response (A : Type) := ROk (body : A) | RNotOk | RFailed (message : string).
Arguments ROk {A} body.
Arguments RNotOk {A}.
Arguments RFailed {A} message.

(** Lines 24-33: the session with the [user] and [topic] the query adds. *)
Record SessionWithDetails := mkSessionWithDetails {
  swd_id : Z;
  swd_session : InsertSession;
  swd_completedAt : string;
  swd_user : option (Z * string * string);    (* id, username, fullName *)
  swd_topic : option (Z * string)             (* id, name *)
}.

(** The session row as [GET /api/sessions/:id] returns it. *)
Record SessionRow := mkSessionRow { sr_id : Z; sr_session : InsertSession; sr_completedAt : string }.

(** The requests the query function makes after the session arrived
    (lines 50-53): the student, and the topic when [topicId] is truthy. *)
Definition detail_requests (s : SessionRow) : list string :=
  ("/api/users/" +:+ string_of_Z (s_userId (sr_session s))) ::
  (if z_truthy (s_topicId (sr_session s))
   then ["/api/topics/" +:+ render_opt (string_of_Z <$> s_topicId (sr_session s))] else []).

(** Lines 42-73: the query function.  A response that is not [ok] for the
    session throws; the two detail fetches run under [Promise.all], so a
    rejected one rejects the query, while one that is not [ok] only leaves
    its field out. *)
Definition fetch_details (session : Response SessionRow) (user : Response (Z * string * string))
    (topic : Response (Z * string)) : Query SessionWithDetails :=
  match session with
  | RFailed m => QError m
  | RNotOk => QError "Failed to fetch session details"
  | ROk s =>
      let asks_topic := z_truthy (s_topicId (sr_session s)) in
      match user, (if asks_topic then topic else RNotOk) with
      | RFailed m, _ | _, RFailed m => QError m
      | u, t =>
          QData (mkSessionWithDetails (sr_id s) (sr_session s) (sr_completedAt s)
                   (match u with ROk v => Some v | _ => None end)
                   (match t with ROk v => Some v | _ => None end))
      end
  end.

(** Lines 156-167 *)
Definition scoreGrade (x : JsNum) : string :=
  if js_ge x 90 then "Excellent" else if js_ge x 80 then "Very Good"
  else if js_ge x 70 then "Good" else if js_ge x 60 then "Satisfactory" else "Needs Improvement".

Definition scoreColor (x : JsNum) : string :=
  if js_ge x 90 then "bg-green-600" else if js_ge x 80 then "bg-green-500"
  else if js_ge x 70 then "bg-yellow-500" else if js_ge x 60 then "bg-yellow-600" else "bg-red-500".

(** Lines 132-145: the same function as on the student page. *)
Definition formatTime (seconds : Z) : string := StudentDetails.formatTime seconds.

(** Lines 169-171 *)
Definition avgTimePerQuestion (s : InsertSession) : Z :=
  if (0 <? s_totalQuestions s)%nat
  then round_Q (Q_of_nat (s_timeSpent s) / Q_of_nat (s_totalQuestions s)) else 0%Z.

(** The summary card (lines 176-293). *)
Record Summary := mkSummary {
  sm_backHref : string;
  sm_student : string;
  sm_grade : string;
  sm_color : string;
  sm_percent : JsNum;
  sm_correct : string;
  sm_progress : JsNum;
  sm_time : string;
  sm_avg : string;
  sm_topic : string
}.

Definition summary (d : SessionWithDetails) : Summary :=
  let s := swd_session d in
  mkSummary
    (match swd_user d with Some (id, _, _) => "/admin/student-details/" +:+ string_of_Z id | None => "/admin" end)
    (match swd_user d with Some (_, _, name) => name | None => "Unknown User" end)
    (scoreGrade (s_score s)) (scoreColor (s_score s)) (js_round (s_score s))
    (string_of_Z (Z.of_nat (s_correctAnswers s)) +:+ " / " +:+ string_of_Z (Z.of_nat (s_totalQuestions s)))
    (js_mul (js_div (Q_of_nat (s_correctAnswers s)) (Q_of_nat (s_totalQuestions s))) 100)
    (formatTime (Z.of_nat (s_timeSpent s)))
    ("Avg " +:+ formatTime (avgTimePerQuestion s) +:+ " per question")
    (match swd_topic d with Some (_, name) => name | None => "Mixed Topics" end).

(** The colouring of an option (lines 333-356). *)
Inductive OptionStyle := Plain | SelectedCorrect | SelectedWrong | CorrectAnswer.

Definition option_style (selected : option string) (correct option : string) : OptionStyle :=
  let isSelected := opt_str_eqb selected option in
  let isCorrect := bool_decide (correct = option) in
  if isSelected && isCorrect then SelectedCorrect
  else if isSelected && negb isCorrect then SelectedWrong
  else if isCorrect then CorrectAnswer
  else Plain.

(** The text of an option letter; the question has no [optionE]. *)
Definition option_field (q : Question) (letter : string) : option string :=
  if bool_decide (letter = "A") then Some (q_optionA q)
  else if bool_decide (letter = "B") then Some (q_optionB q)
  else if bool_decide (letter = "C") then Some (q_optionC q)
  else if bool_decide (letter = "D") then Some (q_optionD q)
  else None.

(** Lines 330-373: the options with a truthy text, with their style. *)
Definition option_rows (sq : SessionQuestionView) : list (string * string * OptionStyle) :=
  omap (λ letter, match option_field (sqv_question sq) letter with
                  | Some t => if truthy (Some t)
                              then Some (letter, t, option_style (sq_selectedOption (sqv_row sq))
                                                      (q_correctOption (sqv_question sq)) letter)
                              else None
                  | None => None
                  end) ["A"; "B"; "C"; "D"; "E"].

(** A question card (lines 300-395). *)
Record Card := mkCard {
  c_title : string;
  c_badge : string;
  c_border : string;
  c_text : string;
  c_image : option string;
  c_options : list (string * string * OptionStyle);
  c_explanation : option string;
  c_time : string
}.

Definition card (index : nat) (sq : SessionQuestionView) : Card :=
  let r := sqv_row sq in let q := sqv_question sq in
  mkCard ("Question " +:+ string_of_Z (Z.of_nat (index + 1)))
    (if sq_isCorrect r then "Correct" else "Incorrect")
    (if sq_isCorrect r then "border-l-green-500" else "border-l-red-500")
    (q_text q)
    (if truthy (q_imagePath q) then q_imagePath q else None)
    (option_rows sq)
    (if truthy (q_explanation q) then q_explanation q else None)
    ("Time spent: " +:+ formatTime (Z.of_nat (default 0 (sq_timeSpent r)))).

Inductive Screen :=
  | SLoading                                         (* lines 89-100 *)
  | SNotFound                                        (* lines 103-128 *)
  | SDetails (sm : Summary) (cards : list Card).

(** Lines 36-395: [!!sessionId] enables the queries. *)
Definition page (id : string) (session : Query SessionWithDetails)
    (sessionQuestions : Query (list SessionQuestionView)) : Screen :=
  let on := StudentDetails.enabled id in
  if on && (is_loading session || is_loading sessionQuestions) then SLoading
  else match (if on then query_data session else None) with
       | None => SNotFound
       | Some d => SDetails (summary d) (imap card (default [] (if on then query_data sessionQuestions else None)))
       end.

(** ** Lemmas *)

(** A session without questions (so without correct answers) gets a
    progress bar of [NaN]: unlike the
    average time per question, [correctAnswers / totalQuestions] is not
    guarded. *)
Lemma zero_questions_progress_nan d :
  s_totalQuestions (swd_session d) = 0%nat -> s_correctAnswers (swd_session d) = 0%nat ->
  sm_progress (summary d) = JNaN.
Proof. intros H1 H2. unfold summary. by rewrite H1, H2. Qed.

(** A rejected student or topic fetch fails the whole query, while a
    response that is not [ok] only loses the name. *)
Lemma details_user_not_ok s t :
  ~ (∃ m, t = RFailed m) ->
  ∃ d, fetch_details (ROk s) RNotOk t = QData d /\ swd_user d = None /\
       (summary d).(sm_student) = "Unknown User" /\ (summary d).(sm_backHref) = "/admin".
Proof.
  intros Ht. unfold fetch_details.
  destruct (z_truthy _); [destruct t as [v| |m]; [| |by destruct Ht; eexists]|];
    eexists; (split; [reflexivity|done]).
Qed.

(** Each card marks exactly what was answered: a correct answer shows the
    selected option as right and no option as wrong; an answer that was
    not the correct option shows it as wrong and the correct one apart. *)
Lemma option_style_cases sel correct letter :
  option_style sel correct letter =
    if opt_str_eqb sel letter then (if bool_decide (correct = letter) then SelectedCorrect else SelectedWrong)
    else if bool_decide (correct = letter) then CorrectAnswer else Plain.
Proof. unfold option_style. by destruct (opt_str_eqb _ _), (bool_decide _). Qed.

End SessionDetails.

(** ** [Analytics] (analytics.tsx) *)
Module Analytics.
Import Results.

(** An entry of [stats.topicPerformance] as this page reads it. *)
Record TopicStat := mkTopicStat {
  ts_id : Z;
  ts_name : string;
  ts_sessionCount : Z;
  ts_averageScore : option JsNum;
  ts_questionCount : Z
}.

(** The fields of [GET /api/statistics] the page reads. *)
Record Statistics := mkStatistics {
  studentCount : option Z;
  sessionCount : option Z;
  averageScore : option JsNum;
  questionCount : option Z;
  topicPerformance : option (list TopicStat)
}.

(** Lines 27-29 and the two queries. *)
Record State := mkState {
  selectedTopic : string;
  timeRange : string;
  chartType : string;
  topics : Query (list Topic);
  stats : Query Statistics
}.

Definition initial : State := mkState "all" "month" "performance" QLoading QLoading.

Inductive Event :=
  | SetTopic (v : string)           (* line 101 *)
  | SetTimeRange (v : string)       (* line 119 *)
  | SetChartType (v : string)       (* line 139 *)
  | TopicsLoaded (q : Query (list Topic))
  | StatsLoaded (q : Query Statistics).

Definition step (s : State) (e : Event) : option State :=
  match e with
  | SetTopic v =>
      if bool_decide (v = "all" \/ v ∈ (λ t, string_of_Z (t_id t)) <$> default [] (query_data (topics s)))
      then Some (mkState v (timeRange s) (chartType s) (topics s) (stats s)) else None
  | SetTimeRange v =>
      if bool_decide (v ∈ ["week"; "month"; "quarter"; "year"; "all"])
      then Some (mkState (selectedTopic s) v (chartType s) (topics s) (stats s)) else None
  | SetChartType v =>
      if bool_decide (v ∈ ["performance"; "topics"; "time"; "difficulty"])
      then Some (mkState (selectedTopic s) (timeRange s) v (topics s) (stats s)) else None
  | TopicsLoaded q =>
      if is_loading (topics s) then Some (mkState (selectedTopic s) (timeRange s) (chartType s) q (stats s)) else None
  | StatsLoaded q =>
      if is_loading (stats s) then Some (mkState (selectedTopic s) (timeRange s) (chartType s) (topics s) q) else None
  end.

Definition run : State -> list Event -> option State := run_steps step.

(** Lines 47-54: fixed data, not from the server. *)
Definition performanceData : list (string * Z * Z) :=
  [("Week 1", 68, 85); ("Week 2", 72, 78); ("Week 3", 75, 82);
   ("Week 4", 82, 88); ("Week 5", 78, 92); ("Week 6", 85, 90)]%Z.

(** Lines 64-70 *)
Definition timeSpentData : list (string * Z) :=
  [("0-5 min", 24); ("5-10 min", 45); ("10-15 min", 62); ("15-20 min", 38); ("20+ min", 15)]%Z.

(** Lines 80-87 *)
Definition COLORS : list string := ["#4F46E5"; "#0EA5E9"; "#8B5CF6"; "#10B981"; "#F59E0B"; "#EF4444"].

(** Lines 57-61: [topic.averageScore.toFixed(0)] throws on a missing
    average, here [None]. *)
Definition topicDistributionData (st : option Statistics) : option (list (string * Z * string)) :=
  match mjoin (topicPerformance <$> st) with
  | Some ts => mapM (λ t, (λ a, (ts_name t, ts_sessionCount t, toFixed0 a)) <$> ts_averageScore t) ts
  | None => Some []
  end.

(** Lines 73-77 *)
Definition difficultyData (st : option Statistics) : list (string * option JsNum * Z) :=
  (λ t, (ts_name t, ts_averageScore t, ts_questionCount t)) <$> default [] (mjoin (topicPerformance <$> st)).

Definition bar_class (x : option JsNum) : string :=
  match x with
  | Some a => if js_ge a 80 then "bg-green-600" else if js_ge a 60 then "bg-yellow-600" else "bg-red-600"
  | None => "bg-red-600"
  end.

(** The chart the radio group selects (lines 159-327). *)
Inductive Chart :=
  | ChartSkeleton
  | Performance (data : list (string * Z * Z))
  | TopicPie (slices : list (string * Z * string * string)) (empty : bool)
  | TimeBars (data : list (string * Z))
  | DifficultyBars (data : list (string * option JsNum * Z)) (empty : bool)
  | NoChart.

(** What the page renders: the chart, the topic summary (lines 344-372)
    and the four insight cards (lines 386-407); [None] is the crash of a
    [TypeError] during rendering. *)
Record View := mkView {
  v_chart : Chart;
  v_topicSummary : option (list (string * string * string * Z * Z) + string);
  v_insights : option (Z * Z * string * Z)
}.

Definition render (s : State) : option View :=
  let st := query_data (stats s) in
  let loading := is_loading (stats s) in
  topicDistributionData st ≫= λ dist,
  let chart :=
    if bool_decide (chartType s = "performance") then (if loading then ChartSkeleton else Performance performanceData)
    else if bool_decide (chartType s = "topics") then
      (if loading then ChartSkeleton
       else TopicPie (imap (λ i '(n, v, a), (n, v, a, default "" (COLORS !! (i mod 6)%nat))) dist)
                     (bool_decide (length dist = 0)))
    else if bool_decide (chartType s = "time") then (if loading then ChartSkeleton else TimeBars timeSpentData)
    else if bool_decide (chartType s = "difficulty") then
      (if loading then ChartSkeleton
       else DifficultyBars (difficultyData st) (bool_decide (length (difficultyData st) = 0)))
    else NoChart in
  Some (mkView chart
    (if loading then None
     else Some (match mjoin (topicPerformance <$> st) with
                | Some ((_ :: _) as ts) =>
                    inl ((λ t, (ts_name t, default "undefined" (toFixed0 <$> ts_averageScore t) +:+ "%",
                                bar_class (ts_averageScore t), ts_sessionCount t, ts_questionCount t)) <$> ts)
                | _ => inr "No topic performance data available yet"
                end))
    (if loading then None
     else Some (default 0%Z (mjoin (studentCount <$> st)), default 0%Z (mjoin (sessionCount <$> st)),
                match mjoin (averageScore <$> st) with
                | Some a => if js_truthy a then toFixed0 a +:+ "%" else "N/A"
                | None => "N/A"
                end,
                default 0%Z (mjoin (questionCount <$> st))))).

(** ** Lemmas *)

(** The topic and time-range filters change nothing on the page: the
    statistics query does not depend on them, and neither does any chart
    or card. *)
Lemma render_ignores_filters s v w :
  render (mkState v w (chartType s) (topics s) (stats s)) = render s.
Proof. destruct s. reflexivity. Qed.

(** A topic without an average makes the page throw while it renders,
    whatever chart is selected, although the summary list guards the same
    field with [?.]. *)
Lemma missing_average_crashes s st t :
  query_data (stats s) = Some st -> topicPerformance st = Some [t] -> ts_averageScore t = None ->
  render s = None.
Proof. intros Hs Ht Ha. unfold render, topicDistributionData. rewrite Hs. simpl. rewrite Ht. simpl. by rewrite Ha. Qed.

End Analytics.
