(* ===== verification/Upload.v ===== *)
(** * Upload: the question upload page around the bulk parser

    Models src/client/src/pages/admin/upload-questions.tsx
    ([UploadQuestions]) except the parser itself, which is in [BulkParser]:
    the two tabs, the single-question form with its validation, the image
    upload whose answer arrives later, the bulk tabs with the file reader
    and the text box, the create-topic dialog and the four mutations.  The
    image upload and the file read are continuations ([Task]) that run
    when their answer arrives, in any order, as in [Backup]. *)

From Stdlib Require Import Ascii ZArith QArith Lia.
From stdpp Require Import base list strings gmap.
From S2P Require Import Prelude BulkParser Results Dashboard.

Module UploadQuestions.
Import BulkParser Results.

(** Lines 19-31 *)
Record QuestionFormData := mkForm {
  f_text : string;
  f_topicId : string;
  f_subtopic : string;
  f_difficulty : string;
  f_imagePath : string;
  f_optionA : string;
  f_optionB : string;
  f_optionC : string;
  f_optionD : string;
  f_correctOption : string;
  f_explanation : string
}.

(** Lines 37-49 and 99-111 *)
Definition empty_form : QuestionFormData := mkForm "" "" "" "medium" "" "" "" "" "" "" "".

(** A file the administrator picks: its identity, name, size and text. *)
Record File := mkFile { file_id : nat; file_name : string; file_size : Z; file_text : string }.

Inductive Request :=
  | PostTopic (name description : string)                   (* line 64 *)
  | PostQuestion (data : QuestionFormData) (topicId : option Z) (* lines 246-250 *)
  | PostBulk (questions : list JsObject)                     (* line 130 *)
  | PostImage (file : nat).                                  (* lines 586-590 *)

(** The continuations in flight: the [.then] chain of an image upload,
    and the [onload] of a [FileReader]. *)
Inductive Task := TImage (file : nat) | TRead (file : File).

(** The answer to an image upload: a body with or without [imagePath], a
    response that is not [ok], or a rejected fetch. *)
Inductive ImageAnswer :=
  | ImageBody (imagePath : option string)
  | ImageStatus (status : Z) (statusText : string)
  | ImageNetwork (message : string).

Record FormState := mkFormState { formData : QuestionFormData; imageFile : option nat; uploadingImage : bool }.
Record BulkState := mkBulkState { bulkMode : string; bulkText : string; questionFile : option File }.
Record TopicDialog := mkTopicDialog { td_open : bool; td_newTopic : string * string; td_pending : bool }.

(** Lines 34-58 and the mutations' pending flags. *)
Record State := mkState {
  tab : string;
  form : FormState;
  bulk : BulkState;
  dialog : TopicDialog;
  topics : Query (list Topic);
  addPending : bool;
  bulkPending : bool;
  toasts : list (string * string);
  sent : list Request;
  tasks : list Task
}.

Definition initial : State :=
  mkState "single" (mkFormState empty_form None false) (mkBulkState "file" "" None)
    (mkTopicDialog false ("", "") false) QLoading false false [] [] [].

(** Record updates. *)
Definition set_form (f : FormState) (s : State) : State :=
  mkState (tab s) f (bulk s) (dialog s) (topics s) (addPending s) (bulkPending s) (toasts s) (sent s) (tasks s).
Definition set_bulk (b : BulkState) (s : State) : State :=
  mkState (tab s) (form s) b (dialog s) (topics s) (addPending s) (bulkPending s) (toasts s) (sent s) (tasks s).
Definition set_dialog (d : TopicDialog) (s : State) : State :=
  mkState (tab s) (form s) (bulk s) d (topics s) (addPending s) (bulkPending s) (toasts s) (sent s) (tasks s).
Definition toast (t : string * string) (s : State) : State :=
  mkState (tab s) (form s) (bulk s) (dialog s) (topics s) (addPending s) (bulkPending s) (toasts s ++ [t]) (sent s) (tasks s).
Definition send (r : Request) (s : State) : State :=
  mkState (tab s) (form s) (bulk s) (dialog s) (topics s) (addPending s) (bulkPending s) (toasts s) (sent s ++ [r]) (tasks s).
Definition spawn (t : Task) (s : State) : State :=
  mkState (tab s) (form s) (bulk s) (dialog s) (topics s) (addPending s) (bulkPending s) (toasts s) (sent s) (tasks s ++ [t]).
Definition set_pending (add bulk' : bool) (s : State) : State :=
  mkState (tab s) (form s) (bulk s) (dialog s) (topics s) add bulk' (toasts s) (sent s) (tasks s).

(** [setFormData(prev => ({ ...prev, [name]: value }))] *)
Definition with_field (name value : string) (f : QuestionFormData) : QuestionFormData :=
  let pick n old := if bool_decide (name = n) then value else old in
  mkForm (pick "text" (f_text f)) (pick "topicId" (f_topicId f)) (pick "subtopic" (f_subtopic f))
    (pick "difficulty" (f_difficulty f)) (pick "imagePath" (f_imagePath f))
    (pick "optionA" (f_optionA f)) (pick "optionB" (f_optionB f)) (pick "optionC" (f_optionC f))
    (pick "optionD" (f_optionD f)) (pick "correctOption" (f_correctOption f)) (pick "explanation" (f_explanation f)).

(** The inputs that use [handleChange] (their [name] attributes). *)
Definition text_fields : list string := ["text"; "subtopic"; "optionA"; "optionB"; "optionC"; "optionD"; "explanation"].

(** Lines 210-218 *)
Definition missingFields (f : QuestionFormData) : list string :=
  (if bool_decide (f_text f = "") then ["Question text"] else []) ++
  (if bool_decide (f_topicId f = "") then ["Topic"] else []) ++
  (if bool_decide (f_optionA f = "") then ["Option A"] else []) ++
  (if bool_decide (f_optionB f = "") then ["Option B"] else []) ++
  (if bool_decide (f_optionC f = "") then ["Option C"] else []) ++
  (if bool_decide (f_optionD f = "") then ["Option D"] else []) ++
  (if bool_decide (f_correctOption f = "") then ["Correct option selection"] else []).

(** Lines 207-256 *)
Definition handleSubmitQuestion (s : State) : State :=
  let f := formData (form s) in
  let missing := missingFields f in
  if bool_decide (0 < length missing)%nat then
    toast ("Missing required fields", "Please fill in the following fields: " +:+ join ", " missing) s
  else if negb (bool_decide (f_correctOption f ∈ ["A"; "B"; "C"; "D"])) then
    toast ("Invalid correct option", "Correct option must be one of: A, B, C, D") s
  else send (PostQuestion f (parseInt (f_topicId f))) (set_pending true (bulkPending s) s).

(** Lines 353-404 composed with the parser: the outcome becomes a toast
    or the bulk request. *)
Definition runBulkUpload (s : State) : State :=
  match handleBulkUpload (bulkText (bulk s)) with
  | NoContent => toast ("No content provided", "Please enter questions in the specified format.") s
  | NoValidQuestions => toast ("No valid questions found",
      "Could not parse any valid questions from the provided text. Please check the format.") s
  | ValidationErrors n => toast ("Validation errors found",
      string_of_Z (Z.of_nat n) +:+ " question(s) have incorrect 'CORRECT' values. Only A, B, C, or D are allowed.") s
  | Upload qs => send (PostBulk qs) (set_pending (addPending s) true s)
  end.

(** Lines 407-425 *)
Definition handleReset (s : State) : State :=
  if bool_decide (tab s = "single") then set_form (mkFormState empty_form None (uploadingImage (form s))) s
  else set_bulk (mkBulkState (bulkMode (bulk s)) "" (questionFile (bulk s))) s.

(** Lines 580-631: the continuation of an image upload. *)
Definition image_settled (a : ImageAnswer) (s : State) : State :=
  let fs := form s in
  let fail msg := toast ("Error uploading image", or_str msg "Failed to upload image. Please try again.")
                    (set_form (mkFormState (formData fs) None false) s) in
  match a with
  | ImageBody (Some p) =>
      if truthy (Some p) then
        toast ("Image uploaded", "The image has been successfully uploaded.")
          (set_form (mkFormState (with_field "imagePath" p (formData fs)) (imageFile fs) false) s)
      else fail "No image path returned from server"
  | ImageBody None => fail "No image path returned from server"
  | ImageStatus st txt => fail ("Error " +:+ string_of_Z st +:+ ": " +:+ txt)
  | ImageNetwork m => fail m
  end.

Inductive Answer :=
  | AImage (a : ImageAnswer)
  | ARead.

Inductive Event :=
  | SetTab (v : string)                    (* line 457 *)
  | SetBulkMode (v : string)               (* line 811 *)
  | ChangeField (name value : string)      (* handleChange, lines 196-199 *)
  | SelectTopic (v : string)               (* line 488 *)
  | SelectDifficulty (v : string)          (* line 546 *)
  | SelectCorrect (v : string)             (* handleCorrectOptionChange, line 672 *)
  | ChooseImage (file : nat)               (* lines 580-583 *)
  | RemoveImage                            (* lines 655-658 *)
  | SubmitQuestion                         (* line 465 *)
  | ClearForm                              (* line 779 *)
  | OpenTopicDialog                        (* lines 509-513 *)
  | CloseTopicDialog                       (* onOpenChange(false), lines 963, 1000 *)
  | SetNewTopicName (v : string)           (* line 979 *)
  | SetNewTopicDescription (v : string)    (* line 991 *)
  | CreateTopicClick                       (* lines 1005-1016 *)
  | ChooseQuestionFile (f : File)          (* lines 843-857 *)
  | RemoveQuestionFile                     (* lines 869-872, 884-887 *)
  | ProcessFile                            (* lines 894-895 *)
  | SetBulkText (v : string)               (* line 921 *)
  | ClearBulkText                          (* line 931 *)
  | UploadPasted                           (* lines 938-939 *)
  | Settle (i : nat) (a : Answer)
  | TopicsLoaded (q : Query (list Topic))
  | CreateSettled (r : (Z * string) + string)
  | AddSettled (error : option string)
  | BulkSettled (r : Z + string).

(** A one-character string holding a double quote. *)
Definition dquote : string := String (ascii_of_nat 34) EmptyString.

Definition on_single (s : State) : bool := bool_decide (tab s = "single").
Definition on_bulk (mode : string) (s : State) : bool :=
  bool_decide (tab s = "bulk") && bool_decide (bulkMode (bulk s) = mode).

Definition topic_offered (s : State) (v : string) : bool :=
  bool_decide (v ∈ (λ t, string_of_Z (t_id t)) <$> default [] (query_data (topics s))).

Definition with_formData (f : QuestionFormData) (s : State) : State :=
  set_form (mkFormState f (imageFile (form s)) (uploadingImage (form s))) s.

Definition step (s : State) (e : Event) : option State :=
  let fs := form s in let b := bulk s in let d := dialog s in
  match e with
  | SetTab v =>
      if bool_decide (v = "single" \/ v = "bulk") then
        Some (mkState v fs (if bool_decide (v = tab s) then b else mkBulkState "file" (bulkText b) (questionFile b))
                d (topics s) (addPending s) (bulkPending s) (toasts s) (sent s) (tasks s))
      else None
  | SetBulkMode v =>
      if bool_decide (tab s = "bulk") && bool_decide (v = "file" \/ v = "paste")
      then Some (set_bulk (mkBulkState v (bulkText b) (questionFile b)) s) else None
  | ChangeField n v =>
      if on_single s && bool_decide (n ∈ text_fields) then Some (with_formData (with_field n v (formData fs)) s) else None
  | SelectTopic v =>
      if on_single s && topic_offered s v then Some (with_formData (with_field "topicId" v (formData fs)) s) else None
  | SelectDifficulty v =>
      if on_single s && bool_decide (v ∈ ["easy"; "medium"; "hard"])
      then Some (with_formData (with_field "difficulty" v (formData fs)) s) else None
  | SelectCorrect v =>
      if on_single s && bool_decide (v ∈ ["A"; "B"; "C"; "D"])
      then Some (with_formData (with_field "correctOption" v (formData fs)) s) else None
  | ChooseImage i =>
      if on_single s then
        Some (spawn (TImage i) (send (PostImage i) (set_form (mkFormState (formData fs) (Some i) true) s)))
      else None
  | RemoveImage =>
      if on_single s && truthy (Some (f_imagePath (formData fs))) then
        Some (set_form (mkFormState (with_field "imagePath" "" (formData fs)) None (uploadingImage fs)) s)
      else None
  | SubmitQuestion => if on_single s && negb (addPending s) then Some (handleSubmitQuestion s) else None
  | ClearForm => if on_single s then Some (handleReset s) else None
  | OpenTopicDialog =>
      if on_single s && negb (is_loading (topics s))
      then Some (set_dialog (mkTopicDialog true (td_newTopic d) (td_pending d)) s) else None
  | CloseTopicDialog =>
      if td_open d then Some (set_dialog (mkTopicDialog false (td_newTopic d) (td_pending d)) s) else None
  | SetNewTopicName v =>
      if td_open d then Some (set_dialog (mkTopicDialog true (v, (td_newTopic d).2) (td_pending d)) s) else None
  | SetNewTopicDescription v =>
      if td_open d then Some (set_dialog (mkTopicDialog true ((td_newTopic d).1, v) (td_pending d)) s) else None
  | CreateTopicClick =>
      if td_open d && negb (td_pending d) then
        Some (if bool_decide (trim (td_newTopic d).1 = "")
              then toast ("Name required", "Please provide a name for the topic.") s
              else send (PostTopic (td_newTopic d).1 (td_newTopic d).2)
                     (set_dialog (mkTopicDialog true (td_newTopic d) true) s))
      else None
  | ChooseQuestionFile f =>
      if on_bulk "file" s then Some (spawn (TRead f) (set_bulk (mkBulkState "file" (bulkText b) (Some f)) s)) else None
  | RemoveQuestionFile =>
      if on_bulk "file" s then Some (set_bulk (mkBulkState "file" "" None) s) else None
  | ProcessFile =>
      if on_bulk "file" s && negb (bulkPending s) &&
         (present (questionFile b) || negb (bool_decide (trim (bulkText b) = "")))
      then Some (runBulkUpload s) else None
  | SetBulkText v => if on_bulk "paste" s then Some (set_bulk (mkBulkState "paste" v (questionFile b)) s) else None
  | ClearBulkText => if on_bulk "paste" s then Some (set_bulk (mkBulkState "paste" "" (questionFile b)) s) else None
  | UploadPasted =>
      if on_bulk "paste" s && negb (bulkPending s) && negb (bool_decide (trim (bulkText b) = ""))
      then Some (runBulkUpload s) else None
  | Settle i a =>
      match tasks s !! i, a with
      | Some (TImage _), AImage r =>
          Some (image_settled r (mkState (tab s) fs b d (topics s) (addPending s) (bulkPending s) (toasts s) (sent s)
                                   (delete i (tasks s))))
      | Some (TRead f), ARead =>
          Some (mkState (tab s) fs (mkBulkState (bulkMode b) (file_text f) (questionFile b)) d (topics s)
                  (addPending s) (bulkPending s) (toasts s) (sent s) (delete i (tasks s)))
      | _, _ => None
      end
  | TopicsLoaded q =>
      if negb (is_loading q) then
        Some (mkState (tab s) fs b d q (addPending s) (bulkPending s) (toasts s) (sent s) (tasks s))
      else None
  (* lines 66-84 *)
  | CreateSettled r =>
      if td_pending d then
        Some match r with
             | inl (id, name) =>
                 with_formData (with_field "topicId" (string_of_Z id) (formData fs))
                   (toast ("Topic created", "The topic " +:+ dquote +:+ name +:+ dquote +:+ " has been successfully created.")
                      (set_dialog (mkTopicDialog false ("", "") false) s))
             | inr m => toast ("Error creating topic", or_str m "Failed to create topic. Please try again.")
                          (set_dialog (mkTopicDialog (td_open d) (td_newTopic d) false) s)
             end
      else None
  (* lines 92-122 *)
  | AddSettled err =>
      if addPending s then
        Some match err with
             | None => toast ("Question added", "The question has been successfully added to the database.")
                         (set_form (mkFormState empty_form None (uploadingImage fs)) (set_pending false (bulkPending s) s))
             | Some m => toast ("Error adding question", or_str m "Failed to add question. Please try again.")
                           (set_pending false (bulkPending s) s)
             end
      else None
  (* lines 130-150 *)
  | BulkSettled r =>
      if bulkPending s then
        Some match r with
             | inl count => toast ("Bulk upload successful",
                              "Successfully added " +:+ string_of_Z count +:+ " questions to the database.")
                              (set_bulk (mkBulkState (bulkMode b) "" None) (set_pending (addPending s) false s))
             | inr m => toast ("Error uploading questions",
                          or_str m "Failed to upload questions. Please check the format and try again.")
                          (set_pending (addPending s) false s)
             end
      else None
  end.

Definition run : State -> list Event -> option State := run_steps step.

(** ** What the page shows *)

(** Lines 465-798: the single-question tab. *)
Record FormView := mkFormView {
  fv_values : QuestionFormData;
  fv_uploading : bool;
  fv_preview : option string;
  fv_submitLabel : string;
  fv_submitDisabled : bool
}.

(** Lines 863-949: the bulk tab, file or paste. *)
Record BulkView := mkBulkView {
  bv_mode : string;
  bv_file : option (string * Z);
  bv_processLabel : string;
  bv_processDisabled : bool;
  bv_text : string;
  bv_uploadLabel : string;
  bv_uploadDisabled : bool
}.

(** Lines 963-1029: the create-topic dialog. *)
Record DialogView := mkDialogView {
  dlg_open : bool;
  dlg_name : string;
  dlg_description : string;
  dlg_createLabel : string;
  dlg_createDisabled : bool
}.

Record View := mkView { v_tab : string; v_single : option FormView; v_bulk : option BulkView; v_dialog : DialogView }.

Definition form_view (s : State) : FormView :=
  let f := formData (form s) in
  mkFormView f (uploadingImage (form s))
    (if truthy (Some (f_imagePath f)) then Some (f_imagePath f) else None)
    (if addPending s then "Adding Question..." else "Add Question")
    (addPending s).

(** [Math.round(questionFile.size / 1024)] (line 866) *)
Definition size_kb (f : File) : Z := round_Q (inject_Z (file_size f) / 1024)%Q.

Definition bulk_view (s : State) : BulkView :=
  let b := bulk s in
  mkBulkView (bulkMode b)
    ((λ f, (file_name f, size_kb f)) <$> questionFile b)
    (if bulkPending s then "Processing File..." else "Process File")
    (bulkPending s || (negb (present (questionFile b)) && bool_decide (trim (bulkText b) = "")))
    (bulkText b)
    (if bulkPending s then "Uploading Questions..." else "Upload Questions")
    (bulkPending s || bool_decide (trim (bulkText b) = "")).

Definition dialog_view (s : State) : DialogView :=
  let d := dialog s in
  mkDialogView (td_open d) (td_newTopic d).1 (td_newTopic d).2
    (if td_pending d then "Creating..." else "Create Topic") (td_pending d).

(** Lines 428-1032: a tab's content is mounted only while it is active. *)
Definition view (s : State) : View :=
  mkView (tab s)
    (if on_single s then Some (form_view s) else None)
    (if bool_decide (tab s = "bulk") then Some (bulk_view s) else None)
    (dialog_view s).

(** ** The form's closed fields

    The correct option is only set from the radio group and the difficulty
    only from its select, so both keep one of the values the controls
    offer: the "Invalid correct option" branch of [handleSubmitQuestion]
    (lines 229-236) cannot be reached. *)

Definition form_ok (f : QuestionFormData) : Prop :=
  f_correctOption f ∈ [""; "A"; "B"; "C"; "D"] /\ f_difficulty f ∈ ["easy"; "medium"; "hard"].

Lemma with_field_ok n v f :
  n <> "correctOption" -> n <> "difficulty" -> form_ok f -> form_ok (with_field n v f).
Proof.
  intros Hc Hd. unfold form_ok, with_field; cbn [f_correctOption f_difficulty].
  by rewrite (bool_decide_eq_false_2 (n = "correctOption")), (bool_decide_eq_false_2 (n = "difficulty")).
Qed.

Lemma text_field_ok n v f : n ∈ text_fields -> form_ok f -> form_ok (with_field n v f).
Proof. intros Hn. apply with_field_ok; intros ->; vm_compute in Hn; set_solver. Qed.

Lemma image_settled_form a s :
  formData (form (image_settled a s)) = formData (form s) \/
  ∃ p, formData (form (image_settled a s)) = with_field "imagePath" p (formData (form s)).
Proof. unfold image_settled. repeat case_match; eauto. Qed.

Lemma runBulkUpload_form s : form (runBulkUpload s) = form s.
Proof. unfold runBulkUpload. by case_match. Qed.

Lemma handleSubmitQuestion_form s : form (handleSubmitQuestion s) = form s.
Proof. unfold handleSubmitQuestion. by repeat case_match. Qed.

Lemma empty_form_ok : form_ok empty_form.
Proof. split; set_solver. Qed.

#[local] Hint Resolve empty_form_ok : core.

Lemma step_form_ok s e s' :
  form_ok (formData (form s)) -> step s e = Some s' -> form_ok (formData (form s')).
Proof.
  intros Hok Hs. destruct e; lazy beta iota zeta delta [step] in Hs.
  all: repeat (case_match; try discriminate); injection Hs as <-; cbn -[with_field image_settled runBulkUpload handleSubmitQuestion].
  all: rewrite ?runBulkUpload_form, ?handleSubmitQuestion_form; try done.
  all: repeat match goal with H : _ && _ = true |- _ => apply andb_prop in H as [? ?] end.
  all: try (match goal with H : bool_decide (_ ∈ text_fields) = true |- _ =>
              apply bool_decide_eq_true_1 in H; by apply text_field_ok end).
  all: try (apply with_field_ok; [done|done|done]).
  all: try (match goal with H : bool_decide (?v ∈ _) = true |- form_ok (with_field _ ?v _) =>
              apply bool_decide_eq_true_1 in H; destruct Hok; split; cbn; [|set_solver]; set_solver end).
  all: try (match goal with H : bool_decide (?v ∈ _) = true |- form_ok (with_field _ ?v _) =>
              apply bool_decide_eq_true_1 in H; destruct Hok; split; cbn; [set_solver|] end; set_solver).
  all: try (unfold handleReset; case_match; cbn; done).
  all: try (match goal with |- form_ok (formData (form (image_settled ?a ?t))) =>
              destruct (image_settled_form a t) as [->|[p ->]]; [done|by apply with_field_ok] end).
Qed.

Lemma run_form_ok s es s' :
  form_ok (formData (form s)) -> run s es = Some s' -> form_ok (formData (form s')).
Proof. apply (run_steps_inv step (λ s, form_ok (formData (form s)))), step_form_ok. Qed.

Lemma missingFields_nil_correct f : missingFields f = [] -> f_correctOption f <> "".
Proof.
  intros H Hc. unfold missingFields in H. rewrite Hc, (bool_decide_eq_true_2 ("" = "")) in H by done.
  repeat (apply app_eq_nil in H as [_ H]). discriminate.
Qed.

(** C27: on a page reached by any sequence of events, submitting the
    single-question form either lists the missing fields in a toast and
    sends nothing, or posts the form with [topicId] parsed as an integer;
    the "Invalid correct option" toast is never shown. *)
Theorem submit_reachable_cases es s s' :
  run initial es = Some s -> step s SubmitQuestion = Some s' ->
  let f := formData (form s) in
  (missingFields f <> [] /\ sent s' = sent s /\
   toasts s' = toasts s ++ [("Missing required fields",
                             "Please fill in the following fields: " +:+ join ", " (missingFields f))]) \/
  (missingFields f = [] /\ sent s' = sent s ++ [PostQuestion f (parseInt (f_topicId f))] /\ addPending s' = true).
Proof.
  intros Hr Hs f. pose proof (run_form_ok initial _ _ empty_form_ok Hr) as [Hc _].
  lazy beta iota zeta delta [step] in Hs.
  destruct (on_single s && negb (addPending s)); [injection Hs as <-|discriminate].
  unfold handleSubmitQuestion. fold f.
  destruct (missingFields f) as [|m ms] eqn:Hm.
  - rewrite bool_decide_eq_false_2 by (simpl; lia).
    apply missingFields_nil_correct in Hm as Hne.
    rewrite bool_decide_eq_true_2 by (fold f in Hc; set_solver). right. done.
  - rewrite bool_decide_eq_true_2 by (simpl; lia). left. done.
Qed.

(** Picking a question file and processing it once the reader has loaded
    it composes the page with the parser. *)
Lemma choose_read_process s f :
  tab s = "bulk" -> bulkMode (bulk s) = "file" -> bulkPending s = false -> tasks s = [] ->
  run s [ChooseQuestionFile f; Settle 0 ARead; ProcessFile] =
    Some (runBulkUpload (mkState (tab s) (form s) (mkBulkState "file" (file_text f) (Some f)) (dialog s)
            (topics s) (addPending s) (bulkPending s) (toasts s) (sent s) [])).
Proof.
  destruct s as [tb fm [bm bt qf] d tp ap bp ts sn tk]; cbn; intros -> -> -> ->. done.
Qed.

(** C2: on the file tab, choosing a question file, letting the reader load
    it and clicking "Process File" posts exactly the questions the bulk
    parser accepts from the file's text, marks the upload pending and
    leaves the text in the bulk text box. *)
Theorem process_file_sends s f qs :
  tab s = "bulk" -> bulkMode (bulk s) = "file" -> bulkPending s = false -> tasks s = [] ->
  handleBulkUpload (file_text f) = Upload qs ->
  ∃ s', run s [ChooseQuestionFile f; Settle 0 ARead; ProcessFile] = Some s' /\
        sent s' = sent s ++ [PostBulk qs] /\ bulkPending s' = true /\ bulkText (bulk s') = file_text f.
Proof.
  intros Ht Hm Hp Hk Hu. eexists. rewrite choose_read_process by done.
  split; [done|]. unfold runBulkUpload. cbn [bulkText bulk]. by rewrite Hu.
Qed.

(** ** Concrete pages *)

Definition valves : Topic := mkTopic 3 "Valves" None (Some 12%Z).

(** A single-question form filled in through its controls. *)
Definition filled_events : list Event :=
  [TopicsLoaded (QData [valves]); ChangeField "text" "2+2?"; SelectTopic "3";
   ChangeField "optionA" "3"; ChangeField "optionB" "4"; ChangeField "optionC" "5";
   ChangeField "optionD" "6"; SelectCorrect "B"].

Definition filled_page : State := default initial (run initial filled_events).
Definition submitted_page : State := default initial (step filled_page SubmitQuestion).

Definition bulk_page : State := default initial (step initial (SetTab "bulk")).

Definition spec_file : File := mkFile 1 "questions.txt" 180 spec_text.

Lemma submit_reachable_cases_witness :
  sent submitted_page = [PostQuestion (formData (form filled_page)) (Some 3%Z)].
Proof.
  destruct (submit_reachable_cases filled_events filled_page submitted_page
              ltac:(vm_compute; reflexivity) ltac:(vm_compute; reflexivity)) as [[Hm _]|[_ [Hs _]]].
  - vm_compute in Hm. congruence.
  - rewrite Hs. vm_compute. reflexivity.
Defined.

Lemma process_file_sends_witness :
  ∃ s', run bulk_page [ChooseQuestionFile spec_file; Settle 0 ARead; ProcessFile] = Some s' /\
        sent s' = [PostBulk [parse_block spec_text]] /\ bulkPending s' = true /\ bulkText (bulk s') = spec_text.
Proof.
  apply (process_file_sends bulk_page spec_file [parse_block spec_text]); vm_compute; reflexivity.
Defined.

(** ** Races between the page and its continuations *)

(** Submitting while the image is still uploading posts the question
    without its image; the upload then lands in the form that the add's
    success has reset, showing an image that belongs to no question. *)
Lemma submit_during_image_upload :
  let p := "/uploads/a.png" in
  match run filled_page [ChooseImage 1; SubmitQuestion; AddSettled None; Settle 0 (AImage (ImageBody (Some p)))] with
  | Some s => sent s = [PostImage 1; PostQuestion (formData (form filled_page)) (Some 3%Z)] /\
              f_imagePath (formData (form filled_page)) = "" /\
              form s = mkFormState (with_field "imagePath" p empty_form) None false
  | None => False
  end.
Proof. vm_compute. repeat split. Qed.

(** Two images picked in a row: when the answers arrive in the opposite
    order, the form keeps the path of the first image while [imageFile]
    names the second. *)
Lemma image_answers_out_of_order :
  match run filled_page [ChooseImage 1; ChooseImage 2; Settle 1 (AImage (ImageBody (Some "/b.png")));
                         Settle 0 (AImage (ImageBody (Some "/a.png")))] with
  | Some s => f_imagePath (formData (form s)) = "/a.png" /\ imageFile (form s) = Some 2%nat
  | None => False
  end.
Proof. vm_compute. split; reflexivity. Qed.

(** "Process File" is enabled as soon as a file is picked; clicked before
    the reader has loaded it, the handler reads the text box: it reports
    that no content was provided, or uploads the text pasted earlier on
    the other tab instead of the file. *)
Lemma process_file_before_read :
  (match run bulk_page [ChooseQuestionFile spec_file; ProcessFile] with
   | Some s => sent s = [] /\ toasts s = [("No content provided", "Please enter questions in the specified format.")]
   | None => False
   end) /\
  (match run bulk_page [SetBulkMode "paste"; SetBulkText plain_text; SetBulkMode "file";
                        ChooseQuestionFile spec_file; ProcessFile] with
   | Some s => sent s = [PostBulk (parseBulkQuestions plain_text)] /\ length (parseBulkQuestions plain_text) = 2%nat
   | None => False
   end).
Proof. vm_compute. repeat split. Qed.

(** ** The buttons the page renders are the events [step] accepts *)

Lemma bulk_buttons_step s :
  (on_bulk "file" s = true -> (bv_processDisabled (bulk_view s) = false <-> is_Some (step s ProcessFile))) /\
  (on_bulk "paste" s = true -> (bv_uploadDisabled (bulk_view s) = false <-> is_Some (step s UploadPasted))).
Proof.
  split; intros Hb; cbn -[trim]; rewrite Hb; cbn;
    destruct (bulkPending s), (present (questionFile (bulk s))), (bool_decide (trim (bulkText (bulk s)) = ""));
    cbn; split; intros H; first [done | by eexists | by destruct H as [? ?]].
Qed.

Lemma submit_button_step s :
  on_single s = true -> (fv_submitDisabled (form_view s) = false <-> is_Some (step s SubmitQuestion)).
Proof.
  intros Hs. cbn. rewrite Hs. destruct (addPending s); cbn; split; intros H;
    first [done | by eexists | by destruct H as [? ?]].
Qed.

(** ** The page's own format guide is accepted *)

(** The superscript two of the guide, in UTF-8. *)
Definition sup2 : string := String (ascii_of_nat 194) (String (ascii_of_nat 178) EmptyString).

(** Lines 443-452: the example of the "Question Format Guide", one line per
    [<br/>]. *)
Definition guide_text : string :=
  lines ["QUESTION: What is the derivative of f(x) = x" +:+ sup2 +:+ " with respect to x?";
         "TOPIC: Mathematics"; "SUBTOPIC: Calculus"; "DIFFICULTY: medium";
         "OPTION A: 2x"; "OPTION B: x" +:+ sup2; "OPTION C: 2"; "OPTION D: x"; "CORRECT: A";
         "EXPLANATION: The derivative of x" +:+ sup2 +:+ " is 2x using the power rule d/dx(x^n) = nx^(n-1)."].

(** Pasted into the bulk tab, the guide's example uploads one question with
    every field the guide shows. *)
Lemma guide_example_uploads :
  ∃ q, handleBulkUpload guide_text = Upload [q] /\
    q !! "topic" = Some "Mathematics" /\ q !! "subtopic" = Some "Calculus" /\
    q !! "difficulty" = Some "medium" /\ q !! "optionB" = Some ("x" +:+ sup2) /\
    q !! "correctOption" = Some "A" /\ is_complete q = true.
Proof. eexists. split; [vm_compute; reflexivity|]. vm_compute. repeat split. Qed.

End UploadQuestions.
