(* ===== verification/SoundWave.v ===== *)
(** * SoundWave: the Sound Wave Fundamentals import page

    Models src/client/src/pages/admin/import-sound-wave.tsx
    ([ImportSoundWave]): the import button, the request it posts, the
    [try]/[catch]/[finally] of [handleImport] split at its [await], the
    [useLoadingProgress] hook of [Widgets] driving the progress shown while
    importing, and the three cards the page renders.  App.tsx declares no
    route for the page; it is modelled as written. *)

From Stdlib Require Import ZArith QArith Qminmax Lia Lqa.
From stdpp Require Import base list strings.
From S2P Require Import Prelude Widgets.

Module ImportSoundWave.
Import LoadingProgress.
Local Open Scope Q_scope.

(** Lines 14-18 *)
Record ImportTopic := mkImportTopic { it_id : Z; it_name : string; it_description : string }.
Record ImportResults := mkImportResults { ir_message : string; ir_count : Z; ir_topic : ImportTopic }.

(** Lines 20-24 *)
Definition importOptions : Options := mkOptions 5 (incrementRate defaults) 90 80.

(** How [apiRequest] settles: a parsed body, an [Error], or a thrown value
    that is not an [Error]. *)
Inductive Answer := AOk (data : ImportResults) | AError (message : string) | AThrown.

Record State := mkState {
  isImporting : bool;
  importResults : option ImportResults;
  hook : Hook;
  inFlight : nat;
  toasts : list (string * string);
  sent : nat
}.

(** After mount: [useState(initialProgress)], then the hook's effect runs
    with [isImporting = false] and sets the progress to 100. *)
Definition initial : State :=
  mkState false None (on_loading false importOptions (hook_initial importOptions)) 0 [] 0.

(** [setIsImporting(b)] re-runs the hook's effect when the value changes. *)
Definition setIsImporting (b : bool) (s : State) : State :=
  mkState b (importResults s)
    (if Bool.eqb b (isImporting s) then hook s else on_loading b importOptions (hook s))
    (inFlight s) (toasts s) (sent s).

Definition toast (t : string * string) (s : State) : State :=
  mkState (isImporting s) (importResults s) (hook s) (inFlight s) (toasts s ++ [t]) (sent s).

(** Lines 26-30: up to the [await]. *)
Definition handleImport (s : State) : State :=
  let s1 := setIsImporting true s in
  mkState (isImporting s1) (importResults s1) (hook s1) (S (inFlight s1)) (toasts s1) (S (sent s1)).

(** Lines 31-48: the continuation, with its [catch] and [finally]. *)
Definition import_settled (a : Answer) (s : State) : State :=
  let s1 := mkState (isImporting s) (importResults s) (hook s) (pred (inFlight s)) (toasts s) (sent s) in
  let s2 := match a with
    | AOk data =>
        toast ("Import Successful", "Successfully imported " +:+ string_of_Z (ir_count data) +:+
                                    " Sound Wave Fundamentals questions")
          (mkState (isImporting s1) (Some data) (hook s1) (inFlight s1) (toasts s1) (sent s1))
    | AError m => toast ("Import Failed", m) s1
    | AThrown => toast ("Import Failed", "An unknown error occurred") s1
    end in
  setIsImporting false s2.

(** Lines 61-154: the card shown. *)
Inductive View :=
  | Importing (progress : Q)
  | Complete (message topicName : string) (count topicId : Z) (description : string)
  | Intro.

Definition view (s : State) : View :=
  if isImporting s then Importing (progress (hook s))
  else match importResults s with
       | Some r => Complete (ir_message r) (it_name (ir_topic r)) (ir_count r) (it_id (ir_topic r))
                     (it_description (ir_topic r))
       | None => Intro
       end.

Definition is_intro (v : View) : bool := match v with Intro => true | _ => false end.

Inductive Event := ClickImport | ImportAgain | Settle (a : Answer) | Tick.

Definition step (s : State) (e : Event) : option State :=
  match e with
  | ClickImport => if is_intro (view s) then Some (handleImport s) else None   (* line 148 *)
  | ImportAgain =>                                                                         (* line 112 *)
      match view s with
      | Complete _ _ _ _ _ =>
          Some (mkState (isImporting s) None (hook s) (inFlight s) (toasts s) (sent s))
      | _ => None
      end
  | Settle a => if bool_decide (0 < inFlight s)%nat then Some (import_settled a s) else None
  | Tick => if interval (hook s) then
              Some (mkState (isImporting s) (importResults s) (tick importOptions (hook s)) (inFlight s)
                      (toasts s) (sent s))
            else None
  end.

Definition run : State -> list Event -> option State := run_steps step.

(** ** The page's invariant

    A request is in flight exactly while the loading card is shown, there
    is at most one, and the progress the card shows lies between the
    hook's initial and maximum values. *)

Definition inv (s : State) : Prop :=
  (isImporting s = true -> inFlight s = 1%nat /\ 5 <= progress (hook s) <= 90) /\
  (isImporting s = false -> inFlight s = 0%nat /\ interval (hook s) = false).

Lemma tick_within h :
  5 <= progress h <= 90 -> 5 <= progress (tick importOptions h) <= 90.
Proof.
  intros Hp. unfold tick. destruct (interval h); [|done].
  pose proof (increment_ge importOptions (progress h)) as Hinc.
  set (np := progress h + Qmax (1 # 2) (incrementRate importOptions * (1 - progress h / 100))).
  destruct (Qle_bool (maxProgress importOptions) np) eqn:E; cbn [progress maxProgress importOptions]; [lra|].
  assert (~ (maxProgress importOptions <= np)) by (intros Hle; apply Qle_bool_iff in Hle; congruence).
  cbn [maxProgress importOptions] in *. unfold np in *. lra.
Qed.

Lemma tick_stops_off h : interval h = false -> interval (tick importOptions h) = false.
Proof. intros H. unfold tick. by rewrite H. Qed.

Lemma initial_inv : inv initial.
Proof. split; [discriminate|done]. Qed.

Lemma step_inv s e s' : inv s -> step s e = Some s' -> inv s'.
Proof.
  intros [Hon Hoff] Hs. destruct e; cbn in Hs.
  - destruct (is_intro (view s)) eqn:Hv; [injection Hs as <-|discriminate].
    unfold view in Hv. destruct (isImporting s) eqn:Hi; [discriminate|].
    destruct (Hoff eq_refl) as [Hn _]. unfold handleImport, setIsImporting. rewrite Hi, Hn.
    split; [|discriminate]. intros _. cbn. split; [done|]. lra.
  - destruct (view s); try discriminate. injection Hs as <-. split; [exact Hon|exact Hoff].
  - case_bool_decide as Hf; [injection Hs as <-|discriminate].
    destruct (isImporting s) eqn:Hi; [|destruct (Hoff eq_refl) as [Hn _]; lia].
    destruct (Hon eq_refl) as [Hn _]. unfold import_settled.
    destruct a; cbn; rewrite ?Hi, Hn; cbn; split; first [discriminate|done].
  - destruct (interval (hook s)) eqn:Ei; [injection Hs as <-|discriminate].
    split; cbn.
    + intros Ht. destruct (Hon Ht) as [Hn Hp]. split; [done|]. by apply tick_within.
    + intros Ht. destruct (Hoff Ht) as [Hn Hi]. congruence.
Qed.

Lemma run_inv s es s' : inv s -> run s es = Some s' -> inv s'.
Proof. apply run_steps_inv, step_inv. Qed.

(** While importing, the answer can always arrive, and whatever it is the
    [finally] hides the loading card and completes the progress. *)
Lemma import_settles s a :
  inv s -> isImporting s = true ->
  ∃ s', step s (Settle a) = Some s' /\ isImporting s' = false /\ hook s' = mkHook 100 false /\ inFlight s' = 0%nat.
Proof.
  intros [Hon _] Hi. destruct (Hon Hi) as [Hn _]. eexists. split.
  { cbn. rewrite bool_decide_eq_true_2 by lia. reflexivity. }
  unfold import_settled, setIsImporting. destruct a; cbn; rewrite Hi, Hn; done.
Qed.

Definition sample_results : ImportResults :=
  mkImportResults "Imported" 12%Z (mkImportTopic 4%Z "Sound Wave Fundamentals" "Waves").

(** An import that succeeds after two firings of the interval. *)
Lemma import_scenario :
  match run initial [ClickImport; Tick; Tick; Settle (AOk sample_results)] with
  | Some s => view s = Complete "Imported" "Sound Wave Fundamentals" 12%Z 4%Z "Waves" /\ sent s = 1%nat /\
              toasts s = [("Import Successful", "Successfully imported 12 Sound Wave Fundamentals questions")%string]
  | None => False
  end.
Proof. vm_compute. repeat split. Qed.

End ImportSoundWave.
